(** * The kotekan frame-buffer fabric (lib/core/buffer.c)

    A shallow embedding of the multi-producer / multi-consumer frame buffer
    of kotekan, and the properties of its handshake protocol.

    Conventions of the embedding.
    - A C [int] is a [Z]; the flags of the buffer only ever hold 0 or 1 but
      are compared the way the code compares them ([== 1], [== 0]).
    - A pointer is a [Z] address, [NULL] is 0.  [struct Buffer] objects,
      metadata containers and frame storage live in explicit stores keyed
      by address.
    - The body of every function runs under the buffer's mutex, so a call is
      one atomic transition of the store.  A call that would sleep on a
      condition variable is [Blocked]: the thread re-evaluates the very same
      predicate when it is woken, that is, the call is retried on the later
      state.
    - A failed [assert] is [Abort]; an array access outside the allocated
      range is [Undefined].
    - [private_zero_frames], the body of the detached zeroing thread, runs
      in three steps that other calls may come between: its [nt_memset] and
      its [memset], both outside the mutex, and its critical section.
    - The answers of the system to an allocation or to a timed wait are
      arguments of the function that asks for them. *)

From stdpp Require Import base option list gmap strings.
From Stdlib Require Import ZArith Lia Bool Ascii.

Local Open Scope Z_scope.

(** ** Outcome of a call *)

Inductive result (A : Type) : Type :=
| Ret (a : A)
| Blocked
| Abort
| Undefined.

Arguments Ret {A} a.
Arguments Blocked {A}.
Arguments Abort {A}.
Arguments Undefined {A}.

Definition result_bind {A B : Type} (f : A -> result B) (m : result A) : result B :=
  match m with
  | Ret a => f a
  | Blocked => Blocked
  | Abort => Abort
  | Undefined => Undefined
  end.

#[export] Instance result_mret : MRet result := fun A a => Ret a.
#[export] Instance result_mbind : MBind result := fun A B f m => result_bind f m.

(** [c_assert c ;; k] is the C statement [assert(c);] followed by [k]. *)
Notation "'c_assert' c ;; k" := (if c then k else Abort)
  (at level 10, c at level 99, k at level 200, only parsing).

(** Modelled from the spec: errors.h is not part of the source tree.
    Section 7 of the specification has a fatal error abort the process with
    a diagnostic; [CHECK_MEM_F] is that fatal error on a null pointer.
    [ERROR_F], [WARN_F] and [DEBUG_F] only log, and [CHECK_ERROR_F] guards
    pthread calls that are taken to succeed. *)
Abbreviation FATAL_ERROR_F := Abort (only parsing).

(** ** C arrays *)

Definition arr_get {A : Type} `{Inhabited A} (l : list A) (i : Z) : A :=
  l !!! Z.to_nat i.

Definition arr_set {A : Type} (l : list A) (i : Z) (x : A) : list A :=
  <[Z.to_nat i := x]> l.

Definition in_range {A : Type} (l : list A) (i : Z) : bool :=
  (0 <=? i) && (i <? Z.of_nat (length l)).

(** ** C strings: [strncmp], [strncpy], [snprintf] on NUL-free names *)

Definition strncmp_zero (a b : string) (n : nat) : bool :=
  String.eqb (String.substring 0 n a) (String.substring 0 n b).

Definition strncpy (src : string) (n : nat) : string := String.substring 0 n src.

Definition snprintf (n : nat) (src : string) : string :=
  String.substring 0 (Nat.pred n) src.

(** ** Data model *)

Definition NULL : Z := 0.

(** [CHECK_MEM_F(p);] followed by [k]. *)
Notation "'CHECK_MEM_F' p ;; k" := (if Z.eqb p NULL then FATAL_ERROR_F else k)
  (at level 10, p at level 99, k at level 200, only parsing).

(** <errno.h> on Linux. *)
Definition ETIMEDOUT : Z := 110.

Definition EINVAL : Z := 22.

(** Where a detached zeroing thread stands in [private_zero_frames]: before
    its [nt_memset], before its [memset], or before its critical
    section. *)
Inductive zero_stage : Type := at_nt_memset | at_memset | at_lock.

#[export] Instance zero_stage_eq_dec : EqDecision zero_stage.
Proof. solve_decision. Defined.

(** One row of the producer or consumer table ([struct StageInfo]). *)
Record StageInfo : Type := mkStageInfo {
  in_use : Z;
  name : string;
  last_frame_acquired : Z;
  last_frame_released : Z
}.

#[export] Instance StageInfo_inhabited : Inhabited StageInfo :=
  populate (mkStageInfo 0 "" 0 0).

(** [struct Buffer].  The mutex and the two condition variables have no
    field: the lock is the atomicity of a call, the broadcasts are returned
    by the calls.  [zero_pool] is ghost state: the detached
    [private_zero_frames] threads that have been created and have not yet
    exited, each with the slot it was created for ([zero_args->ID]) and the
    stage it has reached. *)
Record Buffer : Type := mkBuffer {
  num_frames : Z;
  frame_size : Z;
  aligned_frame_size : Z;
  is_full : list Z;
  frames : list Z;
  metadata : list Z;
  producers : list StageInfo;
  consumers : list StageInfo;
  producers_done : list (list Z);
  consumers_done : list (list Z);
  shutdown_signal : Z;
  zero_frames : Z;
  last_arrival_time : Z;
  metadata_pool : Z;
  buffer_name : string;
  buffer_type : string;
  zero_pool : list (Z * zero_stage)
}.

Definition set_is_full (b : Buffer) (v : list Z) : Buffer :=
  mkBuffer (num_frames b) (frame_size b) (aligned_frame_size b) v (frames b)
    (metadata b) (producers b) (consumers b) (producers_done b) (consumers_done b)
    (shutdown_signal b) (zero_frames b) (last_arrival_time b) (metadata_pool b)
    (buffer_name b) (buffer_type b) (zero_pool b).

Definition set_frames (b : Buffer) (v : list Z) : Buffer :=
  mkBuffer (num_frames b) (frame_size b) (aligned_frame_size b) (is_full b) v
    (metadata b) (producers b) (consumers b) (producers_done b) (consumers_done b)
    (shutdown_signal b) (zero_frames b) (last_arrival_time b) (metadata_pool b)
    (buffer_name b) (buffer_type b) (zero_pool b).

Definition set_metadata (b : Buffer) (v : list Z) : Buffer :=
  mkBuffer (num_frames b) (frame_size b) (aligned_frame_size b) (is_full b) (frames b)
    v (producers b) (consumers b) (producers_done b) (consumers_done b)
    (shutdown_signal b) (zero_frames b) (last_arrival_time b) (metadata_pool b)
    (buffer_name b) (buffer_type b) (zero_pool b).

Definition set_producers (b : Buffer) (v : list StageInfo) : Buffer :=
  mkBuffer (num_frames b) (frame_size b) (aligned_frame_size b) (is_full b) (frames b)
    (metadata b) v (consumers b) (producers_done b) (consumers_done b)
    (shutdown_signal b) (zero_frames b) (last_arrival_time b) (metadata_pool b)
    (buffer_name b) (buffer_type b) (zero_pool b).

Definition set_consumers (b : Buffer) (v : list StageInfo) : Buffer :=
  mkBuffer (num_frames b) (frame_size b) (aligned_frame_size b) (is_full b) (frames b)
    (metadata b) (producers b) v (producers_done b) (consumers_done b)
    (shutdown_signal b) (zero_frames b) (last_arrival_time b) (metadata_pool b)
    (buffer_name b) (buffer_type b) (zero_pool b).

Definition set_producers_done (b : Buffer) (v : list (list Z)) : Buffer :=
  mkBuffer (num_frames b) (frame_size b) (aligned_frame_size b) (is_full b) (frames b)
    (metadata b) (producers b) (consumers b) v (consumers_done b)
    (shutdown_signal b) (zero_frames b) (last_arrival_time b) (metadata_pool b)
    (buffer_name b) (buffer_type b) (zero_pool b).

Definition set_consumers_done (b : Buffer) (v : list (list Z)) : Buffer :=
  mkBuffer (num_frames b) (frame_size b) (aligned_frame_size b) (is_full b) (frames b)
    (metadata b) (producers b) (consumers b) (producers_done b) v
    (shutdown_signal b) (zero_frames b) (last_arrival_time b) (metadata_pool b)
    (buffer_name b) (buffer_type b) (zero_pool b).

Definition set_shutdown_signal (b : Buffer) (v : Z) : Buffer :=
  mkBuffer (num_frames b) (frame_size b) (aligned_frame_size b) (is_full b) (frames b)
    (metadata b) (producers b) (consumers b) (producers_done b) (consumers_done b)
    v (zero_frames b) (last_arrival_time b) (metadata_pool b)
    (buffer_name b) (buffer_type b) (zero_pool b).

Definition set_zero_frames (b : Buffer) (v : Z) : Buffer :=
  mkBuffer (num_frames b) (frame_size b) (aligned_frame_size b) (is_full b) (frames b)
    (metadata b) (producers b) (consumers b) (producers_done b) (consumers_done b)
    (shutdown_signal b) v (last_arrival_time b) (metadata_pool b)
    (buffer_name b) (buffer_type b) (zero_pool b).

Definition set_last_arrival_time (b : Buffer) (v : Z) : Buffer :=
  mkBuffer (num_frames b) (frame_size b) (aligned_frame_size b) (is_full b) (frames b)
    (metadata b) (producers b) (consumers b) (producers_done b) (consumers_done b)
    (shutdown_signal b) (zero_frames b) v (metadata_pool b)
    (buffer_name b) (buffer_type b) (zero_pool b).

Definition set_zero_pool (b : Buffer) (v : list (Z * zero_stage)) : Buffer :=
  mkBuffer (num_frames b) (frame_size b) (aligned_frame_size b) (is_full b) (frames b)
    (metadata b) (producers b) (consumers b) (producers_done b) (consumers_done b)
    (shutdown_signal b) (zero_frames b) (last_arrival_time b) (metadata_pool b)
    (buffer_name b) (buffer_type b) v.

(** The slots of the zeroing threads that have not yet exited. *)
Definition zero_threads (b : Buffer) : list Z := (zero_pool b).*1.

(** Setters of one row of a role table. *)
Definition stage_set_in_use (s : StageInfo) (v : Z) : StageInfo :=
  mkStageInfo v (name s) (last_frame_acquired s) (last_frame_released s).

Definition stage_set_name (s : StageInfo) (v : string) : StageInfo :=
  mkStageInfo (in_use s) v (last_frame_acquired s) (last_frame_released s).

Definition stage_set_acquired (s : StageInfo) (v : Z) : StageInfo :=
  mkStageInfo (in_use s) (name s) v (last_frame_released s).

Definition stage_set_released (s : StageInfo) (v : Z) : StageInfo :=
  mkStageInfo (in_use s) (name s) (last_frame_acquired s) v.

(** The two condition variables of a buffer; a call returns the list of the
    ones it broadcasts after unlocking. *)
Inductive cond : Type := full_cond | empty_cond.

#[export] Instance cond_eq_dec : EqDecision cond.
Proof. solve_decision. Defined.

(** *** Metadata containers *)

(** Modelled from the spec: metadata.h and metadata.c are not part of the
    source tree.  Section 3 and 4.2 of the specification: a container is a
    fixed-size opaque record with a reference count (>= 0); [request] draws a
    free container and sets its count to 1, or returns null when the pool is
    exhausted; [increment] and [decrement] adjust the count; when the count
    reaches zero the container is back on the free list, which is modelled
    as: a container of the pool is free exactly when its count is 0. *)
Record metadataContainer : Type := mkContainer {
  ref_count : Z;
  metadata_size : Z;
  metadata_bytes : list Z
}.

(** The memory outside the [struct Buffer] objects: metadata containers by
    address, the containers of each pool by pool address, and frame storage
    (a byte array) by base address. *)
Record Heap : Type := mkHeap {
  containers : gmap Z metadataContainer;
  pools : gmap Z (list Z);
  mem : gmap Z (list Z)
}.

Definition set_containers (h : Heap) (v : gmap Z metadataContainer) : Heap :=
  mkHeap v (pools h) (mem h).

Definition set_mem (h : Heap) (v : gmap Z (list Z)) : Heap :=
  mkHeap (containers h) (pools h) v.

Definition container_set_ref_count (c : metadataContainer) (v : Z) : metadataContainer :=
  mkContainer v (metadata_size c) (metadata_bytes c).

Definition container_set_bytes (c : metadataContainer) (v : list Z) : metadataContainer :=
  mkContainer (ref_count c) (metadata_size c) v.

(** Modelled from the spec: [increment_metadata_ref_count] of metadata.c
    (absent), "adjust the count under the pool's lock". *)
Definition increment_metadata_ref_count (h : Heap) (c : Z) : Heap :=
  set_containers h (alter (fun m => container_set_ref_count m (ref_count m + 1)) c (containers h)).

(** Modelled from the spec: [decrement_metadata_ref_count] of metadata.c
    (absent); a count that reaches zero puts the container back on the free
    list. *)
Definition decrement_metadata_ref_count (h : Heap) (c : Z) : Heap :=
  set_containers h (alter (fun m => container_set_ref_count m (ref_count m - 1)) c (containers h)).

Definition ref_count_of (h : Heap) (c : Z) : Z :=
  match containers h !! c with
  | Some m => ref_count m
  | None => 0
  end.

(** Modelled from the spec: [request_metadata_object] of metadata.c (absent):
    the first free container of the pool with its count set to 1, or [NULL]
    when the pool is exhausted. *)
Definition request_metadata_object (h : Heap) (pool : Z) : Heap * Z :=
  match pools h !! pool with
  | None => (h, NULL)
  | Some cs =>
      match List.find (fun c => ref_count_of h c =? 0) cs with
      | Some c =>
          (set_containers h
             (alter (fun m => container_set_ref_count m 1) c (containers h)), c)
      | None => (h, NULL)
      end
  end.

(** *** The system allocator *)

(** What the system answers to one call of [buffer_malloc]: the pointer
    that [hsa_host_malloc], [numa_alloc_onnode] or [posix_memalign] leaves
    in [frame], the value [posix_memalign] returns and the value [mlock]
    returns. *)
Record frame_answer : Type := mkFrameAnswer {
  frame_pointer : Z;
  posix_memalign_err : Z;
  mlock_err : Z
}.

(** What the system answers to the allocations of one call of
    [create_buffer]: [malloc_answer k] is the pointer the k-th call of
    [malloc] returns, counted from 0 after the one for the [struct Buffer]
    (0 for [is_full], 1 for [frames], 2 for [metadata], 3 for
    [producers_done], 4 for [consumers_done], then [5 + 2 * i] for
    [producers_done[i]] and [6 + 2 * i] for [consumers_done[i]]), and
    [frame_answers i] answers the call of [buffer_malloc] for slot [i]. *)
Record allocator : Type := mkAllocator {
  malloc_answer : nat -> Z;
  frame_answers : nat -> frame_answer
}.

(** ** The operations of buffer.c *)

Section BufferOps.

(** buffer.h is not part of the source tree: the capacities of the two role
    tables and the bound on stage names are parameters. *)
Variable MAX_PRODUCERS : nat.
Variable MAX_CONSUMERS : nat.
Variable MAX_STAGE_NAME_LEN : nat.

(** The build options that buffer.c tests with [#ifdef]. *)
Variable WITH_HSA : bool.
Variable WITH_NUMA : bool.
Variable WITH_NO_MEMLOCK : bool.

(** [is_full[ID]], [producers_done[ID][i]] and [consumers_done[ID][i]]. *)
Definition full_flag (b : Buffer) (ID : Z) : Z := arr_get (is_full b) ID.

Definition producer_bit (b : Buffer) (ID : Z) (i : nat) : Z :=
  arr_get (producers_done b) ID !!! i.

Definition consumer_bit (b : Buffer) (ID : Z) (i : nat) : Z :=
  arr_get (consumers_done b) ID !!! i.

Definition stage_matches (s : StageInfo) (nm : string) : bool :=
  (in_use s =? 1) && strncmp_zero (name s) nm MAX_STAGE_NAME_LEN.

Definition private_get_consumer_id (b : Buffer) (nm : string) : Z :=
  match List.find (fun i => stage_matches (consumers b !!! i) nm) (seq 0 MAX_CONSUMERS) with
  | Some i => Z.of_nat i
  | None => -1
  end.

Definition private_get_producer_id (b : Buffer) (nm : string) : Z :=
  match List.find (fun i => stage_matches (producers b !!! i) nm) (seq 0 MAX_PRODUCERS) with
  | Some i => Z.of_nat i
  | None => -1
  end.

Definition private_reset_producers (b : Buffer) (ID : Z) : Buffer :=
  set_producers_done b (arr_set (producers_done b) ID (replicate MAX_PRODUCERS 0)).

Definition private_reset_consumers (b : Buffer) (ID : Z) : Buffer :=
  set_consumers_done b (arr_set (consumers_done b) ID (replicate MAX_CONSUMERS 0)).

Definition private_mark_consumer_done (b : Buffer) (nm : string) (ID : Z) : result Buffer :=
  let consumer_id := private_get_consumer_id b nm in
  c_assert negb (consumer_id =? -1) ;;
  c_assert (consumer_bit b ID (Z.to_nat consumer_id) =? 0) ;;
  let b1 := set_consumers b
              (arr_set (consumers b) consumer_id
                 (stage_set_released (arr_get (consumers b) consumer_id) ID)) in
  Ret (set_consumers_done b1
         (arr_set (consumers_done b1) ID
            (arr_set (arr_get (consumers_done b1) ID) consumer_id 1))).

Definition private_mark_producer_done (b : Buffer) (nm : string) (ID : Z) : result Buffer :=
  let producer_id := private_get_producer_id b nm in
  c_assert negb (producer_id =? -1) ;;
  c_assert (producer_bit b ID (Z.to_nat producer_id) =? 0) ;;
  let b1 := set_producers b
              (arr_set (producers b) producer_id
                 (stage_set_released (arr_get (producers b) producer_id) ID)) in
  Ret (set_producers_done b1
         (arr_set (producers_done b1) ID
            (arr_set (arr_get (producers_done b1) ID) producer_id 1))).

Definition private_consumers_done (b : Buffer) (ID : Z) : Z :=
  if existsb (fun i => (in_use (consumers b !!! i) =? 1) && (consumer_bit b ID i =? 0))
       (seq 0 MAX_CONSUMERS)
  then 0 else 1.

Definition private_producers_done (b : Buffer) (ID : Z) : Z :=
  if existsb (fun i => (in_use (producers b !!! i) =? 1) && (producer_bit b ID i =? 0))
       (seq 0 MAX_PRODUCERS)
  then 0 else 1.

(** The release of the metadata bound to a slot, as written at the end of
    [private_mark_frame_empty] and in the drop path of [mark_frame_full]. *)
Definition release_metadata (h : Heap) (b : Buffer) (ID : Z) : Heap * Buffer :=
  if arr_get (metadata b) ID =? NULL then (h, b)
  else (decrement_metadata_ref_count h (arr_get (metadata b) ID),
        set_metadata b (arr_set (metadata b) ID NULL)).

(** Returns the broadcast flag: 1 if the frame was marked as empty, 0 if a
    zeroing thread was created for it. *)
Definition private_mark_frame_empty (h : Heap) (b : Buffer) (id : Z) : Heap * Buffer * Z :=
  let '(b1, broadcast) :=
    if zero_frames b =? 1 then
      (set_zero_pool b (zero_pool b ++ [(id, at_nt_memset)]), 0)
    else
      (private_reset_consumers (set_is_full b (arr_set (is_full b) id 0)) id, 1) in
  let '(h2, b2) := release_metadata h b1 id in
  (h2, b2, broadcast).

Definition mark_frame_full (h : Heap) (b : Buffer) (nm : string) (ID : Z) (now : Z)
  : result (Heap * Buffer * list cond) :=
  c_assert (0 <=? ID) ;;
  c_assert (ID <? num_frames b) ;;
  b1 ← private_mark_producer_done b nm ID;
  if private_producers_done b1 ID =? 1 then
    let b2 := private_reset_producers b1 ID in
    let b3 := set_is_full b2 (arr_set (is_full b2) ID 1) in
    let b4 := set_last_arrival_time b3 now in
    if private_consumers_done b4 ID =? 1 then
      let b5 := set_is_full b4 (arr_set (is_full b4) ID 0) in
      let '(h6, b6) := release_metadata h b5 ID in
      (* set_empty = 1, but the broadcast of empty_cond is commented out *)
      Ret (h6, private_reset_consumers b6 ID, [full_cond])
    else Ret (h, b4, [full_cond])
  else Ret (h, b1, []).

(** [memset(&l[off], v, n)]. *)
Definition memset (l : list Z) (off n : Z) (v : Z) : list Z :=
  take (Z.to_nat off) l ++ replicate (Z.to_nat n) v ++ drop (Z.to_nat (off + n)) l.

(** [int div_256 = 256 * (buf->frame_size / 256)]; the division of C
    truncates. *)
Definition div_256 (b : Buffer) : Z := 256 * Z.quot (frame_size b) 256.

(** The body of the detached zeroing thread, statement by statement.  The
    first step: the two assertions and
    [nt_memset(buf->frames[ID], 0x00, div_256)].  The frame pointer
    is read without the mutex; a negative length, which the conversion to
    [size_t] makes huge, writes outside the frame. *)
Definition private_zero_frames_nt_memset (h : Heap) (b : Buffer) (ID : Z) : result Heap :=
  c_assert (0 <=? ID) ;;
  c_assert (ID <=? num_frames b) ;;
  if negb (in_range (frames b) ID) then Undefined else
  match mem h !! arr_get (frames b) ID with
  | None => Undefined
  | Some bytes =>
      if (div_256 b <? 0) || (Z.of_nat (length bytes) <? div_256 b) then Undefined else
      Ret (set_mem h (<[arr_get (frames b) ID := memset bytes 0 (div_256 b) 0]> (mem h)))
  end.

(** The second step:
    [memset(&buf->frames[ID][div_256], 0x00, buf->frame_size - div_256)];
    the frame pointer is read again. *)
Definition private_zero_frames_memset (h : Heap) (b : Buffer) (ID : Z) : result Heap :=
  if negb (in_range (frames b) ID) then Undefined else
  match mem h !! arr_get (frames b) ID with
  | None => Undefined
  | Some bytes =>
      if (div_256 b <? 0) || (frame_size b - div_256 b <? 0)
         || (Z.of_nat (length bytes) <? frame_size b)
      then Undefined else
      Ret (set_mem h (<[arr_get (frames b) ID :=
                          memset bytes (div_256 b) (frame_size b - div_256 b) 0]> (mem h)))
  end.

(** The third step: the critical section, and the broadcast that follows
    it. *)
Definition private_zero_frames_locked (b : Buffer) (ID : Z)
  : result (Buffer * list cond) :=
  if negb (in_range (is_full b) ID && in_range (consumers_done b) ID) then Undefined else
  let b1 := set_is_full b (arr_set (is_full b) ID 0) in
  Ret (private_reset_consumers b1 ID, [empty_cond]).

(** The whole body, when nothing comes between its steps. *)
Definition private_zero_frames (h : Heap) (b : Buffer) (ID : Z)
  : result (Heap * Buffer * list cond) :=
  h1 ← private_zero_frames_nt_memset h b ID;
  h2 ← private_zero_frames_memset h1 b ID;
  r ← private_zero_frames_locked b ID;
  Ret (h2, r.1, r.2).

Definition zero_frames_on (b : Buffer) : Buffer := set_zero_frames b 1.

Definition mark_frame_empty (h : Heap) (b : Buffer) (consumer_name : string) (ID : Z)
  : result (Heap * Buffer * list cond) :=
  c_assert (0 <=? ID) ;;
  c_assert (ID <? num_frames b) ;;
  b1 ← private_mark_consumer_done b consumer_name ID;
  if private_consumers_done b1 ID =? 1 then
    let '(h2, b2, broadcast) := private_mark_frame_empty h b1 ID in
    Ret (h2, b2, if broadcast =? 1 then [empty_cond] else [])
  else Ret (h, b1, []).

(** Returns the frame pointer, or [NULL] under shutdown; [Blocked] is the
    sleep on [empty_cond]. *)
Definition wait_for_empty_frame (b : Buffer) (producer_name : string) (ID : Z)
  : result (Buffer * Z) :=
  c_assert (0 <=? ID) ;;
  c_assert (ID <? num_frames b) ;;
  let producer_id := private_get_producer_id b producer_name in
  c_assert negb (producer_id =? -1) ;;
  if ((full_flag b ID =? 1) || (producer_bit b ID (Z.to_nat producer_id) =? 1))
     && (shutdown_signal b =? 0)
  then Blocked
  else if shutdown_signal b =? 1 then Ret (b, NULL)
  else Ret (set_producers b
              (arr_set (producers b) producer_id
                 (stage_set_acquired (arr_get (producers b) producer_id) ID)),
            arr_get (frames b) ID).

(** The first free row of a role table, as the [for] loop of the two
    [register_*] functions finds it. *)
Definition first_free (tbl : list StageInfo) (n : nat) : option nat :=
  List.find (fun i => in_use (tbl !!! i) =? 0) (seq 0 n).

Definition fresh_stage (nm : string) : StageInfo :=
  mkStageInfo 1 (strncpy nm MAX_STAGE_NAME_LEN) (-1) (-1).

Definition register_consumer (b : Buffer) (nm : string) : result Buffer :=
  if negb (private_get_consumer_id b nm =? -1) then Abort
  else match first_free (consumers b) MAX_CONSUMERS with
       | Some i => Ret (set_consumers b (<[i := fresh_stage nm]> (consumers b)))
       | None => Abort
       end.

Definition register_producer (b : Buffer) (nm : string) : result Buffer :=
  if negb (private_get_producer_id b nm =? -1) then Abort
  else match first_free (producers b) MAX_PRODUCERS with
       | Some i => Ret (set_producers b (<[i := fresh_stage nm]> (producers b)))
       | None => Abort
       end.

(** The loop of [unregister_consumer] over the slots [id, id+1, ...]. *)
Fixpoint unregister_scan (ids : list nat) (h : Heap) (b : Buffer) (broadcast : Z)
  : Heap * Buffer * Z :=
  match ids with
  | [] => (h, b, broadcast)
  | id :: rest =>
      if private_consumers_done b (Z.of_nat id) =? 1 then
        let '(h1, b1, r) := private_mark_frame_empty h b (Z.of_nat id) in
        unregister_scan rest h1 b1 (Z.lor broadcast r)
      else unregister_scan rest h b broadcast
  end.

Definition unregister_consumer (h : Heap) (b : Buffer) (nm : string)
  : result (Heap * Buffer * list cond) :=
  let consumer_id := private_get_consumer_id b nm in
  (* the error is only logged: the row at index -1 is written *)
  if consumer_id =? -1 then Undefined else
  let row := arr_get (consumers b) consumer_id in
  let b1 := set_consumers b
              (arr_set (consumers b) consumer_id
                 (stage_set_name (stage_set_in_use row 0)
                    (snprintf MAX_STAGE_NAME_LEN "unregistered"))) in
  let '(h2, b2, broadcast) :=
    unregister_scan (seq 0 (Z.to_nat (num_frames b1))) h b1 0 in
  Ret (h2, b2, if broadcast =? 1 then [empty_cond] else []).

Definition is_frame_empty (b : Buffer) (ID : Z) : result Z :=
  c_assert (0 <=? ID) ;;
  c_assert (ID <? num_frames b) ;;
  Ret (if full_flag b ID =? 1 then 0 else 1).

(** Returns the frame pointer, or [NULL] under shutdown; [Blocked] is the
    sleep on [full_cond].  There is no assertion on [ID] here: the test of
    the loop reads [is_full[ID]] and [consumers_done[ID]] whatever [ID]
    is. *)
Definition wait_for_full_frame (b : Buffer) (nm : string) (ID : Z) : result (Buffer * Z) :=
  let consumer_id := private_get_consumer_id b nm in
  c_assert negb (consumer_id =? -1) ;;
  if negb (in_range (is_full b) ID) then Undefined else
  if ((full_flag b ID =? 0) || (consumer_bit b ID (Z.to_nat consumer_id) =? 1))
     && (shutdown_signal b =? 0)
  then Blocked
  else if shutdown_signal b =? 1 then Ret (b, NULL)
  else Ret (set_consumers b
              (arr_set (consumers b) consumer_id
                 (stage_set_acquired (arr_get (consumers b) consumer_id) ID)),
            arr_get (frames b) ID).

(** [struct timespec], an absolute time of CLOCK_REALTIME. *)
Record timespec : Type := mkTimespec { tv_sec : Z; tv_nsec : Z }.

Definition timespec_leb (a b : timespec) : bool :=
  (tv_sec a <? tv_sec b) || ((tv_sec a =? tv_sec b) && (tv_nsec a <=? tv_nsec b)).

(** A [tv_nsec] that POSIX accepts: at least 0 and less than 1000
    million. *)
Definition valid_nsec (t : timespec) : bool :=
  (0 <=? tv_nsec t) && (tv_nsec t <? 1000000000).

(** POSIX [pthread_cond_timedwait], which is not code of this repository:
    called at time [now] it fails at once with [EINVAL], the buffer
    untouched, when the nanoseconds of [abstime] are out of range, and
    returns [ETIMEDOUT] at once when the absolute time [abstime] has already
    passed; otherwise the thread sleeps, and the next element of [env] is
    the state of the buffer when it is woken together with the value
    returned (0, or [ETIMEDOUT] when it is the deadline that wakes it).
    With [env] exhausted the thread is still asleep. *)
Definition pthread_cond_timedwait (now abstime : timespec) (env : list (Buffer * Z))
  (b : Buffer) : result (Buffer * Z * list (Buffer * Z)) :=
  if negb (valid_nsec abstime) then Ret (b, EINVAL, env)
  else if timespec_leb abstime now then Ret (b, ETIMEDOUT, env)
  else match env with
       | [] => Blocked
       | (b', e) :: env' => Ret (b', e, env')
       end.

(** The [while] loop of [wait_for_full_frame_timeout]; [fuel] bounds the
    number of times the test is evaluated. *)
Fixpoint timed_wait_loop (fuel : nat) (now abstime : timespec) (env : list (Buffer * Z))
  (b : Buffer) (ID : Z) (consumer_id : Z) (err : Z) : result (Buffer * Z) :=
  match fuel with
  | O => Blocked
  | S fuel' =>
      if ((full_flag b ID =? 0) || (consumer_bit b ID (Z.to_nat consumer_id) =? 1))
         && (shutdown_signal b =? 0) && (err =? 0)
      then
        r ← pthread_cond_timedwait now abstime env b;
        let '(b', err', env') := r in
        timed_wait_loop fuel' now abstime env' b' ID consumer_id err'
      else Ret (b, err)
  end.

(** Returns 0, 1 (timeout) or -1 (shutdown); 0 is returned, and the slot
    recorded as acquired, whenever the loop ends without shutdown and with
    [err] other than [ETIMEDOUT].  Every turn of the loop either consumes
    one element of [env] or sets [err] to an error, so [length env + 2]
    evaluations of the test are enough. *)
Definition wait_for_full_frame_timeout (b : Buffer) (nm : string) (ID : Z)
  (now timeout : timespec) (env : list (Buffer * Z)) : result (Buffer * Z) :=
  let consumer_id := private_get_consumer_id b nm in
  c_assert negb (consumer_id =? -1) ;;
  if negb (in_range (is_full b) ID) then Undefined else
  r ← timed_wait_loop (length env + 2) now timeout env b ID consumer_id 0;
  let '(b1, err) := r in
  if shutdown_signal b1 =? 1 then Ret (b1, -1)
  else if err =? ETIMEDOUT then Ret (b1, 1)
  else Ret (set_consumers b1
              (arr_set (consumers b1) consumer_id
                 (stage_set_acquired (arr_get (consumers b1) consumer_id) ID)),
            0).

(** The test of the [while] loop of [wait_for_full_frame_timeout], apart
    from [err == 0]: the consumer in row [consumer_id] has to wait for slot
    [ID]. *)
Definition has_to_wait (b : Buffer) (ID consumer_id : Z) : bool :=
  ((full_flag b ID =? 0) || (consumer_bit b ID (Z.to_nat consumer_id) =? 1))
  && (shutdown_signal b =? 0).


Definition get_num_full_frames (b : Buffer) : Z :=
  Z.of_nat (length (filter (fun i => arr_get (is_full b) (Z.of_nat i) = 1)
                      (seq 0 (Z.to_nat (num_frames b))))).

Definition get_num_consumers (b : Buffer) : Z :=
  Z.of_nat (length (filter (fun i => in_use (consumers b !!! i) = 1) (seq 0 MAX_CONSUMERS))).

Definition get_num_producers (b : Buffer) : Z :=
  Z.of_nat (length (filter (fun i => in_use (producers b !!! i) = 1) (seq 0 MAX_PRODUCERS))).

Definition send_shutdown_signal (b : Buffer) : Buffer * list cond :=
  (set_shutdown_signal b 1, [empty_cond; full_cond]).

Definition allocate_new_metadata_object (h : Heap) (b : Buffer) (ID : Z)
  : result (Heap * Buffer) :=
  c_assert (0 <=? ID) ;;
  c_assert (ID <? num_frames b) ;;
  if metadata_pool b =? NULL then FATAL_ERROR_F else
  let '(h1, b1) :=
    if arr_get (metadata b) ID =? NULL then
      let '(h', c) := request_metadata_object h (metadata_pool b) in
      (h', set_metadata b (arr_set (metadata b) ID c))
    else (h, b) in
  (* CHECK_MEM_F(buf->metadata[ID]) *)
  if arr_get (metadata b1) ID =? NULL then FATAL_ERROR_F else Ret (h1, b1).

(** Returns the frame pointer the slot held before. *)
Definition swap_external_frame (b : Buffer) (frame_id : Z) (external_frame : Z)
  : result (Buffer * Z) :=
  c_assert (get_num_producers b =? 1) ;;
  if negb (in_range (frames b) frame_id) then Undefined else
  Ret (set_frames b (arr_set (frames b) frame_id external_frame),
       arr_get (frames b) frame_id).

(** [buffer_malloc], with the answers [sys] of the system.  The region the
    function returns is zeroed: it holds [len] bytes 0. *)
Definition buffer_malloc (sys : frame_answer) (len numa_node : Z) (h : Heap)
  : result (Heap * Z) :=
  let frame := frame_pointer sys in
  (* Zero the new frame *)
  let zero_and_return :=
    Ret (set_mem h (<[frame := replicate (Z.to_nat len) 0]> (mem h)), frame) in
  if WITH_HSA then
    if frame =? NULL then Ret (h, NULL) else zero_and_return
  else
    (* Ask that all pages be kept in memory *)
    let lock_pages :=
      if WITH_NO_MEMLOCK then zero_and_return
      else if mlock_err sys =? -1 then Ret (h, NULL) else zero_and_return in
    if WITH_NUMA then
      CHECK_MEM_F frame ;;
      lock_pages
    else
      CHECK_MEM_F frame ;;
      if negb (posix_memalign_err sys =? 0) then Ret (h, NULL) else lock_pages.

(** The loop of [create_buffer] that creates the frames: it stops at the
    first frame for which [buffer_malloc] returns [NULL]. *)
Fixpoint create_frames (sys : allocator) (len numa_node : Z) (ids : list nat) (h : Heap)
  (acc : list Z) : result (Heap * option (list Z)) :=
  match ids with
  | [] => Ret (h, Some acc)
  | i :: rest =>
      r ← buffer_malloc (frame_answers sys i) len numa_node h;
      if r.2 =? NULL then Ret (r.1, None)
      else create_frames sys len numa_node rest r.1 (acc ++ [r.2])
  end.

(** The rows of the two done tables have been allocated:
    [CHECK_MEM_F(buf->producers_done[i])] and
    [CHECK_MEM_F(buf->consumers_done[i])] pass for every slot. *)
Definition done_rows_allocated (sys : allocator) (n : nat) : bool :=
  forallb (fun i => negb (malloc_answer sys (5 + 2 * i) =? NULL)
                    && negb (malloc_answer sys (6 + 2 * i) =? NULL))
    (seq 0 n).

(** [buf] is the pointer [malloc] returns for the [struct Buffer].  Returns
    the new [struct Buffer], or [None] for the [NULL] the C function
    returns.  The copies of the two names that [strdup] makes are only read
    by the log messages. *)
Definition create_buffer (h : Heap) (buf : Z) (num_frames len : Z) (pool : Z)
  (buffer_name buffer_type : string) (numa_node : Z) (sys : allocator)
  : result (Heap * option Buffer) :=
  c_assert (0 <? num_frames) ;;
  CHECK_MEM_F buf ;;
  let n := Z.to_nat num_frames in
  let aligned_frame_size := len in
  c_assert (len <=? aligned_frame_size) ;;
  if malloc_answer sys 0 =? NULL then Ret (h, None) else
  CHECK_MEM_F malloc_answer sys 1 ;;
  CHECK_MEM_F malloc_answer sys 2 ;;
  CHECK_MEM_F malloc_answer sys 3 ;;
  CHECK_MEM_F malloc_answer sys 4 ;;
  if negb (done_rows_allocated sys n) then FATAL_ERROR_F else
  r ← create_frames sys aligned_frame_size numa_node (seq 0 n) h [];
  match r with
  | (h1, None) => Ret (h1, None)
  | (h1, Some frames) =>
      Ret (h1, Some (mkBuffer num_frames len aligned_frame_size
                       (replicate n 0) frames (replicate n NULL)
                       (replicate MAX_PRODUCERS (mkStageInfo 0 "" 0 0))
                       (replicate MAX_CONSUMERS (mkStageInfo 0 "" 0 0))
                       (replicate n (replicate MAX_PRODUCERS 0))
                       (replicate n (replicate MAX_CONSUMERS 0))
                       0 0 0 pool buffer_name buffer_type []))
  end.

(** *** Operations on two buffers *)

(** The program state: the [struct Buffer] objects by address, and the rest
    of the memory. *)
Record World : Type := mkWorld {
  bufs : gmap Z Buffer;
  heap : Heap
}.

Definition deref (w : World) (buf : Z) : result Buffer :=
  match bufs w !! buf with
  | Some b => Ret b
  | None => Undefined
  end.

Definition store (w : World) (buf : Z) (b : Buffer) : World :=
  mkWorld (<[buf := b]> (bufs w)) (heap w).

Definition set_heap (w : World) (h : Heap) : World := mkWorld (bufs w) h.

Definition pass_metadata (w : World) (from_buf from_ID to_buf to_ID : Z) : result World :=
  fb ← deref w from_buf;
  if negb (in_range (metadata fb) from_ID) then Undefined else
  if arr_get (metadata fb) from_ID =? NULL then Ret w else
  let metadata_container := arr_get (metadata fb) from_ID in
  tb ← deref w to_buf;
  if negb (in_range (metadata tb) to_ID) then Undefined else
  let '(h1, tb1) :=
    if arr_get (metadata tb) to_ID =? NULL then
      (increment_metadata_ref_count (heap w) metadata_container,
       set_metadata tb (arr_set (metadata tb) to_ID metadata_container))
    else (heap w, tb) in
  c_assert (arr_get (metadata tb1) to_ID =? metadata_container) ;;
  Ret (set_heap (store w to_buf tb1) h1).

(** Both mutexes are taken, the source first: with one and the same buffer
    on both sides the second [pthread_mutex_lock] never returns. *)
Definition copy_metadata (w : World) (from_buf from_ID to_buf to_ID : Z) : result World :=
  fb ← deref w from_buf;
  tb ← deref w to_buf;
  if from_buf =? to_buf then Blocked else
  if negb (in_range (metadata fb) from_ID) then Undefined else
  if arr_get (metadata fb) from_ID =? NULL then Ret w else
  if negb (in_range (metadata tb) to_ID) then Undefined else
  if arr_get (metadata tb) to_ID =? NULL then Ret w else
  match containers (heap w) !! arr_get (metadata fb) from_ID,
        containers (heap w) !! arr_get (metadata tb) to_ID with
  | Some fc, Some tc =>
      if negb (metadata_size fc =? metadata_size tc) then Ret w
      else Ret (set_heap w
                  (set_containers (heap w)
                     (<[arr_get (metadata tb) to_ID :=
                          container_set_bytes tc
                            (take (Z.to_nat (metadata_size fc)) (metadata_bytes fc)
                             ++ drop (Z.to_nat (metadata_size fc)) (metadata_bytes tc))]>
                        (containers (heap w)))))
  | _, _ => Undefined
  end.

Definition swap_frames (w : World) (from_buf from_frame_id to_buf to_frame_id : Z)
  : result World :=
  c_assert negb (from_buf =? to_buf) ;;
  c_assert negb (from_buf =? NULL) ;;
  c_assert negb (to_buf =? NULL) ;;
  c_assert (0 <=? from_frame_id) ;;
  fb ← deref w from_buf;
  c_assert (from_frame_id <? num_frames fb) ;;
  c_assert (0 <=? to_frame_id) ;;
  tb ← deref w to_buf;
  c_assert (to_frame_id <? num_frames tb) ;;
  c_assert (aligned_frame_size fb =? aligned_frame_size tb) ;;
  let num_consumers := get_num_consumers fb in
  c_assert (num_consumers =? 1) ;;
  let num_producers := get_num_producers tb in
  c_assert (num_producers =? 1) ;;
  let temp_frame := arr_get (frames fb) from_frame_id in
  let fb1 := set_frames fb (arr_set (frames fb) from_frame_id (arr_get (frames tb) to_frame_id)) in
  let tb1 := set_frames tb (arr_set (frames tb) to_frame_id temp_frame) in
  Ret (store (store w from_buf fb1) to_buf tb1).

Definition memcpy (dest src : list Z) (n : Z) : list Z :=
  take (Z.to_nat n) src ++ drop (Z.to_nat n) dest.

Definition safe_swap_frame (w : World) (src_buf src_frame_id dest_buf dest_frame_id : Z)
  : result World :=
  c_assert negb (src_buf =? dest_buf) ;;
  c_assert negb (src_buf =? NULL) ;;
  c_assert negb (dest_buf =? NULL) ;;
  c_assert (0 <=? src_frame_id) ;;
  sb ← deref w src_buf;
  c_assert (src_frame_id <? num_frames sb) ;;
  c_assert (0 <=? dest_frame_id) ;;
  db ← deref w dest_buf;
  c_assert (dest_frame_id <? num_frames db) ;;
  if negb (frame_size sb =? frame_size db) then FATAL_ERROR_F else
  if 1 <? get_num_producers db then FATAL_ERROR_F else
  let num_consumers := get_num_consumers sb in
  if num_consumers =? 1 then
    let temp_frame := arr_get (frames sb) src_frame_id in
    let sb1 := set_frames sb (arr_set (frames sb) src_frame_id (arr_get (frames db) dest_frame_id)) in
    let db1 := set_frames db (arr_set (frames db) dest_frame_id temp_frame) in
    Ret (store (store w src_buf sb1) dest_buf db1)
  else if 1 <? num_consumers then
    match mem (heap w) !! arr_get (frames db) dest_frame_id,
          mem (heap w) !! arr_get (frames sb) src_frame_id with
    | Some d, Some s =>
        if (Z.of_nat (length d) <? frame_size sb) || (Z.of_nat (length s) <? frame_size sb)
        then Undefined
        else Ret (set_heap w
                    (set_mem (heap w)
                       (<[arr_get (frames db) dest_frame_id := memcpy d s (frame_size sb)]>
                          (mem (heap w)))))
    | _, _ => Undefined
    end
  else Ret w.

(** [delete_buffer] frees the arrays of the buffer: no later call may use
    it. *)
Definition delete_buffer (w : World) (buf : Z) : result World :=
  b ← deref w buf;
  Ret (mkWorld (delete buf (bufs w)) (heap w)).

(** ** The public interface as a transition system *)

(** The calls that change the state (the inspection functions only read
    it), and the steps of the detached zeroing threads.
    [CreateBuffer buf ...] is the call of [create_buffer] in which [malloc]
    returns [buf] for the [struct Buffer]; [ZeroThread buf ID stage] is the
    step that a zeroing thread of slot [ID] takes from [stage]. *)
Inductive call : Type :=
| CreateBuffer (buf : Z) (num_frames len pool : Z) (buffer_name buffer_type : string)
    (numa_node : Z) (sys : allocator)
| DeleteBuffer (buf : Z)
| RegisterProducer (buf : Z) (nm : string)
| RegisterConsumer (buf : Z) (nm : string)
| UnregisterConsumer (buf : Z) (nm : string)
| WaitForEmptyFrame (buf : Z) (nm : string) (ID : Z)
| WaitForFullFrame (buf : Z) (nm : string) (ID : Z)
| WaitForFullFrameTimeout (buf : Z) (nm : string) (ID : Z) (now timeout : timespec)
| MarkFrameFull (buf : Z) (nm : string) (ID : Z) (now : Z)
| MarkFrameEmpty (buf : Z) (nm : string) (ID : Z)
| ZeroFrames (buf : Z)
| AllocateNewMetadataObject (buf : Z) (ID : Z)
| PassMetadata (from_buf from_ID to_buf to_ID : Z)
| CopyMetadata (from_buf from_ID to_buf to_ID : Z)
| SwapExternalFrame (buf : Z) (frame_id external_frame : Z)
| SwapFrames (from_buf from_frame_id to_buf to_frame_id : Z)
| SafeSwapFrame (src_buf src_frame_id dest_buf dest_frame_id : Z)
| SendShutdownSignal (buf : Z)
| ZeroThread (buf : Z) (ID : Z) (stage : zero_stage).

(** The threads of the pool are told apart by their slot and their stage
    only: two threads of the same slot at the same stage have the same
    steps before them. *)
Definition is_thread (ID : Z) (st : zero_stage) (t : Z * zero_stage) : bool :=
  (t.1 =? ID) && bool_decide (t.2 = st).

Definition thread_at (ID : Z) (st : zero_stage) (pool : list (Z * zero_stage)) : bool :=
  existsb (is_thread ID st) pool.

(** A thread of slot [ID] at stage [st] moves on to stage [st']. *)
Fixpoint advance_thread (ID : Z) (st st' : zero_stage) (pool : list (Z * zero_stage))
  : list (Z * zero_stage) :=
  match pool with
  | [] => []
  | t :: pool' =>
      if is_thread ID st t then (ID, st') :: pool'
      else t :: advance_thread ID st st' pool'
  end.

(** A thread of slot [ID] that has left its critical section exits. *)
Fixpoint exit_thread (ID : Z) (pool : list (Z * zero_stage)) : list (Z * zero_stage) :=
  match pool with
  | [] => []
  | t :: pool' => if is_thread ID at_lock t then pool' else t :: exit_thread ID pool'
  end.

(** One step of a zeroing thread of slot [ID] that stands at [st]. *)
Definition zero_thread_step (h : Heap) (b : Buffer) (ID : Z) (st : zero_stage)
  : result (Heap * Buffer) :=
  match st with
  | at_nt_memset =>
      h' ← private_zero_frames_nt_memset h b ID;
      Ret (h', set_zero_pool b (advance_thread ID at_nt_memset at_memset (zero_pool b)))
  | at_memset =>
      h' ← private_zero_frames_memset h b ID;
      Ret (h', set_zero_pool b (advance_thread ID at_memset at_lock (zero_pool b)))
  | at_lock =>
      r ← private_zero_frames_locked b ID;
      Ret (h, set_zero_pool r.1 (exit_thread ID (zero_pool r.1)))
  end.

Definition exec (w : World) (c : call) : result World :=
  match c with
  | CreateBuffer buf n len pool bn bt numa sys =>
      if bool_decide (is_Some (bufs w !! buf)) then Undefined else
      r ← create_buffer (heap w) buf n len pool bn bt numa sys;
      match r with
      | (h, Some b) => Ret (set_heap (store w buf b) h)
      | (h, None) => Ret (set_heap w h)
      end
  | DeleteBuffer buf => delete_buffer w buf
  | RegisterProducer buf nm =>
      b ← deref w buf; b' ← register_producer b nm; Ret (store w buf b')
  | RegisterConsumer buf nm =>
      b ← deref w buf; b' ← register_consumer b nm; Ret (store w buf b')
  | UnregisterConsumer buf nm =>
      b ← deref w buf; r ← unregister_consumer (heap w) b nm;
      Ret (set_heap (store w buf r.1.2) r.1.1)
  | WaitForEmptyFrame buf nm ID =>
      b ← deref w buf; r ← wait_for_empty_frame b nm ID; Ret (store w buf r.1)
  | WaitForFullFrame buf nm ID =>
      b ← deref w buf; r ← wait_for_full_frame b nm ID; Ret (store w buf r.1)
  | WaitForFullFrameTimeout buf nm ID now timeout =>
      b ← deref w buf; r ← wait_for_full_frame_timeout b nm ID now timeout [];
      Ret (store w buf r.1)
  | MarkFrameFull buf nm ID now =>
      b ← deref w buf; r ← mark_frame_full (heap w) b nm ID now;
      Ret (set_heap (store w buf r.1.2) r.1.1)
  | MarkFrameEmpty buf nm ID =>
      b ← deref w buf; r ← mark_frame_empty (heap w) b nm ID;
      Ret (set_heap (store w buf r.1.2) r.1.1)
  | ZeroFrames buf =>
      b ← deref w buf; Ret (store w buf (zero_frames_on b))
  | AllocateNewMetadataObject buf ID =>
      b ← deref w buf; r ← allocate_new_metadata_object (heap w) b ID;
      Ret (set_heap (store w buf r.2) r.1)
  | PassMetadata fb fi tb ti => pass_metadata w fb fi tb ti
  | CopyMetadata fb fi tb ti => copy_metadata w fb fi tb ti
  | SwapExternalFrame buf i ext =>
      b ← deref w buf; r ← swap_external_frame b i ext; Ret (store w buf r.1)
  | SwapFrames fb fi tb ti => swap_frames w fb fi tb ti
  | SafeSwapFrame sb si db di => safe_swap_frame w sb si db di
  | SendShutdownSignal buf =>
      b ← deref w buf; Ret (store w buf (send_shutdown_signal b).1)
  | ZeroThread buf ID st =>
      b ← deref w buf;
      if negb (thread_at ID st (zero_pool b)) then Blocked else
      r ← zero_thread_step (heap w) b ID st;
      Ret (set_heap (store w buf r.2) r.1)
  end.

Fixpoint run (w : World) (cs : list call) : result World :=
  match cs with
  | [] => Ret w
  | c :: rest => w' ← exec w c; run w' rest
  end.

(** ** Well-formed buffers *)

Definition is_bit (z : Z) : bool := (z =? 0) || (z =? 1).

(** The arrays have the sizes [create_buffer] allocates and the flags hold
    0 or 1. *)
Definition wfb (b : Buffer) : bool :=
  (0 <? num_frames b)
  && bool_decide (length (is_full b) = Z.to_nat (num_frames b))
  && bool_decide (length (frames b) = Z.to_nat (num_frames b))
  && bool_decide (length (metadata b) = Z.to_nat (num_frames b))
  && bool_decide (length (producers b) = MAX_PRODUCERS)
  && bool_decide (length (consumers b) = MAX_CONSUMERS)
  && bool_decide (length (producers_done b) = Z.to_nat (num_frames b))
  && bool_decide (length (consumers_done b) = Z.to_nat (num_frames b))
  && forallb (fun r => bool_decide (length r = MAX_PRODUCERS) && forallb is_bit r)
       (producers_done b)
  && forallb (fun r => bool_decide (length r = MAX_CONSUMERS) && forallb is_bit r)
       (consumers_done b)
  && forallb is_bit (is_full b)
  && forallb (fun s => is_bit (in_use s)) (producers b)
  && forallb (fun s => is_bit (in_use s)) (consumers b)
  && is_bit (shutdown_signal b)
  && is_bit (zero_frames b).

Definition wf (b : Buffer) : Prop := wfb b = true.

Definition valid_slot (b : Buffer) (ID : Z) : Prop := 0 <= ID < num_frames b.

(** The registered producers and consumers: the rows in use. *)
Definition registered_producer (b : Buffer) (i : nat) : Prop :=
  (i < MAX_PRODUCERS)%nat /\ in_use (producers b !!! i) = 1.

Definition registered_consumer (b : Buffer) (i : nat) : Prop :=
  (i < MAX_CONSUMERS)%nat /\ in_use (consumers b !!! i) = 1.

Definition all_consumers_done (b : Buffer) (ID : Z) : Prop :=
  forall i, registered_consumer b i -> consumer_bit b ID i = 1.

Definition all_producers_done (b : Buffer) (ID : Z) : Prop :=
  forall i, registered_producer b i -> producer_bit b ID i = 1.

(** Every registered consumer other than the one in row [c] is done with
    slot [ID]. *)
Definition remaining_consumers_done (b : Buffer) (c : nat) (ID : Z) : Prop :=
  forall i, registered_consumer b i -> i <> c -> consumer_bit b ID i = 1.

(** A full slot has a registered consumer that is not done with it. *)
Definition slot_pending (b : Buffer) (ID : Z) : Prop :=
  full_flag b ID = 1 -> ~ all_consumers_done b ID.

Definition full_slots_pending (b : Buffer) : Prop :=
  forall ID, valid_slot b ID -> slot_pending b ID.

Definition world_ok (w : World) : Prop :=
  forall buf b, bufs w !! buf = Some b ->
    wf b /\ (zero_frames b = 0 -> full_slots_pending b).

(** What a call that returns does to the buffer at address [buf], when it
    changes it: the relation between the [struct Buffer] before and after.
    The operations on two buffers re-seat one frame pointer or one metadata
    reference of each buffer they write. *)
Definition local_effect (c : call) (buf : Z) (h : Heap) (b b' : Buffer) : Prop :=
  match c with
  | RegisterProducer x nm => x = buf /\ register_producer b nm = Ret b'
  | RegisterConsumer x nm => x = buf /\ register_consumer b nm = Ret b'
  | UnregisterConsumer x nm =>
      x = buf /\ exists h' sig, unregister_consumer h b nm = Ret (h', b', sig)
  | WaitForEmptyFrame x nm ID =>
      x = buf /\ exists p, wait_for_empty_frame b nm ID = Ret (b', p)
  | WaitForFullFrame x nm ID =>
      x = buf /\ exists p, wait_for_full_frame b nm ID = Ret (b', p)
  | WaitForFullFrameTimeout x nm ID now timeout =>
      x = buf /\ exists r, wait_for_full_frame_timeout b nm ID now timeout [] = Ret (b', r)
  | MarkFrameFull x nm ID now =>
      x = buf /\ exists h' sig, mark_frame_full h b nm ID now = Ret (h', b', sig)
  | MarkFrameEmpty x nm ID =>
      x = buf /\ exists h' sig, mark_frame_empty h b nm ID = Ret (h', b', sig)
  | ZeroFrames x => x = buf /\ b' = zero_frames_on b
  | AllocateNewMetadataObject x ID =>
      x = buf /\ exists h', allocate_new_metadata_object h b ID = Ret (h', b')
  | PassMetadata _ _ x to_ID =>
      x = buf /\ exists m, b' = set_metadata b (arr_set (metadata b) to_ID m)
  | SwapExternalFrame x i ext =>
      x = buf /\ exists p, swap_external_frame b i ext = Ret (b', p)
  | SwapFrames x i y j | SafeSwapFrame x i y j =>
      (x = buf /\ exists p, b' = set_frames b (arr_set (frames b) i p))
      \/ (y = buf /\ exists p, b' = set_frames b (arr_set (frames b) j p))
  | SendShutdownSignal x => x = buf /\ b' = (send_shutdown_signal b).1
  | ZeroThread x ID st =>
      x = buf /\ thread_at ID st (zero_pool b) = true
      /\ exists h', zero_thread_step h b ID st = Ret (h', b')
  | CreateBuffer _ _ _ _ _ _ _ _ | DeleteBuffer _ | CopyMetadata _ _ _ _ => False
  end.

(** The acquire and release operations. *)
Definition acquire_or_release (c : call) : bool :=
  match c with
  | WaitForEmptyFrame _ _ _ | WaitForFullFrame _ _ _
  | WaitForFullFrameTimeout _ _ _ _ _
  | MarkFrameFull _ _ _ _ | MarkFrameEmpty _ _ _ => true
  | _ => false
  end.

(** *** The handoff discipline of producers *)












(** The first [n] bytes of the storage at address [p] are zero. *)
Definition zeroed (h : Heap) (p : Z) (n : Z) : Prop :=
  exists bytes, mem h !! p = Some bytes /\ (Z.to_nat n <= length bytes)%nat
                /\ forall i, (i < Z.to_nat n)%nat -> bytes !! i = Some 0.


(** ** Scenarios *)

(** The state a sequence of calls leads to (the initial state when a call
    does not return), and the buffer at an address. *)
Definition world_after (w : World) (cs : list call) : World :=
  match run w cs with
  | Ret w' => w'
  | _ => w
  end.

Definition no_buffer : Buffer :=
  mkBuffer 0 0 0 [] [] [] [] [] [] [] 0 0 0 0 "" "" [].

Definition buffer_at (w : World) (buf : Z) : Buffer :=
  match bufs w !! buf with
  | Some b => b
  | None => no_buffer
  end.

(** A metadata pool at address 50 with two free containers, at 60 and 61. *)
Definition scn_start : World :=
  mkWorld ∅
    (mkHeap {[60 := mkContainer 0 4 [0; 0; 0; 0]; 61 := mkContainer 0 4 [0; 0; 0; 0]]}
       {[50 := [60; 61]]} ∅).

(** A system that grants every allocation: the frame of slot [i] at
    [base + i]. *)
Definition scn_alloc (base : Z) : allocator :=
  mkAllocator (fun k => base + 100 + Z.of_nat k)
    (fun i => mkFrameAnswer (base + Z.of_nat i) 0 0).

(** Buffer A at address 1: two frames of 8 bytes, producer P, consumer C. *)
Definition scn_setup : list call :=
  [CreateBuffer 1 2 8 50 "A" "standard" 0 (scn_alloc 1000);
   RegisterProducer 1 "P"; RegisterConsumer 1 "C"].

(** P has acquired slot 0 and bound metadata to it; the slot is not full. *)
Definition scn_acquired : list call :=
  scn_setup ++ [WaitForEmptyFrame 1 "P" 0; AllocateNewMetadataObject 1 0].

(** P has filled slot 0. *)
Definition scn_filled : list call := scn_acquired ++ [MarkFrameFull 1 "P" 0 7].

(** The same with zero-on-release on, C reading slot 0. *)
Definition scn_zero_reading : list call :=
  scn_setup ++ [ZeroFrames 1; WaitForEmptyFrame 1 "P" 0; AllocateNewMetadataObject 1 0;
                MarkFrameFull 1 "P" 0 7; WaitForFullFrame 1 "C" 0].

Definition scn_zero_released : list call := scn_zero_reading ++ [MarkFrameEmpty 1 "C" 0].


(** Buffers A (at 1) and B (at 2) of the same frame size, a stage S that
    consumes from A and produces into B; slot 0 of A is full with metadata,
    S has acquired it and slot 0 of B. *)
Definition scn_two_buffers : list call :=
  [CreateBuffer 1 2 8 50 "A" "standard" 0 (scn_alloc 1000);
   CreateBuffer 2 2 8 50 "B" "standard" 0 (scn_alloc 2000);
   RegisterProducer 1 "P"; RegisterConsumer 1 "S";
   RegisterProducer 2 "S"; RegisterConsumer 2 "C";
   WaitForEmptyFrame 1 "P" 0; AllocateNewMetadataObject 1 0; MarkFrameFull 1 "P" 0 7;
   WaitForFullFrame 1 "S" 0; WaitForEmptyFrame 2 "S" 0].

(** Two fill and drain cycles of slot 0 and slot 1. *)
Definition scn_cycles : list call :=
  [WaitForEmptyFrame 1 "P" 0; MarkFrameFull 1 "P" 0 7;
   WaitForFullFrame 1 "C" 0; MarkFrameEmpty 1 "C" 0;
   WaitForEmptyFrame 1 "P" 1; MarkFrameFull 1 "P" 1 8;
   WaitForFullFrame 1 "C" 1; MarkFrameEmpty 1 "C" 1;
   WaitForEmptyFrame 1 "P" 0; MarkFrameFull 1 "P" 0 9;
   WaitForFullFrame 1 "C" 0; MarkFrameEmpty 1 "C" 0].






(** ** More of buffer.c: inspection functions and predicates on the tables *)

(** "Might return NULL": the container bound to the slot. *)
Definition get_metadata_container (b : Buffer) (ID : Z) : result Z :=
  c_assert (0 <=? ID) ;;
  c_assert (ID <? num_frames b) ;;
  Ret (arr_get (metadata b) ID).

(** "Do not call if there is no metadata": [buf->metadata[ID]->metadata],
    given here by the payload it points to. *)
Definition get_metadata (h : Heap) (b : Buffer) (ID : Z) : result (list Z) :=
  c_assert (0 <=? ID) ;;
  c_assert (ID <? num_frames b) ;;
  c_assert negb (arr_get (metadata b) ID =? NULL) ;;
  match containers h !! arr_get (metadata b) ID with
  | Some m => Ret (metadata_bytes m)
  | None => Undefined
  end.

Definition get_last_arrival_time (b : Buffer) : Z := last_arrival_time b.

(** The status string [print_buffer_status] builds and logs: one character
    per slot, ['X'] for a full slot and ['_'] otherwise. *)
Definition print_buffer_status (b : Buffer) : list Ascii.ascii :=
  map (fun i => if arr_get (is_full b) (Z.of_nat i) =? 1 then "X"%char else "_"%char)
    (seq 0 (Z.to_nat (num_frames b))).

(** Two stage names that the [strncmp] of the look-up does not tell
    apart. *)
Definition same_name (a b : string) : bool := strncmp_zero a b MAX_STAGE_NAME_LEN.

(** Every row in use of a role table is the row its own name is found
    at. *)
Definition names_distinct (tbl : list StageInfo) (n : nat) : Prop :=
  forall i j, (i < n)%nat -> (j < n)%nat ->
    in_use (tbl !!! i) = 1 -> in_use (tbl !!! j) = 1 ->
    same_name (name (tbl !!! i)) (name (tbl !!! j)) = true -> i = j.

(** The look-up loop of [private_get_producer_id] and
    [private_get_consumer_id] on a role table of [n] rows. *)
Definition lookup_row (tbl : list StageInfo) (n : nat) (nm : string) : Z :=
  match List.find (fun i => stage_matches (tbl !!! i) nm) (seq 0 n) with
  | Some i => Z.of_nat i
  | None => -1
  end.

(** The counting loop of [get_num_producers] and [get_num_consumers]. *)
Definition count_in_use (tbl : list StageInfo) (n : nat) : Z :=
  Z.of_nat (length (filter (fun i => in_use (tbl !!! i) = 1) (seq 0 n))).

(** The rows of two versions of a role table are in use under the same
    names. *)
Definition same_stages (tbl tbl' : list StageInfo) : Prop :=
  forall i, in_use (tbl' !!! i) = in_use (tbl !!! i) /\ name (tbl' !!! i) = name (tbl !!! i).

(** The fields of a buffer that [create_buffer] sets once and for all. *)
Definition same_configuration (b b' : Buffer) : Prop :=
  num_frames b' = num_frames b /\ frame_size b' = frame_size b
  /\ aligned_frame_size b' = aligned_frame_size b /\ metadata_pool b' = metadata_pool b
  /\ buffer_name b' = buffer_name b /\ buffer_type b' = buffer_type b.

(** The row [unregister_consumer] leaves behind. *)
Definition unregistered_row (s : StageInfo) : StageInfo :=
  stage_set_name (stage_set_in_use s 0) (snprintf MAX_STAGE_NAME_LEN "unregistered").

Definition is_delete (buf : Z) (c : call) : bool :=
  match c with
  | DeleteBuffer x => x =? buf
  | _ => false
  end.

(** The stages registered on a buffer are found under their own names. *)
Definition stages_distinct (b : Buffer) : Prop :=
  names_distinct (producers b) MAX_PRODUCERS /\ names_distinct (consumers b) MAX_CONSUMERS.

(** What no call undoes: the configuration, a shutdown, zero-on-release,
    and the registration of a producer. *)
Definition settled (b b' : Buffer) : Prop :=
  same_configuration b b'
  /\ (shutdown_signal b = 1 -> shutdown_signal b' = 1)
  /\ (zero_frames b = 1 -> zero_frames b' = 1)
  /\ (forall i, in_use (producers b !!! i) = 1 ->
        in_use (producers b' !!! i) = 1 /\ name (producers b' !!! i) = name (producers b !!! i)).

(** *** A slot in the hands of a stage *)

(** The state of a slot that [wait_for_empty_frame] hands to the producer
    [nm]: not full, and not yet marked by [nm]. *)
Definition producer_holds (b : Buffer) (nm : string) (ID : Z) : Prop :=
  private_get_producer_id b nm <> -1 /\ full_flag b ID = 0
  /\ producer_bit b ID (Z.to_nat (private_get_producer_id b nm)) = 0.

(** The state of a slot that [wait_for_full_frame] hands to the consumer
    [nm]: full, not yet marked by [nm], and with no zeroing thread
    pending. *)
Definition consumer_holds (b : Buffer) (nm : string) (ID : Z) : Prop :=
  private_get_consumer_id b nm <> -1 /\ full_flag b ID = 1
  /\ consumer_bit b ID (Z.to_nat (private_get_consumer_id b nm)) = 0
  /\ ~ In ID (zero_threads b).

(** The calls by which the producer [nm] gives up slot [ID] of the buffer
    at [buf] (or the buffer is destroyed). *)
Definition ends_producer_hold (buf : Z) (nm : string) (ID : Z) (c : call) : bool :=
  match c with
  | MarkFrameFull x nm' i _ => (x =? buf) && (i =? ID) && same_name nm nm'
  | DeleteBuffer x => x =? buf
  | _ => false
  end.

(** The calls by which the consumer [nm] gives up slot [ID] of the buffer
    at [buf] (or the buffer is destroyed). *)
Definition ends_consumer_hold (buf : Z) (nm : string) (ID : Z) (c : call) : bool :=
  match c with
  | MarkFrameEmpty x nm' i => (x =? buf) && (i =? ID) && same_name nm nm'
  | UnregisterConsumer x nm' => (x =? buf) && same_name nm nm'
  | DeleteBuffer x => x =? buf
  | _ => false
  end.

(** The slot is still in the hands of the producer (consumer), found in
    the same row, on a buffer of the same size. *)
Definition keeps_producer_hold (nm : string) (ID : Z) (x y : Buffer) : Prop :=
  num_frames y = num_frames x
  /\ (producer_holds x nm ID ->
      producer_holds y nm ID /\ private_get_producer_id y nm = private_get_producer_id x nm).

Definition keeps_consumer_hold (nm : string) (ID : Z) (x y : Buffer) : Prop :=
  num_frames y = num_frames x
  /\ (consumer_holds x nm ID ->
      consumer_holds y nm ID /\ private_get_consumer_id y nm = private_get_consumer_id x nm).

(** Slot [ID] is full, with no zeroing thread pending, and the registered
    consumer in row [c] is not done with it. *)
Definition reader_pending (b : Buffer) (c : nat) (ID : Z) : Prop :=
  full_flag b ID = 1 /\ registered_consumer b c /\ consumer_bit b ID c = 0
  /\ ~ In ID (zero_threads b).

(** *** The states a full cycle of a slot goes through *)

(** The buffer after the producer (consumer) in row [i] has acquired slot
    [ID]. *)
Definition producer_acquired (b : Buffer) (i : Z) (ID : Z) : Buffer :=
  set_producers b (arr_set (producers b) i (stage_set_acquired (arr_get (producers b) i) ID)).

Definition consumer_acquired (b : Buffer) (i : Z) (ID : Z) : Buffer :=
  set_consumers b (arr_set (consumers b) i (stage_set_acquired (arr_get (consumers b) i) ID)).

(** The buffer after the last producer, in row [i], has marked slot [ID]
    full at time [now]. *)
Definition filled (b : Buffer) (i : Z) (ID now : Z) : Buffer :=
  let b1 := set_producers b
              (arr_set (producers b) i (stage_set_released (arr_get (producers b) i) ID)) in
  set_last_arrival_time
    (set_is_full (set_producers_done b1
                    (arr_set (producers_done b) ID (replicate MAX_PRODUCERS 0)))
       (arr_set (is_full b) ID 1))
    now.

(** The buffer after the last consumer, in row [i], has marked slot [ID]
    empty, without zero-on-release. *)
Definition drained (b : Buffer) (i : Z) (ID : Z) : Buffer :=
  let b1 := set_consumers b
              (arr_set (consumers b) i (stage_set_released (arr_get (consumers b) i) ID)) in
  set_metadata
    (set_consumers_done (set_is_full b1 (arr_set (is_full b) ID 0))
       (arr_set (consumers_done b) ID (replicate MAX_CONSUMERS 0)))
    (arr_set (metadata b) ID NULL).

(** The slot is empty and ready for its only producer [pn] and its only
    consumer [cn]. *)
Definition slot_ready (b : Buffer) (pn cn : string) (ID : Z) : Prop :=
  wf b /\ valid_slot b ID /\ shutdown_signal b = 0 /\ zero_frames b = 0
  /\ private_get_producer_id b pn <> -1 /\ private_get_consumer_id b cn <> -1
  /\ (forall i, registered_producer b i -> i = Z.to_nat (private_get_producer_id b pn))
  /\ (forall i, registered_consumer b i -> i = Z.to_nat (private_get_consumer_id b cn))
  /\ full_flag b ID = 0
  /\ producer_bit b ID (Z.to_nat (private_get_producer_id b pn)) = 0
  /\ consumer_bit b ID (Z.to_nat (private_get_consumer_id b cn)) = 0.

(** One cycle of slot [ID] with producer [pn] and consumer [cn]: acquire,
    fill at time [now], acquire, release. *)
Definition slot_cycle (buf : Z) (pn cn : string) (ID : Z) (now : Z) : list call :=
  [WaitForEmptyFrame buf pn ID; MarkFrameFull buf pn ID now;
   WaitForFullFrame buf cn ID; MarkFrameEmpty buf cn ID].

(** The other slots of two versions of a buffer are in the same state. *)
Definition other_slots_same (b b' : Buffer) (ID : Z) : Prop :=
  forall ID', 0 <= ID' -> ID' <> ID ->
    full_flag b' ID' = full_flag b ID'
    /\ arr_get (producers_done b') ID' = arr_get (producers_done b) ID'
    /\ arr_get (consumers_done b') ID' = arr_get (consumers_done b) ID'
    /\ arr_get (metadata b') ID' = arr_get (metadata b) ID'.

(** The zeroing threads that are pending were created for valid slots of a
    buffer with zero-on-release. *)
Definition threads_ok (b : Buffer) : Prop :=
  forall ID, In ID (zero_threads b) -> valid_slot b ID /\ zero_frames b = 1.

(** Buffer A at address 1 alone, no stage registered. *)
Definition scn_created : list call :=
  [CreateBuffer 1 2 8 50 "A" "standard" 0 (scn_alloc 1000)].

(** P has filled slot 0 and C has acquired it. *)
Definition scn_reading : list call := scn_filled ++ [WaitForFullFrame 1 "C" 0].

(** The answers of the system under which [buffer_malloc] stops in
    [CHECK_MEM_F(frame)]: a null pointer from [numa_alloc_onnode] or
    [posix_memalign]. *)
Definition frame_fatal (a : frame_answer) : bool :=
  negb WITH_HSA && (frame_pointer a =? NULL).

(** The answers under which [buffer_malloc] returns the frame: a pointer
    that is not null and, without [WITH_HSA], no error from
    [posix_memalign] (which [WITH_NUMA] does not call) and none from
    [mlock] (which [WITH_NO_MEMLOCK] does not call). *)
Definition frame_granted (a : frame_answer) : bool :=
  negb (frame_pointer a =? NULL)
  && (WITH_HSA
      || ((WITH_NUMA || (posix_memalign_err a =? 0))
          && (WITH_NO_MEMLOCK || negb (mlock_err a =? -1)))).

(** The calls of [malloc] in [create_buffer] that are followed by
    [CHECK_MEM_F] all return a pointer. *)
Definition bookkeeping_allocated (sys : allocator) (n : nat) : bool :=
  negb (malloc_answer sys 1 =? NULL) && negb (malloc_answer sys 2 =? NULL)
  && negb (malloc_answer sys 3 =? NULL) && negb (malloc_answer sys 4 =? NULL)
  && done_rows_allocated sys n.
(** ** Arrays, tables and flags: basic facts *)

Lemma in_range_iff {A : Type} (l : list A) (i : Z) :
  in_range l i = true <-> 0 <= i < Z.of_nat (length l).
Proof. unfold in_range. rewrite andb_true_iff, Z.leb_le, Z.ltb_lt. tauto. Qed.

Lemma length_arr_set {A : Type} (l : list A) (i : Z) (x : A) :
  length (arr_set l i x) = length l.
Proof. apply length_insert. Qed.

Lemma arr_get_set_eq {A : Type} `{Inhabited A} (l : list A) (i : Z) (x : A) :
  0 <= i < Z.of_nat (length l) -> arr_get (arr_set l i x) i = x.
Proof.
  intros Hi. unfold arr_get, arr_set.
  apply list_lookup_total_insert_eq. lia.
Qed.

Lemma arr_get_set_ne {A : Type} `{Inhabited A} (l : list A) (i j : Z) (x : A) :
  0 <= i -> 0 <= j -> i <> j -> arr_get (arr_set l i x) j = arr_get l j.
Proof.
  intros Hi Hj Hij. unfold arr_get, arr_set.
  apply list_lookup_total_insert_ne. lia.
Qed.

Lemma is_bit_iff (z : Z) : is_bit z = true <-> z = 0 \/ z = 1.
Proof. unfold is_bit. rewrite orb_true_iff, !Z.eqb_eq. tauto. Qed.

Lemma forallb_lookup_total {A : Type} `{Inhabited A} (P : A -> bool) (l : list A) (i : nat) :
  forallb P l = true -> (i < length l)%nat -> P (l !!! i) = true.
Proof.
  intros Hall Hi.
  destruct (lookup_lt_is_Some_2 l i Hi) as [x Hx].
  rewrite (list_lookup_total_correct l i x Hx).
  rewrite forallb_forall in Hall. apply Hall.
  apply list_elem_of_In. eapply list_elem_of_lookup_2; eauto.
Qed.

Lemma forallb_insert {A : Type} (P : A -> bool) (l : list A) (i : nat) (x : A) :
  forallb P l = true -> P x = true -> forallb P (<[i := x]> l) = true.
Proof.
  revert i. induction l as [|y l IH]; intros i Hall Hx; [done|].
  simpl in Hall. apply andb_prop in Hall as [Hy Hl].
  destruct i as [|i]; simpl.
  - rewrite Hx. exact Hl.
  - rewrite Hy. apply IH; assumption.
Qed.

Lemma forallb_insert_lookup {A : Type} `{Inhabited A} (P : A -> bool) (f : A -> A)
  (l : list A) (i : nat) :
  forallb P l = true -> (forall x, P x = true -> P (f x) = true) ->
  forallb P (<[i := f (l !!! i)]> l) = true.
Proof.
  intros Hall Hf.
  destruct (decide (i < length l)%nat) as [Hi|Hi].
  - apply forallb_insert; [assumption|]. apply Hf. apply forallb_lookup_total; assumption.
  - rewrite list_insert_ge by lia. assumption.
Qed.

Lemma forallb_replicate {A : Type} (P : A -> bool) (n : nat) (x : A) :
  P x = true -> forallb P (replicate n x) = true.
Proof. intros Hx. induction n as [|n IH]; simpl; [done|]. rewrite Hx. exact IH. Qed.

(** *** The two "all done" scans *)

Lemma private_consumers_done_bit (b : Buffer) (ID : Z) :
  private_consumers_done b ID = 0 \/ private_consumers_done b ID = 1.
Proof. unfold private_consumers_done. destruct (existsb _ _); auto. Qed.

Lemma private_producers_done_bit (b : Buffer) (ID : Z) :
  private_producers_done b ID = 0 \/ private_producers_done b ID = 1.
Proof. unfold private_producers_done. destruct (existsb _ _); auto. Qed.

Lemma private_consumers_done_1 (b : Buffer) (ID : Z) :
  private_consumers_done b ID = 1 <->
  forall i, registered_consumer b i -> consumer_bit b ID i <> 0.
Proof.
  unfold private_consumers_done, registered_consumer.
  destruct (existsb _ _) eqn:E.
  - split; [discriminate|]. intros Hall. exfalso.
    apply existsb_exists in E as (i & Hin & Hi).
    apply in_seq in Hin. apply andb_prop in Hi as [Hu Hb].
    apply Z.eqb_eq in Hu, Hb. apply (Hall i); [split; [lia|assumption]|assumption].
  - split; [|reflexivity]. intros _ i [Hlt Hu] Hb.
    assert (Hex : existsb
      (fun i => (in_use (consumers b !!! i) =? 1) && (consumer_bit b ID i =? 0))
      (seq 0 MAX_CONSUMERS) = true).
    { apply existsb_exists. exists i. split; [apply in_seq; lia|].
      rewrite Hu, Hb. reflexivity. }
    congruence.
Qed.

Lemma private_producers_done_1 (b : Buffer) (ID : Z) :
  private_producers_done b ID = 1 <->
  forall i, registered_producer b i -> producer_bit b ID i <> 0.
Proof.
  unfold private_producers_done, registered_producer.
  destruct (existsb _ _) eqn:E.
  - split; [discriminate|]. intros Hall. exfalso.
    apply existsb_exists in E as (i & Hin & Hi).
    apply in_seq in Hin. apply andb_prop in Hi as [Hu Hb].
    apply Z.eqb_eq in Hu, Hb. apply (Hall i); [split; [lia|assumption]|assumption].
  - split; [|reflexivity]. intros _ i [Hlt Hu] Hb.
    assert (Hex : existsb
      (fun i => (in_use (producers b !!! i) =? 1) && (producer_bit b ID i =? 0))
      (seq 0 MAX_PRODUCERS) = true).
    { apply existsb_exists. exists i. split; [apply in_seq; lia|].
      rewrite Hu, Hb. reflexivity. }
    congruence.
Qed.

(** *** The name lookups *)

Lemma private_get_consumer_id_found (b : Buffer) (nm : string) :
  private_get_consumer_id b nm <> -1 ->
  exists i, private_get_consumer_id b nm = Z.of_nat i /\ registered_consumer b i
            /\ strncmp_zero (name (consumers b !!! i)) nm MAX_STAGE_NAME_LEN = true.
Proof.
  unfold private_get_consumer_id, registered_consumer.
  destruct (find _ _) as [i|] eqn:E; [|congruence]. intros _.
  apply find_some in E as [Hin Hm]. apply in_seq in Hin.
  unfold stage_matches in Hm. apply andb_prop in Hm as [Hu Hn]. apply Z.eqb_eq in Hu.
  exists i. repeat split; [lia|assumption|assumption].
Qed.

Lemma private_get_producer_id_found (b : Buffer) (nm : string) :
  private_get_producer_id b nm <> -1 ->
  exists i, private_get_producer_id b nm = Z.of_nat i /\ registered_producer b i
            /\ strncmp_zero (name (producers b !!! i)) nm MAX_STAGE_NAME_LEN = true.
Proof.
  unfold private_get_producer_id, registered_producer.
  destruct (find _ _) as [i|] eqn:E; [|congruence]. intros _.
  apply find_some in E as [Hin Hm]. apply in_seq in Hin.
  unfold stage_matches in Hm. apply andb_prop in Hm as [Hu Hn]. apply Z.eqb_eq in Hu.
  exists i. repeat split; [lia|assumption|assumption].
Qed.

(** *** Consequences of well-formedness *)

Ltac wf_split H :=
  unfold wf, wfb in H; cbn in H;
  repeat (let H' := fresh "Hwf" in apply andb_prop in H; destruct H as [H H']).

Lemma wf_sizes (b : Buffer) :
  wf b ->
  0 < num_frames b
  /\ length (is_full b) = Z.to_nat (num_frames b)
  /\ length (frames b) = Z.to_nat (num_frames b)
  /\ length (metadata b) = Z.to_nat (num_frames b)
  /\ length (producers b) = MAX_PRODUCERS
  /\ length (consumers b) = MAX_CONSUMERS
  /\ length (producers_done b) = Z.to_nat (num_frames b)
  /\ length (consumers_done b) = Z.to_nat (num_frames b).
Proof.
  intros H. wf_split H.
  repeat match goal with
         | H : bool_decide _ = true |- _ => apply bool_decide_eq_true in H
         end.
  apply Z.ltb_lt in H. tauto.
Qed.

Lemma wf_full_flag_bit (b : Buffer) (ID : Z) :
  wf b -> valid_slot b ID -> full_flag b ID = 0 \/ full_flag b ID = 1.
Proof.
  intros H Hv. destruct (wf_sizes b H) as (_ & Hlen & _). unfold valid_slot in Hv.
  wf_split H. apply is_bit_iff. unfold full_flag, arr_get.
  apply forallb_lookup_total; [assumption|lia].
Qed.

Lemma wf_consumer_row (b : Buffer) (ID : Z) :
  wf b -> valid_slot b ID ->
  length (arr_get (consumers_done b) ID) = MAX_CONSUMERS
  /\ forallb is_bit (arr_get (consumers_done b) ID) = true.
Proof.
  intros H Hv. destruct (wf_sizes b H) as (_ & _ & _ & _ & _ & _ & _ & Hlen).
  unfold valid_slot in Hv. wf_split H.
  match goal with
  | Hr : forallb _ (consumers_done b) = true |- _ =>
      pose proof (forallb_lookup_total _ _ (Z.to_nat ID) Hr ltac:(lia)) as Hrow
  end.
  cbn beta in Hrow. apply andb_prop in Hrow as [Hl Hb].
  apply bool_decide_eq_true in Hl. unfold arr_get. auto.
Qed.

Lemma wf_producer_row (b : Buffer) (ID : Z) :
  wf b -> valid_slot b ID ->
  length (arr_get (producers_done b) ID) = MAX_PRODUCERS
  /\ forallb is_bit (arr_get (producers_done b) ID) = true.
Proof.
  intros H Hv. destruct (wf_sizes b H) as (_ & _ & _ & _ & _ & _ & Hlen & _).
  unfold valid_slot in Hv. wf_split H.
  match goal with
  | Hr : forallb _ (producers_done b) = true |- _ =>
      pose proof (forallb_lookup_total _ _ (Z.to_nat ID) Hr ltac:(lia)) as Hrow
  end.
  cbn beta in Hrow. apply andb_prop in Hrow as [Hl Hb].
  apply bool_decide_eq_true in Hl. unfold arr_get. auto.
Qed.

Lemma wf_consumer_bit (b : Buffer) (ID : Z) (i : nat) :
  wf b -> valid_slot b ID -> (i < MAX_CONSUMERS)%nat ->
  consumer_bit b ID i = 0 \/ consumer_bit b ID i = 1.
Proof.
  intros H Hv Hi. destruct (wf_consumer_row b ID H Hv) as [Hl Hb].
  apply is_bit_iff. unfold consumer_bit. apply forallb_lookup_total; [assumption|lia].
Qed.

Lemma wf_producer_bit (b : Buffer) (ID : Z) (i : nat) :
  wf b -> valid_slot b ID -> (i < MAX_PRODUCERS)%nat ->
  producer_bit b ID i = 0 \/ producer_bit b ID i = 1.
Proof.
  intros H Hv Hi. destruct (wf_producer_row b ID H Hv) as [Hl Hb].
  apply is_bit_iff. unfold producer_bit. apply forallb_lookup_total; [assumption|lia].
Qed.

Lemma wf_shutdown_bit (b : Buffer) :
  wf b -> shutdown_signal b = 0 \/ shutdown_signal b = 1.
Proof. intros H. wf_split H. apply is_bit_iff. assumption. Qed.

Lemma wf_zero_frames_bit (b : Buffer) :
  wf b -> zero_frames b = 0 \/ zero_frames b = 1.
Proof. intros H. wf_split H. apply is_bit_iff. assumption. Qed.

Lemma consumers_done_iff (b : Buffer) (ID : Z) :
  wf b -> valid_slot b ID ->
  (private_consumers_done b ID = 1 <-> all_consumers_done b ID).
Proof.
  intros H Hv. rewrite private_consumers_done_1. unfold all_consumers_done.
  split; intros Hall i Hr.
  - destruct Hr as [Hi Hu].
    destruct (wf_consumer_bit b ID i H Hv Hi) as [E|E]; [|assumption].
    exfalso. apply (Hall i); [split; assumption|assumption].
  - rewrite (Hall i Hr). discriminate.
Qed.

Lemma producers_done_iff (b : Buffer) (ID : Z) :
  wf b -> valid_slot b ID ->
  (private_producers_done b ID = 1 <-> all_producers_done b ID).
Proof.
  intros H Hv. rewrite private_producers_done_1. unfold all_producers_done.
  split; intros Hall i Hr.
  - destruct Hr as [Hi Hu].
    destruct (wf_producer_bit b ID i H Hv Hi) as [E|E]; [|assumption].
    exfalso. apply (Hall i); [split; assumption|assumption].
  - rewrite (Hall i Hr). discriminate.
Qed.

(** ** Acquiring an empty frame *)

Lemma valid_slot_checks (b : Buffer) (ID : Z) :
  valid_slot b ID -> (0 <=? ID) = true /\ (ID <? num_frames b) = true.
Proof. unfold valid_slot. intros [H1 H2]. split; [apply Z.leb_le|apply Z.ltb_lt]; lia. Qed.

Lemma invalid_slot_checks (b : Buffer) (ID : Z) :
  ~ valid_slot b ID -> (0 <=? ID) = false \/ (ID <? num_frames b) = false.
Proof.
  unfold valid_slot. intros H.
  destruct (0 <=? ID) eqn:E1; [|auto]. destruct (ID <? num_frames b) eqn:E2; [|auto].
  apply Z.leb_le in E1. apply Z.ltb_lt in E2. lia.
Qed.

Lemma valid_slot_intro (b : Buffer) (ID : Z) :
  (0 <=? ID) && (ID <? num_frames b) = true -> valid_slot b ID.
Proof.
  intros H. apply andb_prop in H as [H1 H2]. apply Z.leb_le in H1. apply Z.ltb_lt in H2.
  split; assumption.
Qed.

(** C5.  For a registered producer and a valid slot, [wait_for_empty_frame]
    returns [NULL] when the shutdown flag is set; otherwise it returns the
    frame pointer of the slot, recording the slot as the last frame acquired,
    exactly when the slot is not full and the producer's done bit for it is
    clear, and it blocks in every other case. *)
Theorem wait_for_empty_frame_outcome (b : Buffer) (nm : string) (ID : Z) :
  wf b -> valid_slot b ID -> private_get_producer_id b nm <> -1 ->
  let p := Z.to_nat (private_get_producer_id b nm) in
  (shutdown_signal b = 1 -> wait_for_empty_frame b nm ID = Ret (b, NULL))
  /\ (shutdown_signal b = 0 -> full_flag b ID = 0 /\ producer_bit b ID p = 0 ->
      exists b', wait_for_empty_frame b nm ID = Ret (b', arr_get (frames b) ID)
                 /\ last_frame_acquired (producers b' !!! p) = ID
                 /\ frames b' = frames b /\ is_full b' = is_full b
                 /\ producers_done b' = producers_done b)
  /\ (shutdown_signal b = 0 -> ~ (full_flag b ID = 0 /\ producer_bit b ID p = 0) ->
      wait_for_empty_frame b nm ID = Blocked).
Proof.
  intros Hwf Hv Hreg p.
  destruct (valid_slot_checks b ID Hv) as [C1 C2].
  destruct (private_get_producer_id_found b nm Hreg) as (i & Hi & [Hlt Hu] & _).
  assert (Hp : p = i) by (unfold p; rewrite Hi; apply Nat2Z.id).
  assert (Hne : (private_get_producer_id b nm =? -1) = false) by (apply Z.eqb_neq; assumption).
  destruct (wf_full_flag_bit b ID Hwf Hv) as [Hf|Hf];
    destruct (wf_producer_bit b ID i Hwf Hv Hlt) as [Hb|Hb];
    rewrite <- Hp in Hb;
    unfold wait_for_empty_frame; rewrite C1, C2, Hne; cbn [negb]; fold p;
    rewrite Hf, Hb; cbn [Z.eqb orb andb Pos.eqb];
    (split; [intros Hs; rewrite Hs; reflexivity|]);
    (split; [intros Hs [Hf' Hb']; try congruence|intros Hs Hn; rewrite ?Hs; try reflexivity]).
  - rewrite Hs. cbn. eexists. split; [reflexivity|]. cbn.
    repeat split. unfold arr_set. rewrite Hi, Nat2Z.id, Hp.
    rewrite list_lookup_total_insert_eq; [reflexivity|].
    destruct (wf_sizes b Hwf) as (_ & _ & _ & _ & Hl & _). lia.
  - exfalso. apply Hn. auto.
Qed.

(** ** The slot index is not checked by [wait_for_full_frame] *)

(** C10.  With a slot index outside [0, num_frames), [wait_for_empty_frame],
    [mark_frame_full] and [mark_frame_empty] fail their assertion, whereas
    [wait_for_full_frame], called by a registered consumer, has no such
    check and reads the per-slot arrays outside their bounds. *)
Theorem wait_for_full_frame_slot_unchecked (h : Heap) (b : Buffer) (nm : string)
  (ID now : Z) :
  wf b -> ~ valid_slot b ID -> private_get_consumer_id b nm <> -1 ->
  wait_for_empty_frame b nm ID = Abort
  /\ mark_frame_full h b nm ID now = Abort
  /\ mark_frame_empty h b nm ID = Abort
  /\ wait_for_full_frame b nm ID = Undefined.
Proof.
  intros Hwf Hv Hreg.
  unfold wait_for_empty_frame, mark_frame_full, mark_frame_empty, wait_for_full_frame.
  assert (Hne : (private_get_consumer_id b nm =? -1) = false) by (apply Z.eqb_neq; assumption).
  assert (Hr : in_range (is_full b) ID = false).
  { destruct (in_range (is_full b) ID) eqn:E; [|reflexivity].
    apply in_range_iff in E. destruct (wf_sizes b Hwf) as (Hn & Hl & _).
    exfalso. apply Hv. unfold valid_slot. lia. }
  rewrite Hne, Hr. cbn [negb].
  destruct (invalid_slot_checks b ID Hv) as [E|E]; rewrite E;
    [|destruct (0 <=? ID)]; repeat split; reflexivity.
Qed.

(** ** Done bits after an update *)

Lemma rows_get_set_same (rows : list (list Z)) (ID : Z) (row : list Z) :
  0 <= ID < Z.of_nat (length rows) -> arr_get (arr_set rows ID row) ID = row.
Proof. apply arr_get_set_eq. Qed.

Lemma row_set_lookup (row : list Z) (j : Z) (v : Z) (i : nat) :
  0 <= j < Z.of_nat (length row) ->
  arr_set row j v !!! i = if decide (i = Z.to_nat j) then v else row !!! i.
Proof.
  intros Hj. unfold arr_set. destruct (decide (i = Z.to_nat j)) as [->|Hne].
  - apply list_lookup_total_insert_eq. lia.
  - apply list_lookup_total_insert_ne. congruence.
Qed.

Lemma replicate_lookup_total (n i : nat) (v : Z) :
  (i < n)%nat -> replicate n v !!! i = v.
Proof.
  intros Hi. apply list_lookup_total_correct. apply lookup_replicate_2. assumption.
Qed.

(** The name lookups only read [in_use] and [name]. *)
Lemma find_ext_in {A : Type} (f g : A -> bool) (l : list A) :
  (forall x, In x l -> f x = g x) -> List.find f l = List.find g l.
Proof.
  induction l as [|x l IH]; intros Hfg; [reflexivity|]. simpl.
  rewrite (Hfg x (or_introl eq_refl)). destruct (g x); [reflexivity|].
  apply IH. intros y Hy. apply Hfg. right. exact Hy.
Qed.

Lemma private_get_producer_id_ext (b b' : Buffer) (nm : string) :
  (forall i, (i < MAX_PRODUCERS)%nat ->
     in_use (producers b' !!! i) = in_use (producers b !!! i)
     /\ name (producers b' !!! i) = name (producers b !!! i)) ->
  private_get_producer_id b' nm = private_get_producer_id b nm.
Proof.
  intros Hext. unfold private_get_producer_id.
  rewrite (find_ext_in (fun i => stage_matches (producers b' !!! i) nm)
             (fun i => stage_matches (producers b !!! i) nm)); [reflexivity|].
  intros i Hin. apply in_seq in Hin. unfold stage_matches.
  destruct (Hext i ltac:(lia)) as [-> ->]. reflexivity.
Qed.

Lemma private_get_consumer_id_ext (b b' : Buffer) (nm : string) :
  (forall i, (i < MAX_CONSUMERS)%nat ->
     in_use (consumers b' !!! i) = in_use (consumers b !!! i)
     /\ name (consumers b' !!! i) = name (consumers b !!! i)) ->
  private_get_consumer_id b' nm = private_get_consumer_id b nm.
Proof.
  intros Hext. unfold private_get_consumer_id.
  rewrite (find_ext_in (fun i => stage_matches (consumers b' !!! i) nm)
             (fun i => stage_matches (consumers b !!! i) nm)); [reflexivity|].
  intros i Hin. apply in_seq in Hin. unfold stage_matches.
  destruct (Hext i ltac:(lia)) as [-> ->]. reflexivity.
Qed.

(** Updating the bookkeeping fields of one row keeps [in_use] and [name] of
    every row. *)
Lemma table_update_keeps (tbl : list StageInfo) (j : Z) (f : StageInfo -> StageInfo)
  (i : nat) :
  (forall s, in_use (f s) = in_use s /\ name (f s) = name s) ->
  in_use (arr_set tbl j (f (arr_get tbl j)) !!! i) = in_use (tbl !!! i)
  /\ name (arr_set tbl j (f (arr_get tbl j)) !!! i) = name (tbl !!! i).
Proof.
  intros Hf. unfold arr_set, arr_get.
  destruct (decide (Z.to_nat j < length tbl)%nat) as [Hlt|Hge].
  - destruct (decide (i = Z.to_nat j)) as [->|Hne].
    + rewrite list_lookup_total_insert_eq by assumption. apply Hf.
    + rewrite list_lookup_total_insert_ne by congruence. auto.
  - rewrite list_insert_ge by lia. auto.
Qed.

Lemma registered_producer_ext (b b' : Buffer) (i : nat) :
  (forall i, in_use (producers b' !!! i) = in_use (producers b !!! i)) ->
  registered_producer b' i <-> registered_producer b i.
Proof. intros H. unfold registered_producer. rewrite H. tauto. Qed.

Lemma registered_consumer_ext (b b' : Buffer) (i : nat) :
  (forall i, in_use (consumers b' !!! i) = in_use (consumers b !!! i)) ->
  registered_consumer b' i <-> registered_consumer b i.
Proof. intros H. unfold registered_consumer. rewrite H. tauto. Qed.

(** ** Marking a frame full *)

Lemma private_mark_producer_done_ret (b : Buffer) (nm : string) (ID : Z) :
  private_get_producer_id b nm <> -1 ->
  producer_bit b ID (Z.to_nat (private_get_producer_id b nm)) = 0 ->
  private_mark_producer_done b nm ID =
    Ret (set_producers_done
           (set_producers b
              (arr_set (producers b) (private_get_producer_id b nm)
                 (stage_set_released
                    (arr_get (producers b) (private_get_producer_id b nm)) ID)))
           (arr_set (producers_done b) ID
              (arr_set (arr_get (producers_done b) ID) (private_get_producer_id b nm) 1))).
Proof.
  intros Hreg Hbit. unfold private_mark_producer_done.
  apply Z.eqb_neq in Hreg. rewrite Hreg, Hbit. reflexivity.
Qed.

Lemma private_mark_consumer_done_ret (b : Buffer) (nm : string) (ID : Z) :
  private_get_consumer_id b nm <> -1 ->
  consumer_bit b ID (Z.to_nat (private_get_consumer_id b nm)) = 0 ->
  private_mark_consumer_done b nm ID =
    Ret (set_consumers_done
           (set_consumers b
              (arr_set (consumers b) (private_get_consumer_id b nm)
                 (stage_set_released
                    (arr_get (consumers b) (private_get_consumer_id b nm)) ID)))
           (arr_set (consumers_done b) ID
              (arr_set (arr_get (consumers_done b) ID) (private_get_consumer_id b nm) 1))).
Proof.
  intros Hreg Hbit. unfold private_mark_consumer_done.
  apply Z.eqb_neq in Hreg. rewrite Hreg, Hbit. reflexivity.
Qed.


(** ** Operations on two buffers *)

Lemma deref_Some (w : World) (buf : Z) (b : Buffer) :
  bufs w !! buf = Some b -> deref w buf = Ret b.
Proof. intros H. unfold deref. rewrite H. reflexivity. Qed.

Lemma store_same (w : World) (buf : Z) (b : Buffer) :
  bufs w !! buf = Some b -> store w buf b = w.
Proof. intros H. unfold store. rewrite insert_id by exact H. destruct w; reflexivity. Qed.

Lemma set_heap_same (w : World) : set_heap w (heap w) = w.
Proof. destruct w; reflexivity. Qed.

Lemma ref_count_of_increment (h : Heap) (c : Z) (m : metadataContainer) :
  containers h !! c = Some m ->
  ref_count_of (increment_metadata_ref_count h c) c = ref_count m + 1.
Proof.
  intros Hm. unfold ref_count_of, increment_metadata_ref_count. cbn.
  rewrite lookup_alter_eq, Hm. reflexivity.
Qed.

Lemma ref_count_of_decrement (h : Heap) (c : Z) (m : metadataContainer) :
  containers h !! c = Some m ->
  ref_count_of (decrement_metadata_ref_count h c) c = ref_count m - 1.
Proof.
  intros Hm. unfold ref_count_of, decrement_metadata_ref_count. cbn.
  rewrite lookup_alter_eq, Hm. reflexivity.
Qed.

(** C7.  With a container [c] on the source slot, [pass_metadata] binds the
    destination slot to that very container and increments its reference
    count when the destination slot holds none; it changes nothing when the
    destination slot already holds [c]; it fails its assertion when the
    destination slot holds another container.  A second identical call
    changes nothing. *)
Theorem pass_metadata_shares_container (w : World) (from_buf from_ID to_buf to_ID : Z)
  (fb tb : Buffer) (c : Z) :
  bufs w !! from_buf = Some fb -> bufs w !! to_buf = Some tb ->
  in_range (metadata fb) from_ID = true -> in_range (metadata tb) to_ID = true ->
  arr_get (metadata fb) from_ID = c -> c <> NULL ->
  (arr_get (metadata tb) to_ID = NULL ->
     let tb' := set_metadata tb (arr_set (metadata tb) to_ID c) in
     let w' := set_heap (store w to_buf tb') (increment_metadata_ref_count (heap w) c) in
     pass_metadata w from_buf from_ID to_buf to_ID = Ret w'
     /\ arr_get (metadata tb') to_ID = c
     /\ (forall m, containers (heap w) !! c = Some m ->
                   ref_count_of (heap w') c = ref_count m + 1)
     /\ pass_metadata w' from_buf from_ID to_buf to_ID = Ret w')
  /\ (arr_get (metadata tb) to_ID = c ->
        pass_metadata w from_buf from_ID to_buf to_ID = Ret w)
  /\ (arr_get (metadata tb) to_ID <> NULL -> arr_get (metadata tb) to_ID <> c ->
        pass_metadata w from_buf from_ID to_buf to_ID = Abort).
Proof.
  intros Hfb Htb Hfr Htr Hc Hnn.
  assert (Hcn : (c =? NULL) = false) by (apply Z.eqb_neq; exact Hnn).
  assert (Hsame : forall w0 fb0 tb0,
            bufs w0 !! from_buf = Some fb0 -> bufs w0 !! to_buf = Some tb0 ->
            in_range (metadata fb0) from_ID = true -> in_range (metadata tb0) to_ID = true ->
            arr_get (metadata fb0) from_ID = c -> arr_get (metadata tb0) to_ID = c ->
            pass_metadata w0 from_buf from_ID to_buf to_ID = Ret w0).
  { intros w0 fb0 tb0 Hf0 Ht0 Hfr0 Htr0 Hc0 Ht0c. unfold pass_metadata.
    rewrite (deref_Some _ _ _ Hf0), (deref_Some _ _ _ Ht0).
    cbn [mbind result_mbind result_bind].
    rewrite Hfr0, Htr0, Hc0, Ht0c, Hcn. cbn [negb]. rewrite Ht0c, Z.eqb_refl.
    rewrite (store_same _ _ _ Ht0), set_heap_same. reflexivity. }
  split; [|split].
  - intros Hnull tb' w'.
    assert (Hget : arr_get (metadata tb') to_ID = c).
    { unfold tb'. cbn [set_metadata metadata]. apply arr_get_set_eq.
      apply in_range_iff. exact Htr. }
    split; [|split; [exact Hget|split]].
    + unfold pass_metadata.
      rewrite (deref_Some _ _ _ Hfb), (deref_Some _ _ _ Htb).
      cbn [mbind result_mbind result_bind].
      rewrite Hfr, Htr, Hc, Hnull, Hcn. cbn [negb Z.eqb NULL].
      fold tb'. rewrite Hget, Z.eqb_refl. reflexivity.
    + intros m Hm. unfold w'. cbn [set_heap heap]. apply ref_count_of_increment. exact Hm.
    + destruct (decide (from_buf = to_buf)) as [Heq|Hneq].
      * subst to_buf. assert (fb = tb) by congruence. subst tb.
        assert (Hid : from_ID <> to_ID) by (intros ->; congruence).
        apply in_range_iff in Hfr, Htr.
        apply (Hsame w' tb' tb').
        -- unfold w'. cbn. apply lookup_insert_eq.
        -- unfold w'. cbn. apply lookup_insert_eq.
        -- apply in_range_iff. unfold tb'. cbn [set_metadata metadata].
           rewrite length_arr_set. exact Hfr.
        -- apply in_range_iff. unfold tb'. cbn [set_metadata metadata].
           rewrite length_arr_set. exact Htr.
        -- unfold tb'. cbn [set_metadata metadata].
           rewrite arr_get_set_ne by lia. exact Hc.
        -- exact Hget.
      * apply (Hsame w' fb tb').
        -- unfold w'. cbn. rewrite lookup_insert_ne by congruence. exact Hfb.
        -- unfold w'. cbn. apply lookup_insert_eq.
        -- exact Hfr.
        -- apply in_range_iff. unfold tb'. cbn [set_metadata metadata].
           rewrite length_arr_set. apply in_range_iff. exact Htr.
        -- exact Hc.
        -- exact Hget.
  - intros Ht. apply (Hsame w fb tb); assumption.
  - intros Hn1 Hn2. unfold pass_metadata.
    rewrite (deref_Some _ _ _ Hfb), (deref_Some _ _ _ Htb).
    cbn [mbind result_mbind result_bind].
    rewrite Hfr, Htr, Hc, Hcn. cbn [negb].
    apply Z.eqb_neq in Hn1, Hn2. rewrite Hn1, Hn2. reflexivity.
Qed.

Lemma set_frames_restore (b : Buffer) (v : list Z) :
  set_frames (set_frames b v) (frames b) = b.
Proof. destruct b; reflexivity. Qed.

Lemma arr_set_restore {A : Type} `{Inhabited A} (l : list A) (i : Z) (x : A) :
  0 <= i < Z.of_nat (length l) -> arr_set (arr_set l i x) i (arr_get l i) = l.
Proof.
  intros Hi. unfold arr_set, arr_get. rewrite list_insert_insert_eq.
  apply list_insert_id. apply list_lookup_lookup_total_lt. lia.
Qed.

(** C8.  For two distinct buffers and valid slots, [swap_frames] exchanges
    the two frame pointers and nothing else; a swap from A to B followed by
    the swap from B to A gives back the initial state; a difference of the
    aligned frame sizes, a number of consumers of the source other than one
    and a number of producers of the destination other than one each fail
    an assertion. *)
Theorem swap_frames_exchanges_pointers (w : World) (A a B b : Z) (ba bb : Buffer) :
  bufs w !! A = Some ba -> bufs w !! B = Some bb ->
  A <> B -> A <> NULL -> B <> NULL ->
  wf ba -> wf bb -> valid_slot ba a -> valid_slot bb b ->
  let ba' := set_frames ba (arr_set (frames ba) a (arr_get (frames bb) b)) in
  let bb' := set_frames bb (arr_set (frames bb) b (arr_get (frames ba) a)) in
  (aligned_frame_size ba = aligned_frame_size bb ->
   get_num_consumers ba = 1 -> get_num_producers bb = 1 ->
     swap_frames w A a B b = Ret (store (store w A ba') B bb')
     /\ arr_get (frames ba') a = arr_get (frames bb) b
     /\ arr_get (frames bb') b = arr_get (frames ba) a
     /\ (get_num_consumers bb = 1 -> get_num_producers ba = 1 ->
         swap_frames (store (store w A ba') B bb') B b A a = Ret w))
  /\ (aligned_frame_size ba <> aligned_frame_size bb -> swap_frames w A a B b = Abort)
  /\ (get_num_consumers ba <> 1 -> swap_frames w A a B b = Abort)
  /\ (get_num_producers bb <> 1 -> swap_frames w A a B b = Abort).
Proof.
  intros HA HB Hne HAn HBn Hwa Hwb Hva Hvb ba' bb'.
  destruct (valid_slot_checks ba a Hva) as [Ca1 Ca2].
  destruct (valid_slot_checks bb b Hvb) as [Cb1 Cb2].
  destruct (wf_sizes ba Hwa) as (_ & _ & Lfa & _).
  destruct (wf_sizes bb Hwb) as (_ & _ & Lfb & _).
  unfold valid_slot in Hva, Hvb.
  assert (E1 : (A =? B) = false) by (apply Z.eqb_neq; exact Hne).
  assert (E1' : (B =? A) = false) by (apply Z.eqb_neq; congruence).
  assert (E2 : (A =? NULL) = false) by (apply Z.eqb_neq; exact HAn).
  assert (E3 : (B =? NULL) = false) by (apply Z.eqb_neq; exact HBn).
  assert (Hpre : swap_frames w A a B b =
            c_assert (aligned_frame_size ba =? aligned_frame_size bb) ;;
            c_assert (get_num_consumers ba =? 1) ;;
            c_assert (get_num_producers bb =? 1) ;;
            Ret (store (store w A ba') B bb')).
  { unfold swap_frames. rewrite E1, E2, E3, Ca1. cbn [negb].
    rewrite (deref_Some _ _ _ HA). cbn [mbind result_mbind result_bind].
    rewrite Ca2, Cb1. rewrite (deref_Some _ _ _ HB). cbn [mbind result_mbind result_bind].
    rewrite Cb2. reflexivity. }
  split; [|split; [|split]].
  - intros Hsz Hc Hp. rewrite Hpre, Hsz, Hc, Hp, Z.eqb_refl. cbn [Z.eqb Pos.eqb].
    split; [reflexivity|]. split; [|split].
    + unfold ba'. cbn [set_frames frames]. apply arr_get_set_eq. lia.
    + unfold bb'. cbn [set_frames frames]. apply arr_get_set_eq. lia.
    + intros Hc' Hp'. unfold swap_frames. rewrite E1', E2, E3, Cb1. cbn [negb].
      assert (HB' : bufs (store (store w A ba') B bb') !! B = Some bb').
      { cbn. apply lookup_insert_eq. }
      assert (HA' : bufs (store (store w A ba') B bb') !! A = Some ba').
      { cbn. rewrite lookup_insert_ne by congruence. apply lookup_insert_eq. }
      rewrite (deref_Some _ _ _ HB'). cbn [mbind result_mbind result_bind].
      change (num_frames bb') with (num_frames bb). rewrite Cb2, Ca1.
      rewrite (deref_Some _ _ _ HA'). cbn [mbind result_mbind result_bind].
      change (num_frames ba') with (num_frames ba). rewrite Ca2.
      change (aligned_frame_size bb') with (aligned_frame_size bb).
      change (aligned_frame_size ba') with (aligned_frame_size ba).
      rewrite Hsz, Z.eqb_refl.
      change (get_num_consumers bb') with (get_num_consumers bb).
      change (get_num_producers ba') with (get_num_producers ba).
      rewrite Hc', Hp'. cbn [Z.eqb Pos.eqb].
      f_equal.
      assert (Eb : set_frames bb' (arr_set (frames bb') b (arr_get (frames ba') a)) = bb).
      { unfold bb', ba'. cbn [set_frames frames].
        rewrite (arr_get_set_eq (frames ba)) by lia.
        rewrite arr_set_restore by lia.
        apply (set_frames_restore bb). }
      assert (Ea : set_frames ba' (arr_set (frames ba') a (arr_get (frames bb') b)) = ba).
      { unfold bb', ba'. cbn [set_frames frames].
        rewrite (arr_get_set_eq (frames bb)) by lia.
        rewrite arr_set_restore by lia.
        apply (set_frames_restore ba). }
      rewrite Eb, Ea. unfold store. cbn [bufs heap].
      destruct w as [m hp]. cbn [bufs heap]. f_equal.
      apply map_eq. intros k.
      destruct (decide (k = A)) as [->|HkA]; [rewrite lookup_insert_eq; auto|].
      rewrite lookup_insert_ne by congruence.
      destruct (decide (k = B)) as [->|HkB]; [rewrite lookup_insert_eq; auto|].
      rewrite !lookup_insert_ne by congruence. reflexivity.
  - intros Hsz. rewrite Hpre. apply Z.eqb_neq in Hsz. rewrite Hsz. reflexivity.
  - intros Hc. rewrite Hpre. apply Z.eqb_neq in Hc. rewrite Hc.
    destruct (aligned_frame_size ba =? aligned_frame_size bb); reflexivity.
  - intros Hp. rewrite Hpre. apply Z.eqb_neq in Hp. rewrite Hp.
    destruct (aligned_frame_size ba =? aligned_frame_size bb);
      destruct (get_num_consumers ba =? 1); reflexivity.
Qed.

(** ** The timed wait *)

Lemma timed_wait_loop_test (fuel : nat) (now abstime : timespec) (env : list (Buffer * Z))
  (b : Buffer) (ID cid err : Z) :
  timed_wait_loop (S fuel) now abstime env b ID cid err =
    if has_to_wait b ID cid && (err =? 0)
    then r ← pthread_cond_timedwait now abstime env b;
         timed_wait_loop fuel now abstime r.2 r.1.1 ID cid r.1.2
    else Ret (b, err).
Proof.
  cbn [timed_wait_loop]. unfold has_to_wait.
  destruct (_ && _); [|reflexivity].
  destruct (pthread_cond_timedwait now abstime env b) as [[[b' e] env']| | |]; reflexivity.
Qed.

(** A deadline that has passed: the wait returns at once with [ETIMEDOUT]. *)
Lemma timed_wait_loop_past (fuel : nat) (now abstime : timespec) (env : list (Buffer * Z))
  (b : Buffer) (ID cid err : Z) :
  valid_nsec abstime = true -> timespec_leb abstime now = true ->
  timed_wait_loop (S (S fuel)) now abstime env b ID cid err =
    if has_to_wait b ID cid && (err =? 0) then Ret (b, ETIMEDOUT) else Ret (b, err).
Proof.
  intros Hv Hpast. rewrite timed_wait_loop_test.
  destruct (has_to_wait b ID cid && (err =? 0)) eqn:E; [|reflexivity].
  unfold pthread_cond_timedwait. rewrite Hv, Hpast.
  cbn [negb mbind result_mbind result_bind fst snd]. rewrite timed_wait_loop_test.
  cbn [ETIMEDOUT Z.eqb]. rewrite andb_false_r. reflexivity.
Qed.

(** Nanoseconds out of range: the wait fails at once with [EINVAL]. *)
Lemma timed_wait_loop_invalid (fuel : nat) (now abstime : timespec) (env : list (Buffer * Z))
  (b : Buffer) (ID cid err : Z) :
  valid_nsec abstime = false ->
  timed_wait_loop (S (S fuel)) now abstime env b ID cid err =
    if has_to_wait b ID cid && (err =? 0) then Ret (b, EINVAL) else Ret (b, err).
Proof.
  intros Hv. rewrite timed_wait_loop_test.
  destruct (has_to_wait b ID cid && (err =? 0)) eqn:E; [|reflexivity].
  unfold pthread_cond_timedwait. rewrite Hv.
  cbn [negb mbind result_mbind result_bind fst snd]. rewrite timed_wait_loop_test.
  cbn [EINVAL Z.eqb]. rewrite andb_false_r. reflexivity.
Qed.

(** The consumer does not have to wait: the loop is not entered. *)
Lemma timed_wait_loop_exit (fuel : nat) (now abstime : timespec) (env : list (Buffer * Z))
  (b : Buffer) (ID cid err : Z) :
  has_to_wait b ID cid = false ->
  timed_wait_loop (S fuel) now abstime env b ID cid err = Ret (b, err).
Proof. intros H. rewrite timed_wait_loop_test, H. reflexivity. Qed.




(** ** Well-formedness is preserved *)

Ltac fields :=
  cbn [num_frames frame_size aligned_frame_size is_full frames metadata producers
       consumers producers_done consumers_done shutdown_signal zero_frames
       last_arrival_time metadata_pool buffer_name buffer_type zero_pool
       set_is_full set_frames set_metadata set_producers set_consumers
       set_producers_done set_consumers_done set_shutdown_signal set_zero_frames
       set_last_arrival_time set_zero_pool private_reset_consumers
       private_reset_producers zero_frames_on send_shutdown_signal fst snd
       in_use name last_frame_acquired last_frame_released
       stage_set_in_use stage_set_name stage_set_acquired stage_set_released
       fresh_stage] in *.

Lemma row_ok_set (n : nat) (row : list Z) (j v : Z) :
  is_bit v = true ->
  bool_decide (length row = n) && forallb is_bit row = true ->
  bool_decide (length (arr_set row j v) = n) && forallb is_bit (arr_set row j v) = true.
Proof.
  intros Hv H. apply andb_prop in H as [Hl Hb]. apply andb_true_intro.
  rewrite length_arr_set. split; [exact Hl|]. apply forallb_insert; assumption.
Qed.

Lemma row_ok_replicate (n : nat) :
  bool_decide (length (replicate n 0) = n) && forallb is_bit (replicate n 0) = true.
Proof.
  apply andb_true_intro. split.
  - apply bool_decide_eq_true. apply length_replicate.
  - apply forallb_replicate. reflexivity.
Qed.

Ltac wf_component :=
  first
    [ assumption
    | reflexivity
    | rewrite ?length_arr_set, ?length_insert; assumption
    | apply forallb_insert; [assumption | first [reflexivity | apply row_ok_replicate]]
    | apply (forallb_insert_lookup _ (fun row => arr_set row _ _));
      [assumption | intros ? ?; apply row_ok_set; [reflexivity | assumption]]
    | apply (forallb_insert_lookup (fun s => is_bit (in_use s)) (fun s => stage_set_released s _));
      [assumption | intros ? ?; assumption]
    | apply (forallb_insert_lookup (fun s => is_bit (in_use s)) (fun s => stage_set_acquired s _));
      [assumption | intros ? ?; assumption] ].

Ltac wf_tac H :=
  wf_split H; unfold wf, wfb; fields;
  repeat (apply andb_true_intro; split); wf_component.

Lemma wf_private_reset_consumers (b : Buffer) (ID : Z) :
  wf b -> wf (private_reset_consumers b ID).
Proof. intros H. wf_tac H. Qed.

Lemma wf_private_reset_producers (b : Buffer) (ID : Z) :
  wf b -> wf (private_reset_producers b ID).
Proof. intros H. wf_tac H. Qed.

Lemma wf_set_is_full (b : Buffer) (ID v : Z) :
  wf b -> is_bit v = true -> wf (set_is_full b (arr_set (is_full b) ID v)).
Proof.
  intros H Hv. wf_split H. unfold wf, wfb; fields.
  repeat (apply andb_true_intro; split); try wf_component.
  apply forallb_insert; assumption.
Qed.

Lemma wf_set_metadata (b : Buffer) (ID c : Z) :
  wf b -> wf (set_metadata b (arr_set (metadata b) ID c)).
Proof. intros H. wf_tac H. Qed.

Lemma wf_set_frames (b : Buffer) (ID p : Z) :
  wf b -> wf (set_frames b (arr_set (frames b) ID p)).
Proof. intros H. wf_tac H. Qed.

Lemma wf_set_last_arrival_time (b : Buffer) (t : Z) :
  wf b -> wf (set_last_arrival_time b t).
Proof. intros H. wf_tac H. Qed.

Lemma wf_set_zero_pool (b : Buffer) (l : list (Z * zero_stage)) :
  wf b -> wf (set_zero_pool b l).
Proof. intros H. wf_tac H. Qed.

Lemma wf_zero_frames_on (b : Buffer) : wf b -> wf (zero_frames_on b).
Proof. intros H. wf_tac H. Qed.

Lemma wf_send_shutdown_signal (b : Buffer) : wf b -> wf (send_shutdown_signal b).1.
Proof. intros H. wf_tac H. Qed.

Lemma wf_private_mark_consumer_done (b b1 : Buffer) (nm : string) (ID : Z) :
  wf b -> private_mark_consumer_done b nm ID = Ret b1 -> wf b1.
Proof.
  intros H. unfold private_mark_consumer_done.
  destruct (negb _); [|discriminate]. destruct (_ =? 0); [|discriminate].
  intros E. injection E as <-. wf_tac H.
Qed.

Lemma wf_private_mark_producer_done (b b1 : Buffer) (nm : string) (ID : Z) :
  wf b -> private_mark_producer_done b nm ID = Ret b1 -> wf b1.
Proof.
  intros H. unfold private_mark_producer_done.
  destruct (negb _); [|discriminate]. destruct (_ =? 0); [|discriminate].
  intros E. injection E as <-. wf_tac H.
Qed.

Lemma wf_release_metadata (h : Heap) (b : Buffer) (ID : Z) :
  wf b -> wf (release_metadata h b ID).2.
Proof.
  intros H. unfold release_metadata. destruct (_ =? NULL); cbn [snd]; [exact H|].
  apply wf_set_metadata. exact H.
Qed.

Lemma wf_private_mark_frame_empty (h : Heap) (b : Buffer) (id : Z) :
  wf b -> wf (private_mark_frame_empty h b id).1.2.
Proof.
  intros H. unfold private_mark_frame_empty.
  destruct (zero_frames b =? 1).
  - pose proof (wf_release_metadata h
                  (set_zero_pool b (zero_pool b ++ [(id, at_nt_memset)])) id
                  (wf_set_zero_pool _ _ H)) as W.
    destruct (release_metadata _ _ _) as [h2 b2]. exact W.
  - pose proof (wf_release_metadata h
                  (private_reset_consumers (set_is_full b (arr_set (is_full b) id 0)) id) id
                  (wf_private_reset_consumers _ _ (wf_set_is_full b id 0 H eq_refl))) as W.
    destruct (release_metadata _ _ _) as [h2 b2]. exact W.
Qed.

Lemma wf_mark_frame_full (h h' : Heap) (b b' : Buffer) (nm : string) (ID now : Z)
  (sig : list cond) :
  wf b -> mark_frame_full h b nm ID now = Ret (h', b', sig) -> wf b'.
Proof.
  intros H. unfold mark_frame_full.
  destruct (0 <=? ID); [|discriminate]. destruct (ID <? num_frames b); [|discriminate].
  destruct (private_mark_producer_done b nm ID) as [b1| | |] eqn:E1; try discriminate.
  cbn [mbind result_mbind result_bind].
  pose proof (wf_private_mark_producer_done _ _ _ _ H E1) as W1.
  destruct (private_producers_done b1 ID =? 1).
  - set (b4 := set_last_arrival_time _ _).
    assert (W4 : wf b4).
    { apply wf_set_last_arrival_time.
      apply (wf_set_is_full (private_reset_producers b1 ID) ID 1); [|reflexivity].
      apply wf_private_reset_producers. exact W1. }
    destruct (private_consumers_done b4 ID =? 1).
    + pose proof (wf_release_metadata h (set_is_full b4 (arr_set (is_full b4) ID 0)) ID
                    (wf_set_is_full b4 ID 0 W4 eq_refl)) as W6.
      destruct (release_metadata _ _ _) as [h6 b6]. intros E. injection E as <- <- <-.
      apply wf_private_reset_consumers. exact W6.
    + intros E. injection E as <- <- <-. exact W4.
  - intros E. injection E as <- <- <-. exact W1.
Qed.

Lemma wf_mark_frame_empty (h h' : Heap) (b b' : Buffer) (nm : string) (ID : Z)
  (sig : list cond) :
  wf b -> mark_frame_empty h b nm ID = Ret (h', b', sig) -> wf b'.
Proof.
  intros H. unfold mark_frame_empty.
  destruct (0 <=? ID); [|discriminate]. destruct (ID <? num_frames b); [|discriminate].
  destruct (private_mark_consumer_done b nm ID) as [b1| | |] eqn:E1; try discriminate.
  cbn [mbind result_mbind result_bind].
  pose proof (wf_private_mark_consumer_done _ _ _ _ H E1) as W1.
  destruct (private_consumers_done b1 ID =? 1).
  - pose proof (wf_private_mark_frame_empty h b1 ID W1) as W2.
    destruct (private_mark_frame_empty h b1 ID) as [[h2 b2] r].
    intros E. injection E as <- <- <-. exact W2.
  - intros E. injection E as <- <- <-. exact W1.
Qed.

Lemma wf_unregister_scan (ids : list nat) :
  forall (h : Heap) (b : Buffer) (r : Z),
  wf b -> wf (unregister_scan ids h b r).1.2.
Proof.
  induction ids as [|id ids IH]; intros h b r H; [exact H|].
  cbn [unregister_scan]. destruct (private_consumers_done b (Z.of_nat id) =? 1).
  - pose proof (wf_private_mark_frame_empty h b (Z.of_nat id) H) as W.
    destruct (private_mark_frame_empty h b (Z.of_nat id)) as [[h1 b1] r1].
    apply IH. exact W.
  - apply IH. exact H.
Qed.

Lemma wf_unregister_consumer (h h' : Heap) (b b' : Buffer) (nm : string) (sig : list cond) :
  wf b -> unregister_consumer h b nm = Ret (h', b', sig) -> wf b'.
Proof.
  intros H. unfold unregister_consumer.
  destruct (private_get_consumer_id b nm =? -1); [discriminate|].
  set (b1 := set_consumers b _).
  assert (W1 : wf b1).
  { unfold b1. wf_split H. unfold wf, wfb; fields.
    repeat (apply andb_true_intro; split); wf_component. }
  pose proof (wf_unregister_scan (seq 0 (Z.to_nat (num_frames b1))) h b1 0 W1) as W2.
  destruct (unregister_scan _ h b1 0) as [[h2 b2] r].
  intros E. injection E as <- <- <-. exact W2.
Qed.

Lemma wf_register_consumer (b b' : Buffer) (nm : string) :
  wf b -> register_consumer b nm = Ret b' -> wf b'.
Proof.
  intros H. unfold register_consumer. destruct (negb _); [discriminate|].
  destruct (first_free _ _) as [i|]; [|discriminate].
  intros E. injection E as <-. wf_tac H.
Qed.

Lemma wf_register_producer (b b' : Buffer) (nm : string) :
  wf b -> register_producer b nm = Ret b' -> wf b'.
Proof.
  intros H. unfold register_producer. destruct (negb _); [discriminate|].
  destruct (first_free _ _) as [i|]; [|discriminate].
  intros E. injection E as <-. wf_tac H.
Qed.

Lemma wf_wait_for_empty_frame (b b' : Buffer) (nm : string) (ID p : Z) :
  wf b -> wait_for_empty_frame b nm ID = Ret (b', p) -> wf b'.
Proof.
  intros H. unfold wait_for_empty_frame.
  destruct (0 <=? ID); [|discriminate]. destruct (ID <? num_frames b); [|discriminate].
  destruct (negb _); [|discriminate]. destruct (_ && _); [discriminate|].
  destruct (shutdown_signal b =? 1); intros E; injection E as <- <-; [exact H|].
  wf_tac H.
Qed.

Lemma wf_wait_for_full_frame (b b' : Buffer) (nm : string) (ID p : Z) :
  wf b -> wait_for_full_frame b nm ID = Ret (b', p) -> wf b'.
Proof.
  intros H. unfold wait_for_full_frame.
  destruct (negb (_ =? -1)); [|discriminate]. destruct (negb (in_range _ _)); [discriminate|].
  destruct (_ && _); [discriminate|].
  destruct (shutdown_signal b =? 1); intros E; injection E as <- <-; [exact H|].
  wf_tac H.
Qed.

Lemma timed_wait_loop_alone (fuel : nat) (now abstime : timespec) :
  forall (b b1 : Buffer) (ID cid err e : Z),
  timed_wait_loop fuel now abstime [] b ID cid err = Ret (b1, e) -> b1 = b.
Proof.
  induction fuel as [|fuel IH]; intros b b1 ID cid err e; [discriminate|].
  cbn [timed_wait_loop]. destruct (_ && _); [|intros E; injection E as <- <-; reflexivity].
  unfold pthread_cond_timedwait.
  destruct (negb (valid_nsec abstime)); [cbn [mbind result_mbind result_bind]; apply IH|].
  destruct (timespec_leb abstime now); [|discriminate].
  cbn [mbind result_mbind result_bind]. apply IH.
Qed.

(** Without a wake-up by another thread the timed wait changes at most the
    [last_frame_acquired] of the calling consumer. *)
Lemma wait_for_full_frame_timeout_alone (b b' : Buffer) (nm : string) (ID r : Z)
  (now timeout : timespec) :
  wait_for_full_frame_timeout b nm ID now timeout [] = Ret (b', r) ->
  b' = b
  \/ b' = set_consumers b
            (arr_set (consumers b) (private_get_consumer_id b nm)
               (stage_set_acquired (arr_get (consumers b) (private_get_consumer_id b nm)) ID)).
Proof.
  unfold wait_for_full_frame_timeout.
  destruct (negb (_ =? -1)); [|discriminate]. destruct (negb (in_range _ _)); [discriminate|].
  destruct (timed_wait_loop _ _ _ _ _ _ _ _) as [[b1 e]| | |] eqn:E; try discriminate.
  apply timed_wait_loop_alone in E. subst b1.
  cbn [mbind result_mbind result_bind].
  destruct (shutdown_signal b =? 1); [intros E; injection E as <- <-; auto|].
  destruct (e =? ETIMEDOUT); intros E; injection E as <- <-; auto.
Qed.

Lemma wf_wait_for_full_frame_timeout (b b' : Buffer) (nm : string) (ID r : Z)
  (now timeout : timespec) :
  wf b -> wait_for_full_frame_timeout b nm ID now timeout [] = Ret (b', r) -> wf b'.
Proof.
  intros H E. destruct (wait_for_full_frame_timeout_alone _ _ _ _ _ _ _ E) as [->| ->];
    [exact H|]. wf_tac H.
Qed.

Lemma wf_allocate_new_metadata_object (h h' : Heap) (b b' : Buffer) (ID : Z) :
  wf b -> allocate_new_metadata_object h b ID = Ret (h', b') -> wf b'.
Proof.
  intros H. unfold allocate_new_metadata_object.
  destruct (0 <=? ID); [|discriminate]. destruct (ID <? num_frames b); [|discriminate].
  destruct (metadata_pool b =? NULL); [discriminate|].
  destruct (arr_get (metadata b) ID =? NULL).
  - destruct (request_metadata_object h (metadata_pool b)) as [h1 c].
    destruct (_ =? NULL); [discriminate|]. intros E. injection E as <- <-.
    apply wf_set_metadata. exact H.
  - destruct (_ =? NULL); [discriminate|]. intros E. injection E as <- <-. exact H.
Qed.

Lemma wf_swap_external_frame (b b' : Buffer) (i ext p : Z) :
  wf b -> swap_external_frame b i ext = Ret (b', p) -> wf b'.
Proof.
  intros H. unfold swap_external_frame.
  destruct (_ =? 1); [|discriminate]. destruct (negb _); [discriminate|].
  intros E. injection E as <- <-. apply wf_set_frames. exact H.
Qed.

(** *** The steps of a zeroing thread *)

Lemma slots_advance_thread (ID : Z) (st st' : zero_stage) (pool : list (Z * zero_stage)) :
  (advance_thread ID st st' pool).*1 = pool.*1.
Proof.
  induction pool as [|[i s] pool IH]; [reflexivity|]. cbn [advance_thread].
  destruct (is_thread ID st (i, s)) eqn:E; cbn [fmap list_fmap fst].
  - unfold is_thread in E. apply andb_prop in E as [E _]. apply Z.eqb_eq in E.
    cbn [fst] in E. subst i. reflexivity.
  - f_equal. exact IH.
Qed.

Lemma thread_at_In (ID : Z) (st : zero_stage) (pool : list (Z * zero_stage)) :
  thread_at ID st pool = true <-> In (ID, st) pool.
Proof.
  unfold thread_at. rewrite existsb_exists. split.
  - intros ([i s] & Hin & E). unfold is_thread in E. apply andb_prop in E as [E1 E2].
    apply Z.eqb_eq in E1. apply bool_decide_eq_true in E2. cbn [fst snd] in E1, E2.
    subst. exact Hin.
  - intros Hin. exists (ID, st). split; [exact Hin|]. unfold is_thread. cbn [fst snd].
    rewrite Z.eqb_refl. apply bool_decide_eq_true. reflexivity.
Qed.

Lemma thread_at_slot (ID : Z) (st : zero_stage) (pool : list (Z * zero_stage)) :
  thread_at ID st pool = true -> In ID pool.*1.
Proof.
  intros H. apply thread_at_In in H. apply (in_map fst) in H. exact H.
Qed.

Lemma In_exit_thread_inv (t : Z * zero_stage) (ID : Z) (pool : list (Z * zero_stage)) :
  In t (exit_thread ID pool) -> In t pool.
Proof.
  induction pool as [|u pool IH]; cbn [exit_thread]; [auto|].
  destruct (is_thread ID at_lock u); cbn [In]; tauto.
Qed.


Lemma In_slots_exit_thread_inv (x ID : Z) (pool : list (Z * zero_stage)) :
  In x (exit_thread ID pool).*1 -> In x pool.*1.
Proof.
  intros H. apply in_map_iff in H as (t & <- & Ht).
  apply in_map. eapply In_exit_thread_inv. exact Ht.
Qed.


Lemma In_advance_thread (t : Z * zero_stage) (ID : Z) (st st' : zero_stage)
  (pool : list (Z * zero_stage)) :
  In t (advance_thread ID st st' pool) -> In t pool \/ (t = (ID, st') /\ In (ID, st) pool).
Proof.
  induction pool as [|u pool IH]; cbn [advance_thread]; [auto|].
  destruct (is_thread ID st u) eqn:E; cbn [In].
  - intros [<-|H]; [|auto]. right. split; [reflexivity|]. left.
    destruct u as [i s]. unfold is_thread in E. apply andb_prop in E as [E1 E2].
    apply Z.eqb_eq in E1. apply bool_decide_eq_true in E2. cbn [fst snd] in E1, E2.
    subst. reflexivity.
  - intros [->|H]; [auto|]. destruct (IH H) as [H1|[H1 H2]]; auto.
Qed.

Lemma In_advance_thread_other (t : Z * zero_stage) (ID : Z) (st st' : zero_stage)
  (pool : list (Z * zero_stage)) :
  t <> (ID, st) -> In t pool -> In t (advance_thread ID st st' pool).
Proof.
  intros Hne. induction pool as [|u pool IH]; cbn [advance_thread In]; [auto|].
  destruct (is_thread ID st u) eqn:E.
  - intros [->|H]; [|right; exact H]. exfalso. apply Hne.
    destruct t as [i s]. unfold is_thread in E. apply andb_prop in E as [E1 E2].
    apply Z.eqb_eq in E1. apply bool_decide_eq_true in E2. cbn [fst snd] in E1, E2.
    subst. reflexivity.
  - cbn [In]. tauto.
Qed.


(** What a step of a zeroing thread does to the [struct Buffer]: before its
    critical section nothing at all (the thread only moves on); its
    critical section clears the full flag and the consumer-done bits of its
    slot. *)
Lemma zero_thread_step_control (h h' : Heap) (b b' : Buffer) (ID : Z) (st : zero_stage) :
  zero_thread_step h b ID st = Ret (h', b') ->
  (st <> at_lock
   /\ exists pool, b' = set_zero_pool b pool /\ pool.*1 = zero_threads b
                   /\ forall t, In t pool -> In t (zero_pool b) \/ t.1 = ID)
  \/ (st = at_lock /\ h' = h
      /\ 0 <= ID < Z.of_nat (length (is_full b))
      /\ 0 <= ID < Z.of_nat (length (consumers_done b))
      /\ b' = set_zero_pool
                (private_reset_consumers (set_is_full b (arr_set (is_full b) ID 0)) ID)
                (exit_thread ID (zero_pool b))).
Proof.
  destruct st; cbn [zero_thread_step].
  - destruct (private_zero_frames_nt_memset h b ID) as [h1| | |]; try discriminate.
    cbn [mbind result_mbind result_bind]. intros E. injection E as <- <-.
    left. split; [discriminate|]. eexists. split; [reflexivity|].
    split; [apply slots_advance_thread|].
    intros t Ht. apply In_advance_thread in Ht as [Ht|[-> _]]; auto.
  - destruct (private_zero_frames_memset h b ID) as [h1| | |]; try discriminate.
    cbn [mbind result_mbind result_bind]. intros E. injection E as <- <-.
    left. split; [discriminate|]. eexists. split; [reflexivity|].
    split; [apply slots_advance_thread|].
    intros t Ht. apply In_advance_thread in Ht as [Ht|[-> _]]; auto.
  - unfold private_zero_frames_locked.
    destruct (in_range (is_full b) ID) eqn:R1; [|discriminate].
    destruct (in_range (consumers_done b) ID) eqn:R2; [|discriminate].
    cbn [andb negb mbind result_mbind result_bind fst snd].
    intros E. injection E as <- <-. right.
    apply in_range_iff in R1, R2. repeat split; try lia.
Qed.

Lemma wf_zero_thread_step (h h' : Heap) (b b' : Buffer) (ID : Z) (st : zero_stage) :
  wf b -> zero_thread_step h b ID st = Ret (h', b') -> wf b'.
Proof.
  intros H E.
  destruct (zero_thread_step_control _ _ _ _ _ _ E)
    as [(_ & pool & -> & _)|(_ & _ & _ & _ & ->)]; apply wf_set_zero_pool; [exact H|].
  apply wf_private_reset_consumers. apply wf_set_is_full; [exact H|reflexivity].
Qed.

(** *** The allocations of [create_buffer] *)

(** [buffer_malloc] returns [NULL] and leaves the memory as it is, or the
    pointer the system gave, to [len] bytes 0. *)
Lemma buffer_malloc_ret (sys : frame_answer) (len numa : Z) (h h' : Heap) (p : Z) :
  buffer_malloc sys len numa h = Ret (h', p) ->
  (p = NULL /\ h' = h)
  \/ (p <> NULL /\ p = frame_pointer sys
      /\ h' = set_mem h (<[p := replicate (Z.to_nat len) 0]> (mem h))).
Proof.
  unfold buffer_malloc.
  destruct WITH_HSA.
  - destruct (frame_pointer sys =? NULL) eqn:E; intros R; injection R as <- <-; [auto|].
    right. apply Z.eqb_neq in E. auto.
  - assert (Hlock : frame_pointer sys <> NULL ->
              (if WITH_NO_MEMLOCK
               then Ret (set_mem h (<[frame_pointer sys := replicate (Z.to_nat len) 0]> (mem h)),
                         frame_pointer sys)
               else if mlock_err sys =? -1 then Ret (h, NULL)
                    else Ret (set_mem h
                                (<[frame_pointer sys := replicate (Z.to_nat len) 0]> (mem h)),
                              frame_pointer sys)) = Ret (h', p) ->
              (p = NULL /\ h' = h)
              \/ (p <> NULL /\ p = frame_pointer sys
                  /\ h' = set_mem h (<[p := replicate (Z.to_nat len) 0]> (mem h)))).
    { intros Hne. destruct WITH_NO_MEMLOCK; [|destruct (mlock_err sys =? -1)];
        intros R; injection R as <- <-; auto. }
    destruct WITH_NUMA; destruct (frame_pointer sys =? NULL) eqn:E; try discriminate;
      apply Z.eqb_neq in E; [exact (Hlock E)|].
    destruct (negb _); [intros R; injection R as <- <-; auto|exact (Hlock E)].
Qed.

Lemma create_frames_result (sys : allocator) (len numa : Z) (ids : list nat) :
  forall (h h' : Heap) (acc fr : list Z),
  create_frames sys len numa ids h acc = Ret (h', Some fr) ->
  fr = acc ++ map (fun i => frame_pointer (frame_answers sys i)) ids.
Proof.
  induction ids as [|i ids IH]; intros h h' acc fr; cbn [create_frames].
  - intros E. injection E as <- <-. cbn. rewrite app_nil_r. reflexivity.
  - destruct (buffer_malloc (frame_answers sys i) len numa h) as [[h1 p]| | |] eqn:Em;
      try discriminate.
    cbn [mbind result_mbind result_bind fst snd].
    destruct (p =? NULL) eqn:Ep; [discriminate|]. intros E. apply IH in E.
    destruct (buffer_malloc_ret _ _ _ _ _ _ Em) as [[-> _]|(_ & -> & _)]; [discriminate|].
    rewrite E, <- app_assoc. reflexivity.
Qed.

Lemma create_frames_length (sys : allocator) (len numa : Z) (ids : list nat) :
  forall (h h' : Heap) (acc fr : list Z),
  create_frames sys len numa ids h acc = Ret (h', Some fr) ->
  length fr = (length acc + length ids)%nat.
Proof.
  intros h h' acc fr E. apply create_frames_result in E. subst fr.
  rewrite length_app, length_map. reflexivity.
Qed.

(** A new buffer is well formed, with every slot empty, no done bit set and
    no metadata bound. *)
Lemma create_buffer_fresh (h h' : Heap) (buf n len pool : Z) (bn bt : string) (numa : Z)
  (sys : allocator) (b : Buffer) :
  create_buffer h buf n len pool bn bt numa sys = Ret (h', Some b) ->
  wf b
  /\ num_frames b = n
  /\ frames b = map (fun i => frame_pointer (frame_answers sys i)) (seq 0 (Z.to_nat n))
  /\ is_full b = replicate (Z.to_nat n) 0
  /\ metadata b = replicate (Z.to_nat n) NULL
  /\ zero_frames b = 0 /\ shutdown_signal b = 0.
Proof.
  unfold create_buffer. destruct (0 <? n) eqn:Hn; [|discriminate].
  destruct (buf =? NULL); [discriminate|].
  rewrite Z.leb_refl.
  destruct (malloc_answer sys 0 =? NULL); [discriminate|].
  destruct (malloc_answer sys 1 =? NULL); [discriminate|].
  destruct (malloc_answer sys 2 =? NULL); [discriminate|].
  destruct (malloc_answer sys 3 =? NULL); [discriminate|].
  destruct (malloc_answer sys 4 =? NULL); [discriminate|].
  destruct (negb (done_rows_allocated sys (Z.to_nat n))); [discriminate|].
  destruct (create_frames sys len numa (seq 0 (Z.to_nat n)) h []) as [[h1 [fr|]]| | |] eqn:E;
    try discriminate.
  cbn [mbind result_mbind result_bind].
  intros R. injection R as <- <-.
  pose proof (create_frames_length _ _ _ _ _ _ _ _ E) as L.
  pose proof (create_frames_result _ _ _ _ _ _ _ _ E) as Rf.
  cbn [length Nat.add app] in L, Rf. rewrite length_seq in L.
  split; [|repeat split; assumption].
  unfold wf, wfb. fields. rewrite Hn, !length_replicate, L.
  rewrite !bool_decide_eq_true_2 by reflexivity.
  rewrite !forallb_replicate; try reflexivity; apply row_ok_replicate.
Qed.

(** ** The effect of a call on each buffer of the program *)

Lemma store_lookup (w : World) (x : Z) (bnew : Buffer) (buf : Z) (b' : Buffer) :
  bufs (store w x bnew) !! buf = Some b' ->
  (buf = x /\ b' = bnew) \/ (buf <> x /\ bufs w !! buf = Some b').
Proof.
  cbn [store bufs]. destruct (decide (buf = x)) as [->|Hne].
  - rewrite lookup_insert_eq. intros E. injection E as <-. auto.
  - rewrite lookup_insert_ne by congruence. auto.
Qed.

Ltac result_bind_cases r :=
  unfold mbind, result_mbind;
  match goal with
  | |- context [result_bind _ ?m] =>
      let E := fresh "Ecall" in
      destruct m as [r| | |] eqn:E; cbn [result_bind]; try discriminate
  end.

Ltac deref_case b0 Hb0 :=
  unfold deref;
  match goal with
  | |- context [bufs ?w !! ?x] =>
      destruct (bufs w !! x) as [b0|] eqn:Hb0;
      unfold mbind, result_mbind; cbn [result_bind]; [|discriminate]
  end.

Ltac stored_case Hl Hb0 :=
  apply store_lookup in Hl; destruct Hl as [[-> ->]|[Hne Hl]];
  [right; left; eexists; split; [exact Hb0|] | left; exact Hl].

Lemma exec_local (w w' : World) (c : call) (buf : Z) (b' : Buffer) :
  exec w c = Ret w' -> bufs w' !! buf = Some b' ->
  bufs w !! buf = Some b'
  \/ (exists b, bufs w !! buf = Some b /\ local_effect c buf (heap w) b b')
  \/ (bufs w !! buf = None
      /\ exists n len pool bn bt numa sys h',
           c = CreateBuffer buf n len pool bn bt numa sys
           /\ create_buffer (heap w) buf n len pool bn bt numa sys = Ret (h', Some b')).
Proof.
  destruct c; cbn [exec local_effect].
  - (* create_buffer *)
    destruct (bool_decide _) eqn:Hfresh; [discriminate|].
    apply bool_decide_eq_false in Hfresh.
    result_bind_cases r. destruct r as [h1 [bn|]]; intros E; injection E as <-.
    + intros Hl. change (bufs (set_heap (store w buf0 bn) h1)) with (bufs (store w buf0 bn)) in Hl.
      apply store_lookup in Hl. destruct Hl as [[-> ->]|[Hne Hl]]; [|left; exact Hl].
      right; right. split.
      * destruct (bufs w !! buf0) eqn:El; [exfalso; apply Hfresh; eauto|reflexivity].
      * repeat eexists. exact Ecall.
    + intros Hl. left. exact Hl.
  - (* delete_buffer *)
    unfold delete_buffer. deref_case b0 Hb0. intros E; injection E as <-.
    cbn [bufs]. intros Hl. apply lookup_delete_Some in Hl as [_ Hl]. left. exact Hl.
  - deref_case b0 Hb0. result_bind_cases r. intros E; injection E as <-. intros Hl.
    stored_case Hl Hb0. auto.
  - deref_case b0 Hb0. result_bind_cases r. intros E; injection E as <-. intros Hl.
    stored_case Hl Hb0. auto.
  - deref_case b0 Hb0. result_bind_cases r. destruct r as [[h1 b1] sig].
    intros E; injection E as <-. intros Hl.
    change (bufs (set_heap ?x _)) with (bufs x) in Hl. stored_case Hl Hb0. eauto.
  - deref_case b0 Hb0. result_bind_cases r. destruct r as [b1 p].
    intros E; injection E as <-. intros Hl. stored_case Hl Hb0. eauto.
  - deref_case b0 Hb0. result_bind_cases r. destruct r as [b1 p].
    intros E; injection E as <-. intros Hl. stored_case Hl Hb0. eauto.
  - deref_case b0 Hb0. result_bind_cases r. destruct r as [b1 p].
    intros E; injection E as <-. intros Hl. stored_case Hl Hb0. eauto.
  - deref_case b0 Hb0. result_bind_cases r. destruct r as [[h1 b1] sig].
    intros E; injection E as <-. intros Hl.
    change (bufs (set_heap ?x _)) with (bufs x) in Hl. stored_case Hl Hb0. eauto.
  - deref_case b0 Hb0. result_bind_cases r. destruct r as [[h1 b1] sig].
    intros E; injection E as <-. intros Hl.
    change (bufs (set_heap ?x _)) with (bufs x) in Hl. stored_case Hl Hb0. eauto.
  - deref_case b0 Hb0. intros E; injection E as <-. intros Hl. stored_case Hl Hb0. auto.
  - deref_case b0 Hb0. result_bind_cases r. destruct r as [h1 b1].
    intros E; injection E as <-. intros Hl.
    change (bufs (set_heap ?x _)) with (bufs x) in Hl. stored_case Hl Hb0. eauto.
  - (* pass_metadata *)
    unfold pass_metadata. deref_case fb Hfb.
    destruct (negb _); [discriminate|].
    destruct (arr_get (metadata fb) from_ID =? NULL); [intros E; injection E as <-; auto|].
    deref_case tb Htb. destruct (negb _); [discriminate|].
    destruct (arr_get (metadata tb) to_ID =? NULL).
    + destruct (_ =? _); [|discriminate]. intros E; injection E as <-. intros Hl.
      change (bufs (set_heap ?x _)) with (bufs x) in Hl. stored_case Hl Htb. eauto.
    + destruct (_ =? _); [|discriminate]. intros E; injection E as <-. intros Hl.
      change (bufs (set_heap ?x _)) with (bufs x) in Hl.
      apply store_lookup in Hl. destruct Hl as [[-> ->]|[Hne Hl]]; left; assumption.
  - (* copy_metadata *)
    unfold copy_metadata. deref_case fb Hfb. deref_case tb Htb.
    destruct (from_buf =? to_buf); [discriminate|].
    destruct (negb _); [discriminate|].
    destruct (_ =? NULL); [intros E; injection E as <-; auto|].
    destruct (negb _); [discriminate|].
    destruct (_ =? NULL); [intros E; injection E as <-; auto|].
    destruct (containers _ !! _); [|discriminate].
    destruct (containers _ !! _); [|discriminate].
    destruct (negb _); intros E; injection E as <-; auto.
  - deref_case b0 Hb0. result_bind_cases r. destruct r as [b1 p].
    intros E; injection E as <-. intros Hl. stored_case Hl Hb0. eauto.
  - (* swap_frames *)
    unfold swap_frames.
    destruct (negb (from_buf =? to_buf)) eqn:Hd; [|discriminate].
    apply negb_true_iff, Z.eqb_neq in Hd.
    destruct (negb _); [|discriminate]. destruct (negb _); [|discriminate].
    destruct (0 <=? _); [|discriminate].
    deref_case fb Hfb. destruct (_ <? _); [|discriminate]. destruct (0 <=? _); [|discriminate].
    deref_case tb Htb. destruct (_ <? _); [|discriminate].
    destruct (_ =? _); [|discriminate]. destruct (_ =? 1); [|discriminate].
    destruct (_ =? 1); [|discriminate].
    intros E; injection E as <-. intros Hl.
    apply store_lookup in Hl. destruct Hl as [[-> ->]|[Hne Hl]].
    + right; left. exists tb. split; [exact Htb|]. right. eauto.
    + apply store_lookup in Hl. destruct Hl as [[-> ->]|[Hne' Hl]]; [|left; exact Hl].
      right; left. exists fb. split; [exact Hfb|]. left. eauto.
  - (* safe_swap_frame *)
    unfold safe_swap_frame.
    destruct (negb (src_buf =? dest_buf)); [|discriminate].
    destruct (negb (src_buf =? NULL)); [|discriminate].
    destruct (negb (dest_buf =? NULL)); [|discriminate].
    destruct (0 <=? src_frame_id); [|discriminate].
    deref_case sb Hsb. destruct (src_frame_id <? num_frames sb); [|discriminate].
    destruct (0 <=? dest_frame_id); [|discriminate].
    deref_case db Hdb. destruct (dest_frame_id <? num_frames db); [|discriminate].
    destruct (negb (frame_size sb =? frame_size db)); [discriminate|].
    destruct (1 <? get_num_producers db); [discriminate|].
    destruct (get_num_consumers sb =? 1).
    + intros E; injection E as <-. intros Hl.
      apply store_lookup in Hl. destruct Hl as [[-> ->]|[Hne Hl]].
      * right; left. exists db. split; [exact Hdb|]. right. eauto.
      * apply store_lookup in Hl. destruct Hl as [[-> ->]|[Hne' Hl]]; [|left; exact Hl].
        right; left. exists sb. split; [exact Hsb|]. left. eauto.
    + destruct (1 <? get_num_consumers sb); [|intros E; injection E as <-; auto].
      destruct (mem _ !! _); [|discriminate]. destruct (mem _ !! _); [|discriminate].
      destruct (_ || _); [discriminate|]. intros E; injection E as <-. auto.
  - deref_case b0 Hb0. intros E; injection E as <-. intros Hl. stored_case Hl Hb0. auto.
  - (* the zeroing thread *)
    deref_case b0 Hb0. destruct (negb _) eqn:Hm; [discriminate|].
    apply negb_false_iff in Hm.
    result_bind_cases r. destruct r as [h1 b1].
    intros E; injection E as <-. intros Hl.
    change (bufs (set_heap ?x _)) with (bufs x) in Hl. stored_case Hl Hb0.
    split; [reflexivity|]. split; [exact Hm|]. eauto.
Qed.

Lemma local_effect_wf (c : call) (buf : Z) (h : Heap) (b b' : Buffer) :
  wf b -> local_effect c buf h b b' -> wf b'.
Proof.
  intros H. destruct c; cbn [local_effect]; try contradiction.
  - intros [_ E]. eapply wf_register_producer; eauto.
  - intros [_ E]. eapply wf_register_consumer; eauto.
  - intros [_ (h' & sig & E)]. eapply wf_unregister_consumer; eauto.
  - intros [_ (p & E)]. eapply wf_wait_for_empty_frame; eauto.
  - intros [_ (p & E)]. eapply wf_wait_for_full_frame; eauto.
  - intros [_ (r & E)]. eapply wf_wait_for_full_frame_timeout; eauto.
  - intros [_ (h' & sig & E)]. eapply wf_mark_frame_full; eauto.
  - intros [_ (h' & sig & E)]. eapply wf_mark_frame_empty; eauto.
  - intros [_ ->]. apply wf_zero_frames_on. exact H.
  - intros [_ (h' & E)]. eapply wf_allocate_new_metadata_object; eauto.
  - intros [_ (m & ->)]. apply wf_set_metadata. exact H.
  - intros [_ (p & E)]. eapply wf_swap_external_frame; eauto.
  - intros [[_ (p & ->)]|[_ (p & ->)]]; apply wf_set_frames; exact H.
  - intros [[_ (p & ->)]|[_ (p & ->)]]; apply wf_set_frames; exact H.
  - intros [_ ->]. apply wf_send_shutdown_signal. exact H.
  - intros (_ & _ & h' & E). eapply wf_zero_thread_step; eauto.
Qed.

(** ** Frame pointers under the acquire and release operations *)

Lemma release_metadata_frames (h : Heap) (b : Buffer) (ID : Z) :
  frames (release_metadata h b ID).2 = frames b.
Proof. unfold release_metadata. destruct (_ =? NULL); reflexivity. Qed.

Lemma private_mark_frame_empty_frames (h : Heap) (b : Buffer) (id : Z) :
  frames (private_mark_frame_empty h b id).1.2 = frames b.
Proof.
  unfold private_mark_frame_empty, release_metadata.
  destruct (zero_frames b =? 1); fields; destruct (_ =? NULL); reflexivity.
Qed.

Lemma private_mark_producer_done_frames (b b1 : Buffer) (nm : string) (ID : Z) :
  private_mark_producer_done b nm ID = Ret b1 -> frames b1 = frames b.
Proof.
  unfold private_mark_producer_done.
  destruct (negb _); [|discriminate]. destruct (_ =? 0); [|discriminate].
  intros E. injection E as <-. reflexivity.
Qed.

Lemma private_mark_consumer_done_frames (b b1 : Buffer) (nm : string) (ID : Z) :
  private_mark_consumer_done b nm ID = Ret b1 -> frames b1 = frames b.
Proof.
  unfold private_mark_consumer_done.
  destruct (negb _); [|discriminate]. destruct (_ =? 0); [|discriminate].
  intros E. injection E as <-. reflexivity.
Qed.

Lemma mark_frame_full_frames (h h' : Heap) (b b' : Buffer) (nm : string) (ID now : Z)
  (sig : list cond) :
  mark_frame_full h b nm ID now = Ret (h', b', sig) -> frames b' = frames b.
Proof.
  unfold mark_frame_full.
  destruct (0 <=? ID); [|discriminate]. destruct (ID <? num_frames b); [|discriminate].
  destruct (private_mark_producer_done b nm ID) as [b1| | |] eqn:E1; try discriminate.
  cbn [mbind result_mbind result_bind].
  apply private_mark_producer_done_frames in E1.
  destruct (private_producers_done b1 ID =? 1).
  - destruct (private_consumers_done _ ID =? 1).
    + unfold release_metadata. fields. destruct (_ =? NULL);
        intros E; injection E as <- <- <-; exact E1.
    + intros E; injection E as <- <- <-. exact E1.
  - intros E; injection E as <- <- <-. exact E1.
Qed.

Lemma mark_frame_empty_frames (h h' : Heap) (b b' : Buffer) (nm : string) (ID : Z)
  (sig : list cond) :
  mark_frame_empty h b nm ID = Ret (h', b', sig) -> frames b' = frames b.
Proof.
  unfold mark_frame_empty.
  destruct (0 <=? ID); [|discriminate]. destruct (ID <? num_frames b); [|discriminate].
  destruct (private_mark_consumer_done b nm ID) as [b1| | |] eqn:E1; try discriminate.
  cbn [mbind result_mbind result_bind].
  apply private_mark_consumer_done_frames in E1.
  destruct (private_consumers_done b1 ID =? 1).
  - pose proof (private_mark_frame_empty_frames h b1 ID) as F.
    destruct (private_mark_frame_empty h b1 ID) as [[h2 b2] r].
    intros E; injection E as <- <- <-. cbn in F. congruence.
  - intros E; injection E as <- <- <-. exact E1.
Qed.

Lemma wait_for_empty_frame_frames (b b' : Buffer) (nm : string) (ID p : Z) :
  wait_for_empty_frame b nm ID = Ret (b', p) -> frames b' = frames b.
Proof.
  unfold wait_for_empty_frame.
  destruct (0 <=? ID); [|discriminate]. destruct (ID <? num_frames b); [|discriminate].
  destruct (negb _); [|discriminate]. destruct (_ && _); [discriminate|].
  destruct (shutdown_signal b =? 1); intros E; injection E as <- <-; reflexivity.
Qed.

Lemma wait_for_full_frame_frames (b b' : Buffer) (nm : string) (ID p : Z) :
  wait_for_full_frame b nm ID = Ret (b', p) -> frames b' = frames b.
Proof.
  unfold wait_for_full_frame.
  destruct (negb (_ =? -1)); [|discriminate]. destruct (negb (in_range _ _)); [discriminate|].
  destruct (_ && _); [discriminate|].
  destruct (shutdown_signal b =? 1); intros E; injection E as <- <-; reflexivity.
Qed.

Lemma local_effect_frames (c : call) (buf : Z) (h : Heap) (b b' : Buffer) :
  acquire_or_release c = true -> local_effect c buf h b b' -> frames b' = frames b.
Proof.
  destruct c; cbn [acquire_or_release local_effect]; try discriminate; intros _.
  - intros [_ (p & E)]. eapply wait_for_empty_frame_frames; eauto.
  - intros [_ (p & E)]. eapply wait_for_full_frame_frames; eauto.
  - intros [_ (r & E)].
    destruct (wait_for_full_frame_timeout_alone _ _ _ _ _ _ _ E) as [->| ->]; reflexivity.
  - intros [_ (h' & sig & E)]. eapply mark_frame_full_frames; eauto.
  - intros [_ (h' & sig & E)]. eapply mark_frame_empty_frames; eauto.
Qed.

Lemma exec_acquire_release_frames (w w' : World) (c : call) (buf : Z) (b : Buffer) :
  acquire_or_release c = true -> exec w c = Ret w' -> bufs w !! buf = Some b ->
  exists b', bufs w' !! buf = Some b' /\ frames b' = frames b.
Proof.
  intros Hc He Hb.
  assert (Hkeep : exists b', bufs w' !! buf = Some b').
  { destruct c; cbn [acquire_or_release] in Hc; try discriminate; cbn [exec] in He;
      revert He; deref_case b0 Hb0; result_bind_cases r; intros E; injection E as <-;
      cbn [set_heap store bufs];
      (destruct (decide (buf = buf0)) as [->|Hne];
       [rewrite lookup_insert_eq; eauto | rewrite lookup_insert_ne by congruence; eauto]). }
  destruct Hkeep as [b' Hb']. exists b'. split; [exact Hb'|].
  destruct (exec_local _ _ _ _ _ He Hb') as [Hs|[(b0 & Hb0 & Hl)|(Hn & _)]].
  - congruence.
  - assert (b0 = b) by congruence. subst b0. eapply local_effect_frames; eauto.
  - congruence.
Qed.

(** C9.  The acquire and release operations ([wait_for_empty_frame],
    [wait_for_full_frame], [wait_for_full_frame_timeout], [mark_frame_full],
    [mark_frame_empty]) never re-seat a frame pointer: after any sequence of
    such calls that return, on any buffers, by any stages and in any order,
    every buffer still binds every slot to the storage it had before; for a
    buffer just created these are the pointers [create_buffer] obtained. *)
Theorem acquire_release_keep_frame_pointers (cs : list call) :
  forallb acquire_or_release cs = true ->
  forall (w w' : World) (buf : Z) (b : Buffer),
  run w cs = Ret w' -> bufs w !! buf = Some b ->
  exists b', bufs w' !! buf = Some b'
             /\ frames b' = frames b
             /\ forall ID, arr_get (frames b') ID = arr_get (frames b) ID.
Proof.
  induction cs as [|c cs IH]; intros Hall w w' buf b Hrun Hb.
  - cbn in Hrun. injection Hrun as <-. exists b. auto.
  - cbn [forallb] in Hall. apply andb_prop in Hall as [Hc Hcs].
    cbn [run] in Hrun. revert Hrun. result_bind_cases w1. intros Hrun.
    destruct (exec_acquire_release_frames _ _ _ _ _ Hc Ecall Hb) as (b1 & Hb1 & F1).
    destruct (IH Hcs _ _ _ _ Hrun Hb1) as (b' & Hb' & F' & _).
    exists b'. split; [exact Hb'|]. split; [congruence|]. intros ID. congruence.
Qed.

(** ** A full slot always has a pending consumer (zero-on-release off) *)

Lemma all_consumers_done_ext (b b' : Buffer) (ID : Z) :
  arr_get (consumers_done b') ID = arr_get (consumers_done b) ID ->
  (forall i, in_use (consumers b' !!! i) = in_use (consumers b !!! i)) ->
  all_consumers_done b' ID <-> all_consumers_done b ID.
Proof.
  intros Hrow Hu. unfold all_consumers_done, registered_consumer, consumer_bit.
  rewrite Hrow. split; intros H i; specialize (H i); rewrite Hu in *; exact H.
Qed.

Lemma slot_pending_ext (b b' : Buffer) (ID : Z) :
  full_flag b' ID = full_flag b ID ->
  arr_get (consumers_done b') ID = arr_get (consumers_done b) ID ->
  (forall i, in_use (consumers b' !!! i) = in_use (consumers b !!! i)) ->
  slot_pending b ID -> slot_pending b' ID.
Proof.
  intros Hf Hrow Hu Hp. unfold slot_pending. rewrite Hf.
  rewrite (all_consumers_done_ext b b' ID Hrow Hu). exact Hp.
Qed.

Lemma slot_pending_empty (b : Buffer) (ID : Z) :
  full_flag b ID = 0 -> slot_pending b ID.
Proof. intros H. unfold slot_pending. rewrite H. discriminate. Qed.

Lemma slot_pending_not_done (b : Buffer) (ID : Z) :
  wf b -> valid_slot b ID -> private_consumers_done b ID <> 1 -> slot_pending b ID.
Proof.
  intros Hwf Hv Hd _ Hall. apply Hd. apply consumers_done_iff; assumption.
Qed.

Lemma full_slots_pending_ext (b b' : Buffer) :
  num_frames b' = num_frames b -> is_full b' = is_full b ->
  consumers_done b' = consumers_done b ->
  (forall i, in_use (consumers b' !!! i) = in_use (consumers b !!! i)) ->
  full_slots_pending b -> full_slots_pending b'.
Proof.
  intros Hn Hf Hcd Hu Hp ID Hv.
  apply (slot_pending_ext b b'); [unfold full_flag; congruence|congruence|exact Hu|].
  apply Hp. unfold valid_slot in *. congruence.
Qed.

(** One slot is rewritten, the others and the consumer table are kept. *)
Lemma full_slots_pending_update (b b' : Buffer) (ID : Z) :
  num_frames b' = num_frames b -> 0 <= ID ->
  (forall i, in_use (consumers b' !!! i) = in_use (consumers b !!! i)) ->
  (forall ID', 0 <= ID' -> ID' <> ID ->
     full_flag b' ID' = full_flag b ID'
     /\ arr_get (consumers_done b') ID' = arr_get (consumers_done b) ID') ->
  (valid_slot b' ID -> slot_pending b' ID) ->
  full_slots_pending b -> full_slots_pending b'.
Proof.
  intros Hn H0 Hu Hoth Hthis Hp ID' Hv.
  destruct (decide (ID' = ID)) as [->|Hne]; [apply Hthis; exact Hv|].
  destruct (Hoth ID' ltac:(unfold valid_slot in Hv; lia) Hne) as [Hf Hrow].
  apply (slot_pending_ext b b'); [exact Hf|exact Hrow|exact Hu|].
  apply Hp. unfold valid_slot in *. congruence.
Qed.

Lemma private_mark_producer_done_control (b b1 : Buffer) (nm : string) (ID : Z) :
  private_mark_producer_done b nm ID = Ret b1 ->
  num_frames b1 = num_frames b /\ is_full b1 = is_full b
  /\ consumers_done b1 = consumers_done b /\ consumers b1 = consumers b
  /\ zero_frames b1 = zero_frames b /\ metadata b1 = metadata b
  /\ zero_threads b1 = zero_threads b /\ shutdown_signal b1 = shutdown_signal b.
Proof.
  unfold private_mark_producer_done.
  destruct (negb _); [|discriminate]. destruct (_ =? 0); [|discriminate].
  intros E. injection E as <-. repeat split.
Qed.

Lemma private_mark_consumer_done_control (b b1 : Buffer) (nm : string) (ID : Z) :
  0 <= ID ->
  private_mark_consumer_done b nm ID = Ret b1 ->
  num_frames b1 = num_frames b /\ is_full b1 = is_full b
  /\ zero_frames b1 = zero_frames b /\ metadata b1 = metadata b
  /\ zero_threads b1 = zero_threads b /\ shutdown_signal b1 = shutdown_signal b
  /\ producers b1 = producers b /\ producers_done b1 = producers_done b
  /\ frames b1 = frames b
  /\ (forall i, in_use (consumers b1 !!! i) = in_use (consumers b !!! i))
  /\ (forall ID', 0 <= ID' -> ID' <> ID ->
        arr_get (consumers_done b1) ID' = arr_get (consumers_done b) ID').
Proof.
  intros Hpos. unfold private_mark_consumer_done.
  destruct (negb _); [|discriminate]. destruct (_ =? 0); [|discriminate].
  intros E. injection E as <-. fields. repeat split.
  - intros i.
    destruct (table_update_keeps (consumers b) (private_get_consumer_id b nm)
                (fun s => stage_set_released s ID) i ltac:(intros; split; reflexivity))
      as [Hk _]. exact Hk.
  - intros ID' H0 Hne. apply arr_get_set_ne; [lia|lia|congruence].
Qed.

(** The empty transition with zero-on-release off. *)
Lemma private_mark_frame_empty_now (h : Heap) (b : Buffer) (id : Z) :
  zero_frames b <> 1 ->
  exists h2 b2, private_mark_frame_empty h b id = (h2, b2, 1)
    /\ num_frames b2 = num_frames b
    /\ is_full b2 = arr_set (is_full b) id 0
    /\ consumers_done b2 = arr_set (consumers_done b) id (replicate MAX_CONSUMERS 0)
    /\ consumers b2 = consumers b /\ producers b2 = producers b
    /\ producers_done b2 = producers_done b /\ frames b2 = frames b
    /\ zero_frames b2 = zero_frames b /\ zero_threads b2 = zero_threads b
    /\ shutdown_signal b2 = shutdown_signal b
    /\ metadata b2 = (if arr_get (metadata b) id =? NULL then metadata b
                      else arr_set (metadata b) id NULL)
    /\ h2 = (if arr_get (metadata b) id =? NULL then h
             else decrement_metadata_ref_count h (arr_get (metadata b) id)).
Proof.
  intros Hz. apply Z.eqb_neq in Hz. unfold private_mark_frame_empty, release_metadata.
  rewrite Hz. fields. destruct (arr_get (metadata b) id =? NULL);
    do 2 eexists; (split; [reflexivity|]); fields; repeat split.
Qed.

(** The empty transition with zero-on-release on: a zeroing thread is
    created, the flag and the done bits are left to it. *)
Lemma private_mark_frame_empty_deferred (h : Heap) (b : Buffer) (id : Z) :
  zero_frames b = 1 ->
  exists h2 b2, private_mark_frame_empty h b id = (h2, b2, 0)
    /\ num_frames b2 = num_frames b
    /\ is_full b2 = is_full b
    /\ consumers_done b2 = consumers_done b
    /\ consumers b2 = consumers b /\ producers b2 = producers b
    /\ producers_done b2 = producers_done b /\ frames b2 = frames b
    /\ zero_frames b2 = zero_frames b /\ zero_threads b2 = zero_threads b ++ [id]
    /\ shutdown_signal b2 = shutdown_signal b
    /\ metadata b2 = (if arr_get (metadata b) id =? NULL then metadata b
                      else arr_set (metadata b) id NULL)
    /\ h2 = (if arr_get (metadata b) id =? NULL then h
             else decrement_metadata_ref_count h (arr_get (metadata b) id)).
Proof.
  intros Hz. unfold private_mark_frame_empty, release_metadata.
  rewrite Hz. cbn [Z.eqb Pos.eqb]. fields. destruct (arr_get (metadata b) id =? NULL);
    do 2 eexists; (split; [reflexivity|]); fields; repeat split.
  all: first [exact Hz | unfold zero_threads; fields; rewrite fmap_app; reflexivity].
Qed.


Lemma mark_frame_full_pending (h h' : Heap) (b b' : Buffer) (nm : string) (ID now : Z)
  (sig : list cond) :
  wf b -> mark_frame_full h b nm ID now = Ret (h', b', sig) ->
  full_slots_pending b -> full_slots_pending b'.
Proof.
  intros Hwf E Hp. pose proof (wf_mark_frame_full _ _ _ _ _ _ _ _ Hwf E) as Hwf'.
  revert E. unfold mark_frame_full.
  destruct (0 <=? ID) eqn:C1; [|discriminate]. apply Z.leb_le in C1.
  destruct (ID <? num_frames b) eqn:C2; [|discriminate]. apply Z.ltb_lt in C2.
  destruct (private_mark_producer_done b nm ID) as [b1| | |] eqn:E1; try discriminate.
  cbn [mbind result_mbind result_bind].
  destruct (private_mark_producer_done_control _ _ _ _ E1)
    as (Hn & Hf & Hcd & Hc & _).
  destruct (wf_sizes b Hwf) as (_ & Lf & _).
  destruct (private_producers_done b1 ID =? 1).
  - destruct (private_consumers_done _ ID =? 1) eqn:Ed.
    + unfold release_metadata. fields. destruct (_ =? NULL);
        intros E; injection E as <- <- <-;
        (apply (full_slots_pending_update b _ ID); fields;
         [exact Hn | exact C1 | intros i; rewrite Hc; reflexivity
         | intros ID' H0 Hne; unfold full_flag; fields; rewrite Hf, Hcd;
           rewrite !arr_get_set_ne by lia; auto
         | intros _; apply slot_pending_empty; unfold full_flag; fields; rewrite Hf;
           apply arr_get_set_eq; rewrite !length_arr_set; lia
         | exact Hp ]).
    + intros E; injection E as <- <- <-.
      apply (full_slots_pending_update b _ ID); fields.
      * exact Hn.
      * exact C1.
      * intros i; rewrite Hc; reflexivity.
      * intros ID' H0 Hne. unfold full_flag; fields. rewrite Hf, Hcd.
        rewrite !arr_get_set_ne by lia. auto.
      * intros Hv. apply slot_pending_not_done; [exact Hwf'|exact Hv|].
        apply Z.eqb_neq in Ed. exact Ed.
      * exact Hp.
  - intros E; injection E as <- <- <-.
    apply (full_slots_pending_ext b b1); try assumption. intros i. rewrite Hc. reflexivity.
Qed.

Lemma mark_frame_empty_pending (h h' : Heap) (b b' : Buffer) (nm : string) (ID : Z)
  (sig : list cond) :
  wf b -> zero_frames b = 0 -> mark_frame_empty h b nm ID = Ret (h', b', sig) ->
  full_slots_pending b -> full_slots_pending b'.
Proof.
  intros Hwf Hz E Hp. pose proof (wf_mark_frame_empty _ _ _ _ _ _ _ Hwf E) as Hwf'.
  revert E. unfold mark_frame_empty.
  destruct (0 <=? ID) eqn:C1; [|discriminate]. apply Z.leb_le in C1.
  destruct (ID <? num_frames b) eqn:C2; [|discriminate]. apply Z.ltb_lt in C2.
  destruct (private_mark_consumer_done b nm ID) as [b1| | |] eqn:E1; try discriminate.
  cbn [mbind result_mbind result_bind].
  destruct (private_mark_consumer_done_control _ _ _ _ C1 E1)
    as (Hn & Hf & Hz1 & _ & _ & _ & _ & _ & _ & Hu & Hrows).
  destruct (wf_sizes b Hwf) as (_ & Lf & _).
  destruct (private_consumers_done b1 ID =? 1) eqn:Ed.
  - destruct (private_mark_frame_empty_now h b1 ID ltac:(lia))
      as (h2 & b2 & -> & Hn2 & Hf2 & Hcd2 & Hc2 & _).
    intros E; injection E as <- <- <-.
    apply (full_slots_pending_update b b2 ID).
    + congruence.
    + exact C1.
    + intros i. rewrite Hc2. apply Hu.
    + intros ID' H0 Hne. unfold full_flag. rewrite Hf2, Hcd2, Hf.
      rewrite !arr_get_set_ne by lia. split; [reflexivity|]. apply Hrows; assumption.
    + intros _. apply slot_pending_empty. unfold full_flag. rewrite Hf2, Hf.
      apply arr_get_set_eq. lia.
    + exact Hp.
  - intros E; injection E as <- <- <-.
    apply (full_slots_pending_update b b1 ID).
    + exact Hn.
    + exact C1.
    + exact Hu.
    + intros ID' H0 Hne. unfold full_flag. rewrite Hf. split; [reflexivity|].
      apply Hrows; assumption.
    + intros Hv. apply slot_pending_not_done; [exact Hwf'|exact Hv|].
      apply Z.eqb_neq in Ed. exact Ed.
    + exact Hp.
Qed.

Lemma unregister_scan_pending (ids : list nat) :
  forall (h : Heap) (b : Buffer) (r : Z),
  wf b -> zero_frames b = 0 -> List.NoDup ids ->
  num_frames (unregister_scan ids h b r).1.2 = num_frames b
  /\ consumers (unregister_scan ids h b r).1.2 = consumers b
  /\ zero_frames (unregister_scan ids h b r).1.2 = 0
  /\ (forall ID, valid_slot b ID -> In (Z.to_nat ID) ids ->
        slot_pending (unregister_scan ids h b r).1.2 ID)
  /\ (forall ID, 0 <= ID -> ~ In (Z.to_nat ID) ids ->
        full_flag (unregister_scan ids h b r).1.2 ID = full_flag b ID
        /\ arr_get (consumers_done (unregister_scan ids h b r).1.2) ID
           = arr_get (consumers_done b) ID).
Proof.
  induction ids as [|id ids IH]; intros h b r Hwf Hz Hnd.
  - cbn. repeat split; auto. intros ID _ [].
  - inversion Hnd as [|? ? Hnotin Hnd']; subst.
    destruct (wf_sizes b Hwf) as (_ & Lf & _).
    cbn [unregister_scan].
    destruct (private_consumers_done b (Z.of_nat id) =? 1) eqn:Ed.
    + destruct (private_mark_frame_empty_now h b (Z.of_nat id) ltac:(lia))
        as (h2 & b2 & Epm & Hn2 & Hf2 & Hcd2 & Hc2 & _ & _ & _ & Hz2 & _).
      pose proof (wf_private_mark_frame_empty h b (Z.of_nat id) Hwf) as Hwf2.
      rewrite Epm in Hwf2 |- *. cbn [fst snd] in Hwf2.
      destruct (IH h2 b2 (Z.lor r 1) Hwf2 ltac:(congruence) Hnd')
        as (IHn & IHc & IHz & IHin & IHout).
      split; [congruence|]. split; [congruence|]. split; [exact IHz|]. split.
      * intros ID Hv [Hid|Hin].
        -- destruct (IHout ID ltac:(unfold valid_slot in Hv; lia)
                       ltac:(rewrite <- Hid; exact Hnotin)) as [Hfl _].
           apply slot_pending_empty. rewrite Hfl. unfold full_flag. rewrite Hf2.
           unfold valid_slot in Hv.
           replace (Z.of_nat id) with ID by lia. apply arr_get_set_eq. lia.
        -- apply IHin; [unfold valid_slot in *; congruence|exact Hin].
      * intros ID H0 Hout.
        destruct (IHout ID H0 ltac:(intros Hin; apply Hout; right; exact Hin)) as [Hfl Hrow].
        assert (Hne : ID <> Z.of_nat id).
        { intros ->. apply Hout. left. lia. }
        rewrite Hfl, Hrow. unfold full_flag. rewrite Hf2, Hcd2.
        rewrite !arr_get_set_ne by lia. auto.
    + destruct (IH h b r Hwf Hz Hnd') as (IHn & IHc & IHz & IHin & IHout).
      split; [exact IHn|]. split; [exact IHc|]. split; [exact IHz|]. split.
      * intros ID Hv [Hid|Hin]; [|apply IHin; assumption].
        destruct (IHout ID ltac:(unfold valid_slot in Hv; lia)
                    ltac:(rewrite <- Hid; exact Hnotin)) as [Hfl Hrow].
        apply (slot_pending_ext b); [exact Hfl|exact Hrow|intros i; rewrite IHc; reflexivity|].
        apply slot_pending_not_done; [exact Hwf|exact Hv|].
        unfold valid_slot in Hv. replace ID with (Z.of_nat id) by lia.
        apply Z.eqb_neq in Ed. exact Ed.
      * intros ID H0 Hout. apply IHout; [exact H0|].
        intros Hin. apply Hout. right. exact Hin.
Qed.

Lemma unregister_consumer_pending (h h' : Heap) (b b' : Buffer) (nm : string)
  (sig : list cond) :
  wf b -> zero_frames b = 0 -> unregister_consumer h b nm = Ret (h', b', sig) ->
  full_slots_pending b'.
Proof.
  intros Hwf Hz. unfold unregister_consumer.
  destruct (private_get_consumer_id b nm =? -1); [discriminate|].
  set (b1 := set_consumers b _).
  assert (W1 : wf b1).
  { unfold b1. wf_split Hwf. unfold wf, wfb; fields.
    repeat (apply andb_true_intro; split); wf_component. }
  destruct (unregister_scan_pending (seq 0 (Z.to_nat (num_frames b1))) h b1 0 W1 Hz
              (List.seq_NoDup _ _)) as (Hn & _ & _ & Hin & _).
  destruct (unregister_scan _ h b1 0) as [[h2 b2] r]. cbn [fst snd] in Hn, Hin.
  intros E; injection E as <- <- <-.
  intros ID Hv. apply Hin; [unfold valid_slot in *; congruence|].
  apply in_seq. unfold valid_slot in Hv. rewrite Hn in Hv. lia.
Qed.

Lemma register_consumer_pending (b b' : Buffer) (nm : string) :
  register_consumer b nm = Ret b' -> full_slots_pending b -> full_slots_pending b'.
Proof.
  unfold register_consumer. destruct (negb _); [discriminate|].
  destruct (first_free _ _) as [i|] eqn:Ef; [|discriminate].
  intros E; injection E as <-. intros Hp ID Hv Hfull Hall.
  apply (Hp ID Hv Hfull). intros j [Hj Hu].
  unfold first_free in Ef. apply find_some in Ef as [_ Hfree]. apply Z.eqb_eq in Hfree.
  assert (Hne : i <> j) by (intros ->; congruence).
  specialize (Hall j). unfold registered_consumer, consumer_bit in Hall. fields.
  rewrite list_lookup_total_insert_ne in Hall by exact Hne.
  apply Hall. split; assumption.
Qed.

Lemma zero_thread_step_pending (h h' : Heap) (b b' : Buffer) (ID : Z) (st : zero_stage) :
  wf b -> zero_thread_step h b ID st = Ret (h', b') ->
  full_slots_pending b -> full_slots_pending b'.
Proof.
  intros Hwf E Hp.
  destruct (zero_thread_step_control _ _ _ _ _ _ E)
    as [(_ & pool & -> & _)|(_ & _ & Hr & _ & ->)].
  - apply (full_slots_pending_ext b); auto.
  - destruct (wf_sizes b Hwf) as (_ & Lf & Lfr & _).
    apply (full_slots_pending_update b _ ID); fields; try reflexivity; try lia; try exact Hp.
    + intros ID' H0 Hne. unfold full_flag; fields. rewrite !arr_get_set_ne by lia. auto.
    + intros _. apply slot_pending_empty. unfold full_flag; fields.
      apply arr_get_set_eq. lia.
Qed.

(** Every call keeps the number of frames, and the zero-on-release flag is
    only ever switched on. *)
Lemma local_effect_control (c : call) (buf : Z) (h : Heap) (b b' : Buffer) :
  local_effect c buf h b b' ->
  num_frames b' = num_frames b
  /\ (zero_frames b' = zero_frames b \/ zero_frames b' = 1).
Proof.
  destruct c; cbn [local_effect]; try contradiction.
  - intros [_ E]. revert E. unfold register_producer. destruct (negb _); [discriminate|].
    destruct (first_free _ _); [|discriminate]. intros E; injection E as <-. auto.
  - intros [_ E]. revert E. unfold register_consumer. destruct (negb _); [discriminate|].
    destruct (first_free _ _); [|discriminate]. intros E; injection E as <-. auto.
  - intros [_ (h' & sig & E)]. revert E. unfold unregister_consumer.
    destruct (_ =? -1); [discriminate|].
    set (b1 := set_consumers b _).
    assert (Hgen : forall ids hh bb rr,
              num_frames (unregister_scan ids hh bb rr).1.2 = num_frames bb
              /\ zero_frames (unregister_scan ids hh bb rr).1.2 = zero_frames bb).
    { induction ids as [|id ids IH]; intros hh bb rr; [auto|]. cbn [unregister_scan].
      destruct (_ =? 1); [|apply IH].
      destruct (decide (zero_frames bb = 1)) as [Hz|Hz].
      - destruct (private_mark_frame_empty_deferred hh bb (Z.of_nat id) Hz)
          as (h2 & b2 & -> & Hn2 & _ & _ & _ & _ & _ & _ & Hz2 & _).
        destruct (IH h2 b2 (Z.lor rr 0)) as [-> ->]. auto.
      - destruct (private_mark_frame_empty_now hh bb (Z.of_nat id) Hz)
          as (h2 & b2 & -> & Hn2 & _ & _ & _ & _ & _ & _ & Hz2 & _).
        destruct (IH h2 b2 (Z.lor rr 1)) as [-> ->]. auto. }
    destruct (Hgen (seq 0 (Z.to_nat (num_frames b1))) h b1 0) as [Hn Hz].
    destruct (unregister_scan _ h b1 0) as [[h2 b2] r].
    intros E; injection E as <- <- <-. cbn [fst snd] in Hn, Hz. auto.
  - intros [_ (p & E)]. revert E. unfold wait_for_empty_frame.
    destruct (0 <=? _); [|discriminate]. destruct (_ <? _); [|discriminate].
    destruct (negb _); [|discriminate]. destruct (_ && _); [discriminate|].
    destruct (_ =? 1); intros E; injection E as <- <-; auto.
  - intros [_ (p & E)]. revert E. unfold wait_for_full_frame.
    destruct (negb (_ =? -1)); [|discriminate]. destruct (negb _); [discriminate|].
    destruct (_ && _); [discriminate|].
    destruct (_ =? 1); intros E; injection E as <- <-; auto.
  - intros [_ (r & E)].
    destruct (wait_for_full_frame_timeout_alone _ _ _ _ _ _ _ E) as [->| ->]; auto.
  - intros [_ (h' & sig & E)]. revert E. unfold mark_frame_full.
    destruct (0 <=? _); [|discriminate]. destruct (_ <? _); [|discriminate].
    destruct (private_mark_producer_done b nm ID) as [b1| | |] eqn:E1; try discriminate.
    cbn [mbind result_mbind result_bind].
    destruct (private_mark_producer_done_control _ _ _ _ E1) as (Hn & _ & _ & _ & Hz & _).
    destruct (_ =? 1).
    + destruct (_ =? 1).
      * unfold release_metadata. fields.
        destruct (_ =? NULL); intros E; injection E as <- <- <-; fields; auto.
      * intros E; injection E as <- <- <-; fields; auto.
    + intros E; injection E as <- <- <-; auto.
  - intros [_ (h' & sig & E)]. revert E. unfold mark_frame_empty.
    destruct (0 <=? ID) eqn:C1; [|discriminate]. apply Z.leb_le in C1.
    destruct (_ <? _); [|discriminate].
    destruct (private_mark_consumer_done b nm ID) as [b1| | |] eqn:E1; try discriminate.
    cbn [mbind result_mbind result_bind].
    destruct (private_mark_consumer_done_control _ _ _ _ C1 E1) as (Hn & _ & Hz & _).
    destruct (_ =? 1).
    + destruct (decide (zero_frames b1 = 1)) as [Hz1|Hz1].
      * destruct (private_mark_frame_empty_deferred h b1 ID Hz1)
          as (h2 & b2 & -> & Hn2 & _ & _ & _ & _ & _ & _ & Hz2 & _).
        intros E; injection E as <- <- <-. split; [congruence|left; congruence].
      * destruct (private_mark_frame_empty_now h b1 ID Hz1)
          as (h2 & b2 & -> & Hn2 & _ & _ & _ & _ & _ & _ & Hz2 & _).
        intros E; injection E as <- <- <-. split; [congruence|left; congruence].
    + intros E; injection E as <- <- <-; auto.
  - intros [_ ->]. cbn. auto.
  - intros [_ (h' & E)]. revert E. unfold allocate_new_metadata_object.
    destruct (0 <=? _); [|discriminate]. destruct (_ <? _); [|discriminate].
    destruct (_ =? NULL); [discriminate|].
    destruct (_ =? NULL).
    + destruct (request_metadata_object _ _) as [h1 m].
      destruct (_ =? NULL); [discriminate|]. intros E; injection E as <- <-. auto.
    + destruct (_ =? NULL); [discriminate|]. intros E; injection E as <- <-. auto.
  - intros [_ (m & ->)]. auto.
  - intros [_ (p & E)]. revert E. unfold swap_external_frame.
    destruct (_ =? 1); [|discriminate]. destruct (negb _); [discriminate|].
    intros E; injection E as <- <-. auto.
  - intros [[_ (p & ->)]|[_ (p & ->)]]; auto.
  - intros [[_ (p & ->)]|[_ (p & ->)]]; auto.
  - intros [_ ->]. auto.
  - intros (_ & _ & h' & E).
    destruct (zero_thread_step_control _ _ _ _ _ _ E)
      as [(_ & pool & -> & _)|(_ & _ & _ & _ & ->)]; auto.
Qed.

Lemma local_effect_pending (c : call) (buf : Z) (h : Heap) (b b' : Buffer) :
  wf b -> local_effect c buf h b b' ->
  (zero_frames b = 0 -> full_slots_pending b) ->
  zero_frames b' = 0 -> full_slots_pending b'.
Proof.
  intros Hwf Hl Hp Hz'.
  assert (Hz : zero_frames b = 0).
  { destruct (local_effect_control _ _ _ _ _ Hl) as [_ [E|E]]; congruence. }
  specialize (Hp Hz).
  destruct c; cbn [local_effect] in Hl; try contradiction.
  - destruct Hl as [_ E]. revert E. unfold register_producer. destruct (negb _); [discriminate|].
    destruct (first_free _ _); [|discriminate]. intros E; injection E as <-.
    apply (full_slots_pending_ext b); auto.
  - destruct Hl as [_ E]. eapply register_consumer_pending; eauto.
  - destruct Hl as [_ (h' & sig & E)]. eapply unregister_consumer_pending; eauto.
  - destruct Hl as [_ (p & E)]. revert E. unfold wait_for_empty_frame.
    destruct (0 <=? _); [|discriminate]. destruct (_ <? _); [|discriminate].
    destruct (negb _); [|discriminate]. destruct (_ && _); [discriminate|].
    destruct (_ =? 1); intros E; injection E as <- <-; [exact Hp|].
    apply (full_slots_pending_ext b); auto.
  - destruct Hl as [_ (p & E)]. revert E. unfold wait_for_full_frame.
    destruct (negb (_ =? -1)); [|discriminate]. destruct (negb _); [discriminate|].
    destruct (_ && _); [discriminate|].
    destruct (_ =? 1); intros E; injection E as <- <-; [exact Hp|].
    apply (full_slots_pending_ext b); auto. intros i. fields.
    destruct (table_update_keeps (consumers b) (private_get_consumer_id b nm)
                (fun s => stage_set_acquired s ID) i ltac:(intros; split; reflexivity))
      as [Hk _]. exact Hk.
  - destruct Hl as [_ (r & E)].
    destruct (wait_for_full_frame_timeout_alone _ _ _ _ _ _ _ E) as [->| ->]; [exact Hp|].
    apply (full_slots_pending_ext b); auto. intros i. fields.
    destruct (table_update_keeps (consumers b) (private_get_consumer_id b nm)
                (fun s => stage_set_acquired s ID) i ltac:(intros; split; reflexivity))
      as [Hk _]. exact Hk.
  - destruct Hl as [_ (h' & sig & E)]. eapply mark_frame_full_pending; eauto.
  - destruct Hl as [_ (h' & sig & E)]. eapply mark_frame_empty_pending; eauto.
  - destruct Hl as [_ ->]. cbn in Hz'. discriminate.
  - destruct Hl as [_ (h' & E)]. revert E. unfold allocate_new_metadata_object.
    destruct (0 <=? _); [|discriminate]. destruct (_ <? _); [|discriminate].
    destruct (_ =? NULL); [discriminate|].
    destruct (_ =? NULL).
    + destruct (request_metadata_object _ _) as [h1 m].
      destruct (_ =? NULL); [discriminate|]. intros E; injection E as <- <-.
      apply (full_slots_pending_ext b); auto.
    + destruct (_ =? NULL); [discriminate|]. intros E; injection E as <- <-. exact Hp.
  - destruct Hl as [_ (m & ->)]. apply (full_slots_pending_ext b); auto.
  - destruct Hl as [_ (p & E)]. revert E. unfold swap_external_frame.
    destruct (_ =? 1); [|discriminate]. destruct (negb _); [discriminate|].
    intros E; injection E as <- <-. apply (full_slots_pending_ext b); auto.
  - destruct Hl as [[_ (p & ->)]|[_ (p & ->)]]; apply (full_slots_pending_ext b); auto.
  - destruct Hl as [[_ (p & ->)]|[_ (p & ->)]]; apply (full_slots_pending_ext b); auto.
  - destruct Hl as [_ ->]. apply (full_slots_pending_ext b); auto.
  - destruct Hl as (_ & _ & h' & E).
    eapply zero_thread_step_pending; eauto.
Qed.

Lemma exec_world_ok (w w' : World) (c : call) :
  world_ok w -> exec w c = Ret w' -> world_ok w'.
Proof.
  intros Hok He buf b' Hb'.
  destruct (exec_local _ _ _ _ _ He Hb')
    as [Hs|[(b & Hb & Hl)|(_ & n & len & pool & bn & bt & numa & alloc & h' & _ & Hc)]].
  - apply (Hok buf b' Hs).
  - destruct (Hok buf b Hb) as [Hwf Hp]. split.
    + eapply local_effect_wf; eauto.
    + eapply local_effect_pending; eauto.
  - destruct (create_buffer_fresh _ _ _ _ _ _ _ _ _ _ _ Hc) as (Hwf & Hn & _ & Hfull & _).
    split; [exact Hwf|]. intros _ ID Hv. apply slot_pending_empty.
    unfold full_flag, arr_get. rewrite Hfull. apply replicate_lookup_total.
    unfold valid_slot in Hv. lia.
Qed.

Lemma run_world_ok (cs : list call) :
  forall w w', world_ok w -> run w cs = Ret w' -> world_ok w'.
Proof.
  induction cs as [|c cs IH]; intros w w' Hok Hrun.
  - cbn in Hrun. injection Hrun as <-. exact Hok.
  - cbn [run] in Hrun. revert Hrun. result_bind_cases w1. intros Hrun.
    apply (IH w1 w'); [|exact Hrun]. eapply exec_world_ok; eauto.
Qed.

Lemma no_buffer_world_ok (w : World) : bufs w = ∅ -> world_ok w.
Proof. intros Hw buf b Hb. rewrite Hw, lookup_empty in Hb. discriminate. Qed.


(** ** Zero-on-release: the slot stays full until the zeroing thread ends *)
















Lemma store_keeps (w : World) (x : Z) (bn : Buffer) (buf : Z) :
  is_Some (bufs w !! buf) -> is_Some (bufs (store w x bn) !! buf).
Proof.
  intros Hs. cbn [store bufs]. destruct (decide (buf = x)) as [->|Hne].
  - rewrite lookup_insert_eq. eauto.
  - rewrite lookup_insert_ne by congruence. exact Hs.
Qed.

Ltac keeps_single r :=
  let b0 := fresh "b" in
  let Hb0 := fresh "Hb" in
  deref_case b0 Hb0; try result_bind_cases r;
  intros E; injection E as <-;
  try change (bufs (set_heap ?x _)) with (bufs x);
  apply store_keeps; assumption.

(** Only [delete_buffer] removes a buffer. *)
Lemma exec_keeps_buffer (w w' : World) (c : call) (buf : Z) :
  exec w c = Ret w' -> is_Some (bufs w !! buf) -> c <> DeleteBuffer buf ->
  is_Some (bufs w' !! buf).
Proof.
  intros He Hs Hnd. revert He. destruct c; cbn [exec].
  - destruct (bool_decide _); [discriminate|]. result_bind_cases r.
    destruct r as [h1 [bn|]]; intros E; injection E as <-; [|exact Hs].
    change (bufs (set_heap ?x _)) with (bufs x). apply store_keeps. exact Hs.
  - unfold delete_buffer. deref_case b0 Hb0. intros E; injection E as <-.
    cbn [bufs]. rewrite lookup_delete_ne by congruence. exact Hs.
  - keeps_single r.
  - keeps_single r.
  - keeps_single r.
  - keeps_single r.
  - keeps_single r.
  - keeps_single r.
  - keeps_single r.
  - keeps_single r.
  - keeps_single r.
  - keeps_single r.
  - unfold pass_metadata. deref_case fb Hfb.
    destruct (negb _); [discriminate|].
    destruct (arr_get (metadata fb) from_ID =? NULL); [intros E; injection E as <-; exact Hs|].
    deref_case tb Htb. destruct (negb _); [discriminate|].
    destruct (arr_get (metadata tb) to_ID =? NULL);
      (destruct (_ =? _); [|discriminate]); intros E; injection E as <-;
      change (bufs (set_heap ?x _)) with (bufs x); apply store_keeps; exact Hs.
  - unfold copy_metadata. deref_case fb Hfb. deref_case tb Htb.
    destruct (from_buf =? to_buf); [discriminate|].
    destruct (negb _); [discriminate|].
    destruct (_ =? NULL); [intros E; injection E as <-; exact Hs|].
    destruct (negb _); [discriminate|].
    destruct (_ =? NULL); [intros E; injection E as <-; exact Hs|].
    destruct (containers _ !! _); [|discriminate].
    destruct (containers _ !! _); [|discriminate].
    destruct (negb _); intros E; injection E as <-; exact Hs.
  - keeps_single r.
  - unfold swap_frames.
    destruct (negb (from_buf =? to_buf)); [|discriminate].
    destruct (negb (from_buf =? NULL)); [|discriminate].
    destruct (negb (to_buf =? NULL)); [|discriminate].
    destruct (0 <=? from_frame_id); [|discriminate].
    deref_case fb Hfb. destruct (from_frame_id <? num_frames fb); [|discriminate].
    destruct (0 <=? to_frame_id); [|discriminate].
    deref_case tb Htb. destruct (to_frame_id <? num_frames tb); [|discriminate].
    destruct (_ =? _); [|discriminate]. destruct (_ =? 1); [|discriminate].
    destruct (_ =? 1); [|discriminate].
    intros E; injection E as <-. apply store_keeps, store_keeps. exact Hs.
  - unfold safe_swap_frame.
    destruct (negb (src_buf =? dest_buf)); [|discriminate].
    destruct (negb (src_buf =? NULL)); [|discriminate].
    destruct (negb (dest_buf =? NULL)); [|discriminate].
    destruct (0 <=? src_frame_id); [|discriminate].
    deref_case sb Hsb. destruct (src_frame_id <? num_frames sb); [|discriminate].
    destruct (0 <=? dest_frame_id); [|discriminate].
    deref_case db Hdb. destruct (dest_frame_id <? num_frames db); [|discriminate].
    destruct (negb (frame_size sb =? frame_size db)); [discriminate|].
    destruct (1 <? get_num_producers db); [discriminate|].
    destruct (get_num_consumers sb =? 1).
    + intros E; injection E as <-. apply store_keeps, store_keeps. exact Hs.
    + destruct (1 <? get_num_consumers sb); [|intros E; injection E as <-; exact Hs].
      destruct (mem _ !! _); [|discriminate]. destruct (mem _ !! _); [|discriminate].
      destruct (_ || _); [discriminate|]. intros E; injection E as <-. exact Hs.
  - keeps_single r.
  - deref_case b0 Hb0. destruct (negb _); [discriminate|].
    result_bind_cases r. intros E; injection E as <-.
    change (bufs (set_heap ?x _)) with (bufs x). apply store_keeps. exact Hs.
Qed.



(** ** Unregistering a consumer *)

Lemma private_consumers_done_ext (b b' : Buffer) (ID : Z) :
  arr_get (consumers_done b') ID = arr_get (consumers_done b) ID ->
  consumers b' = consumers b ->
  private_consumers_done b' ID = private_consumers_done b ID.
Proof.
  intros Hrow Hc. unfold private_consumers_done, consumer_bit. rewrite Hrow, Hc. reflexivity.
Qed.

Lemma classic_scan_choice (ids : list nat) (b : Buffer) :
  (exists id, In id ids /\ private_consumers_done b (Z.of_nat id) = 1)
  \/ (forall id, In id ids -> private_consumers_done b (Z.of_nat id) <> 1).
Proof.
  induction ids as [|x ids IH]; [right; intros id []|].
  destruct (decide (private_consumers_done b (Z.of_nat x) = 1)) as [Hx|Hx].
  - left. exists x. split; [left; reflexivity|exact Hx].
  - destruct IH as [(id & Hin & Hd)|Hnone].
    + left. exists id. split; [right; exact Hin|exact Hd].
    + right. intros id [->|Hin]; [exact Hx|apply Hnone; exact Hin].
Qed.

(** The scan of [unregister_consumer] with zero-on-release off: every slot
    of [ids] on which all registered consumers are done goes through the
    empty transition, whether it is full or not; the other slots are
    untouched. *)
Lemma unregister_scan_now (ids : list nat) :
  forall (h : Heap) (b : Buffer) (r : Z),
  wf b -> zero_frames b = 0 -> List.NoDup ids ->
  consumers (unregister_scan ids h b r).1.2 = consumers b
  /\ frames (unregister_scan ids h b r).1.2 = frames b
  /\ producers (unregister_scan ids h b r).1.2 = producers b
  /\ producers_done (unregister_scan ids h b r).1.2 = producers_done b
  /\ (forall ID, valid_slot b ID -> In (Z.to_nat ID) ids ->
        private_consumers_done b ID = 1 ->
        full_flag (unregister_scan ids h b r).1.2 ID = 0
        /\ arr_get (metadata (unregister_scan ids h b r).1.2) ID = NULL
        /\ arr_get (consumers_done (unregister_scan ids h b r).1.2) ID
           = replicate MAX_CONSUMERS 0)
  /\ (forall ID, 0 <= ID ->
        ~ In (Z.to_nat ID) ids \/ private_consumers_done b ID <> 1 ->
        full_flag (unregister_scan ids h b r).1.2 ID = full_flag b ID
        /\ arr_get (metadata (unregister_scan ids h b r).1.2) ID = arr_get (metadata b) ID
        /\ arr_get (consumers_done (unregister_scan ids h b r).1.2) ID
           = arr_get (consumers_done b) ID)
  /\ ((exists id, In id ids /\ private_consumers_done b (Z.of_nat id) = 1) ->
      Z.lor r 1 = 1 -> (unregister_scan ids h b r).2 = 1)
  /\ ((forall id, In id ids -> private_consumers_done b (Z.of_nat id) <> 1) ->
      (unregister_scan ids h b r).2 = r).
Proof.
  induction ids as [|id ids IH]; intros h b r Hwf Hz Hnd.
  - cbn [unregister_scan fst snd].
    split; [reflexivity|]. split; [reflexivity|]. split; [reflexivity|].
    split; [reflexivity|]. split; [intros ID _ []|]. split; [auto|].
    split; [intros (id & [] & _)|reflexivity].
  - inversion Hnd as [|? ? Hnotin Hnd']; subst.
    destruct (wf_sizes b Hwf) as (_ & Lf & _ & Lm & _ & _ & _ & Lcd).
    cbn [unregister_scan].
    destruct (private_consumers_done b (Z.of_nat id) =? 1) eqn:Ed.
    + apply Z.eqb_eq in Ed.
      destruct (private_mark_frame_empty_now h b (Z.of_nat id) ltac:(lia))
        as (h2 & b2 & Epm & Hn2 & Hf2 & Hcd2 & Hc2 & Hp2 & Hpd2 & Hfr2 & Hz2 & _ & _ & Hm2 & _).
      pose proof (wf_private_mark_frame_empty h b (Z.of_nat id) Hwf) as Hwf2.
      rewrite Epm in Hwf2 |- *. cbn [fst snd] in Hwf2.
      assert (Hother : forall ID, 0 <= ID -> ID <> Z.of_nat id ->
                full_flag b2 ID = full_flag b ID
                /\ arr_get (metadata b2) ID = arr_get (metadata b) ID
                /\ arr_get (consumers_done b2) ID = arr_get (consumers_done b) ID).
      { intros ID H0 Hne. unfold full_flag. rewrite Hf2, Hcd2, Hm2.
        rewrite !arr_get_set_ne by lia.
        destruct (_ =? NULL); [auto|]. rewrite arr_get_set_ne by lia. auto. }
      assert (Hsame : forall ID, 0 <= ID -> ID <> Z.of_nat id ->
                private_consumers_done b2 ID = private_consumers_done b ID).
      { intros ID H0 Hne. apply private_consumers_done_ext; [|exact Hc2].
        apply (Hother ID H0 Hne). }
      destruct (IH h2 b2 (Z.lor r 1) Hwf2 ltac:(congruence) Hnd')
        as (IHc & IHfr & IHp & IHpd & IHin & IHout & IHb1 & IHb0).
      split; [congruence|]. split; [congruence|]. split; [congruence|].
      split; [congruence|]. split; [|split; [|split]].
      * intros ID Hv [Hid|Hin] Hd.
        -- unfold valid_slot in Hv. assert (ID = Z.of_nat id) by lia. subst ID.
           destruct (IHout (Z.of_nat id) ltac:(lia)
                       ltac:(left; rewrite Nat2Z.id; exact Hnotin)) as (E1 & E2 & E3).
           rewrite E1, E2, E3. unfold full_flag. rewrite Hf2, Hcd2, Hm2.
           rewrite !arr_get_set_eq by lia. split; [reflexivity|]. split; [|reflexivity].
           destruct (arr_get (metadata b) (Z.of_nat id) =? NULL) eqn:En;
             [apply Z.eqb_eq in En; exact En|apply arr_get_set_eq; lia].
        -- assert (Hne : ID <> Z.of_nat id).
           { intros ->. rewrite Nat2Z.id in Hin. contradiction. }
           unfold valid_slot in Hv.
           apply IHin; [unfold valid_slot; lia|exact Hin|].
           rewrite Hsame by lia. exact Hd.
      * intros ID H0 Hcase.
        assert (Hne : ID <> Z.of_nat id).
        { intros ->. destruct Hcase as [Hc|Hc]; [apply Hc; left; lia|contradiction]. }
        destruct (Hother ID H0 Hne) as (O1 & O2 & O3).
        destruct (IHout ID H0) as (E1 & E2 & E3).
        { destruct Hcase as [Hc|Hc]; [left; intros Hin; apply Hc; right; exact Hin|].
          right. rewrite Hsame by lia. exact Hc. }
        rewrite E1, E2, E3. auto.
      * intros _ Hr.
        destruct (classic_scan_choice ids b2) as [Hex|Hnone].
        -- apply IHb1; [exact Hex|]. rewrite <- Z.lor_assoc. exact Hr.
        -- rewrite IHb0 by exact Hnone. exact Hr.
      * intros Hnone. exfalso. apply (Hnone id); [left; reflexivity|exact Ed].
    + apply Z.eqb_neq in Ed.
      destruct (IH h b r Hwf Hz Hnd')
        as (IHc & IHfr & IHp & IHpd & IHin & IHout & IHb1 & IHb0).
      split; [exact IHc|]. split; [exact IHfr|]. split; [exact IHp|].
      split; [exact IHpd|]. split; [|split; [|split]].
      * intros ID Hv [Hid|Hin] Hd; [|apply IHin; assumption].
        exfalso. apply Ed. unfold valid_slot in Hv. replace (Z.of_nat id) with ID by lia.
        exact Hd.
      * intros ID H0 Hcase. apply IHout; [exact H0|].
        destruct Hcase as [Hc|Hc]; [left; intros Hin; apply Hc; right; exact Hin|].
        right. exact Hc.
      * intros (x & [Hx|Hx] & Hd) Hr; [subst x; contradiction|].
        apply IHb1; [exists x; auto|exact Hr].
      * intros Hnone. apply IHb0. intros x Hx. apply Hnone. right. exact Hx.
Qed.

(** What [unregister_consumer] does with zero-on-release off, for a
    registered name: the row of the consumer is freed; every slot on which
    all remaining registered consumers are done, full or not, is put
    through the empty transition (flag cleared, metadata released,
    consumer-done bits cleared); every other slot is untouched; the empty
    condition is broadcast exactly when some slot went through the
    transition. *)
Lemma unregister_consumer_effect (h : Heap) (b : Buffer) (nm : string) :
  wf b -> zero_frames b = 0 -> private_get_consumer_id b nm <> -1 ->
  exists h' b' sig,
    unregister_consumer h b nm = Ret (h', b', sig)
    /\ in_use (consumers b' !!! Z.to_nat (private_get_consumer_id b nm)) = 0
    /\ (forall i, i <> Z.to_nat (private_get_consumer_id b nm) ->
          consumers b' !!! i = consumers b !!! i)
    /\ frames b' = frames b
    /\ (forall ID, valid_slot b ID ->
          remaining_consumers_done b (Z.to_nat (private_get_consumer_id b nm)) ID ->
          full_flag b' ID = 0 /\ arr_get (metadata b') ID = NULL
          /\ arr_get (consumers_done b') ID = replicate MAX_CONSUMERS 0)
    /\ (forall ID, valid_slot b ID ->
          ~ remaining_consumers_done b (Z.to_nat (private_get_consumer_id b nm)) ID ->
          full_flag b' ID = full_flag b ID
          /\ arr_get (metadata b') ID = arr_get (metadata b) ID
          /\ arr_get (consumers_done b') ID = arr_get (consumers_done b) ID)
    /\ (sig = [empty_cond] <->
        exists ID, valid_slot b ID
          /\ remaining_consumers_done b (Z.to_nat (private_get_consumer_id b nm)) ID).
Proof.
  intros Hwf Hz Hreg.
  destruct (private_get_consumer_id_found b nm Hreg) as (c & Hc & [Hclt Hcu] & _).
  destruct (wf_sizes b Hwf) as (Hn & _ & _ & _ & _ & Lc & _ & _).
  unfold unregister_consumer. apply Z.eqb_neq in Hreg. rewrite Hreg.
  rewrite Hc, Nat2Z.id.
  set (b1 := set_consumers b _).
  assert (W1 : wf b1).
  { unfold b1. wf_split Hwf. unfold wf, wfb; fields.
    repeat (apply andb_true_intro; split); wf_component. }
  assert (Hrow_c : in_use (consumers b1 !!! c) = 0).
  { unfold b1. fields. unfold arr_set. rewrite Nat2Z.id.
    rewrite list_lookup_total_insert_eq by lia. reflexivity. }
  assert (Hrow_o : forall i, i <> c -> consumers b1 !!! i = consumers b !!! i).
  { intros i Hi. unfold b1. fields. unfold arr_set. rewrite Nat2Z.id.
    apply list_lookup_total_insert_ne. congruence. }
  assert (Hdone : forall ID, valid_slot b ID ->
            (private_consumers_done b1 ID = 1 <-> remaining_consumers_done b c ID)).
  { intros ID Hv. rewrite private_consumers_done_1. unfold remaining_consumers_done.
    split.
    - intros Hall i [Hi Hu] Hne.
      destruct (wf_consumer_bit b ID i Hwf Hv Hi) as [E|E]; [|exact E].
      exfalso. apply (Hall i); [|exact E]. split; [exact Hi|].
      rewrite Hrow_o by exact Hne. exact Hu.
    - intros Hall i [Hi Hu].
      destruct (decide (i = c)) as [->|Hne]; [congruence|].
      rewrite Hrow_o in Hu by exact Hne.
      change (consumer_bit b1 ID i) with (consumer_bit b ID i).
      rewrite (Hall i (conj Hi Hu) Hne). discriminate. }
  destruct (unregister_scan_now (seq 0 (Z.to_nat (num_frames b1))) h b1 0 W1 Hz
              (List.seq_NoDup _ _))
    as (Sc & Sfr & _ & _ & Sin & Sout & Sb1 & Sb0).
  destruct (unregister_scan _ h b1 0) as [[h2 b2] r]. cbn [fst snd] in *.
  assert (Hinseq : forall ID, valid_slot b ID ->
            In (Z.to_nat ID) (seq 0 (Z.to_nat (num_frames b1)))).
  { intros ID Hv. apply in_seq. unfold valid_slot in Hv.
    change (num_frames b1) with (num_frames b). lia. }
  do 3 eexists. split; [reflexivity|].
  split; [rewrite Sc; exact Hrow_c|].
  split; [intros i Hi; rewrite Sc; apply Hrow_o; exact Hi|].
  split; [exact Sfr|]. split; [|split].
  - intros ID Hv Hrem. apply Sin; [exact Hv|apply Hinseq; exact Hv|].
    apply Hdone; assumption.
  - intros ID Hv Hrem.
    apply (Sout ID ltac:(unfold valid_slot in Hv; lia)). right.
    intros Hd. apply Hrem. apply Hdone; assumption.
  - destruct (classic_scan_choice (seq 0 (Z.to_nat (num_frames b1))) b1)
      as [(id & Hin & Hd)|Hnone].
    + rewrite Sb1 by (eauto || reflexivity). cbn [Z.eqb Pos.eqb].
      split; [intros _|reflexivity].
      apply in_seq in Hin. change (num_frames b1) with (num_frames b) in Hin.
      assert (Hv : valid_slot b (Z.of_nat id)) by (unfold valid_slot; lia).
      exists (Z.of_nat id). split; [exact Hv|]. apply Hdone; assumption.
    + rewrite Sb0 by exact Hnone. cbn [Z.eqb].
      split; [discriminate|]. intros (ID & Hv & Hrem). exfalso.
      apply (Hnone (Z.to_nat ID) (Hinseq ID Hv)).
      unfold valid_slot in Hv. rewrite Z2Nat.id by lia. apply Hdone; assumption.
Qed.

(** ** The handoff discipline *)

Lemma arr_get_set_zero (l : list Z) (i j : Z) :
  0 <= i -> 0 <= j -> arr_get l j = 0 -> arr_get (arr_set l i 0) j = 0.
Proof.
  intros Hi Hj H. destruct (decide (i = j)) as [->|Hne].
  - destruct (decide (j < Z.of_nat (length l))) as [Hin|Hout].
    + apply arr_get_set_eq. lia.
    + unfold arr_set. rewrite list_insert_ge by lia. exact H.
  - rewrite arr_get_set_ne by lia. exact H.
Qed.

Lemma private_mark_frame_empty_producer_side (h : Heap) (b : Buffer) (id : Z) :
  0 <= id ->
  producers (private_mark_frame_empty h b id).1.2 = producers b
  /\ producers_done (private_mark_frame_empty h b id).1.2 = producers_done b
  /\ (forall ID, 0 <= ID -> full_flag b ID = 0 ->
        full_flag (private_mark_frame_empty h b id).1.2 ID = 0).
Proof.
  intros Hid. unfold private_mark_frame_empty, release_metadata, full_flag.
  destruct (zero_frames b =? 1); fields; destruct (_ =? NULL); fields;
    (split; [reflexivity|]); (split; [reflexivity|]); intros ID H0 Hf;
    try exact Hf; apply arr_get_set_zero; assumption.
Qed.

Lemma unregister_scan_producer_side (ids : list nat) :
  forall (h : Heap) (b : Buffer) (r : Z),
  producers (unregister_scan ids h b r).1.2 = producers b
  /\ producers_done (unregister_scan ids h b r).1.2 = producers_done b
  /\ (forall ID, 0 <= ID -> full_flag b ID = 0 ->
        full_flag (unregister_scan ids h b r).1.2 ID = 0).
Proof.
  induction ids as [|id ids IH]; intros h b r; [auto|]. cbn [unregister_scan].
  destruct (_ =? 1); [|apply IH].
  destruct (private_mark_frame_empty_producer_side h b (Z.of_nat id) ltac:(lia))
    as (Hp & Hpd & Hf).
  destruct (private_mark_frame_empty h b (Z.of_nat id)) as [[h1 b1] r1].
  cbn [fst snd] in *.
  destruct (IH h1 b1 (Z.lor r r1)) as (IHp & IHpd & IHf).
  split; [congruence|]. split; [congruence|]. intros ID H0 H. apply IHf; auto.
Qed.

(** A call other than the holder's own [mark_frame_full] leaves a held slot
    held: not full, the holder registered, its done bit clear. *)
Lemma local_effect_holder (c : call) (buf : Z) (h : Heap) (b b' : Buffer) (p : nat)
  (ID : Z) :
  wf b -> 0 <= ID -> local_effect c buf h b b' ->
  full_flag b ID = 0 -> registered_producer b p -> producer_bit b ID p = 0 ->
  match c with
  | MarkFrameFull _ nm ID0 _ =>
      ~ (ID0 = ID /\ Z.to_nat (private_get_producer_id b nm) = p)
  | _ => True
  end ->
  full_flag b' ID = 0 /\ registered_producer b' p /\ producer_bit b' ID p = 0.
Proof.
  intros Hwf H0 Hl Hf Hreg Hbit Hside.
  destruct c; cbn [local_effect] in Hl; try contradiction.
  - destruct Hl as [_ E]. revert E. unfold register_producer. destruct (negb _); [discriminate|].
    destruct (first_free _ _) as [i|] eqn:Ef; [|discriminate]. intros E; injection E as <-.
    split; [exact Hf|]. split; [|exact Hbit].
    unfold first_free in Ef. apply find_some in Ef as [_ Hfree]. apply Z.eqb_eq in Hfree.
    destruct Hreg as [Hp Hu]. split; [exact Hp|]. fields.
    rewrite list_lookup_total_insert_ne by (intros ->; congruence). exact Hu.
  - destruct Hl as [_ E]. revert E. unfold register_consumer. destruct (negb _); [discriminate|].
    destruct (first_free _ _); [|discriminate]. intros E; injection E as <-. auto.
  - destruct Hl as [_ (h' & sig & E)]. revert E. unfold unregister_consumer.
    destruct (_ =? -1); [discriminate|].
    set (b1 := set_consumers b _).
    destruct (unregister_scan_producer_side (seq 0 (Z.to_nat (num_frames b1))) h b1 0)
      as (Sp & Spd & Sf).
    destruct (unregister_scan _ h b1 0) as [[h2 b2] r]. cbn [fst snd] in *.
    intros E; injection E as <- <- <-.
    split; [apply Sf; assumption|]. unfold registered_producer, producer_bit.
    rewrite Sp, Spd. auto.
  - destruct Hl as [_ (q & E)]. revert E. unfold wait_for_empty_frame.
    destruct (0 <=? _); [|discriminate]. destruct (_ <? _); [|discriminate].
    destruct (negb _); [|discriminate]. destruct (_ && _); [discriminate|].
    destruct (_ =? 1); intros E; injection E as <- <-; [auto|].
    split; [exact Hf|]. split; [|exact Hbit].
    destruct Hreg as [Hp Hu]. split; [exact Hp|]. fields.
    destruct (table_update_keeps (producers b) (private_get_producer_id b nm)
                (fun s => stage_set_acquired s ID0) p ltac:(intros; split; reflexivity))
      as [Hk _]. rewrite Hk. exact Hu.
  - destruct Hl as [_ (q & E)]. revert E. unfold wait_for_full_frame.
    destruct (negb (_ =? -1)); [|discriminate]. destruct (negb _); [discriminate|].
    destruct (_ && _); [discriminate|].
    destruct (_ =? 1); intros E; injection E as <- <-; auto.
  - destruct Hl as [_ (r & E)].
    destruct (wait_for_full_frame_timeout_alone _ _ _ _ _ _ _ E) as [->| ->]; auto.
  - (* mark_frame_full by another producer, or on another slot *)
    destruct Hl as [_ (h' & sig & E)]. revert E. unfold mark_frame_full.
    destruct (0 <=? ID0) eqn:C1; [|discriminate]. apply Z.leb_le in C1.
    destruct (ID0 <? num_frames b) eqn:C2; [|discriminate]. apply Z.ltb_lt in C2.
    unfold private_mark_producer_done.
    destruct (negb (private_get_producer_id b nm =? -1)) eqn:Hq; [|discriminate].
    apply negb_true_iff, Z.eqb_neq in Hq.
    destruct (producer_bit b ID0 _ =? 0); [|discriminate].
    cbn [mbind result_mbind result_bind].
    set (b1 := set_producers_done _ _).
    destruct (private_get_producer_id_found b nm Hq) as (q & Eq & [Hqlt _] & _).
    destruct (wf_sizes b Hwf) as (_ & _ & _ & _ & Lp & _ & Lpd & _).
    destruct (wf_producer_row b ID0 Hwf ltac:(split; lia)) as [Lrow _].
    assert (Hreg1 : registered_producer b1 p).
    { destruct Hreg as [Hp Hu]. split; [exact Hp|]. unfold b1. fields.
      destruct (table_update_keeps (producers b) (private_get_producer_id b nm)
                  (fun s => stage_set_released s ID0) p ltac:(intros; split; reflexivity))
        as [Hk _]. rewrite Hk. exact Hu. }
    assert (Hbit1 : producer_bit b1 ID p = 0).
    { unfold producer_bit, b1. fields.
      destruct (decide (ID = ID0)) as [->|Hne].
      - rewrite rows_get_set_same by lia. rewrite row_set_lookup by lia.
        destruct (decide (p = Z.to_nat (private_get_producer_id b nm))) as [Hpq|_];
          [exfalso; apply Hside; auto|exact Hbit].
      - rewrite arr_get_set_ne by lia. exact Hbit. }
    destruct (private_producers_done b1 ID0 =? 1) eqn:Hd.
    + apply Z.eqb_eq in Hd.
      assert (Hne : ID <> ID0).
      { intros ->. rewrite private_producers_done_1 in Hd.
        apply (Hd p Hreg1). exact Hbit1. }
      assert (Hkeep : forall b6, is_full b6 = arr_set (arr_set (is_full b) ID0 1) ID0 0
                                 \/ is_full b6 = arr_set (is_full b) ID0 1 ->
                producers b6 = producers b1 ->
                producers_done b6 = arr_set (producers_done b1) ID0 (replicate MAX_PRODUCERS 0) ->
                full_flag b6 ID = 0 /\ registered_producer b6 p /\ producer_bit b6 ID p = 0).
      { intros b6 Hfull Hp6 Hpd6. split; [|split].
        - unfold full_flag in *. destruct Hfull as [-> | ->];
            rewrite !arr_get_set_ne by lia; exact Hf.
        - unfold registered_producer. rewrite Hp6. exact Hreg1.
        - unfold producer_bit. rewrite Hpd6. rewrite arr_get_set_ne by lia. exact Hbit1. }
      destruct (private_consumers_done _ ID0 =? 1).
      * unfold release_metadata. fields.
        destruct (_ =? NULL); intros E; injection E as <- <- <-;
          apply Hkeep; fields; auto.
      * intros E; injection E as <- <- <-. apply Hkeep; fields; auto.
    + intros E; injection E as <- <- <-. auto.
  - destruct Hl as [_ (h' & sig & E)]. revert E. unfold mark_frame_empty.
    destruct (0 <=? ID0) eqn:C1; [|discriminate]. apply Z.leb_le in C1.
    destruct (_ <? _); [|discriminate].
    destruct (private_mark_consumer_done b nm ID0) as [b1| | |] eqn:E1; try discriminate.
    cbn [mbind result_mbind result_bind].
    destruct (private_mark_consumer_done_control _ _ _ _ C1 E1)
      as (_ & Hf1 & _ & _ & _ & _ & Hp1 & Hpd1 & _).
    destruct (_ =? 1).
    + destruct (private_mark_frame_empty_producer_side h b1 ID0 C1) as (Hp2 & Hpd2 & Hf2).
      destruct (private_mark_frame_empty h b1 ID0) as [[h2 b2] r]. cbn [fst snd] in *.
      intros E; injection E as <- <- <-.
      split; [apply Hf2; [exact H0|unfold full_flag in *; rewrite Hf1; exact Hf]|].
      unfold registered_producer, producer_bit. rewrite Hp2, Hpd2, Hp1, Hpd1. auto.
    + intros E; injection E as <- <- <-.
      unfold full_flag, registered_producer, producer_bit in *.
      rewrite Hf1, Hp1, Hpd1. auto.
  - destruct Hl as [_ ->]. auto.
  - destruct Hl as [_ (h' & E)]. revert E. unfold allocate_new_metadata_object.
    destruct (0 <=? _); [|discriminate]. destruct (_ <? _); [|discriminate].
    destruct (_ =? NULL); [discriminate|].
    destruct (_ =? NULL).
    + destruct (request_metadata_object _ _) as [h1 m].
      destruct (_ =? NULL); [discriminate|]. intros E; injection E as <- <-. auto.
    + destruct (_ =? NULL); [discriminate|]. intros E; injection E as <- <-. auto.
  - destruct Hl as [_ (m & ->)]. auto.
  - destruct Hl as [_ (q & E)]. revert E. unfold swap_external_frame.
    destruct (_ =? 1); [|discriminate]. destruct (negb _); [discriminate|].
    intros E; injection E as <- <-. auto.
  - destruct Hl as [[_ (q & ->)]|[_ (q & ->)]]; auto.
  - destruct Hl as [[_ (q & ->)]|[_ (q & ->)]]; auto.
  - destruct Hl as [_ ->]. auto.
  - destruct Hl as (_ & _ & h' & E).
    destruct (zero_thread_step_control _ _ _ _ _ _ E)
      as [(_ & pool & -> & _)|(_ & _ & Hr & _ & ->)]; [auto|].
    split; [|auto]. unfold full_flag in *. fields. apply arr_get_set_zero; [lia|lia|exact Hf].
Qed.








(** Under the discipline no producer marks a slot that is being zeroed. *)

(** ** The producer-done bits of a full slot *)








(** ** Stage names and registration *)

Lemma substring_0_idem (n : nat) : forall s : string,
  String.substring 0 n (String.substring 0 n s) = String.substring 0 n s.
Proof.
  induction n as [|n IH]; intros s.
  - destruct s; reflexivity.
  - destruct s as [|c s]; [reflexivity|]. cbn. rewrite IH. reflexivity.
Qed.

Lemma same_name_refl (a : string) : same_name a a = true.
Proof. unfold same_name, strncmp_zero. apply String.eqb_refl. Qed.

Lemma same_name_sym (a b : string) : same_name a b = same_name b a.
Proof. unfold same_name, strncmp_zero. apply String.eqb_sym. Qed.

Lemma same_name_trans (a b c : string) :
  same_name a b = true -> same_name b c = true -> same_name a c = true.
Proof.
  unfold same_name, strncmp_zero. rewrite !String.eqb_eq. congruence.
Qed.

Lemma same_name_strncpy (a b : string) :
  same_name (strncpy a MAX_STAGE_NAME_LEN) b = same_name a b.
Proof.
  unfold same_name, strncmp_zero, strncpy. rewrite substring_0_idem. reflexivity.
Qed.

Lemma private_get_producer_id_lookup (b : Buffer) (nm : string) :
  private_get_producer_id b nm = lookup_row (producers b) MAX_PRODUCERS nm.
Proof. reflexivity. Qed.

Lemma private_get_consumer_id_lookup (b : Buffer) (nm : string) :
  private_get_consumer_id b nm = lookup_row (consumers b) MAX_CONSUMERS nm.
Proof. reflexivity. Qed.

Lemma get_num_producers_count (b : Buffer) :
  get_num_producers b = count_in_use (producers b) MAX_PRODUCERS.
Proof. reflexivity. Qed.

Lemma get_num_consumers_count (b : Buffer) :
  get_num_consumers b = count_in_use (consumers b) MAX_CONSUMERS.
Proof. reflexivity. Qed.

(** *** Loops over [0, n) *)

Lemma find_seq_Some (f : nat -> bool) (n : nat) : forall (s i : nat),
  List.find f (seq s n) = Some i ->
  (s <= i < s + n)%nat /\ f i = true /\ forall j, (s <= j < i)%nat -> f j = false.
Proof.
  induction n as [|n IH]; intros s i; cbn [seq List.find]; [discriminate|].
  destruct (f s) eqn:Es.
  - intros E; injection E as <-. split; [lia|]. split; [exact Es|]. intros j Hj. lia.
  - intros E. destruct (IH (S s) i E) as (Hr & Hf & Hb).
    split; [lia|]. split; [exact Hf|]. intros j Hj.
    destruct (decide (j = s)) as [->|Hne]; [exact Es|]. apply Hb. lia.
Qed.

Lemma find_seq_first (f : nat -> bool) (n : nat) : forall (s i : nat),
  (s <= i < s + n)%nat -> f i = true -> (forall j, (s <= j < i)%nat -> f j = false) ->
  List.find f (seq s n) = Some i.
Proof.
  induction n as [|n IH]; intros s i Hr Hf Hb; [lia|]. cbn [seq List.find].
  destruct (decide (i = s)) as [->|Hne].
  - rewrite Hf. reflexivity.
  - rewrite (Hb s) by lia. apply IH; [lia|exact Hf|]. intros j Hj. apply Hb. lia.
Qed.

Lemma find_seq_None (f : nat -> bool) (n : nat) : forall s : nat,
  (forall j, (s <= j < s + n)%nat -> f j = false) -> List.find f (seq s n) = None.
Proof.
  induction n as [|n IH]; intros s Hb; [reflexivity|]. cbn [seq List.find].
  rewrite (Hb s) by lia. apply IH. intros j Hj. apply Hb. lia.
Qed.

Lemma find_seq_None_inv (f : nat -> bool) (n : nat) : forall s : nat,
  List.find f (seq s n) = None -> forall j, (s <= j < s + n)%nat -> f j = false.
Proof.
  induction n as [|n IH]; intros s E j Hj; [lia|]. cbn [seq List.find] in E.
  destruct (f s) eqn:Es; [discriminate|].
  destruct (decide (j = s)) as [->|Hne]; [exact Es|]. apply (IH (S s) E). lia.
Qed.

Lemma lookup_row_none (tbl : list StageInfo) (n : nat) (nm : string) :
  lookup_row tbl n nm = -1 <->
  forall i, (i < n)%nat -> stage_matches (tbl !!! i) nm = false.
Proof.
  unfold lookup_row. split.
  - destruct (List.find _ _) as [i|] eqn:E; [lia|]. intros _ i Hi.
    apply (find_seq_None_inv _ _ _ E). lia.
  - intros Hb. rewrite find_seq_None; [reflexivity|]. intros j Hj. apply Hb. lia.
Qed.

Lemma lookup_row_some (tbl : list StageInfo) (n : nat) (nm : string) (i : nat) :
  lookup_row tbl n nm = Z.of_nat i <->
  (i < n)%nat /\ stage_matches (tbl !!! i) nm = true
  /\ forall j, (j < i)%nat -> stage_matches (tbl !!! j) nm = false.
Proof.
  unfold lookup_row. split.
  - destruct (List.find _ _) as [k|] eqn:E; [|lia]. intros Hk.
    assert (k = i) by lia. subst k.
    destruct (find_seq_Some _ _ _ _ E) as (Hr & Hf & Hb).
    split; [lia|]. split; [exact Hf|]. intros j Hj. apply Hb. lia.
  - intros (Hi & Hf & Hb). rewrite (find_seq_first _ n 0 i); [reflexivity|lia|exact Hf|].
    intros j Hj. apply Hb. lia.
Qed.

Lemma lookup_row_range (tbl : list StageInfo) (n : nat) (nm : string) :
  lookup_row tbl n nm = -1
  \/ exists i, lookup_row tbl n nm = Z.of_nat i /\ (i < n)%nat.
Proof.
  unfold lookup_row. destruct (List.find _ _) as [k|] eqn:E; [right|left; reflexivity].
  exists k. split; [reflexivity|]. destruct (find_seq_Some _ _ _ _ E) as (Hr & _). lia.
Qed.

Lemma lookup_row_ext (tbl tbl' : list StageInfo) (n : nat) (nm : string) :
  (forall i, (i < n)%nat -> stage_matches (tbl' !!! i) nm = stage_matches (tbl !!! i) nm) ->
  lookup_row tbl' n nm = lookup_row tbl n nm.
Proof.
  intros H. unfold lookup_row. rewrite (find_ext_in _ (fun i => stage_matches (tbl !!! i) nm));
    [reflexivity|]. intros x Hx. apply in_seq in Hx. apply H. lia.
Qed.

(** The number of indices below [n] with a property, when the property
    changes at one index. *)
Lemma filter_seq_ext (P Q : nat -> Prop) {dp : forall i, Decision (P i)}
  {dq : forall i, Decision (Q i)} (n : nat) :
  (forall j, (j < n)%nat -> (P j <-> Q j)) ->
  length (filter P (seq 0 n)) = length (filter Q (seq 0 n)).
Proof.
  induction n as [|n IH]; intros H; [reflexivity|].
  rewrite seq_S, !filter_app, !length_app. cbn [Nat.add].
  rewrite IH by (intros j Hj; apply H; lia).
  f_equal. rewrite !filter_cons, !filter_nil.
  destruct (decide (P n)) as [Hp|Hp], (decide (Q n)) as [Hq|Hq]; try reflexivity;
    exfalso; apply (H n) in Hp || apply (H n) in Hq; auto; lia.
Qed.

Lemma filter_seq_gain (P Q : nat -> Prop) {dp : forall i, Decision (P i)}
  {dq : forall i, Decision (Q i)} (n i : nat) :
  (i < n)%nat -> ~ P i -> Q i ->
  (forall j, (j < n)%nat -> j <> i -> (P j <-> Q j)) ->
  length (filter Q (seq 0 n)) = S (length (filter P (seq 0 n))).
Proof.
  induction n as [|n IH]; intros Hi Hp Hq H; [lia|].
  rewrite seq_S, !filter_app, !length_app. cbn [Nat.add].
  rewrite !filter_cons, !filter_nil.
  destruct (decide (i = n)) as [->|Hne].
  - rewrite (filter_seq_ext Q P n) by (intros j Hj; symmetry; apply H; lia).
    destruct (decide (P n)); [contradiction|]. destruct (decide (Q n)); [|contradiction].
    cbn [length]. lia.
  - rewrite IH by (try lia; try assumption; intros j Hj Hji; apply H; lia).
    destruct (decide (P n)) as [Hpn|Hpn], (decide (Q n)) as [Hqn|Hqn]; cbn [length]; try lia;
      exfalso; apply (H n) in Hpn || apply (H n) in Hqn; auto; lia.
Qed.

Lemma filter_seq_bound (P : nat -> Prop) {dp : forall i, Decision (P i)} (n : nat) :
  (length (filter P (seq 0 n)) <= n)%nat.
Proof.
  induction n as [|n IH]; [cbn; lia|].
  rewrite seq_S, filter_app, length_app. cbn [Nat.add].
  rewrite filter_cons, filter_nil. destruct (decide (P n)); cbn [length]; lia.
Qed.

Lemma filter_seq_none (P : nat -> Prop) {dp : forall i, Decision (P i)} (n : nat) :
  length (filter P (seq 0 n)) = 0%nat <-> forall j, (j < n)%nat -> ~ P j.
Proof.
  induction n as [|n IH].
  - split; [intros _ j Hj; lia|reflexivity].
  - rewrite seq_S, filter_app, length_app. cbn [Nat.add].
    rewrite filter_cons, filter_nil. split.
    + intros E j Hj. destruct (decide (P n)) as [Hp|Hp]; cbn [length] in E; [lia|].
      destruct (decide (j = n)) as [->|Hne]; [exact Hp|]. apply IH; lia.
    + intros H. destruct (decide (P n)) as [Hp|Hp]; [exfalso; apply (H n); [lia|exact Hp]|].
      cbn [length]. rewrite Nat.add_0_r. apply IH. intros j Hj. apply H. lia.
Qed.

Lemma filter_seq_all (P : nat -> Prop) {dp : forall i, Decision (P i)} (n : nat) :
  length (filter P (seq 0 n)) = n <-> forall j, (j < n)%nat -> P j.
Proof.
  induction n as [|n IH].
  - split; [intros _ j Hj; lia|reflexivity].
  - rewrite seq_S, filter_app, length_app. cbn [Nat.add].
    rewrite filter_cons, filter_nil.
    pose proof (filter_seq_bound P n) as Hb. split.
    + intros E j Hj. destruct (decide (P n)) as [Hp|Hp]; cbn [length] in E; [|lia].
      destruct (decide (j = n)) as [->|Hne]; [exact Hp|]. apply IH; lia.
    + intros H. destruct (decide (P n)) as [Hp|Hp]; [|exfalso; apply Hp, H; lia].
      cbn [length]. assert (length (filter P (seq 0 n)) = n) by (apply IH; intros j Hj; apply H; lia).
      lia.
Qed.

(** *** A role table when a stage registers *)

Lemma stage_matches_fresh (nm nm' : string) :
  stage_matches (fresh_stage nm) nm' = same_name nm nm'.
Proof.
  unfold stage_matches, fresh_stage. cbn [in_use name]. rewrite Z.eqb_refl.
  cbn [andb]. apply same_name_strncpy.
Qed.

Lemma stage_matches_unmatched (s : StageInfo) (nm nm' : string) :
  stage_matches s nm = false -> same_name nm nm' = true -> stage_matches s nm' = false.
Proof.
  unfold stage_matches. destruct (in_use s =? 1); [|reflexivity]. cbn [andb].
  fold (same_name (name s) nm) (same_name (name s) nm'). intros Hn Hs.
  destruct (same_name (name s) nm') eqn:E; [|reflexivity].
  rewrite same_name_sym in Hs. rewrite (same_name_trans _ _ _ E Hs) in Hn. discriminate.
Qed.

Lemma stage_matches_free (s : StageInfo) (nm : string) :
  in_use s <> 1 -> stage_matches s nm = false.
Proof.
  intros H. unfold stage_matches. destruct (in_use s =? 1) eqn:E; [|reflexivity].
  apply Z.eqb_eq in E. contradiction.
Qed.

Lemma lookup_row_register (tbl : list StageInfo) (n i : nat) (nm nm' : string) :
  length tbl = n -> (i < n)%nat -> in_use (tbl !!! i) <> 1 -> lookup_row tbl n nm = -1 ->
  lookup_row (<[i := fresh_stage nm]> tbl) n nm'
  = if same_name nm nm' then Z.of_nat i else lookup_row tbl n nm'.
Proof.
  intros Hlen Hi Hfree Hnone. rewrite lookup_row_none in Hnone.
  destruct (same_name nm nm') eqn:Es.
  - apply lookup_row_some. split; [exact Hi|]. split.
    + rewrite list_lookup_total_insert_eq by lia. rewrite stage_matches_fresh. exact Es.
    + intros j Hj. rewrite list_lookup_total_insert_ne by lia.
      apply (stage_matches_unmatched _ nm); [apply Hnone; lia|exact Es].
  - apply lookup_row_ext. intros j Hj. destruct (decide (j = i)) as [->|Hne].
    + rewrite list_lookup_total_insert_eq by lia. rewrite stage_matches_fresh, Es.
      symmetry. apply stage_matches_free. exact Hfree.
    + rewrite list_lookup_total_insert_ne by lia. reflexivity.
Qed.

Lemma count_in_use_register (tbl : list StageInfo) (n i : nat) (nm : string) :
  length tbl = n -> (i < n)%nat -> in_use (tbl !!! i) <> 1 ->
  count_in_use (<[i := fresh_stage nm]> tbl) n = count_in_use tbl n + 1.
Proof.
  intros Hlen Hi Hfree. unfold count_in_use.
  rewrite (filter_seq_gain (fun j => in_use (tbl !!! j) = 1)
             (fun j => in_use (<[i := fresh_stage nm]> tbl !!! j) = 1) n i); [lia|exact Hi|exact Hfree| |].
  - rewrite list_lookup_total_insert_eq by lia. reflexivity.
  - intros j Hj Hne. rewrite list_lookup_total_insert_ne by lia. reflexivity.
Qed.

Lemma first_free_Some (tbl : list StageInfo) (n i : nat) :
  first_free tbl n = Some i <->
  (i < n)%nat /\ in_use (tbl !!! i) = 0 /\ forall j, (j < i)%nat -> in_use (tbl !!! j) <> 0.
Proof.
  unfold first_free. split.
  - intros E. destruct (find_seq_Some _ _ _ _ E) as (Hr & Hf & Hb).
    split; [lia|]. split; [apply Z.eqb_eq; exact Hf|]. intros j Hj.
    apply Z.eqb_neq. apply Hb. lia.
  - intros (Hi & Hf & Hb). apply find_seq_first; [lia|apply Z.eqb_eq; exact Hf|].
    intros j Hj. apply Z.eqb_neq. apply Hb. lia.
Qed.

Lemma first_free_None (tbl : list StageInfo) (n : nat) :
  first_free tbl n = None <-> forall j, (j < n)%nat -> in_use (tbl !!! j) <> 0.
Proof.
  unfold first_free. split.
  - intros E j Hj. apply Z.eqb_neq. apply (find_seq_None_inv _ _ _ E). lia.
  - intros H. apply find_seq_None. intros j Hj. apply Z.eqb_neq. apply H. lia.
Qed.

(** X1.  [register_producer] on a well-formed buffer.  A name that is
    already found in the table, and a table without a free row, end in the
    [assert(0)] of the function.  Otherwise the first free row [i] is taken:
    it is in use under the first [MAX_STAGE_NAME_LEN] characters of the
    name, with no frame acquired or released (-1); nothing else of the
    buffer changes; afterwards the look-up of a name returns [i] when it
    agrees with the new name on its first [MAX_STAGE_NAME_LEN] characters
    and is what it was for every other name, and [get_num_producers] has
    grown by one. *)
Theorem register_producer_lookup (b : Buffer) (nm : string) :
  wf b ->
  (private_get_producer_id b nm <> -1 -> register_producer b nm = Abort)
  /\ (private_get_producer_id b nm = -1 ->
      (forall i, (i < MAX_PRODUCERS)%nat -> in_use (producers b !!! i) = 1) ->
      register_producer b nm = Abort)
  /\ (private_get_producer_id b nm = -1 ->
      forall i, (i < MAX_PRODUCERS)%nat -> in_use (producers b !!! i) = 0 ->
      (forall j, (j < i)%nat -> in_use (producers b !!! j) = 1) ->
      let b' := set_producers b
                  (<[i := mkStageInfo 1 (strncpy nm MAX_STAGE_NAME_LEN) (-1) (-1)]>
                     (producers b)) in
      register_producer b nm = Ret b'
      /\ (forall nm', private_get_producer_id b' nm'
                      = if same_name nm nm' then Z.of_nat i
                        else private_get_producer_id b nm')
      /\ get_num_producers b' = get_num_producers b + 1).
Proof.
  intros Hwf. destruct (wf_sizes b Hwf) as (_ & _ & _ & _ & Lp & _).
  split; [|split].
  - intros Hreg. unfold register_producer.
    destruct (private_get_producer_id b nm =? -1) eqn:E; [apply Z.eqb_eq in E; contradiction|].
    reflexivity.
  - intros Hnone Hall. unfold register_producer. rewrite Hnone. cbn [Z.eqb negb].
    replace (first_free (producers b) MAX_PRODUCERS) with (@None nat); [reflexivity|].
    symmetry. apply first_free_None. intros j Hj. rewrite (Hall j Hj). discriminate.
  - intros Hnone i Hi Hfree Hfirst b'. split; [|split].
    + unfold register_producer. rewrite Hnone. cbn [Z.eqb negb].
      replace (first_free (producers b) MAX_PRODUCERS) with (Some i); [reflexivity|].
      symmetry. apply first_free_Some. split; [exact Hi|]. split; [exact Hfree|].
      intros j Hj. rewrite (Hfirst j Hj). discriminate.
    + intros nm'. rewrite !private_get_producer_id_lookup. subst b'. cbn [producers set_producers].
      apply (lookup_row_register (producers b) MAX_PRODUCERS i nm nm' Lp Hi);
        [rewrite Hfree; discriminate|exact Hnone].
    + rewrite !get_num_producers_count. subst b'. cbn [producers set_producers].
      apply (count_in_use_register (producers b) MAX_PRODUCERS i nm Lp Hi).
      rewrite Hfree. discriminate.
Qed.

(** X2.  [register_consumer] on a well-formed buffer: the same for the
    table of consumers.  The done bits are not touched: the new consumer
    has, for every slot, the bit the row held before. *)
Theorem register_consumer_lookup (b : Buffer) (nm : string) :
  wf b ->
  (private_get_consumer_id b nm <> -1 -> register_consumer b nm = Abort)
  /\ (private_get_consumer_id b nm = -1 ->
      (forall i, (i < MAX_CONSUMERS)%nat -> in_use (consumers b !!! i) = 1) ->
      register_consumer b nm = Abort)
  /\ (private_get_consumer_id b nm = -1 ->
      forall i, (i < MAX_CONSUMERS)%nat -> in_use (consumers b !!! i) = 0 ->
      (forall j, (j < i)%nat -> in_use (consumers b !!! j) = 1) ->
      let b' := set_consumers b
                  (<[i := mkStageInfo 1 (strncpy nm MAX_STAGE_NAME_LEN) (-1) (-1)]>
                     (consumers b)) in
      register_consumer b nm = Ret b'
      /\ (forall nm', private_get_consumer_id b' nm'
                      = if same_name nm nm' then Z.of_nat i
                        else private_get_consumer_id b nm')
      /\ get_num_consumers b' = get_num_consumers b + 1
      /\ (forall ID, consumer_bit b' ID i = consumer_bit b ID i)).
Proof.
  intros Hwf. destruct (wf_sizes b Hwf) as (_ & _ & _ & _ & _ & Lc & _).
  split; [|split].
  - intros Hreg. unfold register_consumer.
    destruct (private_get_consumer_id b nm =? -1) eqn:E; [apply Z.eqb_eq in E; contradiction|].
    reflexivity.
  - intros Hnone Hall. unfold register_consumer. rewrite Hnone. cbn [Z.eqb negb].
    replace (first_free (consumers b) MAX_CONSUMERS) with (@None nat); [reflexivity|].
    symmetry. apply first_free_None. intros j Hj. rewrite (Hall j Hj). discriminate.
  - intros Hnone i Hi Hfree Hfirst b'. split; [|split; [|split]].
    + unfold register_consumer. rewrite Hnone. cbn [Z.eqb negb].
      replace (first_free (consumers b) MAX_CONSUMERS) with (Some i); [reflexivity|].
      symmetry. apply first_free_Some. split; [exact Hi|]. split; [exact Hfree|].
      intros j Hj. rewrite (Hfirst j Hj). discriminate.
    + intros nm'. rewrite !private_get_consumer_id_lookup. subst b'. cbn [consumers set_consumers].
      apply (lookup_row_register (consumers b) MAX_CONSUMERS i nm nm' Lc Hi);
        [rewrite Hfree; discriminate|exact Hnone].
    + rewrite !get_num_consumers_count. subst b'. cbn [consumers set_consumers].
      apply (count_in_use_register (consumers b) MAX_CONSUMERS i nm Lc Hi).
      rewrite Hfree. discriminate.
    + intros ID. reflexivity.
Qed.

(** ** What a call leaves alone *)

Lemma same_stages_refl (tbl : list StageInfo) : same_stages tbl tbl.
Proof. intros i. auto. Qed.

Lemma same_stages_trans (t1 t2 t3 : list StageInfo) :
  same_stages t1 t2 -> same_stages t2 t3 -> same_stages t1 t3.
Proof. intros H1 H2 i. destruct (H1 i), (H2 i). split; congruence. Qed.

Lemma same_stages_acquired (tbl : list StageInfo) (j ID : Z) :
  same_stages tbl (arr_set tbl j (stage_set_acquired (arr_get tbl j) ID)).
Proof.
  intros i. apply (table_update_keeps tbl j (fun s => stage_set_acquired s ID)).
  intros s. auto.
Qed.

Lemma same_stages_released (tbl : list StageInfo) (j ID : Z) :
  same_stages tbl (arr_set tbl j (stage_set_released (arr_get tbl j) ID)).
Proof.
  intros i. apply (table_update_keeps tbl j (fun s => stage_set_released s ID)).
  intros s. auto.
Qed.

Lemma same_configuration_refl (b : Buffer) : same_configuration b b.
Proof. repeat split. Qed.

Lemma same_configuration_trans (b1 b2 b3 : Buffer) :
  same_configuration b1 b2 -> same_configuration b2 b3 -> same_configuration b1 b3.
Proof.
  unfold same_configuration. intros (? & ? & ? & ? & ? & ?) (? & ? & ? & ? & ? & ?).
  repeat split; congruence.
Qed.

Lemma private_mark_frame_empty_static (h : Heap) (b : Buffer) (id : Z) :
  same_configuration b (private_mark_frame_empty h b id).1.2
  /\ shutdown_signal (private_mark_frame_empty h b id).1.2 = shutdown_signal b
  /\ producers (private_mark_frame_empty h b id).1.2 = producers b
  /\ consumers (private_mark_frame_empty h b id).1.2 = consumers b
  /\ last_arrival_time (private_mark_frame_empty h b id).1.2 = last_arrival_time b.
Proof.
  unfold private_mark_frame_empty, release_metadata, same_configuration.
  destruct (zero_frames b =? 1); fields; destruct (_ =? NULL); fields; repeat split.
Qed.

Lemma unregister_scan_static (ids : list nat) :
  forall (h : Heap) (b : Buffer) (r : Z),
  same_configuration b (unregister_scan ids h b r).1.2
  /\ shutdown_signal (unregister_scan ids h b r).1.2 = shutdown_signal b
  /\ producers (unregister_scan ids h b r).1.2 = producers b
  /\ consumers (unregister_scan ids h b r).1.2 = consumers b
  /\ last_arrival_time (unregister_scan ids h b r).1.2 = last_arrival_time b.
Proof.
  induction ids as [|id ids IH]; intros h b r.
  - cbn. split; [apply same_configuration_refl|auto].
  - cbn [unregister_scan]. destruct (_ =? 1); [|apply IH].
    destruct (private_mark_frame_empty_static h b (Z.of_nat id)) as (S1 & S2 & S3 & S4 & S5).
    destruct (private_mark_frame_empty h b (Z.of_nat id)) as [[h1 b1] r1]. cbn [fst snd] in *.
    destruct (IH h1 b1 (Z.lor r r1)) as (T1 & T2 & T3 & T4 & T5).
    split; [exact (same_configuration_trans _ _ _ S1 T1)|]. repeat split; congruence.
Qed.

Lemma private_mark_producer_done_static (b b1 : Buffer) (nm : string) (ID : Z) :
  private_mark_producer_done b nm ID = Ret b1 ->
  same_configuration b b1 /\ same_stages (producers b) (producers b1)
  /\ last_arrival_time b1 = last_arrival_time b.
Proof.
  unfold private_mark_producer_done. destruct (negb _); [|discriminate].
  destruct (_ =? 0); [|discriminate]. intros E; injection E as <-. fields.
  split; [repeat split|]. split; [apply same_stages_released|reflexivity].
Qed.

Lemma private_mark_consumer_done_static (b b1 : Buffer) (nm : string) (ID : Z) :
  private_mark_consumer_done b nm ID = Ret b1 ->
  same_configuration b b1 /\ same_stages (consumers b) (consumers b1)
  /\ last_arrival_time b1 = last_arrival_time b.
Proof.
  unfold private_mark_consumer_done. destruct (negb _); [|discriminate].
  destruct (_ =? 0); [|discriminate]. intros E; injection E as <-. fields.
  split; [repeat split|]. split; [apply same_stages_released|reflexivity].
Qed.

(** What a call that returns leaves alone in the buffer it works on: the
    configuration; the shutdown flag unless it sets it; the rows in use and
    their names, unless it is a registration or [unregister_consumer]. *)
Lemma local_effect_static (c : call) (buf : Z) (h : Heap) (b b' : Buffer) :
  local_effect c buf h b b' ->
  same_configuration b b'
  /\ (shutdown_signal b' = shutdown_signal b \/ shutdown_signal b' = 1)
  /\ (same_stages (producers b) (producers b')
      \/ exists nm, register_producer b nm = Ret b')
  /\ (same_stages (consumers b) (consumers b')
      \/ (exists nm, register_consumer b nm = Ret b')
      \/ (exists nm, c = UnregisterConsumer buf nm /\ private_get_consumer_id b nm <> -1
            /\ consumers b' = arr_set (consumers b) (private_get_consumer_id b nm)
                                (unregistered_row
                                   (arr_get (consumers b) (private_get_consumer_id b nm))))).
Proof.
  assert (Hsimple : forall b', same_configuration b b' ->
            shutdown_signal b' = shutdown_signal b ->
            same_stages (producers b) (producers b') ->
            same_stages (consumers b) (consumers b') ->
            same_configuration b b'
            /\ (shutdown_signal b' = shutdown_signal b \/ shutdown_signal b' = 1)
            /\ (same_stages (producers b) (producers b')
                \/ exists nm, register_producer b nm = Ret b')
            /\ (same_stages (consumers b) (consumers b')
                \/ (exists nm, register_consumer b nm = Ret b')
                \/ (exists nm, c = UnregisterConsumer buf nm
                      /\ private_get_consumer_id b nm <> -1
                      /\ consumers b' = arr_set (consumers b) (private_get_consumer_id b nm)
                                          (unregistered_row
                                             (arr_get (consumers b)
                                                (private_get_consumer_id b nm)))))).
  { intros b0 H1 H2 H3 H4. auto. }
  destruct c; cbn [local_effect]; try contradiction.
  - intros [_ E]. split; [|split; [|split]].
    + revert E. unfold register_producer. destruct (negb _); [discriminate|].
      destruct (first_free _ _); [|discriminate]. intros E; injection E as <-. repeat split.
    + revert E. unfold register_producer. destruct (negb _); [discriminate|].
      destruct (first_free _ _); [|discriminate]. intros E; injection E as <-. auto.
    + right. exists nm. exact E.
    + left. revert E. unfold register_producer. destruct (negb _); [discriminate|].
      destruct (first_free _ _); [|discriminate]. intros E; injection E as <-.
      apply same_stages_refl.
  - intros [_ E]. split; [|split; [|split]].
    + revert E. unfold register_consumer. destruct (negb _); [discriminate|].
      destruct (first_free _ _); [|discriminate]. intros E; injection E as <-. repeat split.
    + revert E. unfold register_consumer. destruct (negb _); [discriminate|].
      destruct (first_free _ _); [|discriminate]. intros E; injection E as <-. auto.
    + left. revert E. unfold register_consumer. destruct (negb _); [discriminate|].
      destruct (first_free _ _); [|discriminate]. intros E; injection E as <-.
      apply same_stages_refl.
    + right. left. exists nm. exact E.
  - intros [-> (h' & sig & E)]. revert E. unfold unregister_consumer.
    destruct (private_get_consumer_id b nm =? -1) eqn:Eid; [discriminate|].
    apply Z.eqb_neq in Eid.
    set (b1 := set_consumers b _).
    destruct (unregister_scan_static (seq 0 (Z.to_nat (num_frames b1))) h b1 0)
      as (S1 & S2 & S3 & S4 & _).
    destruct (unregister_scan _ h b1 0) as [[h2 b2] r]. cbn [fst snd] in *.
    intros E; injection E as <- <- <-.
    split; [exact S1|]. split; [left; exact S2|]. split.
    + left. rewrite S3. apply same_stages_refl.
    + right. right. exists nm. split; [reflexivity|]. split; [exact Eid|].
      rewrite S4. reflexivity.
  - intros [_ (p & E)]. revert E. unfold wait_for_empty_frame.
    destruct (0 <=? _); [|discriminate]. destruct (_ <? _); [|discriminate].
    destruct (negb _); [|discriminate]. destruct (_ && _); [discriminate|].
    destruct (_ =? 1); intros E; injection E as <- <-; apply Hsimple; fields;
      try apply same_configuration_refl; try apply same_stages_refl; try reflexivity.
    + repeat split.
    + apply same_stages_acquired.
  - intros [_ (p & E)]. revert E. unfold wait_for_full_frame.
    destruct (negb (_ =? -1)); [|discriminate]. destruct (negb _); [discriminate|].
    destruct (_ && _); [discriminate|].
    destruct (_ =? 1); intros E; injection E as <- <-; apply Hsimple; fields;
      try apply same_configuration_refl; try apply same_stages_refl; try reflexivity.
    + repeat split.
    + apply same_stages_acquired.
  - intros [_ (r & E)].
    destruct (wait_for_full_frame_timeout_alone _ _ _ _ _ _ _ E) as [->| ->];
      apply Hsimple; fields;
      try apply same_configuration_refl; try apply same_stages_refl; try reflexivity.
    + repeat split.
    + apply same_stages_acquired.
  - intros [_ (h' & sig & E)]. revert E. unfold mark_frame_full.
    destruct (0 <=? _); [|discriminate]. destruct (_ <? _); [|discriminate].
    destruct (private_mark_producer_done b nm ID) as [b1| | |] eqn:E1; try discriminate.
    cbn [mbind result_mbind result_bind].
    destruct (private_mark_producer_done_static _ _ _ _ E1) as (S1 & S2 & _).
    destruct (private_mark_producer_done_control _ _ _ _ E1)
      as (_ & _ & _ & Hc & _ & _ & _ & Hs).
    assert (Hfin : forall b6, same_configuration b1 b6 ->
              shutdown_signal b6 = shutdown_signal b1 -> producers b6 = producers b1 ->
              consumers b6 = consumers b1 ->
              same_configuration b b6 /\ shutdown_signal b6 = shutdown_signal b
              /\ same_stages (producers b) (producers b6)
              /\ same_stages (consumers b) (consumers b6)).
    { intros b6 H1 H2 H3 H4. split; [exact (same_configuration_trans _ _ _ S1 H1)|].
      split; [congruence|]. split; [rewrite H3; exact S2|].
      rewrite H4, Hc. apply same_stages_refl. }
    assert (Hfin' : forall b6, same_configuration b1 b6 ->
              shutdown_signal b6 = shutdown_signal b1 -> producers b6 = producers b1 ->
              consumers b6 = consumers b1 ->
              same_configuration b b6
              /\ (shutdown_signal b6 = shutdown_signal b \/ shutdown_signal b6 = 1)
              /\ (same_stages (producers b) (producers b6)
                  \/ exists nm0, register_producer b nm0 = Ret b6)
              /\ (same_stages (consumers b) (consumers b6)
                  \/ (exists nm0, register_consumer b nm0 = Ret b6)
                  \/ (exists nm0, MarkFrameFull buf0 nm ID now = UnregisterConsumer buf nm0
                        /\ private_get_consumer_id b nm0 <> -1
                        /\ consumers b6 = arr_set (consumers b) (private_get_consumer_id b nm0)
                                            (unregistered_row
                                               (arr_get (consumers b)
                                                  (private_get_consumer_id b nm0)))))).
    { intros b6 H1 H2 H3 H4. destruct (Hfin b6 H1 H2 H3 H4) as (F1 & F2 & F3 & F4).
      apply Hsimple; assumption. }
    clear Hfin. rename Hfin' into Hfin.
    destruct (_ =? 1).
    + destruct (_ =? 1).
      * unfold release_metadata. fields.
        destruct (_ =? NULL); intros E; injection E as <- <- <-; apply Hfin; fields;
          try reflexivity; repeat split.
      * intros E; injection E as <- <- <-; apply Hfin; fields; try reflexivity; repeat split.
    + intros E; injection E as <- <- <-; apply Hfin; try reflexivity.
      apply same_configuration_refl.
  - intros [_ (h' & sig & E)]. revert E. unfold mark_frame_empty.
    destruct (0 <=? ID) eqn:C1; [|discriminate]. apply Z.leb_le in C1.
    destruct (_ <? _); [|discriminate].
    destruct (private_mark_consumer_done b nm ID) as [b1| | |] eqn:E1; try discriminate.
    cbn [mbind result_mbind result_bind].
    destruct (private_mark_consumer_done_static _ _ _ _ E1) as (S1 & S2 & _).
    destruct (private_mark_consumer_done_control _ _ _ _ C1 E1)
      as (_ & _ & _ & _ & _ & Hs & Hp & _).
    destruct (_ =? 1).
    + destruct (private_mark_frame_empty_static h b1 ID) as (T1 & T2 & T3 & T4 & _).
      destruct (private_mark_frame_empty h b1 ID) as [[h2 b2] r]. cbn [fst snd] in *.
      intros E; injection E as <- <- <-. apply Hsimple.
      * exact (same_configuration_trans _ _ _ S1 T1).
      * congruence.
      * rewrite T3, Hp. apply same_stages_refl.
      * rewrite T4. exact S2.
    + intros E; injection E as <- <- <-. apply Hsimple; try assumption.
      rewrite Hp. apply same_stages_refl.
  - intros [_ ->]. apply Hsimple; fields; try apply same_stages_refl; try reflexivity.
    repeat split.
  - intros [_ (h' & E)]. revert E. unfold allocate_new_metadata_object.
    destruct (0 <=? _); [|discriminate]. destruct (_ <? _); [|discriminate].
    destruct (_ =? NULL); [discriminate|].
    destruct (_ =? NULL).
    + destruct (request_metadata_object _ _) as [h1 m].
      destruct (_ =? NULL); [discriminate|]. intros E; injection E as <- <-.
      apply Hsimple; fields; try apply same_stages_refl; try reflexivity. repeat split.
    + destruct (_ =? NULL); [discriminate|]. intros E; injection E as <- <-.
      apply Hsimple; try apply same_stages_refl; try reflexivity.
      apply same_configuration_refl.
  - intros [_ (m & ->)].
    apply Hsimple; fields; try apply same_stages_refl; try reflexivity. repeat split.
  - intros [_ (p & E)]. revert E. unfold swap_external_frame.
    destruct (_ =? 1); [|discriminate]. destruct (negb _); [discriminate|].
    intros E; injection E as <- <-.
    apply Hsimple; fields; try apply same_stages_refl; try reflexivity. repeat split.
  - intros [[_ (p & ->)]|[_ (p & ->)]];
      apply Hsimple; fields; try apply same_stages_refl; try reflexivity; repeat split.
  - intros [[_ (p & ->)]|[_ (p & ->)]];
      apply Hsimple; fields; try apply same_stages_refl; try reflexivity; repeat split.
  - intros [_ ->]. split; [repeat split|]. split; [right; reflexivity|].
    split; left; apply same_stages_refl.
  - intros (_ & _ & h' & E).
    destruct (zero_thread_step_control _ _ _ _ _ _ E)
      as [(_ & pool & -> & _)|(_ & _ & _ & _ & ->)];
      apply Hsimple; fields; try apply same_stages_refl; try reflexivity; repeat split.
Qed.

(** *** The window of a zeroing thread *)


















(** ** A buffer through a sequence of calls *)

Lemma is_delete_false (buf : Z) (c : call) : is_delete buf c = false -> c <> DeleteBuffer buf.
Proof. intros H ->. cbn in H. rewrite Z.eqb_refl in H. discriminate. Qed.

Lemma exec_forward (w w' : World) (c : call) (buf : Z) (b : Buffer) :
  exec w c = Ret w' -> bufs w !! buf = Some b -> is_delete buf c = false ->
  exists b', bufs w' !! buf = Some b' /\ (b' = b \/ local_effect c buf (heap w) b b').
Proof.
  intros He Hb Hd.
  destruct (exec_keeps_buffer _ _ _ buf He (mk_is_Some _ _ Hb) (is_delete_false _ _ Hd))
    as [b' Hb'].
  exists b'. split; [exact Hb'|].
  destruct (exec_local _ _ _ _ _ He Hb') as [Hs|[(b0 & Hb0 & Hl)|(Hn & _)]].
  - left. congruence.
  - right. assert (b0 = b) by congruence. subst b0. exact Hl.
  - congruence.
Qed.

(** A relation that every admitted call establishes between a well-formed
    buffer before and after it holds between the buffer before and after a
    sequence of admitted calls, none of which destroys the buffer. *)
Lemma run_forward (P : Buffer -> Buffer -> Prop) (buf : Z) (ok : call -> bool) :
  (forall c, ok c = true -> is_delete buf c = false) ->
  (forall b, P b b) -> (forall b1 b2 b3, P b1 b2 -> P b2 b3 -> P b1 b3) ->
  (forall c h b b', ok c = true -> wf b -> local_effect c buf h b b' -> P b b') ->
  forall (cs : list call) (w w' : World) (b : Buffer),
  wf b -> run w cs = Ret w' -> bufs w !! buf = Some b ->
  forallb ok cs = true ->
  exists b', bufs w' !! buf = Some b' /\ wf b' /\ P b b'.
Proof.
  intros Hdel Hrefl Htrans Hstep.
  induction cs as [|c cs IH]; intros w w' b Hwf Hrun Hb Hnd.
  - cbn in Hrun. injection Hrun as <-. exists b. auto.
  - cbn [run] in Hrun. revert Hrun. unfold mbind, result_mbind.
    destruct (exec w c) as [w1| | |] eqn:E1; cbn [result_bind]; try discriminate.
    intros Hrun. cbn [forallb] in Hnd. apply andb_prop in Hnd as [Hc Hrest].
    destruct (exec_forward _ _ _ _ _ E1 Hb (Hdel c Hc)) as (b1 & Hb1 & Hcase).
    assert (Hwf1 : wf b1).
    { destruct Hcase as [->|Hl]; [exact Hwf|exact (local_effect_wf _ _ _ _ _ Hwf Hl)]. }
    destruct (IH w1 w' b1 Hwf1 Hrun Hb1 Hrest) as (b' & Hb' & Hwf' & HP).
    exists b'. split; [exact Hb'|]. split; [exact Hwf'|]. apply (Htrans b b1 b'); [|exact HP].
    destruct Hcase as [->|Hl]; [apply Hrefl|]. exact (Hstep c (heap w) b b1 Hc Hwf Hl).
Qed.

Lemma not_delete_ok (buf : Z) (c : call) :
  negb (is_delete buf c) = true -> is_delete buf c = false.
Proof. apply negb_true_iff. Qed.

(** *** Names stay distinct *)

Lemma names_distinct_ext (tbl tbl' : list StageInfo) (n : nat) :
  same_stages tbl tbl' -> names_distinct tbl n -> names_distinct tbl' n.
Proof.
  intros Hs Hd i j Hi Hj Ui Uj Hn.
  destruct (Hs i) as [Ei Ni], (Hs j) as [Ej Nj].
  apply Hd; try assumption; congruence.
Qed.

Lemma names_distinct_register (tbl : list StageInfo) (n i : nat) (nm : string) :
  length tbl = n -> (i < n)%nat -> lookup_row tbl n nm = -1 ->
  names_distinct tbl n -> names_distinct (<[i := fresh_stage nm]> tbl) n.
Proof.
  intros Hlen Hi Hnone Hd j k Hj Hk Uj Uk Hn.
  rewrite lookup_row_none in Hnone.
  destruct (decide (j = i)) as [->|Hji], (decide (k = i)) as [->|Hki]; [reflexivity| | |].
  - exfalso. rewrite list_lookup_total_insert_eq in Hn by lia.
    rewrite list_lookup_total_insert_ne in Hn, Uk by congruence.
    unfold fresh_stage in Hn. cbn [name] in Hn. rewrite same_name_strncpy in Hn.
    specialize (Hnone k Hk). unfold stage_matches in Hnone.
    rewrite Uk, Z.eqb_refl in Hnone. cbn [andb] in Hnone.
    fold (same_name (name (tbl !!! k)) nm) in Hnone. rewrite same_name_sym in Hn. congruence.
  - exfalso. rewrite list_lookup_total_insert_eq in Hn by lia.
    rewrite list_lookup_total_insert_ne in Hn, Uj by congruence.
    unfold fresh_stage in Hn. cbn [name] in Hn.
    rewrite same_name_sym, same_name_strncpy in Hn.
    specialize (Hnone j Hj). unfold stage_matches in Hnone.
    rewrite Uj, Z.eqb_refl in Hnone. cbn [andb] in Hnone.
    fold (same_name (name (tbl !!! j)) nm) in Hnone. rewrite same_name_sym in Hn. congruence.
  - rewrite !list_lookup_total_insert_ne in Hn by congruence.
    rewrite list_lookup_total_insert_ne in Uj, Uk by congruence.
    apply Hd; assumption.
Qed.

Lemma unregistered_row_lookup (tbl : list StageInfo) (id : Z) (j : nat) :
  0 <= id ->
  (j = Z.to_nat id /\ (j < length tbl)%nat
   /\ arr_set tbl id (unregistered_row (arr_get tbl id)) !!! j
      = unregistered_row (tbl !!! j))
  \/ ((j <> Z.to_nat id \/ (length tbl <= j)%nat)
      /\ arr_set tbl id (unregistered_row (arr_get tbl id)) !!! j = tbl !!! j).
Proof.
  intros Hid. unfold arr_set, arr_get.
  destruct (decide (j = Z.to_nat id)) as [->|Hne].
  - destruct (decide (Z.to_nat id < length tbl)%nat) as [Hin|Hout].
    + left. split; [reflexivity|]. split; [exact Hin|].
      apply list_lookup_total_insert_eq. exact Hin.
    + right. split; [right; lia|]. rewrite list_insert_ge by lia. reflexivity.
  - right. split; [left; exact Hne|]. apply list_lookup_total_insert_ne. congruence.
Qed.

Lemma names_distinct_unregister (tbl : list StageInfo) (n : nat) (id : Z) :
  0 <= id -> names_distinct tbl n ->
  names_distinct (arr_set tbl id (unregistered_row (arr_get tbl id))) n.
Proof.
  intros Hid Hd j k Hj Hk Uj Uk Hn.
  destruct (unregistered_row_lookup tbl id j Hid) as [(_ & _ & Ej)|(_ & Ej)];
    rewrite Ej in Uj, Hn; [cbn in Uj; discriminate|].
  destruct (unregistered_row_lookup tbl id k Hid) as [(_ & _ & Ek)|(_ & Ek)];
    rewrite Ek in Uk, Hn; [cbn in Uk; discriminate|].
  apply Hd; assumption.
Qed.

Lemma register_producer_row (b b' : Buffer) (nm : string) :
  register_producer b nm = Ret b' ->
  private_get_producer_id b nm = -1
  /\ exists i, first_free (producers b) MAX_PRODUCERS = Some i
               /\ b' = set_producers b (<[i := fresh_stage nm]> (producers b)).
Proof.
  unfold register_producer.
  destruct (private_get_producer_id b nm =? -1) eqn:E; [|discriminate].
  apply Z.eqb_eq in E. cbn [negb]. destruct (first_free _ _) as [i|]; [|discriminate].
  intros E'; injection E' as <-. split; [exact E|]. exists i. auto.
Qed.

Lemma register_consumer_row (b b' : Buffer) (nm : string) :
  register_consumer b nm = Ret b' ->
  private_get_consumer_id b nm = -1
  /\ exists i, first_free (consumers b) MAX_CONSUMERS = Some i
               /\ b' = set_consumers b (<[i := fresh_stage nm]> (consumers b)).
Proof.
  unfold register_consumer.
  destruct (private_get_consumer_id b nm =? -1) eqn:E; [|discriminate].
  apply Z.eqb_eq in E. cbn [negb]. destruct (first_free _ _) as [i|]; [|discriminate].
  intros E'; injection E' as <-. split; [exact E|]. exists i. auto.
Qed.

Lemma lookup_row_nonneg (tbl : list StageInfo) (n : nat) (nm : string) :
  lookup_row tbl n nm <> -1 -> 0 <= lookup_row tbl n nm.
Proof.
  intros H. destruct (lookup_row_range tbl n nm) as [E|(i & E & _)]; [contradiction|lia].
Qed.

Lemma local_effect_stages_distinct (c : call) (buf : Z) (h : Heap) (b b' : Buffer) :
  wf b -> local_effect c buf h b b' -> stages_distinct b -> stages_distinct b'.
Proof.
  intros Hwf Hl [Dp Dc]. destruct (wf_sizes b Hwf) as (_ & _ & _ & _ & Lp & Lc & _).
  destruct (local_effect_static _ _ _ _ _ Hl) as (_ & _ & Hp & Hc). split.
  - destruct Hp as [Hs|(nm & E)]; [exact (names_distinct_ext _ _ _ Hs Dp)|].
    destruct (register_producer_row _ _ _ E) as (Hnone & i & Hi & ->).
    apply first_free_Some in Hi as (Hi & _). cbn [producers set_producers].
    apply names_distinct_register; assumption.
  - destruct Hc as [Hs|[(nm & E)|(nm & _ & Hid & E)]]; [exact (names_distinct_ext _ _ _ Hs Dc)| |].
    + destruct (register_consumer_row _ _ _ E) as (Hnone & i & Hi & ->).
      apply first_free_Some in Hi as (Hi & _). cbn [consumers set_consumers].
      apply names_distinct_register; assumption.
    + rewrite E. apply names_distinct_unregister; [|exact Dc].
      apply lookup_row_nonneg. exact Hid.
Qed.

Lemma create_buffer_tables (h h' : Heap) (buf n len pool : Z) (bn bt : string) (numa : Z)
  (sys : allocator) (b : Buffer) :
  create_buffer h buf n len pool bn bt numa sys = Ret (h', Some b) ->
  producers b = replicate MAX_PRODUCERS (mkStageInfo 0 "" 0 0)
  /\ consumers b = replicate MAX_CONSUMERS (mkStageInfo 0 "" 0 0)
  /\ producers_done b = replicate (Z.to_nat n) (replicate MAX_PRODUCERS 0)
  /\ consumers_done b = replicate (Z.to_nat n) (replicate MAX_CONSUMERS 0)
  /\ frame_size b = len /\ aligned_frame_size b = len /\ metadata_pool b = pool
  /\ buffer_name b = bn /\ buffer_type b = bt /\ zero_threads b = []
  /\ last_arrival_time b = 0.
Proof.
  unfold create_buffer. destruct (0 <? n); [|discriminate].
  destruct (buf =? NULL); [discriminate|].
  destruct (len <=? len); [|discriminate].
  destruct (malloc_answer sys 0 =? NULL); [discriminate|].
  destruct (malloc_answer sys 1 =? NULL); [discriminate|].
  destruct (malloc_answer sys 2 =? NULL); [discriminate|].
  destruct (malloc_answer sys 3 =? NULL); [discriminate|].
  destruct (malloc_answer sys 4 =? NULL); [discriminate|].
  destruct (negb _); [discriminate|].
  destruct (create_frames _ _ _ _ _ _) as [[h1 [fr|]]| | |];
    cbn [mbind result_mbind result_bind]; try (intros E; discriminate E).
  intros E; injection E as <- <-. cbn. repeat split.
Qed.

Lemma stage_table_empty (n i : nat) :
  (i < n)%nat -> in_use (replicate n (mkStageInfo 0 "" 0 0) !!! i) = 0.
Proof.
  intros Hi. rewrite list_lookup_total_alt, lookup_replicate_2 by exact Hi. reflexivity.
Qed.

Lemma world_stages_distinct (cs : list call) :
  forall (w w' : World),
  world_ok w -> (forall buf b, bufs w !! buf = Some b -> stages_distinct b) ->
  run w cs = Ret w' ->
  forall buf b, bufs w' !! buf = Some b -> stages_distinct b.
Proof.
  induction cs as [|c cs IH]; intros w w' Hok Hd Hrun.
  - cbn in Hrun. injection Hrun as <-. exact Hd.
  - cbn [run] in Hrun. revert Hrun. unfold mbind, result_mbind.
    destruct (exec w c) as [w1| | |] eqn:E1; cbn [result_bind]; try discriminate.
    intros Hrun. apply (IH w1 w' (exec_world_ok _ _ _ Hok E1)); [|exact Hrun].
    intros buf b' Hb'.
    destruct (exec_local _ _ _ _ _ E1 Hb')
      as [Hs|[(b & Hb & Hl)|(_ & n & len & pool & bn & bt & numa & alloc & h' & _ & Hc)]].
    + exact (Hd buf b' Hs).
    + destruct (Hok buf b Hb) as [Hwf _].
      exact (local_effect_stages_distinct _ _ _ _ _ Hwf Hl (Hd buf b Hb)).
    + destruct (create_buffer_tables _ _ _ _ _ _ _ _ _ _ _ Hc) as (Hp & Hc' & _).
      split; intros i j Hi Hj Ui; exfalso.
      * rewrite Hp, stage_table_empty in Ui by exact Hi. discriminate.
      * rewrite Hc', stage_table_empty in Ui by exact Hi. discriminate.
Qed.

Lemma names_distinct_lookup (tbl : list StageInfo) (n i : nat) :
  names_distinct tbl n -> (i < n)%nat -> in_use (tbl !!! i) = 1 ->
  lookup_row tbl n (name (tbl !!! i)) = Z.of_nat i.
Proof.
  intros Hd Hi Ui. apply lookup_row_some. split; [exact Hi|]. split.
  - unfold stage_matches. rewrite Ui, Z.eqb_refl. cbn [andb]. apply same_name_refl.
  - intros j Hj. unfold stage_matches.
    destruct (in_use (tbl !!! j) =? 1) eqn:Uj; [|reflexivity]. apply Z.eqb_eq in Uj.
    cbn [andb]. fold (same_name (name (tbl !!! j)) (name (tbl !!! i))).
    destruct (same_name _ _) eqn:Hn; [|reflexivity].
    assert (j = i) by (apply Hd; try assumption; lia). lia.
Qed.

Lemma names_distinct_unique (tbl : list StageInfo) (n i j : nat) (nm : string) :
  names_distinct tbl n -> lookup_row tbl n nm = Z.of_nat i ->
  (j < n)%nat -> in_use (tbl !!! j) = 1 -> same_name (name (tbl !!! j)) nm = true -> j = i.
Proof.
  intros Hd Hl Hj Uj Hn. apply lookup_row_some in Hl as (Hi & Hm & _).
  unfold stage_matches in Hm. apply andb_prop in Hm as [Ui Hni]. apply Z.eqb_eq in Ui.
  fold (same_name (name (tbl !!! i)) nm) in Hni.
  apply Hd; try assumption. rewrite same_name_sym in Hni.
  exact (same_name_trans _ _ _ Hn Hni).
Qed.

(** X3.  In every state reached by calls that return from a state without
    buffers, the stages registered on a buffer are told apart by their
    names: a registered producer (consumer) is found by
    [private_get_producer_id] ([private_get_consumer_id]) under the name
    its row holds, and a name designates no other registered row than the
    one the look-up returns. *)
Theorem registered_names_designate_one_row (w0 : World) (cs : list call) (w : World)
  (buf : Z) (b : Buffer) :
  bufs w0 = ∅ -> run w0 cs = Ret w -> bufs w !! buf = Some b ->
  (forall i, registered_producer b i ->
     private_get_producer_id b (name (producers b !!! i)) = Z.of_nat i)
  /\ (forall i, registered_consumer b i ->
        private_get_consumer_id b (name (consumers b !!! i)) = Z.of_nat i)
  /\ (forall nm i j, private_get_producer_id b nm = Z.of_nat i -> registered_producer b j ->
        same_name (name (producers b !!! j)) nm = true -> j = i)
  /\ (forall nm i j, private_get_consumer_id b nm = Z.of_nat i -> registered_consumer b j ->
        same_name (name (consumers b !!! j)) nm = true -> j = i).
Proof.
  intros Hstart Hrun Hb.
  assert (Hd : stages_distinct b).
  { apply (world_stages_distinct cs w0 w (no_buffer_world_ok w0 Hstart)) with (buf := buf);
      [|exact Hrun|exact Hb].
    intros buf0 b0 Hb0. rewrite Hstart, lookup_empty in Hb0. discriminate. }
  destruct Hd as [Dp Dc]. split; [|split; [|split]].
  - intros i [Hi Ui]. rewrite private_get_producer_id_lookup.
    apply names_distinct_lookup; assumption.
  - intros i [Hi Ui]. rewrite private_get_consumer_id_lookup.
    apply names_distinct_lookup; assumption.
  - intros nm i j Hl [Hj Uj] Hn. rewrite private_get_producer_id_lookup in Hl.
    exact (names_distinct_unique _ _ _ _ _ Dp Hl Hj Uj Hn).
  - intros nm i j Hl [Hj Uj] Hn. rewrite private_get_consumer_id_lookup in Hl.
    exact (names_distinct_unique _ _ _ _ _ Dc Hl Hj Uj Hn).
Qed.

(** ** What no call undoes *)

Lemma settled_refl (b : Buffer) : settled b b.
Proof. split; [apply same_configuration_refl|]. auto. Qed.

Lemma settled_trans (b1 b2 b3 : Buffer) : settled b1 b2 -> settled b2 b3 -> settled b1 b3.
Proof.
  intros (C1 & S1 & Z1 & P1) (C2 & S2 & Z2 & P2).
  split; [exact (same_configuration_trans _ _ _ C1 C2)|]. split; [auto|]. split; [auto|].
  intros i Ui. destruct (P1 i Ui) as [U1 N1]. destruct (P2 i U1) as [U2 N2].
  split; [exact U2|congruence].
Qed.

Lemma local_effect_settled (c : call) (buf : Z) (h : Heap) (b b' : Buffer) :
  local_effect c buf h b b' -> settled b b'.
Proof.
  intros Hl. destruct (local_effect_static _ _ _ _ _ Hl) as (Hc & Hs & Hp & _).
  destruct (local_effect_control _ _ _ _ _ Hl) as [_ Hz].
  split; [exact Hc|]. split; [intros H1; destruct Hs; congruence|].
  split; [intros H1; destruct Hz; congruence|].
  intros i Ui. destruct Hp as [Hs'|(nm & E)].
  - destruct (Hs' i) as [E1 E2]. split; congruence.
  - destruct (register_producer_row _ _ _ E) as (_ & k & Hk & ->).
    apply first_free_Some in Hk as (_ & Hfree & _). cbn [producers set_producers].
    assert (i <> k) by (intros ->; congruence).
    rewrite list_lookup_total_insert_ne by congruence. auto.
Qed.

(** X4.  Through any sequence of calls that return and do not destroy the
    buffer, the buffer keeps the configuration [create_buffer] gave it
    (number of frames, frame sizes, metadata pool, name and type); a
    shutdown signal and the zero-on-release flag, once set, stay set; and a
    registered producer stays registered in its row under its name: nothing
    in buffer.c unregisters a producer. *)
Theorem buffer_settings_are_never_undone (w w' : World) (cs : list call) (buf : Z)
  (b : Buffer) :
  wf b -> bufs w !! buf = Some b -> run w cs = Ret w' ->
  forallb (fun c => negb (is_delete buf c)) cs = true ->
  exists b', bufs w' !! buf = Some b'
    /\ num_frames b' = num_frames b /\ frame_size b' = frame_size b
    /\ aligned_frame_size b' = aligned_frame_size b /\ metadata_pool b' = metadata_pool b
    /\ buffer_name b' = buffer_name b /\ buffer_type b' = buffer_type b
    /\ (shutdown_signal b = 1 -> shutdown_signal b' = 1)
    /\ (zero_frames b = 1 -> zero_frames b' = 1)
    /\ (forall i, registered_producer b i ->
          registered_producer b' i /\ name (producers b' !!! i) = name (producers b !!! i))
    /\ (forall nm, private_get_producer_id b nm <> -1 -> private_get_producer_id b' nm <> -1).
Proof.
  intros Hwf Hb Hrun Hnd.
  destruct (run_forward settled buf (fun c => negb (is_delete buf c)) (not_delete_ok buf)
              settled_refl settled_trans
              (fun c h b b' _ _ Hl => local_effect_settled c buf h b b' Hl)
              cs w w' b Hwf Hrun Hb Hnd) as (b' & Hb' & _ & (Hc & Hs & Hz & Hp)).
  destruct Hc as (C1 & C2 & C3 & C4 & C5 & C6).
  exists b'. repeat (split; [assumption|]). split.
  - intros i [Hi Ui]. destruct (Hp i Ui) as [U N]. split; [split; assumption|exact N].
  - intros nm Hreg. rewrite private_get_producer_id_lookup in *.
    destruct (lookup_row_range (producers b) MAX_PRODUCERS nm) as [E|(i & E & Hi)];
      [contradiction|].
    apply lookup_row_some in E as (_ & Hm & _).
    intros Hnone. rewrite lookup_row_none in Hnone. specialize (Hnone i Hi).
    unfold stage_matches in Hm, Hnone. apply andb_prop in Hm as [Ui Hn].
    apply Z.eqb_eq in Ui. destruct (Hp i Ui) as [U N].
    rewrite U, N, Z.eqb_refl, Hn in Hnone. discriminate.
Qed.

(** X5.  A shutdown is final.  After [send_shutdown_signal], through any
    sequence of calls that return and do not destroy the buffer, the
    shutdown flag is set; on such a buffer no wait sleeps:
    [wait_for_empty_frame] and [wait_for_full_frame] return [NULL] and
    [wait_for_full_frame_timeout] returns -1 to every registered stage,
    whatever the state of the slot, and none of them records the slot as
    acquired. *)
Theorem shutdown_is_final (w w' : World) (cs : list call) (buf : Z) (b : Buffer) :
  wf b -> bufs w !! buf = Some b -> run w (SendShutdownSignal buf :: cs) = Ret w' ->
  forallb (fun c => negb (is_delete buf c)) cs = true ->
  exists b', bufs w' !! buf = Some b' /\ shutdown_signal b' = 1
    /\ (forall nm ID, valid_slot b' ID -> private_get_producer_id b' nm <> -1 ->
          wait_for_empty_frame b' nm ID = Ret (b', NULL))
    /\ (forall nm ID, valid_slot b' ID -> private_get_consumer_id b' nm <> -1 ->
          wait_for_full_frame b' nm ID = Ret (b', NULL))
    /\ (forall nm ID now timeout env, valid_slot b' ID ->
          private_get_consumer_id b' nm <> -1 ->
          wait_for_full_frame_timeout b' nm ID now timeout env = Ret (b', -1)).
Proof.
  intros Hwf Hb Hrun Hnd. cbn [run exec] in Hrun. rewrite (deref_Some _ _ _ Hb) in Hrun.
  unfold mbind, result_mbind in Hrun. cbn [result_bind] in Hrun.
  fold (run (store w buf (send_shutdown_signal b).1) cs) in Hrun.
  assert (Hb1 : bufs (store w buf (send_shutdown_signal b).1) !! buf
                = Some (send_shutdown_signal b).1).
  { cbn [store bufs]. apply lookup_insert_eq. }
  destruct (run_forward settled buf (fun c => negb (is_delete buf c)) (not_delete_ok buf)
              settled_refl settled_trans
              (fun c h b b' _ _ Hl => local_effect_settled c buf h b b' Hl)
              cs _ w' _ (wf_send_shutdown_signal b Hwf) Hrun Hb1 Hnd)
    as (b' & Hb' & Hwf' & (_ & Hs & _)).
  specialize (Hs eq_refl).
  destruct (wf_sizes b' Hwf') as (_ & Lf & _).
  exists b'. split; [exact Hb'|]. split; [exact Hs|]. split; [|split].
  - intros nm ID Hv Hreg. destruct (valid_slot_checks b' ID Hv) as [C1 C2].
    unfold wait_for_empty_frame. rewrite C1, C2.
    destruct (private_get_producer_id b' nm =? -1) eqn:E; [apply Z.eqb_eq in E; contradiction|].
    cbn [negb]. rewrite Hs. cbn [Z.eqb]. rewrite andb_false_r. reflexivity.
  - intros nm ID Hv Hreg. unfold wait_for_full_frame.
    destruct (private_get_consumer_id b' nm =? -1) eqn:E; [apply Z.eqb_eq in E; contradiction|].
    cbn [negb].
    replace (in_range (is_full b') ID) with true
      by (symmetry; apply in_range_iff; unfold valid_slot in Hv; lia).
    cbn [negb]. rewrite Hs. cbn [Z.eqb]. rewrite andb_false_r. reflexivity.
  - intros nm ID now timeout env Hv Hreg. unfold wait_for_full_frame_timeout.
    destruct (private_get_consumer_id b' nm =? -1) eqn:E; [apply Z.eqb_eq in E; contradiction|].
    cbn [negb].
    replace (in_range (is_full b') ID) with true
      by (symmetry; apply in_range_iff; unfold valid_slot in Hv; lia).
    cbn [negb]. replace (length env + 2)%nat with (S (length env + 1)) by lia.
    cbn [timed_wait_loop]. rewrite Hs. cbn [Z.eqb]. rewrite andb_false_r. cbn [andb].
    unfold mbind, result_mbind. cbn [result_bind]. rewrite Hs. reflexivity.
Qed.

(** ** The outcome of a release *)

Lemma private_mark_producer_done_bits (b : Buffer) (nm : string) (ID : Z) :
  wf b -> valid_slot b ID -> private_get_producer_id b nm <> -1 ->
  producer_bit b ID (Z.to_nat (private_get_producer_id b nm)) = 0 ->
  exists b1, private_mark_producer_done b nm ID = Ret b1 /\ wf b1
    /\ (forall i, producer_bit b1 ID i
                  = if decide (i = Z.to_nat (private_get_producer_id b nm)) then 1
                    else producer_bit b ID i)
    /\ (forall i, registered_producer b1 i <-> registered_producer b i)
    /\ last_frame_released (producers b1 !!! Z.to_nat (private_get_producer_id b nm)) = ID
    /\ (forall ID', 0 <= ID' -> ID' <> ID ->
          arr_get (producers_done b1) ID' = arr_get (producers_done b) ID')
    /\ length (producers_done b1) = length (producers_done b).
Proof.
  intros Hwf Hv Hreg Hbit.
  destruct (wf_sizes b Hwf) as (Hn & _ & _ & _ & Lp & _ & Lpd & _).
  destruct (wf_producer_row b ID Hwf Hv) as [Lrow _].
  destruct (private_get_producer_id_found b nm Hreg) as (p & Hp & [Hplt Hpu] & _).
  unfold valid_slot in Hv.
  pose proof (private_mark_producer_done_ret b nm ID Hreg Hbit) as E.
  eexists. split; [exact E|]. split; [exact (wf_private_mark_producer_done _ _ _ _ Hwf E)|].
  fields. split; [|split; [|split; [|split]]].
  - intros i. unfold producer_bit. fields. rewrite rows_get_set_same by lia.
    apply row_set_lookup. rewrite Hp. lia.
  - intros i. apply registered_producer_ext. intros j. fields.
    apply (table_update_keeps (producers b) _ (fun s => stage_set_released s ID)).
    intros s. auto.
  - unfold arr_set, arr_get. rewrite list_lookup_total_insert_eq by (rewrite Hp; lia).
    reflexivity.
  - intros ID' H0 Hne. apply arr_get_set_ne; lia.
  - apply length_arr_set.
Qed.

Lemma private_mark_consumer_done_bits (b : Buffer) (nm : string) (ID : Z) :
  wf b -> valid_slot b ID -> private_get_consumer_id b nm <> -1 ->
  consumer_bit b ID (Z.to_nat (private_get_consumer_id b nm)) = 0 ->
  exists b1, private_mark_consumer_done b nm ID = Ret b1 /\ wf b1
    /\ (forall i, consumer_bit b1 ID i
                  = if decide (i = Z.to_nat (private_get_consumer_id b nm)) then 1
                    else consumer_bit b ID i)
    /\ (forall i, registered_consumer b1 i <-> registered_consumer b i)
    /\ last_frame_released (consumers b1 !!! Z.to_nat (private_get_consumer_id b nm)) = ID
    /\ length (consumers_done b1) = length (consumers_done b).
Proof.
  intros Hwf Hv Hreg Hbit.
  destruct (wf_sizes b Hwf) as (Hn & _ & _ & _ & _ & Lc & _ & Lcd).
  destruct (wf_consumer_row b ID Hwf Hv) as [Lrow _].
  destruct (private_get_consumer_id_found b nm Hreg) as (p & Hp & [Hplt Hpu] & _).
  unfold valid_slot in Hv.
  pose proof (private_mark_consumer_done_ret b nm ID Hreg Hbit) as E.
  eexists. split; [exact E|]. split; [exact (wf_private_mark_consumer_done _ _ _ _ Hwf E)|].
  fields. split; [|split; [|split]].
  - intros i. unfold consumer_bit. fields. rewrite rows_get_set_same by lia.
    apply row_set_lookup. rewrite Hp. lia.
  - intros i. apply registered_consumer_ext. intros j. fields.
    apply (table_update_keeps (consumers b) _ (fun s => stage_set_released s ID)).
    intros s. auto.
  - unfold arr_set, arr_get. rewrite list_lookup_total_insert_eq by (rewrite Hp; lia).
    reflexivity.
  - apply length_arr_set.
Qed.

Lemma done_not_one (z : Z) : z = 0 \/ z = 1 -> z <> 1 -> (z =? 1) = false.
Proof. intros [->| ->] H; [reflexivity|contradiction]. Qed.

(** X6.  [mark_frame_full] by a registered producer on a valid slot.  A
    producer whose done bit for the slot is already set fails the assertion
    of [private_mark_producer_done]: a slot cannot be marked twice.
    Otherwise, while another registered producer has not marked the slot,
    the call only sets the caller's bit and its last frame released, and
    broadcasts nothing.  The call of the last producer, when some
    registered consumer is not done with the slot, makes the slot full:
    the flag is 1, every producer-done bit of the slot is cleared, the
    arrival time is the time of the call, [full_cond] is broadcast, and the
    metadata, the consumer bits and the other slots are as before. *)
Theorem mark_frame_full_outcome (h : Heap) (b : Buffer) (nm : string) (ID now : Z) :
  wf b -> valid_slot b ID -> private_get_producer_id b nm <> -1 ->
  let p := Z.to_nat (private_get_producer_id b nm) in
  (producer_bit b ID p = 1 -> mark_frame_full h b nm ID now = Abort)
  /\ (producer_bit b ID p = 0 ->
      (exists i, registered_producer b i /\ i <> p /\ producer_bit b ID i = 0) ->
      exists b', mark_frame_full h b nm ID now = Ret (h, b', [])
        /\ producer_bit b' ID p = 1
        /\ (forall i, i <> p -> producer_bit b' ID i = producer_bit b ID i)
        /\ last_frame_released (producers b' !!! p) = ID
        /\ is_full b' = is_full b /\ metadata b' = metadata b
        /\ consumers_done b' = consumers_done b
        /\ get_last_arrival_time b' = get_last_arrival_time b)
  /\ (producer_bit b ID p = 0 ->
      (forall i, registered_producer b i -> i <> p -> producer_bit b ID i = 1) ->
      ~ all_consumers_done b ID ->
      exists b', mark_frame_full h b nm ID now = Ret (h, b', [full_cond])
        /\ full_flag b' ID = 1
        /\ (forall i, (i < MAX_PRODUCERS)%nat -> producer_bit b' ID i = 0)
        /\ last_frame_released (producers b' !!! p) = ID
        /\ get_last_arrival_time b' = now
        /\ (forall ID', 0 <= ID' -> ID' <> ID ->
              full_flag b' ID' = full_flag b ID'
              /\ arr_get (producers_done b') ID' = arr_get (producers_done b) ID')
        /\ metadata b' = metadata b /\ consumers_done b' = consumers_done b).
Proof.
  intros Hwf Hv Hreg p.
  destruct (valid_slot_checks b ID Hv) as [C1 C2].
  destruct (wf_sizes b Hwf) as (Hn & Lfull & _ & _ & _ & _ & Lpd & _).
  assert (Hne : (private_get_producer_id b nm =? -1) = false) by (apply Z.eqb_neq; assumption).
  split; [|split].
  - intros Hbit. unfold mark_frame_full, private_mark_producer_done.
    rewrite C1, C2, Hne. cbn [negb]. fold p. rewrite Hbit. reflexivity.
  - intros Hbit (i & Hri & Hip & Hbi).
    destruct (private_mark_producer_done_bits b nm ID Hwf Hv Hreg Hbit)
      as (b1 & E1 & Hwf1 & Hbits & Hregs & Hrel & Hrows & _).
    destruct (private_mark_producer_done_control _ _ _ _ E1)
      as (Hn1 & Hf1 & Hcd1 & Hc1 & _ & Hm1 & _).
    destruct (private_mark_producer_done_static _ _ _ _ E1) as (_ & _ & Ht1).
    unfold mark_frame_full. rewrite C1, C2, E1. cbn [mbind result_mbind result_bind].
    assert (Hnot : private_producers_done b1 ID <> 1).
    { intros Hd. rewrite private_producers_done_1 in Hd.
      apply (Hd i); [apply Hregs; exact Hri|]. rewrite Hbits.
      destruct (decide (i = Z.to_nat (private_get_producer_id b nm))); [contradiction|exact Hbi]. }
    rewrite (done_not_one _ (private_producers_done_bit b1 ID) Hnot).
    exists b1. split; [reflexivity|]. split.
    { rewrite Hbits. fold p. destruct (decide (p = p)); [reflexivity|contradiction]. }
    split.
    { intros j Hj. rewrite Hbits. fold p. destruct (decide (j = p)); [contradiction|reflexivity]. }
    repeat split; assumption.
  - intros Hbit Hlast Hpend.
    destruct (private_mark_producer_done_bits b nm ID Hwf Hv Hreg Hbit)
      as (b1 & E1 & Hwf1 & Hbits & Hregs & Hrel & Hrows & Hlen).
    destruct (private_mark_producer_done_control _ _ _ _ E1)
      as (Hn1 & Hf1 & Hcd1 & Hc1 & _ & Hm1 & _).
    unfold mark_frame_full. rewrite C1, C2, E1. cbn [mbind result_mbind result_bind].
    assert (Hall : private_producers_done b1 ID = 1).
    { apply private_producers_done_1. intros i Hri. rewrite Hbits.
      destruct (decide (i = Z.to_nat (private_get_producer_id b nm))) as [|Hip]; [discriminate|].
      rewrite (Hlast i); [discriminate|apply Hregs; exact Hri|exact Hip]. }
    rewrite Hall. cbn [Z.eqb Pos.eqb].
    set (b4 := set_last_arrival_time _ _).
    assert (Hcons : private_consumers_done b4 ID = private_consumers_done b ID).
    { apply private_consumers_done_ext; unfold b4; fields; congruence. }
    assert (Hnot : private_consumers_done b4 ID <> 1).
    { rewrite Hcons. intros Hd. apply Hpend. apply (consumers_done_iff b ID Hwf Hv). exact Hd. }
    rewrite (done_not_one _ (private_consumers_done_bit b4 ID) Hnot).
    exists b4. split; [reflexivity|]. unfold valid_slot in Hv. unfold b4. split.
    { unfold full_flag. fields. apply arr_get_set_eq. rewrite Hf1. lia. }
    split.
    { intros i Hi. unfold producer_bit. fields. rewrite rows_get_set_same by lia.
      apply replicate_lookup_total. exact Hi. }
    split; [fields; exact Hrel|]. split; [reflexivity|]. split.
    { intros ID' H0 Hne'. unfold full_flag. fields. rewrite Hf1.
      rewrite !arr_get_set_ne by lia. split; [reflexivity|]. apply Hrows; assumption. }
    split; fields; assumption.
Qed.

(** X7.  [mark_frame_empty] by a registered consumer on a valid slot of a
    buffer without zero-on-release.  A consumer whose done bit for the slot
    is already set fails the assertion of [private_mark_consumer_done].
    Otherwise, while another registered consumer is not done with the slot,
    the call only sets the caller's bit and its last frame released.  The
    call of the last consumer empties the slot, whether or not the slot was
    full: the flag is 0, every consumer-done bit of the slot is cleared, the
    metadata bound to the slot loses one reference and the slot's reference
    is null, and [empty_cond] is broadcast. *)
Theorem mark_frame_empty_outcome (h : Heap) (b : Buffer) (nm : string) (ID : Z) :
  wf b -> valid_slot b ID -> private_get_consumer_id b nm <> -1 ->
  let c := Z.to_nat (private_get_consumer_id b nm) in
  (consumer_bit b ID c = 1 -> mark_frame_empty h b nm ID = Abort)
  /\ (consumer_bit b ID c = 0 ->
      (exists i, registered_consumer b i /\ i <> c /\ consumer_bit b ID i = 0) ->
      exists b', mark_frame_empty h b nm ID = Ret (h, b', [])
        /\ consumer_bit b' ID c = 1
        /\ (forall i, i <> c -> consumer_bit b' ID i = consumer_bit b ID i)
        /\ last_frame_released (consumers b' !!! c) = ID
        /\ is_full b' = is_full b /\ metadata b' = metadata b
        /\ producers_done b' = producers_done b)
  /\ (consumer_bit b ID c = 0 -> remaining_consumers_done b c ID -> zero_frames b = 0 ->
      exists b', mark_frame_empty h b nm ID
                 = Ret (if arr_get (metadata b) ID =? NULL then h
                        else decrement_metadata_ref_count h (arr_get (metadata b) ID),
                        b', [empty_cond])
        /\ full_flag b' ID = 0
        /\ (forall i, (i < MAX_CONSUMERS)%nat -> consumer_bit b' ID i = 0)
        /\ get_metadata_container b' ID = Ret NULL
        /\ get_metadata h b' ID = Abort
        /\ last_frame_released (consumers b' !!! c) = ID
        /\ (forall ID', 0 <= ID' -> ID' <> ID ->
              full_flag b' ID' = full_flag b ID'
              /\ arr_get (metadata b') ID' = arr_get (metadata b) ID')
        /\ producers_done b' = producers_done b /\ frames b' = frames b).
Proof.
  intros Hwf Hv Hreg c.
  destruct (valid_slot_checks b ID Hv) as [C1 C2].
  destruct (wf_sizes b Hwf) as (Hn & Lfull & _ & Lmd & _ & _ & _ & Lcd).
  assert (Hne : (private_get_consumer_id b nm =? -1) = false) by (apply Z.eqb_neq; assumption).
  assert (H0 : 0 <= ID) by (unfold valid_slot in Hv; lia).
  split; [|split].
  - intros Hbit. unfold mark_frame_empty, private_mark_consumer_done.
    rewrite C1, C2, Hne. cbn [negb]. fold c. rewrite Hbit. reflexivity.
  - intros Hbit (i & Hri & Hic & Hbi).
    destruct (private_mark_consumer_done_bits b nm ID Hwf Hv Hreg Hbit)
      as (b1 & E1 & Hwf1 & Hbits & Hregs & Hrel & _).
    destruct (private_mark_consumer_done_control _ _ _ _ H0 E1)
      as (Hn1 & Hf1 & _ & Hm1 & _ & _ & _ & Hpd1 & _).
    unfold mark_frame_empty. rewrite C1, C2, E1. cbn [mbind result_mbind result_bind].
    assert (Hnot : private_consumers_done b1 ID <> 1).
    { intros Hd. rewrite private_consumers_done_1 in Hd.
      apply (Hd i); [apply Hregs; exact Hri|]. rewrite Hbits.
      destruct (decide (i = Z.to_nat (private_get_consumer_id b nm))); [contradiction|exact Hbi]. }
    rewrite (done_not_one _ (private_consumers_done_bit b1 ID) Hnot).
    exists b1. split; [reflexivity|]. split.
    { rewrite Hbits. fold c. destruct (decide (c = c)); [reflexivity|contradiction]. }
    split.
    { intros j Hj. rewrite Hbits. fold c. destruct (decide (j = c)); [contradiction|reflexivity]. }
    repeat split; assumption.
  - intros Hbit Hlast Hz.
    destruct (private_mark_consumer_done_bits b nm ID Hwf Hv Hreg Hbit)
      as (b1 & E1 & Hwf1 & Hbits & Hregs & Hrel & Hlen).
    destruct (private_mark_consumer_done_control _ _ _ _ H0 E1)
      as (Hn1 & Hf1 & Hz1 & Hm1 & _ & _ & _ & Hpd1 & Hfr1 & _).
    destruct (private_mark_consumer_done_static _ _ _ _ E1) as (_ & Hst & _).
    unfold mark_frame_empty. rewrite C1, C2, E1. cbn [mbind result_mbind result_bind].
    assert (Hall : private_consumers_done b1 ID = 1).
    { apply private_consumers_done_1. intros i Hri. rewrite Hbits.
      destruct (decide (i = Z.to_nat (private_get_consumer_id b nm))) as [|Hic]; [discriminate|].
      rewrite (Hlast i); [discriminate|apply Hregs; exact Hri|exact Hic]. }
    rewrite Hall. cbn [Z.eqb Pos.eqb].
    destruct (private_mark_frame_empty_now h b1 ID ltac:(rewrite Hz1, Hz; discriminate))
      as (h2 & b2 & E2 & Hn2 & Hf2 & Hcd2 & Hc2 & _ & Hpd2 & Hfr2 & _ & _ & _ & Hm2 & Hh2).
    rewrite E2. cbn [Z.eqb Pos.eqb].
    rewrite Hm1 in Hm2, Hh2. rewrite Hh2.
    exists b2. split; [reflexivity|]. unfold valid_slot in Hv.
    assert (Hmd : arr_get (metadata b2) ID = NULL).
    { rewrite Hm2. destruct (arr_get (metadata b) ID =? NULL) eqn:Em.
      - apply Z.eqb_eq in Em. exact Em.
      - apply arr_get_set_eq. lia. }
    split.
    { unfold full_flag. rewrite Hf2, Hf1. apply arr_get_set_eq. lia. }
    split.
    { intros i Hi. unfold consumer_bit. rewrite Hcd2. rewrite rows_get_set_same by lia.
      apply replicate_lookup_total. exact Hi. }
    split.
    { unfold get_metadata_container. rewrite Hn2, Hn1, C1, C2, Hmd. reflexivity. }
    split.
    { unfold get_metadata. rewrite Hn2, Hn1, C1, C2, Hmd. reflexivity. }
    split; [rewrite Hc2; exact Hrel|]. split.
    { intros ID' H0' Hne'. unfold full_flag. rewrite Hf2, Hf1, Hm2.
      rewrite arr_get_set_ne by lia. split; [reflexivity|].
      destruct (_ =? NULL); [reflexivity|]. apply arr_get_set_ne; lia. }
    split; congruence.
Qed.

(** ** The outcome of an acquisition by a consumer *)

(** X8.  For a registered consumer and a valid slot, [wait_for_full_frame]
    returns [NULL] when the shutdown flag is set; otherwise it returns the
    frame pointer of the slot, recording the slot as the last frame
    acquired, exactly when the slot is full and the consumer's done bit for
    it is clear, and it sleeps in every other case.  Whenever it returns the
    frame, [wait_for_full_frame_timeout] returns 0 and leaves the buffer in
    the same state, whatever its deadline. *)
Theorem wait_for_full_frame_outcome (b : Buffer) (nm : string) (ID : Z) :
  wf b -> valid_slot b ID -> private_get_consumer_id b nm <> -1 ->
  let c := Z.to_nat (private_get_consumer_id b nm) in
  (shutdown_signal b = 1 -> wait_for_full_frame b nm ID = Ret (b, NULL))
  /\ (shutdown_signal b = 0 -> full_flag b ID = 1 /\ consumer_bit b ID c = 0 ->
      exists b', wait_for_full_frame b nm ID = Ret (b', arr_get (frames b) ID)
                 /\ last_frame_acquired (consumers b' !!! c) = ID
                 /\ frames b' = frames b /\ is_full b' = is_full b
                 /\ consumers_done b' = consumers_done b
                 /\ forall now timeout env,
                      wait_for_full_frame_timeout b nm ID now timeout env = Ret (b', 0))
  /\ (shutdown_signal b = 0 -> ~ (full_flag b ID = 1 /\ consumer_bit b ID c = 0) ->
      wait_for_full_frame b nm ID = Blocked).
Proof.
  intros Hwf Hv Hreg c.
  destruct (wf_sizes b Hwf) as (Hn & Lfull & _ & _ & _ & Lc & _).
  destruct (private_get_consumer_id_found b nm Hreg) as (i & Hi & [Hlt Hu] & _).
  assert (Hc : c = i) by (unfold c; rewrite Hi; apply Nat2Z.id).
  assert (Hne : (private_get_consumer_id b nm =? -1) = false) by (apply Z.eqb_neq; assumption).
  assert (Hr : in_range (is_full b) ID = true).
  { apply in_range_iff. unfold valid_slot in Hv. lia. }
  destruct (wf_full_flag_bit b ID Hwf Hv) as [Hf|Hf];
    destruct (wf_consumer_bit b ID i Hwf Hv Hlt) as [Hb|Hb];
    rewrite <- Hc in Hb;
    unfold wait_for_full_frame; rewrite Hne, Hr; cbn [negb]; fold c;
    rewrite Hf, Hb; cbn [Z.eqb orb andb Pos.eqb];
    (split; [intros Hs; rewrite Hs; reflexivity|]);
    (split; [intros Hs [Hf' Hb']; try congruence|intros Hs Hn'; rewrite ?Hs; try reflexivity]).
  - rewrite Hs. cbn [Z.eqb]. eexists. split; [reflexivity|]. fields.
    split.
    { unfold arr_set. rewrite Hi, Nat2Z.id, Hc.
      rewrite list_lookup_total_insert_eq by lia. reflexivity. }
    repeat (split; [reflexivity|]).
    intros now timeout env. unfold wait_for_full_frame_timeout. rewrite Hne, Hr. cbn [negb].
    replace (length env + 2)%nat with (S (length env + 1)) by lia.
    rewrite timed_wait_loop_exit
      by (unfold has_to_wait; fold c; rewrite Hf, Hb; reflexivity).
    unfold mbind, result_mbind. cbn [result_bind]. rewrite Hs. reflexivity.
  - exfalso. apply Hn'. auto.
Qed.

(** ** Acquiring the same slot again *)

Lemma stage_table_acquired_twice (tbl : list StageInfo) (j ID : Z) :
  let tbl' := arr_set tbl j (stage_set_acquired (arr_get tbl j) ID) in
  arr_set tbl' j (stage_set_acquired (arr_get tbl' j) ID) = tbl'.
Proof.
  cbn zeta. unfold arr_set, arr_get.
  destruct (decide (Z.to_nat j < length tbl)%nat) as [Hin|Hout].
  - rewrite list_lookup_total_insert_eq by exact Hin. rewrite list_insert_insert_eq.
    reflexivity.
  - assert (E : forall x, <[Z.to_nat j := x]> tbl = tbl)
      by (intros x; apply list_insert_ge; lia).
    rewrite !E. reflexivity.
Qed.

(** X9.  Acquiring is repeatable.  When [wait_for_empty_frame] has
    returned to a producer, the same call on the resulting state returns
    the same pointer again and changes nothing, and so does
    [wait_for_full_frame] for a consumer: a stage may ask for the slot it
    is working on any number of times before it releases it. *)
Theorem acquire_is_repeatable (b b' : Buffer) (nm : string) (ID p : Z) :
  (wait_for_empty_frame b nm ID = Ret (b', p) -> wait_for_empty_frame b' nm ID = Ret (b', p))
  /\ (wait_for_full_frame b nm ID = Ret (b', p) -> wait_for_full_frame b' nm ID = Ret (b', p)).
Proof.
  split.
  - intros E. unfold wait_for_empty_frame in E.
    destruct (0 <=? ID) eqn:C1; [|discriminate].
    destruct (ID <? num_frames b) eqn:C2; [|discriminate].
    destruct (private_get_producer_id b nm =? -1) eqn:Hne; [discriminate|]. cbn [negb] in E.
    destruct (((full_flag b ID =? 1)
               || (producer_bit b ID (Z.to_nat (private_get_producer_id b nm)) =? 1))
              && (shutdown_signal b =? 0)) eqn:Hblk; [discriminate|].
    destruct (shutdown_signal b =? 1) eqn:Hs; injection E as <- <-;
      unfold wait_for_empty_frame.
    + rewrite C1, C2, Hne. cbn [negb]. rewrite Hblk, Hs. reflexivity.
    + set (b1 := set_producers b _).
      assert (Hid : private_get_producer_id b1 nm = private_get_producer_id b nm).
      { apply private_get_producer_id_ext. intros i _. unfold b1. fields.
        apply (table_update_keeps (producers b) _ (fun s => stage_set_acquired s ID)).
        intros s. auto. }
      rewrite Hid. change (num_frames b1) with (num_frames b).
      change (full_flag b1 ID) with (full_flag b ID).
      change (producer_bit b1 ID) with (producer_bit b ID).
      change (shutdown_signal b1) with (shutdown_signal b).
      change (frames b1) with (frames b).
      rewrite C1, C2, Hne. cbn [negb]. rewrite Hblk, Hs.
      unfold b1. fields. rewrite stage_table_acquired_twice. reflexivity.
  - intros E. unfold wait_for_full_frame in E.
    destruct (private_get_consumer_id b nm =? -1) eqn:Hne; [discriminate|]. cbn [negb] in E.
    destruct (in_range (is_full b) ID) eqn:Hr; [|discriminate]. cbn [negb] in E.
    destruct (((full_flag b ID =? 0)
               || (consumer_bit b ID (Z.to_nat (private_get_consumer_id b nm)) =? 1))
              && (shutdown_signal b =? 0)) eqn:Hblk; [discriminate|].
    destruct (shutdown_signal b =? 1) eqn:Hs; injection E as <- <-;
      unfold wait_for_full_frame.
    + rewrite Hne. cbn [negb]. rewrite Hr. cbn [negb]. rewrite Hblk, Hs. reflexivity.
    + set (b1 := set_consumers b _).
      assert (Hid : private_get_consumer_id b1 nm = private_get_consumer_id b nm).
      { apply private_get_consumer_id_ext. intros i _. unfold b1. fields.
        apply (table_update_keeps (consumers b) _ (fun s => stage_set_acquired s ID)).
        intros s. auto. }
      rewrite Hid. change (is_full b1) with (is_full b).
      change (full_flag b1 ID) with (full_flag b ID).
      change (consumer_bit b1 ID) with (consumer_bit b ID).
      change (shutdown_signal b1) with (shutdown_signal b).
      change (frames b1) with (frames b).
      rewrite Hne. cbn [negb]. rewrite Hr. cbn [negb]. rewrite Hblk, Hs.
      unfold b1. fields. rewrite stage_table_acquired_twice. reflexivity.
Qed.

(** ** Frames handed in from outside and frames copied *)

(** X10.  [swap_external_frame] on a well-formed buffer.  A number of
    registered producers other than one fails the assertion.  The slot
    index is not checked: outside the buffer it indexes [frames] out of
    bounds.  On a valid slot the call installs the external pointer, returns
    the pointer the slot held and changes nothing else; handing the
    returned pointer back in the same way restores the buffer and returns
    the external pointer. *)
Theorem swap_external_frame_round_trip (b : Buffer) (frame_id external_frame : Z) :
  wf b ->
  (get_num_producers b <> 1 -> swap_external_frame b frame_id external_frame = Abort)
  /\ (get_num_producers b = 1 -> ~ valid_slot b frame_id ->
      swap_external_frame b frame_id external_frame = Undefined)
  /\ (get_num_producers b = 1 -> valid_slot b frame_id ->
      let b' := set_frames b (arr_set (frames b) frame_id external_frame) in
      swap_external_frame b frame_id external_frame = Ret (b', arr_get (frames b) frame_id)
      /\ arr_get (frames b') frame_id = external_frame
      /\ (forall i, 0 <= i -> i <> frame_id -> arr_get (frames b') i = arr_get (frames b) i)
      /\ swap_external_frame b' frame_id (arr_get (frames b) frame_id)
         = Ret (b, external_frame)).
Proof.
  intros Hwf. destruct (wf_sizes b Hwf) as (Hn & _ & Lfr & _).
  split; [|split].
  - intros Hp. unfold swap_external_frame. apply Z.eqb_neq in Hp. rewrite Hp. reflexivity.
  - intros Hp Hv. unfold swap_external_frame. rewrite Hp. cbn [Z.eqb Pos.eqb].
    replace (in_range (frames b) frame_id) with false; [reflexivity|].
    symmetry. destruct (in_range (frames b) frame_id) eqn:E; [|reflexivity].
    apply in_range_iff in E. exfalso. apply Hv. unfold valid_slot. lia.
  - intros Hp Hv b'. unfold valid_slot in Hv.
    assert (Hr : in_range (frames b) frame_id = true) by (apply in_range_iff; lia).
    split; [|split; [|split]].
    + unfold swap_external_frame. rewrite Hp, Hr. reflexivity.
    + unfold b'. fields. apply arr_get_set_eq. lia.
    + intros i Hi Hne. unfold b'. fields. apply arr_get_set_ne; lia.
    + unfold swap_external_frame.
      change (get_num_producers b') with (get_num_producers b). rewrite Hp.
      cbn [Z.eqb Pos.eqb].
      replace (in_range (frames b') frame_id) with true
        by (symmetry; apply in_range_iff; unfold b'; fields; rewrite length_arr_set; lia).
      cbn [negb]. unfold b'. cbn [set_frames frames].
      rewrite arr_set_restore by lia. rewrite arr_get_set_eq by lia.
      rewrite (set_frames_restore b). reflexivity.
Qed.

Lemma get_num_consumers_nonneg (b : Buffer) : 0 <= get_num_consumers b.
Proof. unfold get_num_consumers. lia. Qed.

Lemma memcpy_prefix (dest src : list Z) (n : Z) (i : nat) :
  (Z.to_nat n <= length src)%nat -> (i < Z.to_nat n)%nat ->
  memcpy dest src n !! i = src !! i.
Proof.
  intros Hs Hi. unfold memcpy. rewrite lookup_app_l by (rewrite length_take; lia).
  apply lookup_take_lt. exact Hi.
Qed.

Lemma memcpy_suffix (dest src : list Z) (n : Z) (i : nat) :
  (Z.to_nat n <= length src)%nat -> (Z.to_nat n <= i)%nat ->
  memcpy dest src n !! i = dest !! i.
Proof.
  intros Hs Hi. unfold memcpy. rewrite lookup_app_r by (rewrite length_take; lia).
  rewrite length_take, lookup_drop. f_equal. lia.
Qed.

Lemma memcpy_length (dest src : list Z) (n : Z) :
  (Z.to_nat n <= length src)%nat -> (Z.to_nat n <= length dest)%nat ->
  length (memcpy dest src n) = length dest.
Proof.
  intros Hs Hd. unfold memcpy. rewrite length_app, length_take, length_drop. lia.
Qed.

(** X11.  [safe_swap_frame] between two distinct well-formed buffers, on
    valid slots.  Frame sizes that differ, and more than one producer on the
    destination, are fatal errors.  Otherwise the number of consumers of the
    source decides: with exactly one the two frame pointers are exchanged;
    with more than one the first [frame_size] bytes of the source frame are
    copied into the destination frame, and no pointer and no storage other
    than the destination frame changes; with none nothing happens. *)
Theorem safe_swap_frame_outcomes (w : World) (S s D d : Z) (bs bd : Buffer) :
  bufs w !! S = Some bs -> bufs w !! D = Some bd ->
  S <> D -> S <> NULL -> D <> NULL ->
  wf bs -> wf bd -> valid_slot bs s -> valid_slot bd d ->
  (frame_size bs <> frame_size bd -> safe_swap_frame w S s D d = Abort)
  /\ (frame_size bs = frame_size bd -> 1 < get_num_producers bd ->
      safe_swap_frame w S s D d = Abort)
  /\ (frame_size bs = frame_size bd -> get_num_producers bd <= 1 ->
      (get_num_consumers bs = 1 ->
         safe_swap_frame w S s D d
         = Ret (store
                  (store w S (set_frames bs (arr_set (frames bs) s (arr_get (frames bd) d))))
                  D (set_frames bd (arr_set (frames bd) d (arr_get (frames bs) s)))))
      /\ (get_num_consumers bs = 0 -> safe_swap_frame w S s D d = Ret w)
      /\ (1 < get_num_consumers bs ->
          forall src dst,
          mem (heap w) !! arr_get (frames bs) s = Some src ->
          mem (heap w) !! arr_get (frames bd) d = Some dst ->
          frame_size bs <= Z.of_nat (length src) ->
          frame_size bs <= Z.of_nat (length dst) ->
          exists w' dst',
            safe_swap_frame w S s D d = Ret w'
            /\ bufs w' = bufs w /\ containers (heap w') = containers (heap w)
            /\ mem (heap w') !! arr_get (frames bd) d = Some dst'
            /\ length dst' = length dst
            /\ (forall i, (i < Z.to_nat (frame_size bs))%nat -> dst' !! i = src !! i)
            /\ (forall i, (Z.to_nat (frame_size bs) <= i)%nat -> dst' !! i = dst !! i)
            /\ (forall a, a <> arr_get (frames bd) d ->
                  mem (heap w') !! a = mem (heap w) !! a))).
Proof.
  intros HS HD Hne HSn HDn Hws Hwd Hvs Hvd.
  destruct (valid_slot_checks bs s Hvs) as [Cs1 Cs2].
  destruct (valid_slot_checks bd d Hvd) as [Cd1 Cd2].
  assert (E1 : (S =? D) = false) by (apply Z.eqb_neq; exact Hne).
  assert (E2 : (S =? NULL) = false) by (apply Z.eqb_neq; exact HSn).
  assert (E3 : (D =? NULL) = false) by (apply Z.eqb_neq; exact HDn).
  assert (Hpre : safe_swap_frame w S s D d =
    if negb (frame_size bs =? frame_size bd) then Abort else
    if 1 <? get_num_producers bd then Abort else
    if get_num_consumers bs =? 1 then
      Ret (store
             (store w S (set_frames bs (arr_set (frames bs) s (arr_get (frames bd) d))))
             D (set_frames bd (arr_set (frames bd) d (arr_get (frames bs) s))))
    else if 1 <? get_num_consumers bs then
      match mem (heap w) !! arr_get (frames bd) d,
            mem (heap w) !! arr_get (frames bs) s with
      | Some dd, Some ss =>
          if (Z.of_nat (length dd) <? frame_size bs) || (Z.of_nat (length ss) <? frame_size bs)
          then Undefined
          else Ret (set_heap w
                      (set_mem (heap w)
                         (<[arr_get (frames bd) d := memcpy dd ss (frame_size bs)]>
                            (mem (heap w)))))
      | _, _ => Undefined
      end
    else Ret w).
  { unfold safe_swap_frame. rewrite E1, E2, E3, Cs1. cbn [negb].
    rewrite (deref_Some _ _ _ HS). cbn [mbind result_mbind result_bind].
    rewrite Cs2, Cd1. rewrite (deref_Some _ _ _ HD). cbn [mbind result_mbind result_bind].
    rewrite Cd2. reflexivity. }
  split; [|split].
  - intros Hsz. rewrite Hpre. apply Z.eqb_neq in Hsz. rewrite Hsz. reflexivity.
  - intros Hsz Hp. rewrite Hpre, Hsz, Z.eqb_refl. cbn [negb].
    apply Z.ltb_lt in Hp. rewrite Hp. reflexivity.
  - intros Hsz Hp. rewrite Hpre, Hsz, Z.eqb_refl. cbn [negb].
    replace (1 <? get_num_producers bd) with false by (symmetry; apply Z.ltb_ge; exact Hp).
    split; [|split].
    + intros Hc. rewrite Hc. reflexivity.
    + intros Hc. rewrite Hc. reflexivity.
    + intros Hc src dst Hsrc Hdst Ls Ld.
      replace (get_num_consumers bs =? 1) with false by (symmetry; apply Z.eqb_neq; lia).
      apply Z.ltb_lt in Hc. rewrite Hc, Hdst, Hsrc.
      replace (Z.of_nat (length dst) <? frame_size bd) with false
        by (symmetry; apply Z.ltb_ge; lia).
      replace (Z.of_nat (length src) <? frame_size bd) with false
        by (symmetry; apply Z.ltb_ge; lia).
      cbn [orb]. eexists. exists (memcpy dst src (frame_size bd)).
      split; [reflexivity|]. cbn [set_heap bufs heap set_mem containers mem].
      split; [reflexivity|]. split; [reflexivity|].
      split; [apply lookup_insert_eq|]. split; [apply memcpy_length; lia|].
      split; [intros i Hi; apply memcpy_prefix; lia|].
      split; [intros i Hi; apply memcpy_suffix; lia|].
      intros a Ha. apply lookup_insert_ne. congruence.
Qed.

(** ** Metadata *)

(** X12.  [copy_metadata] between two buffers.  Whenever it returns, no
    [struct Buffer], no frame storage, no pool and no reference count has
    changed, and no container other than the one bound to the destination
    slot.  With a container on both slots and equal [metadata_size], the
    payload of the destination becomes the first [metadata_size] bytes of
    the source payload; with no container on one of the slots, or with
    sizes that differ, nothing is copied.  With one and the same buffer on
    both sides the call never returns: it locks the mutex of the buffer
    twice. *)
Theorem copy_metadata_effect (w : World) (F f T t : Z) :
  (forall w', copy_metadata w F f T t = Ret w' ->
     F <> T /\ bufs w' = bufs w /\ mem (heap w') = mem (heap w)
     /\ pools (heap w') = pools (heap w)
     /\ (forall c, ref_count_of (heap w') c = ref_count_of (heap w) c)
     /\ (forall tb c, bufs w !! T = Some tb -> c <> arr_get (metadata tb) t ->
           containers (heap w') !! c = containers (heap w) !! c))
  /\ (forall fb tb fc tc,
        F <> T -> bufs w !! F = Some fb -> bufs w !! T = Some tb ->
        in_range (metadata fb) f = true -> in_range (metadata tb) t = true ->
        arr_get (metadata fb) f <> NULL -> arr_get (metadata tb) t <> NULL ->
        containers (heap w) !! arr_get (metadata fb) f = Some fc ->
        containers (heap w) !! arr_get (metadata tb) t = Some tc ->
        (metadata_size fc <> metadata_size tc -> copy_metadata w F f T t = Ret w)
        /\ (metadata_size fc = metadata_size tc ->
            exists w' tc',
              copy_metadata w F f T t = Ret w'
              /\ containers (heap w') !! arr_get (metadata tb) t = Some tc'
              /\ metadata_bytes tc'
                 = take (Z.to_nat (metadata_size fc)) (metadata_bytes fc)
                   ++ drop (Z.to_nat (metadata_size fc)) (metadata_bytes tc)
              /\ ref_count tc' = ref_count tc /\ metadata_size tc' = metadata_size tc))
  /\ (forall fb tb, bufs w !! F = Some fb -> bufs w !! T = Some tb -> F <> T ->
        in_range (metadata fb) f = true -> in_range (metadata tb) t = true ->
        arr_get (metadata fb) f = NULL \/ arr_get (metadata tb) t = NULL ->
        copy_metadata w F f T t = Ret w)
  /\ (F = T -> forall w', copy_metadata w F f T t <> Ret w').
Proof.
  split; [|split; [|split]].
  - intros w'. unfold copy_metadata.
    destruct (deref w F) as [fb| | |] eqn:EF; try discriminate.
    destruct (deref w T) as [tb| | |] eqn:ET; try discriminate.
    cbn [mbind result_mbind result_bind].
    destruct (F =? T) eqn:Eft; [discriminate|]. apply Z.eqb_neq in Eft.
    assert (Hsame : Ret w = Ret w' ->
              F <> T /\ bufs w' = bufs w /\ mem (heap w') = mem (heap w)
              /\ pools (heap w') = pools (heap w)
              /\ (forall c, ref_count_of (heap w') c = ref_count_of (heap w) c)
              /\ (forall (tb0 : Buffer) c, bufs w !! T = Some tb0 ->
                    c <> arr_get (metadata tb0) t ->
                    containers (heap w') !! c = containers (heap w) !! c)).
    { intros E; injection E as <-. repeat split; auto. }
    destruct (negb (in_range (metadata fb) f)); [discriminate|].
    destruct (arr_get (metadata fb) f =? NULL); [exact Hsame|].
    destruct (negb (in_range (metadata tb) t)); [discriminate|].
    destruct (arr_get (metadata tb) t =? NULL); [exact Hsame|].
    destruct (containers (heap w) !! arr_get (metadata fb) f) as [fc|] eqn:Efc;
      [|discriminate].
    destruct (containers (heap w) !! arr_get (metadata tb) t) as [tc|] eqn:Etc;
      [|discriminate].
    destruct (negb (metadata_size fc =? metadata_size tc)); [exact Hsame|].
    clear Hsame. intros E; injection E as <-. cbn [set_heap bufs heap set_containers mem pools containers].
    split; [exact Eft|]. repeat (split; [reflexivity|]). split.
    + intros c. unfold ref_count_of. cbn [containers set_containers].
      destruct (decide (c = arr_get (metadata tb) t)) as [->|Hc].
      * rewrite lookup_insert_eq, Etc. reflexivity.
      * rewrite lookup_insert_ne by congruence. reflexivity.
    + intros tb0 c Htb0 Hc. unfold deref in ET. rewrite Htb0 in ET. injection ET as ->.
      apply lookup_insert_ne. congruence.
  - intros fb tb fc tc Hne HF HT Hrf Hrt Hfn Htn Hfc Htc.
    assert (Hpre : copy_metadata w F f T t =
              if negb (metadata_size fc =? metadata_size tc) then Ret w
              else Ret (set_heap w
                          (set_containers (heap w)
                             (<[arr_get (metadata tb) t :=
                                  container_set_bytes tc
                                    (take (Z.to_nat (metadata_size fc)) (metadata_bytes fc)
                                     ++ drop (Z.to_nat (metadata_size fc))
                                          (metadata_bytes tc))]>
                                (containers (heap w)))))).
    { unfold copy_metadata. rewrite (deref_Some _ _ _ HF), (deref_Some _ _ _ HT).
      cbn [mbind result_mbind result_bind].
      apply Z.eqb_neq in Hne, Hfn, Htn. rewrite Hne, Hrf, Hrt, Hfn, Htn. cbn [negb].
      rewrite Hfc, Htc. reflexivity. }
    split.
    + intros Hsz. rewrite Hpre. apply Z.eqb_neq in Hsz. rewrite Hsz. reflexivity.
    + intros Hsz. rewrite Hpre, Hsz, Z.eqb_refl. cbn [negb].
      eexists. eexists. split; [reflexivity|].
      cbn [set_heap heap set_containers containers]. split; [apply lookup_insert_eq|].
      repeat split.
  - intros fb tb HF HT Hne Hrf Hrt Hnull. unfold copy_metadata.
    rewrite (deref_Some _ _ _ HF), (deref_Some _ _ _ HT).
    cbn [mbind result_mbind result_bind].
    apply Z.eqb_neq in Hne. rewrite Hne, Hrf. cbn [negb].
    destruct (arr_get (metadata fb) f =? NULL) eqn:Ef; [reflexivity|].
    rewrite Hrt. cbn [negb].
    destruct Hnull as [Hn|Hn]; [apply Z.eqb_neq in Ef; contradiction|].
    rewrite Hn. reflexivity.
  - intros -> w'. unfold copy_metadata.
    destruct (deref w T) as [tb| | |]; try discriminate.
    cbn [mbind result_mbind result_bind]. rewrite Z.eqb_refl. discriminate.
Qed.

(** X13.  [allocate_new_metadata_object] on a valid slot of a well-formed
    buffer.  Without a metadata pool it is a fatal error, and so is a pool
    that hands out no container.  A slot that already has a container is
    left as it is, and nothing is requested from the pool.  Whenever the
    call returns, the slot has a container, which [get_metadata_container]
    returns; the other slots keep theirs; the flags and done bits are
    untouched; and calling it again changes nothing. *)
Theorem allocate_new_metadata_object_outcome (h : Heap) (b : Buffer) (ID : Z) :
  wf b -> valid_slot b ID ->
  (metadata_pool b = NULL -> allocate_new_metadata_object h b ID = Abort)
  /\ (metadata_pool b <> NULL -> arr_get (metadata b) ID = NULL ->
      (request_metadata_object h (metadata_pool b)).2 = NULL ->
      allocate_new_metadata_object h b ID = Abort)
  /\ (metadata_pool b <> NULL -> arr_get (metadata b) ID <> NULL ->
      allocate_new_metadata_object h b ID = Ret (h, b))
  /\ (forall h' b', allocate_new_metadata_object h b ID = Ret (h', b') ->
        arr_get (metadata b') ID <> NULL
        /\ get_metadata_container b' ID = Ret (arr_get (metadata b') ID)
        /\ (arr_get (metadata b) ID = NULL ->
            (h', arr_get (metadata b') ID) = request_metadata_object h (metadata_pool b))
        /\ (forall ID', 0 <= ID' -> ID' <> ID ->
              arr_get (metadata b') ID' = arr_get (metadata b) ID')
        /\ is_full b' = is_full b /\ producers_done b' = producers_done b
        /\ consumers_done b' = consumers_done b /\ frames b' = frames b
        /\ allocate_new_metadata_object h' b' ID = Ret (h', b')).
Proof.
  intros Hwf Hv. destruct (valid_slot_checks b ID Hv) as [C1 C2].
  destruct (wf_sizes b Hwf) as (_ & _ & _ & Lmd & _). unfold valid_slot in Hv.
  split; [|split; [|split]].
  - intros Hp. unfold allocate_new_metadata_object. rewrite C1, C2, Hp. reflexivity.
  - intros Hp Hm Hreq. unfold allocate_new_metadata_object.
    apply Z.eqb_neq in Hp. rewrite C1, C2, Hp, Hm, Z.eqb_refl.
    destruct (request_metadata_object h (metadata_pool b)) as [h1 c]. cbn [snd] in Hreq.
    subst c. fields. rewrite arr_get_set_eq by lia. rewrite Z.eqb_refl. reflexivity.
  - intros Hp Hm. unfold allocate_new_metadata_object.
    apply Z.eqb_neq in Hp, Hm. rewrite C1, C2, Hp, Hm. rewrite Hm. reflexivity.
  - intros h' b'. unfold allocate_new_metadata_object at 1. rewrite C1, C2.
    destruct (metadata_pool b =? NULL) eqn:Hp; [discriminate|].
    destruct (arr_get (metadata b) ID =? NULL) eqn:Hm.
    + destruct (request_metadata_object h (metadata_pool b)) as [h1 c] eqn:Hreq.
      fields. rewrite arr_get_set_eq by lia.
      destruct (c =? NULL) eqn:Hc; [discriminate|]. intros E; injection E as <- <-.
      fields. rewrite arr_get_set_eq by lia. apply Z.eqb_neq in Hc.
      split; [exact Hc|]. split.
      { unfold get_metadata_container. fields. rewrite C1, C2, arr_get_set_eq by lia.
        reflexivity. }
      split; [reflexivity|]. split; [intros ID' H0 Hne; apply arr_get_set_ne; lia|].
      repeat (split; [reflexivity|]).
      unfold allocate_new_metadata_object. fields. rewrite C1, C2, Hp.
      rewrite arr_get_set_eq by lia. apply Z.eqb_neq in Hc. rewrite Hc.
      fields. rewrite arr_get_set_eq by lia. rewrite Hc. reflexivity.
    + rewrite Hm. intros E; injection E as <- <-. apply Z.eqb_neq in Hm.
      split; [exact Hm|]. split.
      { unfold get_metadata_container. rewrite C1, C2. reflexivity. }
      split; [intros Hn; contradiction|]. split; [reflexivity|].
      repeat (split; [reflexivity|]).
      unfold allocate_new_metadata_object. rewrite C1, C2, Hp.
      apply Z.eqb_neq in Hm. rewrite Hm. rewrite Hm. reflexivity.
Qed.
(** ** A new buffer *)

Lemma buffer_malloc_fatal (a : frame_answer) (len numa : Z) (h : Heap) :
  frame_fatal a = true -> buffer_malloc a len numa h = Abort.
Proof.
  unfold frame_fatal, buffer_malloc. destruct WITH_HSA; [discriminate|]. cbn [negb andb].
  intros ->. destruct WITH_NUMA; reflexivity.
Qed.

Lemma buffer_malloc_refused (a : frame_answer) (len numa : Z) (h : Heap) :
  frame_fatal a = false -> frame_granted a = false ->
  buffer_malloc a len numa h = Ret (h, NULL).
Proof.
  unfold frame_fatal, frame_granted, buffer_malloc.
  destruct WITH_HSA; cbn [negb andb orb].
  - intros _ H. rewrite andb_true_r in H. apply negb_false_iff in H. rewrite H. reflexivity.
  - intros -> H. cbn [negb andb] in H.
    destruct WITH_NUMA; cbn [orb andb] in H.
    + destruct WITH_NO_MEMLOCK; [discriminate|]. cbn [orb] in H.
      apply negb_false_iff in H. rewrite H. reflexivity.
    + destruct (posix_memalign_err a =? 0); [|reflexivity]. cbn [negb andb] in H.
      destruct WITH_NO_MEMLOCK; [discriminate|]. cbn [orb] in H.
      apply negb_false_iff in H. rewrite H. reflexivity.
Qed.

Lemma buffer_malloc_granted (a : frame_answer) (len numa : Z) (h : Heap) :
  frame_granted a = true ->
  frame_pointer a <> NULL
  /\ buffer_malloc a len numa h
     = Ret (set_mem h (<[frame_pointer a := replicate (Z.to_nat len) 0]> (mem h)),
            frame_pointer a).
Proof.
  unfold frame_granted, buffer_malloc. intros H. apply andb_prop in H as [Hp H].
  apply negb_true_iff in Hp. split; [apply Z.eqb_neq; exact Hp|]. rewrite Hp.
  destruct WITH_HSA; [reflexivity|]. cbn [orb] in H. apply andb_prop in H as [H1 H2].
  destruct WITH_NUMA; cbn [orb] in H1.
  - destruct WITH_NO_MEMLOCK; [reflexivity|]. cbn [orb] in H2.
    apply negb_true_iff in H2. rewrite H2. reflexivity.
  - rewrite H1. cbn [negb].
    destruct WITH_NO_MEMLOCK; [reflexivity|]. cbn [orb] in H2.
    apply negb_true_iff in H2. rewrite H2. reflexivity.
Qed.

(** The frames that are granted are created one after the other. *)
Lemma create_frames_granted (sys : allocator) (len numa : Z) (pre rest : list nat) :
  forall (h : Heap) (acc : list Z),
  (forall i, In i pre -> frame_granted (frame_answers sys i) = true) ->
  exists h',
    create_frames sys len numa (pre ++ rest) h acc
    = create_frames sys len numa rest h'
        (acc ++ map (fun i => frame_pointer (frame_answers sys i)) pre)
    /\ (forall a, mem h !! a = Some (replicate (Z.to_nat len) 0) ->
                  mem h' !! a = Some (replicate (Z.to_nat len) 0))
    /\ (forall i, In i pre ->
          mem h' !! frame_pointer (frame_answers sys i) = Some (replicate (Z.to_nat len) 0))
    /\ containers h' = containers h /\ pools h' = pools h.
Proof.
  induction pre as [|i pre IH]; intros h acc Hok.
  - exists h. cbn. rewrite app_nil_r. repeat split; auto. intros i [].
  - cbn [create_frames app].
    destruct (buffer_malloc_granted (frame_answers sys i) len numa h (Hok i (or_introl eq_refl)))
      as [Hne ->].
    cbn [mbind result_mbind result_bind fst snd].
    apply Z.eqb_neq in Hne. rewrite Hne.
    set (p := frame_pointer (frame_answers sys i)) in *.
    destruct (IH (set_mem h (<[p := replicate (Z.to_nat len) 0]> (mem h)))
                (acc ++ [p]) (fun j Hj => Hok j (or_intror Hj)))
      as (h' & Ec & Hkeep & Hnew & Hc & Hp).
    exists h'. split; [rewrite Ec; cbn [map]; rewrite <- app_assoc; reflexivity|].
    assert (Hi : mem (set_mem h (<[p := replicate (Z.to_nat len) 0]> (mem h)))
                 !! p = Some (replicate (Z.to_nat len) 0)).
    { cbn [set_mem mem]. apply lookup_insert_eq. }
    split; [|split; [|split]].
    + intros a Ha. apply Hkeep. cbn [set_mem mem].
      destruct (decide (a = p)) as [->|Hne']; [apply lookup_insert_eq|].
      rewrite lookup_insert_ne by congruence. exact Ha.
    + intros j [<-|Hj]; [apply Hkeep; exact Hi|apply Hnew; exact Hj].
    + rewrite Hc. reflexivity.
    + rewrite Hp. reflexivity.
Qed.

Lemma seq_split_at (n i : nat) :
  (i < n)%nat -> seq 0 n = seq 0 i ++ i :: seq (S i) (n - S i).
Proof.
  intros Hi. replace n with (i + S (n - S i))%nat at 1 by lia.
  rewrite seq_app. reflexivity.
Qed.

Lemma stage_table_unmatched (n i : nat) (nm : string) :
  (i < n)%nat -> stage_matches (replicate n (mkStageInfo 0 "" 0 0) !!! i) nm = false.
Proof.
  intros Hi. apply stage_matches_free. rewrite stage_table_empty by exact Hi. discriminate.
Qed.

(** X14.  [buffer_malloc] and [create_buffer], with the answers of the
    system.  [buffer_malloc] stops in [CHECK_MEM_F] on a null pointer from
    [numa_alloc_onnode] or [posix_memalign]; it returns [NULL], the memory
    untouched, on a null pointer from [hsa_host_malloc], on an error of
    [posix_memalign] that leaves a pointer, and on a failure of [mlock];
    otherwise it returns the pointer, to [len] bytes 0 ([len] not
    negative).  [create_buffer]
    fails its assertion on a number of frames that is not positive, and is
    fatal when [malloc] returns [NULL] for the [struct Buffer], for
    [frames], [metadata], or one of the done tables or their rows; it
    returns [NULL] when [malloc] returns [NULL] for [is_full].  At the
    first frame that [buffer_malloc] does not return it is fatal or
    returns [NULL], as [buffer_malloc] is.  Otherwise it returns a
    well-formed buffer with the requested number of frames and frame size
    (the aligned size equals the requested one), in which every slot is
    empty, has no metadata and has a frame of [len] zero bytes at the
    pointer the system gave; no stage is registered, no frame is full, and
    neither the shutdown flag nor zero-on-release is set. *)
Theorem create_buffer_outcome (h : Heap) (buf n len pool : Z) (bn bt : string) (numa : Z)
  (sys : allocator) :
  (forall a hh,
     (frame_fatal a = true -> buffer_malloc a len numa hh = Abort)
     /\ (frame_fatal a = false -> frame_granted a = false ->
         buffer_malloc a len numa hh = Ret (hh, NULL))
     /\ (frame_granted a = true -> 0 <= len ->
         buffer_malloc a len numa hh
         = Ret (set_mem hh (<[frame_pointer a := replicate (Z.to_nat len) 0]> (mem hh)),
                frame_pointer a)))
  /\ (n <= 0 -> create_buffer h buf n len pool bn bt numa sys = Abort)
  /\ (0 < n -> buf = NULL -> create_buffer h buf n len pool bn bt numa sys = Abort)
  /\ (0 < n -> buf <> NULL -> malloc_answer sys 0 = NULL ->
      create_buffer h buf n len pool bn bt numa sys = Ret (h, None))
  /\ (0 < n -> buf <> NULL -> malloc_answer sys 0 <> NULL ->
      bookkeeping_allocated sys (Z.to_nat n) = false ->
      create_buffer h buf n len pool bn bt numa sys = Abort)
  /\ (0 < n -> buf <> NULL -> malloc_answer sys 0 <> NULL ->
      bookkeeping_allocated sys (Z.to_nat n) = true ->
      (forall i, (i < Z.to_nat n)%nat ->
         (forall j, (j < i)%nat -> frame_granted (frame_answers sys j) = true) ->
         frame_granted (frame_answers sys i) = false ->
         if frame_fatal (frame_answers sys i)
         then create_buffer h buf n len pool bn bt numa sys = Abort
         else exists h', create_buffer h buf n len pool bn bt numa sys = Ret (h', None))
      /\ ((forall i, (i < Z.to_nat n)%nat -> frame_granted (frame_answers sys i) = true) ->
          0 <= len ->
          exists h' b,
            create_buffer h buf n len pool bn bt numa sys = Ret (h', Some b)
            /\ wf b /\ num_frames b = n /\ frame_size b = len /\ aligned_frame_size b = len
            /\ metadata_pool b = pool /\ zero_frames b = 0 /\ shutdown_signal b = 0
            /\ (forall ID, valid_slot b ID ->
                  is_frame_empty b ID = Ret 1
                  /\ get_metadata_container b ID = Ret NULL
                  /\ arr_get (frames b) ID = frame_pointer (frame_answers sys (Z.to_nat ID))
                  /\ arr_get (frames b) ID <> NULL
                  /\ zeroed h' (arr_get (frames b) ID) len)
            /\ get_num_full_frames b = 0
            /\ get_num_producers b = 0 /\ get_num_consumers b = 0
            /\ (forall nm, private_get_producer_id b nm = -1
                           /\ private_get_consumer_id b nm = -1)
            /\ zero_threads b = []
            /\ containers h' = containers h)).
Proof.
  split; [|split; [|split; [|split; [|split]]]].
  - intros a hh. split; [apply buffer_malloc_fatal|].
    split; [apply buffer_malloc_refused|]. intros Hg _.
    apply (buffer_malloc_granted a len numa hh Hg).
  - intros Hn. unfold create_buffer.
    replace (0 <? n) with false by (symmetry; apply Z.ltb_ge; exact Hn). reflexivity.
  - intros Hn ->. unfold create_buffer.
    replace (0 <? n) with true by (symmetry; apply Z.ltb_lt; exact Hn). reflexivity.
  - intros Hn Hbuf Hm. unfold create_buffer.
    replace (0 <? n) with true by (symmetry; apply Z.ltb_lt; exact Hn).
    apply Z.eqb_neq in Hbuf. rewrite Hbuf, Z.leb_refl, Hm. reflexivity.
  - intros Hn Hbuf Hm Hbk. unfold create_buffer.
    replace (0 <? n) with true by (symmetry; apply Z.ltb_lt; exact Hn).
    apply Z.eqb_neq in Hbuf, Hm. rewrite Hbuf, Z.leb_refl, Hm.
    unfold bookkeeping_allocated in Hbk.
    destruct (malloc_answer sys 1 =? NULL); [reflexivity|].
    destruct (malloc_answer sys 2 =? NULL); [reflexivity|].
    destruct (malloc_answer sys 3 =? NULL); [reflexivity|].
    destruct (malloc_answer sys 4 =? NULL); [reflexivity|].
    cbn [negb andb] in Hbk. rewrite Hbk. reflexivity.
  - intros Hn Hbuf Hm Hbk.
    assert (Epre : create_buffer h buf n len pool bn bt numa sys
                   = r ← create_frames sys len numa (seq 0 (Z.to_nat n)) h [];
                     match r with
                     | (h1, None) => Ret (h1, None)
                     | (h1, Some frames) =>
                         Ret (h1, Some (mkBuffer n len len (replicate (Z.to_nat n) 0) frames
                                          (replicate (Z.to_nat n) NULL)
                                          (replicate MAX_PRODUCERS (mkStageInfo 0 "" 0 0))
                                          (replicate MAX_CONSUMERS (mkStageInfo 0 "" 0 0))
                                          (replicate (Z.to_nat n) (replicate MAX_PRODUCERS 0))
                                          (replicate (Z.to_nat n) (replicate MAX_CONSUMERS 0))
                                          0 0 0 pool bn bt []))
                     end).
    { unfold create_buffer.
      replace (0 <? n) with true by (symmetry; apply Z.ltb_lt; exact Hn).
      apply Z.eqb_neq in Hbuf, Hm. rewrite Hbuf, Z.leb_refl, Hm.
      unfold bookkeeping_allocated in Hbk.
      apply andb_prop in Hbk as [Hbk H5]. apply andb_prop in Hbk as [Hbk H4].
      apply andb_prop in Hbk as [Hbk H3]. apply andb_prop in Hbk as [H1 H2].
      apply negb_true_iff in H1, H2, H3, H4. rewrite H1, H2, H3, H4, H5. reflexivity. }
    split.
    + intros i Hi Hpre Hng. rewrite Epre, (seq_split_at _ _ Hi).
      destruct (create_frames_granted sys len numa (seq 0 i)
                  (i :: seq (S i) (Z.to_nat n - S i)) h [])
        as (h' & -> & _); [intros j Hj; apply in_seq in Hj; apply Hpre; lia|].
      cbn [create_frames].
      destruct (frame_fatal (frame_answers sys i)) eqn:Hf.
      * rewrite buffer_malloc_fatal by exact Hf. reflexivity.
      * rewrite buffer_malloc_refused by assumption.
        cbn [mbind result_mbind result_bind fst snd]. rewrite Z.eqb_refl.
        exists h'. reflexivity.
    + intros Hok Hlen.
      destruct (create_frames_granted sys len numa (seq 0 (Z.to_nat n)) [] h [])
        as (h' & E & _ & Hmem & Hc & _); [intros i Hi; apply in_seq in Hi; apply Hok; lia|].
      rewrite app_nil_r in E. cbn [create_frames app] in E.
      assert (Ecb : create_buffer h buf n len pool bn bt numa sys
                    = Ret (h', Some (mkBuffer n len len (replicate (Z.to_nat n) 0)
                                       (map (fun i => frame_pointer (frame_answers sys i))
                                          (seq 0 (Z.to_nat n)))
                                       (replicate (Z.to_nat n) NULL)
                                       (replicate MAX_PRODUCERS (mkStageInfo 0 "" 0 0))
                                       (replicate MAX_CONSUMERS (mkStageInfo 0 "" 0 0))
                                       (replicate (Z.to_nat n) (replicate MAX_PRODUCERS 0))
                                       (replicate (Z.to_nat n) (replicate MAX_CONSUMERS 0))
                                       0 0 0 pool bn bt []))).
      { rewrite Epre, E. reflexivity. }
      destruct (create_buffer_fresh _ _ _ _ _ _ _ _ _ _ _ Ecb) as (Hwf & _).
      eexists. eexists. split; [exact Ecb|]. split; [exact Hwf|]. fields.
      repeat (split; [reflexivity|]). split; [|split; [|split; [|split; [|split; [|split]]]]].
      * intros ID [H0 Hlt]. cbn [num_frames] in Hlt.
        assert (Hi : (Z.to_nat ID < Z.to_nat n)%nat) by lia.
        assert (Hfr : arr_get (map (fun i => frame_pointer (frame_answers sys i))
                                 (seq 0 (Z.to_nat n))) ID
                      = frame_pointer (frame_answers sys (Z.to_nat ID))).
        { unfold arr_get. apply list_lookup_total_correct.
          rewrite list_lookup_fmap, lookup_seq_lt by exact Hi. reflexivity. }
        split; [|split; [|split; [|split]]].
        -- unfold is_frame_empty, full_flag, arr_get. fields.
           replace (0 <=? ID) with true by (symmetry; apply Z.leb_le; lia).
           replace (ID <? n) with true by (symmetry; apply Z.ltb_lt; lia).
           rewrite replicate_lookup_total by exact Hi. reflexivity.
        -- unfold get_metadata_container, arr_get. fields.
           replace (0 <=? ID) with true by (symmetry; apply Z.leb_le; lia).
           replace (ID <? n) with true by (symmetry; apply Z.ltb_lt; lia).
           rewrite replicate_lookup_total by exact Hi. reflexivity.
        -- exact Hfr.
        -- rewrite Hfr.
           apply (buffer_malloc_granted (frame_answers sys (Z.to_nat ID)) len numa h
                    (Hok _ Hi)).
        -- rewrite Hfr.
           exists (replicate (Z.to_nat len) 0). split; [apply Hmem, in_seq; lia|].
           split; [rewrite length_replicate; lia|].
           intros i Hlti. apply lookup_replicate_2. exact Hlti.
      * unfold get_num_full_frames. fields. apply (f_equal Z.of_nat (y := 0%nat)).
        apply filter_seq_none. intros j Hj. unfold arr_get. rewrite Nat2Z.id.
        rewrite replicate_lookup_total by exact Hj. discriminate.
      * unfold get_num_producers. fields. apply (f_equal Z.of_nat (y := 0%nat)).
        apply filter_seq_none. intros j Hj. rewrite stage_table_empty by exact Hj. discriminate.
      * unfold get_num_consumers. fields. apply (f_equal Z.of_nat (y := 0%nat)).
        apply filter_seq_none. intros j Hj. rewrite stage_table_empty by exact Hj. discriminate.
      * intros nm. rewrite private_get_producer_id_lookup, private_get_consumer_id_lookup.
        fields. split; apply lookup_row_none; intros i Hi; apply stage_table_unmatched; exact Hi.
      * reflexivity.
      * exact Hc.
Qed.

(** ** Counting the full frames *)

Lemma filter_seq_lose (P Q : nat -> Prop) {dp : forall i, Decision (P i)}
  {dq : forall i, Decision (Q i)} (n i : nat) :
  (i < n)%nat -> P i -> ~ Q i ->
  (forall j, (j < n)%nat -> j <> i -> (P j <-> Q j)) ->
  length (filter P (seq 0 n)) = S (length (filter Q (seq 0 n))).
Proof.
  intros Hi Hp Hq H. apply (filter_seq_gain Q P n i Hi Hq Hp).
  intros j Hj Hne. symmetry. apply H; assumption.
Qed.

Lemma full_count_change (l l' : list Z) (n : nat) (i : nat) :
  (i < n)%nat ->
  (forall j, (j < n)%nat -> j <> i -> arr_get l' (Z.of_nat j) = arr_get l (Z.of_nat j)) ->
  (arr_get l (Z.of_nat i) = 0 \/ arr_get l (Z.of_nat i) = 1) ->
  (arr_get l' (Z.of_nat i) = 0 \/ arr_get l' (Z.of_nat i) = 1) ->
  Z.of_nat (length (filter (fun j => arr_get l' (Z.of_nat j) = 1) (seq 0 n)))
  = Z.of_nat (length (filter (fun j => arr_get l (Z.of_nat j) = 1) (seq 0 n)))
    + arr_get l' (Z.of_nat i) - arr_get l (Z.of_nat i).
Proof.
  intros Hi Hother Hb Hb'.
  assert (Hiff : forall j, (j < n)%nat -> j <> i ->
            (arr_get l (Z.of_nat j) = 1 <-> arr_get l' (Z.of_nat j) = 1)).
  { intros j Hj Hne. rewrite (Hother j Hj Hne). tauto. }
  destruct Hb as [E|E], Hb' as [E'|E']; rewrite E, E'.
  - rewrite (filter_seq_ext (fun j => arr_get l' (Z.of_nat j) = 1)
               (fun j => arr_get l (Z.of_nat j) = 1) n); [lia|].
    intros j Hj. destruct (decide (j = i)) as [->|Hne]; [rewrite E, E'; tauto|].
    symmetry. apply Hiff; assumption.
  - rewrite (filter_seq_gain (fun j => arr_get l (Z.of_nat j) = 1)
               (fun j => arr_get l' (Z.of_nat j) = 1) n i Hi); [lia| |exact E'|exact Hiff].
    rewrite E. discriminate.
  - rewrite (filter_seq_lose (fun j => arr_get l (Z.of_nat j) = 1)
               (fun j => arr_get l' (Z.of_nat j) = 1) n i Hi); [lia|exact E| |exact Hiff].
    rewrite E'. discriminate.
  - rewrite (filter_seq_ext (fun j => arr_get l' (Z.of_nat j) = 1)
               (fun j => arr_get l (Z.of_nat j) = 1) n); [lia|].
    intros j Hj. destruct (decide (j = i)) as [->|Hne]; [rewrite E, E'; tauto|].
    symmetry. apply Hiff; assumption.
Qed.

Lemma get_num_full_frames_change (b b' : Buffer) (ID : Z) :
  wf b -> wf b' -> valid_slot b ID -> num_frames b' = num_frames b ->
  (forall ID', 0 <= ID' -> ID' <> ID -> full_flag b' ID' = full_flag b ID') ->
  get_num_full_frames b' = get_num_full_frames b + full_flag b' ID - full_flag b ID.
Proof.
  intros Hwf Hwf' Hv Hn Hother. unfold get_num_full_frames. rewrite Hn.
  assert (Hv' : valid_slot b' ID) by (unfold valid_slot in *; lia).
  unfold valid_slot in Hv.
  rewrite (full_count_change (is_full b) (is_full b') _ (Z.to_nat ID)).
  - rewrite Z2Nat.id by lia. reflexivity.
  - lia.
  - intros j Hj Hne. apply Hother; lia.
  - rewrite Z2Nat.id by lia. exact (wf_full_flag_bit b ID Hwf (conj (proj1 Hv) (proj2 Hv))).
  - rewrite Z2Nat.id by lia. exact (wf_full_flag_bit b' ID Hwf' Hv').
Qed.

Lemma mark_frame_full_other_slots (h h' : Heap) (b b' : Buffer) (nm : string) (ID now : Z)
  (sig : list cond) :
  mark_frame_full h b nm ID now = Ret (h', b', sig) ->
  valid_slot b ID /\ num_frames b' = num_frames b
  /\ forall ID', 0 <= ID' -> ID' <> ID -> full_flag b' ID' = full_flag b ID'.
Proof.
  unfold mark_frame_full.
  destruct (0 <=? ID) eqn:C1; [|discriminate]. apply Z.leb_le in C1.
  destruct (ID <? num_frames b) eqn:C2; [|discriminate]. apply Z.ltb_lt in C2.
  destruct (private_mark_producer_done b nm ID) as [b1| | |] eqn:E1; try discriminate.
  cbn [mbind result_mbind result_bind].
  destruct (private_mark_producer_done_control _ _ _ _ E1) as (Hn1 & Hf1 & _).
  intros E. split; [split; assumption|]. revert E.
  destruct (_ =? 1).
  - destruct (_ =? 1).
    + unfold release_metadata. fields.
      destruct (_ =? NULL); intros E; injection E as <- <- <-; fields;
        (split; [exact Hn1|]); intros ID' H0 Hne; unfold full_flag; fields; rewrite Hf1;
        rewrite !arr_get_set_ne by lia; reflexivity.
    + intros E; injection E as <- <- <-. fields. split; [exact Hn1|].
      intros ID' H0 Hne. unfold full_flag. fields. rewrite Hf1.
      rewrite !arr_get_set_ne by lia. reflexivity.
  - intros E; injection E as <- <- <-. split; [exact Hn1|].
    intros ID' H0 Hne. unfold full_flag. rewrite Hf1. reflexivity.
Qed.

Lemma mark_frame_empty_other_slots (h h' : Heap) (b b' : Buffer) (nm : string) (ID : Z)
  (sig : list cond) :
  mark_frame_empty h b nm ID = Ret (h', b', sig) ->
  valid_slot b ID /\ num_frames b' = num_frames b
  /\ forall ID', 0 <= ID' -> ID' <> ID -> full_flag b' ID' = full_flag b ID'.
Proof.
  unfold mark_frame_empty.
  destruct (0 <=? ID) eqn:C1; [|discriminate]. apply Z.leb_le in C1.
  destruct (ID <? num_frames b) eqn:C2; [|discriminate]. apply Z.ltb_lt in C2.
  destruct (private_mark_consumer_done b nm ID) as [b1| | |] eqn:E1; try discriminate.
  cbn [mbind result_mbind result_bind].
  destruct (private_mark_consumer_done_control _ _ _ _ C1 E1) as (Hn1 & Hf1 & _).
  intros E. split; [split; assumption|]. revert E.
  destruct (_ =? 1).
  - destruct (decide (zero_frames b1 = 1)) as [Hz|Hz].
    + destruct (private_mark_frame_empty_deferred h b1 ID Hz)
        as (h2 & b2 & -> & Hn2 & Hf2 & _).
      intros E; injection E as <- <- <-. split; [congruence|].
      intros ID' H0 Hne. unfold full_flag. rewrite Hf2, Hf1. reflexivity.
    + destruct (private_mark_frame_empty_now h b1 ID Hz)
        as (h2 & b2 & -> & Hn2 & Hf2 & _).
      intros E; injection E as <- <- <-. split; [congruence|].
      intros ID' H0 Hne. unfold full_flag. rewrite Hf2, Hf1.
      apply arr_get_set_ne; lia.
  - intros E; injection E as <- <- <-. split; [exact Hn1|].
    intros ID' H0 Hne. unfold full_flag. rewrite Hf1. reflexivity.
Qed.

Lemma print_buffer_status_lookup (b : Buffer) (i : nat) :
  (i < Z.to_nat (num_frames b))%nat ->
  print_buffer_status b !! i
  = Some (if arr_get (is_full b) (Z.of_nat i) =? 1 then "X"%char else "_"%char).
Proof.
  intros Hi. unfold print_buffer_status.
  rewrite list_lookup_fmap, lookup_seq_lt by exact Hi. reflexivity.
Qed.

Lemma count_X_seq (f : nat -> Z) (n : nat) :
  length (filter (fun ch => ch = "X"%char)
            (map (fun i => if f i =? 1 then "X"%char else "_"%char) (seq 0 n)))
  = length (filter (fun i => f i = 1) (seq 0 n)).
Proof.
  induction n as [|n IH]; [reflexivity|].
  rewrite seq_S, map_app, !filter_app, !length_app, IH. f_equal. cbn [map Nat.add].
  rewrite !filter_cons, !filter_nil.
  destruct (f n =? 1) eqn:E.
  - apply Z.eqb_eq in E. destruct (decide (f n = 1)); [|contradiction].
    destruct (decide ("X"%char = "X"%char)); [reflexivity|contradiction].
  - apply Z.eqb_neq in E. destruct (decide (f n = 1)); [contradiction|].
    destruct (decide ("_"%char = "X"%char)); [discriminate|reflexivity].
Qed.

(** X15.  The count of full frames of a well-formed buffer.
    [get_num_full_frames] lies between 0 and the number of frames; it is 0
    exactly when [is_frame_empty] returns 1 for every slot, and the number
    of frames exactly when it returns 0 for every slot.  The status string
    of [print_buffer_status] has one character per slot, ['X'] for the full
    slots, and as many ['X'] as [get_num_full_frames] counts.  A call of
    [mark_frame_full] or [mark_frame_empty] on slot [ID] changes the count
    by the change of the full flag of [ID] and by nothing else. *)
Theorem get_num_full_frames_counts (b : Buffer) :
  wf b ->
  0 <= get_num_full_frames b <= num_frames b
  /\ (get_num_full_frames b = 0 <->
      forall ID, valid_slot b ID -> is_frame_empty b ID = Ret 1)
  /\ (get_num_full_frames b = num_frames b <->
      forall ID, valid_slot b ID -> is_frame_empty b ID = Ret 0)
  /\ Z.of_nat (length (print_buffer_status b)) = num_frames b
  /\ (forall ID, valid_slot b ID ->
        print_buffer_status b !! Z.to_nat ID
        = Some (if full_flag b ID =? 1 then "X"%char else "_"%char))
  /\ Z.of_nat (length (filter (fun ch => ch = "X"%char) (print_buffer_status b)))
     = get_num_full_frames b
  /\ (forall h nm ID now h' b' sig,
        mark_frame_full h b nm ID now = Ret (h', b', sig) ->
        get_num_full_frames b' = get_num_full_frames b + full_flag b' ID - full_flag b ID)
  /\ (forall h nm ID h' b' sig,
        mark_frame_empty h b nm ID = Ret (h', b', sig) ->
        get_num_full_frames b' = get_num_full_frames b + full_flag b' ID - full_flag b ID).
Proof.
  intros Hwf. destruct (wf_sizes b Hwf) as (Hn & _).
  assert (Hempty : forall ID, valid_slot b ID ->
            is_frame_empty b ID = Ret (if full_flag b ID =? 1 then 0 else 1)).
  { intros ID Hv. destruct (valid_slot_checks b ID Hv) as [C1 C2].
    unfold is_frame_empty. rewrite C1, C2. reflexivity. }
  split; [|split; [|split; [|split; [|split; [|split; [|split]]]]]].
  - unfold get_num_full_frames.
    pose proof (filter_seq_bound (fun i => arr_get (is_full b) (Z.of_nat i) = 1)
                  (Z.to_nat (num_frames b))). lia.
  - unfold get_num_full_frames. split.
    + intros E ID Hv. rewrite (Hempty ID Hv).
      assert (E0 : length (filter (fun i => arr_get (is_full b) (Z.of_nat i) = 1)
                             (seq 0 (Z.to_nat (num_frames b)))) = 0%nat) by lia.
      rewrite filter_seq_none in E0. unfold valid_slot in Hv.
      specialize (E0 (Z.to_nat ID) ltac:(lia)). rewrite Z2Nat.id in E0 by lia.
      unfold full_flag. apply Z.eqb_neq in E0. rewrite E0. reflexivity.
    + intros H. apply (f_equal Z.of_nat (y := 0%nat)). apply filter_seq_none.
      intros j Hj E. assert (Hv : valid_slot b (Z.of_nat j)) by (unfold valid_slot; lia).
      specialize (H _ Hv). rewrite (Hempty _ Hv) in H. unfold full_flag in H.
      rewrite E in H. discriminate.
  - unfold get_num_full_frames. split.
    + intros E ID Hv. rewrite (Hempty ID Hv).
      assert (E0 : length (filter (fun i => arr_get (is_full b) (Z.of_nat i) = 1)
                             (seq 0 (Z.to_nat (num_frames b)))) = Z.to_nat (num_frames b))
        by lia.
      rewrite filter_seq_all in E0. unfold valid_slot in Hv.
      specialize (E0 (Z.to_nat ID) ltac:(lia)). rewrite Z2Nat.id in E0 by lia.
      unfold full_flag. rewrite E0. reflexivity.
    + intros H.
      assert (E0 : length (filter (fun i => arr_get (is_full b) (Z.of_nat i) = 1)
                             (seq 0 (Z.to_nat (num_frames b)))) = Z.to_nat (num_frames b)).
      { apply filter_seq_all. intros j Hj.
        assert (Hv : valid_slot b (Z.of_nat j)) by (unfold valid_slot; lia).
        specialize (H _ Hv). rewrite (Hempty _ Hv) in H. unfold full_flag in H.
        destruct (arr_get (is_full b) (Z.of_nat j) =? 1) eqn:E; [|discriminate].
        apply Z.eqb_eq in E. exact E. }
      lia.
  - unfold print_buffer_status. rewrite length_map, length_seq. lia.
  - intros ID Hv. unfold valid_slot in Hv.
    rewrite print_buffer_status_lookup by lia. rewrite Z2Nat.id by lia. reflexivity.
  - unfold print_buffer_status, get_num_full_frames. f_equal.
    apply (count_X_seq (fun i => arr_get (is_full b) (Z.of_nat i))).
  - intros h nm ID now h' b' sig E.
    destruct (mark_frame_full_other_slots _ _ _ _ _ _ _ _ E) as (Hv & Hn' & Hother).
    apply get_num_full_frames_change; try assumption.
    exact (wf_mark_frame_full _ _ _ _ _ _ _ _ Hwf E).
  - intros h nm ID h' b' sig E.
    destruct (mark_frame_empty_other_slots _ _ _ _ _ _ _ E) as (Hv & Hn' & Hother).
    apply get_num_full_frames_change; try assumption.
    exact (wf_mark_frame_empty _ _ _ _ _ _ _ Hwf E).
Qed.

(** ** A slot in the hands of a producer *)

Lemma stage_matches_same_name (s : StageInfo) (a b : string) :
  same_name a b = true -> stage_matches s a = stage_matches s b.
Proof.
  intros H. unfold stage_matches. destruct (in_use s =? 1); [|reflexivity]. cbn [andb].
  fold (same_name (name s) a) (same_name (name s) b).
  destruct (same_name (name s) a) eqn:Ea, (same_name (name s) b) eqn:Eb; try reflexivity.
  - rewrite (same_name_trans _ _ _ Ea H) in Eb. discriminate.
  - rewrite same_name_sym in H. rewrite (same_name_trans _ _ _ Eb H) in Ea. discriminate.
Qed.

Lemma lookup_row_same_name (tbl : list StageInfo) (n : nat) (a b : string) :
  same_name a b = true -> lookup_row tbl n a = lookup_row tbl n b.
Proof.
  intros H. unfold lookup_row.
  rewrite (find_ext_in (fun i => stage_matches (tbl !!! i) a)
             (fun i => stage_matches (tbl !!! i) b)); [reflexivity|].
  intros i _. apply stage_matches_same_name. exact H.
Qed.

(** Two names found in the same row are the same name. *)
Lemma lookup_row_shared (tbl : list StageInfo) (n : nat) (a b : string) :
  lookup_row tbl n a <> -1 -> lookup_row tbl n a = lookup_row tbl n b ->
  same_name a b = true.
Proof.
  intros Ha Hab. destruct (lookup_row_range tbl n a) as [E|(i & E & Hi)]; [contradiction|].
  pose proof E as Ea. rewrite Hab in E.
  apply lookup_row_some in Ea as (_ & Ma & _). apply lookup_row_some in E as (_ & Mb & _).
  unfold stage_matches in Ma, Mb. apply andb_prop in Ma as [_ Na]. apply andb_prop in Mb as [_ Nb].
  fold (same_name (name (tbl !!! i)) a) in Na. fold (same_name (name (tbl !!! i)) b) in Nb.
  rewrite same_name_sym in Na. exact (same_name_trans _ _ _ Na Nb).
Qed.

Lemma lookup_row_same_stages (tbl tbl' : list StageInfo) (n : nat) (nm : string) :
  same_stages tbl tbl' -> lookup_row tbl' n nm = lookup_row tbl n nm.
Proof.
  intros Hs. apply lookup_row_ext. intros i _. unfold stage_matches.
  destruct (Hs i) as [-> ->]. reflexivity.
Qed.

(** A registered producer stays in its row. *)
Lemma local_effect_producer_lookup (c : call) (buf : Z) (h : Heap) (b b' : Buffer)
  (nm : string) :
  wf b -> local_effect c buf h b b' -> private_get_producer_id b nm <> -1 ->
  private_get_producer_id b' nm = private_get_producer_id b nm.
Proof.
  intros Hwf Hl Hreg. destruct (wf_sizes b Hwf) as (_ & _ & _ & _ & Lp & _).
  destruct (local_effect_static _ _ _ _ _ Hl) as (_ & _ & Hp & _).
  rewrite !private_get_producer_id_lookup in *.
  destruct Hp as [Hs|(nm' & E)]; [exact (lookup_row_same_stages _ _ _ _ Hs)|].
  destruct (register_producer_row _ _ _ E) as (Hnone & i & Hi & ->).
  apply first_free_Some in Hi as (Hi & Hfree & _). cbn [producers set_producers].
  rewrite private_get_producer_id_lookup in Hnone.
  rewrite (lookup_row_register (producers b) MAX_PRODUCERS i nm' nm Lp Hi)
    by (try exact Hnone; rewrite Hfree; discriminate).
  destruct (same_name nm' nm) eqn:Es; [|reflexivity].
  rewrite (lookup_row_same_name _ _ _ _ Es) in Hnone. contradiction.
Qed.

Lemma mark_frame_full_registered (h h' : Heap) (b b' : Buffer) (nm : string) (ID now : Z)
  (sig : list cond) :
  mark_frame_full h b nm ID now = Ret (h', b', sig) -> private_get_producer_id b nm <> -1.
Proof.
  unfold mark_frame_full, private_mark_producer_done.
  destruct (0 <=? ID); [|discriminate]. destruct (ID <? num_frames b); [|discriminate].
  destruct (private_get_producer_id b nm =? -1) eqn:E; [discriminate|].
  intros _. apply Z.eqb_neq. exact E.
Qed.

Lemma lookup_row_to_nat (tbl : list StageInfo) (n : nat) (a b : string) :
  lookup_row tbl n a <> -1 -> lookup_row tbl n b <> -1 ->
  Z.to_nat (lookup_row tbl n a) = Z.to_nat (lookup_row tbl n b) ->
  lookup_row tbl n a = lookup_row tbl n b.
Proof.
  intros Ha Hb E. pose proof (lookup_row_nonneg _ _ _ Ha). pose proof (lookup_row_nonneg _ _ _ Hb).
  lia.
Qed.

(** A call other than the producer's own [mark_frame_full] on the slot
    leaves the slot in its hands. *)
Lemma local_effect_producer_holds (c : call) (buf : Z) (h : Heap) (b b' : Buffer)
  (nm : string) (ID : Z) :
  wf b -> 0 <= ID -> local_effect c buf h b b' ->
  ends_producer_hold buf nm ID c = false ->
  producer_holds b nm ID -> producer_holds b' nm ID.
Proof.
  intros Hwf H0 Hl Hend (Hreg & Hf & Hbit).
  destruct (private_get_producer_id_found b nm Hreg) as (p & Hp & Hregp & _).
  assert (Hpn : Z.to_nat (private_get_producer_id b nm) = p) by (rewrite Hp; apply Nat2Z.id).
  rewrite Hpn in Hbit.
  pose proof (local_effect_producer_lookup _ _ _ _ _ nm Hwf Hl Hreg) as Hlk.
  destruct (local_effect_holder c buf h b b' p ID Hwf H0 Hl Hf Hregp Hbit)
    as (Hf' & _ & Hbit').
  - destruct c; try exact I. cbn [local_effect] in Hl. destruct Hl as [-> (h' & sig & E)].
    intros [-> Hsame]. cbn [ends_producer_hold] in Hend. rewrite !Z.eqb_refl in Hend.
    cbn [andb] in Hend.
    pose proof (mark_frame_full_registered _ _ _ _ _ _ _ _ E) as Hreg'.
    rewrite <- Hpn in Hsame. rewrite !private_get_producer_id_lookup in *.
    apply lookup_row_to_nat in Hsame; [|exact Hreg'|exact Hreg].
    rewrite (lookup_row_shared _ _ _ _ Hreg (eq_sym Hsame)) in Hend. discriminate.
  - unfold producer_holds. rewrite Hlk, Hpn. split; [exact Hreg|]. split; assumption.
Qed.

Lemma ends_producer_hold_delete (buf : Z) (nm : string) (ID : Z) (c : call) :
  negb (ends_producer_hold buf nm ID c) = true -> is_delete buf c = false.
Proof.
  intros H. apply negb_true_iff in H. destruct c; try reflexivity. exact H.
Qed.

Lemma keeps_producer_hold_refl (nm : string) (ID : Z) (x : Buffer) :
  keeps_producer_hold nm ID x x.
Proof. split; auto. Qed.

Lemma keeps_producer_hold_trans (nm : string) (ID : Z) (x y z : Buffer) :
  keeps_producer_hold nm ID x y -> keeps_producer_hold nm ID y z ->
  keeps_producer_hold nm ID x z.
Proof.
  intros [N1 H1] [N2 H2]. split; [congruence|]. intros Hx.
  destruct (H1 Hx) as [Hy L1]. destruct (H2 Hy) as [Hz L2]. split; [exact Hz|congruence].
Qed.

Lemma local_effect_keeps_producer_hold (c : call) (buf : Z) (h : Heap) (x y : Buffer)
  (nm : string) (ID : Z) :
  wf x -> 0 <= ID -> local_effect c buf h x y ->
  negb (ends_producer_hold buf nm ID c) = true ->
  keeps_producer_hold nm ID x y.
Proof.
  intros Hwf H0 Hl Hc. apply negb_true_iff in Hc.
  split; [exact (proj1 (local_effect_control _ _ _ _ _ Hl))|]. intros Hx. split.
  - exact (local_effect_producer_holds c buf h x y nm ID Hwf H0 Hl Hc Hx).
  - destruct Hx as [Hreg _]. exact (local_effect_producer_lookup _ _ _ _ _ nm Hwf Hl Hreg).
Qed.

Lemma wait_for_empty_frame_hands_over (b b' : Buffer) (nm : string) (ID p : Z) :
  wf b -> shutdown_signal b = 0 -> wait_for_empty_frame b nm ID = Ret (b', p) ->
  valid_slot b ID /\ p = arr_get (frames b) ID /\ num_frames b' = num_frames b
  /\ producer_holds b' nm ID.
Proof.
  intros Hwf Hs. unfold wait_for_empty_frame.
  destruct (0 <=? ID) eqn:C1; [|discriminate]. apply Z.leb_le in C1.
  destruct (ID <? num_frames b) eqn:C2; [|discriminate]. apply Z.ltb_lt in C2.
  destruct (private_get_producer_id b nm =? -1) eqn:Hne; [discriminate|].
  apply Z.eqb_neq in Hne. cbn [negb]. rewrite Hs. cbn [Z.eqb]. rewrite andb_true_r.
  destruct (wf_full_flag_bit b ID Hwf (conj C1 C2)) as [Hf|Hf]; rewrite Hf;
    [|discriminate]. cbn [Z.eqb orb].
  destruct (private_get_producer_id_found b nm Hne) as (i & Hi & [Hlt _] & _).
  destruct (wf_producer_bit b ID i Hwf (conj C1 C2) Hlt) as [Hb|Hb];
    rewrite Hi, Nat2Z.id, Hb; [|discriminate]. cbn [Z.eqb].
  intros E; injection E as <- <-. split; [split; assumption|]. split; [reflexivity|].
  split; [reflexivity|].
  set (b1 := set_producers b _).
  assert (Hid : private_get_producer_id b1 nm = private_get_producer_id b nm).
  { apply private_get_producer_id_ext. intros j _. unfold b1. fields.
    apply (table_update_keeps (producers b) _ (fun s => stage_set_acquired s ID)).
    intros s. auto. }
  unfold producer_holds. rewrite Hid. split; [exact Hne|].
  split; [exact Hf|]. rewrite Hi, Nat2Z.id. exact Hb.
Qed.

(** X16.  A slot stays in the hands of the producer that acquired it.
    From the return of [wait_for_empty_frame] with the frame of slot [ID],
    through any sequence of calls that return, by any thread, other than
    the producer's own [mark_frame_full] on the slot and the destruction of
    the buffer: the slot is not full and the producer's done bit is clear;
    so [is_frame_empty] returns 1, no consumer gets the frame from
    [wait_for_full_frame], nor from [wait_for_full_frame_timeout] with the
    nanoseconds of its deadline in range, the producer gets the same slot
    again from [wait_for_empty_frame] unless the buffer is shut down, and
    its [mark_frame_full] on the slot returns.  With nanoseconds out of
    range, [wait_for_full_frame_timeout] returns 0 to a registered consumer
    and records the slot as acquired by it, while the slot is still not
    full. *)
Theorem producer_keeps_its_slot (w w' : World) (cs : list call) (buf : Z) (b : Buffer)
  (nm : string) (ID : Z) :
  wf b -> bufs w !! buf = Some b -> shutdown_signal b = 0 ->
  run w (WaitForEmptyFrame buf nm ID :: cs) = Ret w' ->
  forallb (fun c => negb (ends_producer_hold buf nm ID c)) cs = true ->
  exists b', bufs w' !! buf = Some b' /\ valid_slot b' ID
    /\ private_get_producer_id b' nm = private_get_producer_id b nm
    /\ full_flag b' ID = 0
    /\ producer_bit b' ID (Z.to_nat (private_get_producer_id b' nm)) = 0
    /\ is_frame_empty b' ID = Ret 1
    /\ (forall cn b'' p, wait_for_full_frame b' cn ID = Ret (b'', p) ->
          p = NULL /\ b'' = b' /\ shutdown_signal b' = 1)
    /\ (forall cn now timeout b'' r,
          valid_nsec timeout = true ->
          wait_for_full_frame_timeout b' cn ID now timeout [] = Ret (b'', r) ->
          r = 1 \/ r = -1)
    /\ (forall cn now timeout,
          private_get_consumer_id b' cn <> -1 -> shutdown_signal b' = 0 ->
          valid_nsec timeout = false ->
          exists b'',
            wait_for_full_frame_timeout b' cn ID now timeout [] = Ret (b'', 0)
            /\ last_frame_acquired
                 (consumers b'' !!! Z.to_nat (private_get_consumer_id b' cn)) = ID
            /\ full_flag b'' ID = 0)
    /\ (shutdown_signal b' = 0 ->
        exists b'', wait_for_empty_frame b' nm ID = Ret (b'', arr_get (frames b') ID))
    /\ (forall now, exists h'' b'' sig,
          mark_frame_full (heap w') b' nm ID now = Ret (h'', b'', sig)).
Proof.
  intros Hwf Hb Hs Hrun Hnd. cbn [run exec] in Hrun. rewrite (deref_Some _ _ _ Hb) in Hrun.
  unfold mbind, result_mbind in Hrun. cbn [result_bind] in Hrun.
  destruct (wait_for_empty_frame b nm ID) as [[b1 p]| | |] eqn:E1; try discriminate.
  cbn [result_bind fst] in Hrun. fold (run (store w buf b1) cs) in Hrun.
  destruct (wait_for_empty_frame_hands_over _ _ _ _ _ Hwf Hs E1) as (Hv & _ & Hn1 & Hh1).
  assert (Hid1 : private_get_producer_id b1 nm = private_get_producer_id b nm).
  { revert E1. unfold wait_for_empty_frame.
    destruct (0 <=? ID); [|discriminate]. destruct (ID <? num_frames b); [|discriminate].
    destruct (negb _); [|discriminate]. destruct (_ && _); [discriminate|].
    destruct (_ =? 1); intros E; injection E as <- <-; [reflexivity|].
    apply private_get_producer_id_ext. intros j _. fields.
    apply (table_update_keeps (producers b) _ (fun s => stage_set_acquired s ID)).
    intros s. auto. }
  assert (Hb1 : bufs (store w buf b1) !! buf = Some b1) by (cbn; apply lookup_insert_eq).
  assert (H0 : 0 <= ID) by (unfold valid_slot in Hv; lia).
  destruct (run_forward (keeps_producer_hold nm ID) buf
              (fun c => negb (ends_producer_hold buf nm ID c))
              (ends_producer_hold_delete buf nm ID)
              (keeps_producer_hold_refl nm ID) (keeps_producer_hold_trans nm ID)
              (fun c h x y Hc Hwx Hl =>
                 local_effect_keeps_producer_hold c buf h x y nm ID Hwx H0 Hl Hc)
              cs _ w' b1 (wf_wait_for_empty_frame _ _ _ _ _ Hwf E1) Hrun Hb1 Hnd)
    as (b' & Hb' & Hwf' & Hn' & Hkeep).
  destruct (Hkeep Hh1) as ((Hreg' & Hf' & Hbit') & Hlk').
  assert (Hv' : valid_slot b' ID) by (unfold valid_slot in *; lia).
  destruct (valid_slot_checks b' ID Hv') as [C1 C2].
  destruct (wf_sizes b' Hwf') as (_ & Lfull & _).
  assert (Hr : in_range (is_full b') ID = true).
  { apply in_range_iff. unfold valid_slot in Hv'. lia. }
  exists b'. split; [exact Hb'|]. split; [exact Hv'|].
  split; [rewrite Hlk', Hid1; reflexivity|].
  split; [exact Hf'|]. split; [exact Hbit'|]. split; [|split; [|split; [|split; [|split]]]].
  - unfold is_frame_empty. rewrite C1, C2, Hf'. reflexivity.
  - intros cn b'' q. unfold wait_for_full_frame.
    destruct (negb (private_get_consumer_id b' cn =? -1)); [|discriminate].
    rewrite Hr, Hf'. cbn [negb Z.eqb orb andb].
    destruct (wf_shutdown_bit b' Hwf') as [Hs'|Hs']; rewrite Hs'; cbn [Z.eqb Pos.eqb];
      [discriminate|].
    intros E; injection E as <- <-. auto.
  - intros cn now timeout b'' r Hval. unfold wait_for_full_frame_timeout.
    destruct (negb (private_get_consumer_id b' cn =? -1)); [|discriminate].
    rewrite Hr. cbn [negb length Nat.add].
    destruct (timespec_leb timeout now) eqn:Et.
    + rewrite (timed_wait_loop_past 0 now timeout [] b' ID _ 0 Hval Et).
      unfold has_to_wait. rewrite Hf'. cbn [Z.eqb orb andb].
      destruct (wf_shutdown_bit b' Hwf') as [Hs'|Hs']; rewrite Hs'; cbn [Z.eqb Pos.eqb andb];
        unfold mbind, result_mbind; cbn [result_bind]; rewrite Hs'; cbn [Z.eqb Pos.eqb];
        intros E; injection E as <- <-; auto.
    + cbn [timed_wait_loop]. rewrite Hf'. cbn [Z.eqb orb andb].
      destruct (wf_shutdown_bit b' Hwf') as [Hs'|Hs']; rewrite Hs'; cbn [Z.eqb Pos.eqb andb].
      * unfold pthread_cond_timedwait. rewrite Hval, Et. discriminate.
      * unfold mbind, result_mbind. cbn [result_bind]. rewrite Hs'. cbn [Z.eqb Pos.eqb].
        intros E; injection E as <- <-. auto.
  - intros cn now timeout Hcn Hs' Hinv. unfold wait_for_full_frame_timeout.
    apply Z.eqb_neq in Hcn. rewrite Hcn, Hr. cbn [negb length Nat.add].
    rewrite (timed_wait_loop_invalid 0 now timeout [] b' ID _ 0 Hinv).
    unfold has_to_wait. rewrite Hf', Hs'. cbn [Z.eqb orb andb].
    unfold mbind, result_mbind. cbn [result_bind]. rewrite Hs'. cbn [Z.eqb Pos.eqb EINVAL ETIMEDOUT].
    eexists. split; [reflexivity|]. fields. split; [|exact Hf'].
    destruct (wf_sizes b' Hwf') as (_ & _ & _ & _ & _ & Lc & _).
    apply Z.eqb_neq in Hcn.
    destruct (private_get_consumer_id_found b' cn Hcn) as (i & Hi & [Hlt _] & _).
    unfold arr_set. rewrite Hi, Nat2Z.id.
    rewrite list_lookup_total_insert_eq by lia. reflexivity.
  - intros Hs'. unfold wait_for_empty_frame. rewrite C1, C2.
    apply Z.eqb_neq in Hreg'. rewrite Hreg', Hf', Hbit', Hs'. cbn. eexists. reflexivity.
  - intros now. unfold mark_frame_full. rewrite C1, C2.
    rewrite (private_mark_producer_done_ret b' nm ID Hreg' Hbit').
    cbn [mbind result_mbind result_bind].
    destruct (_ =? 1); [|eexists; eexists; eexists; reflexivity].
    destruct (_ =? 1); [|eexists; eexists; eexists; reflexivity].
    destruct (release_metadata _ _ _) as [h6 b6]. eexists. eexists. eexists. reflexivity.
Qed.

(** ** A slot in the hands of a consumer *)

Lemma reader_pending_not_done (b : Buffer) (c : nat) (ID : Z) :
  reader_pending b c ID -> private_consumers_done b ID <> 1.
Proof.
  intros (_ & Hreg & Hbit & _) Hd. rewrite private_consumers_done_1 in Hd.
  exact (Hd c Hreg Hbit).
Qed.

Lemma reader_pending_ext (b b' : Buffer) (c : nat) (ID : Z) :
  full_flag b' ID = full_flag b ID ->
  in_use (consumers b' !!! c) = in_use (consumers b !!! c) ->
  arr_get (consumers_done b') ID = arr_get (consumers_done b) ID ->
  (In ID (zero_threads b') -> In ID (zero_threads b)) ->
  reader_pending b c ID -> reader_pending b' c ID.
Proof.
  intros Hf Hu Hr Hz (Kf & [Kc Ku] & Kb & Kz). split; [congruence|].
  split; [split; [exact Kc|congruence]|]. split; [unfold consumer_bit in *; congruence|].
  intros H. apply Kz, Hz, H.
Qed.

Lemma private_mark_frame_empty_other_slot (h : Heap) (b : Buffer) (id ID : Z) :
  0 <= id -> 0 <= ID -> id <> ID ->
  full_flag (private_mark_frame_empty h b id).1.2 ID = full_flag b ID
  /\ consumers (private_mark_frame_empty h b id).1.2 = consumers b
  /\ arr_get (consumers_done (private_mark_frame_empty h b id).1.2) ID
     = arr_get (consumers_done b) ID
  /\ (In ID (zero_threads (private_mark_frame_empty h b id).1.2) -> In ID (zero_threads b)).
Proof.
  intros Hid H0 Hne. unfold private_mark_frame_empty, release_metadata, full_flag.
  unfold zero_threads.
  destruct (zero_frames b =? 1); fields; destruct (_ =? NULL); fields;
    repeat split; try reflexivity; try (apply arr_get_set_ne; lia); try (intros H; exact H);
    rewrite fmap_app; intros H; apply in_app_or in H as [H|[H|[]]];
    [exact H|contradiction|exact H|contradiction].
Qed.

Lemma unregister_scan_reader (ids : list nat) (c : nat) (ID : Z) :
  0 <= ID ->
  forall (h : Heap) (b : Buffer) (r : Z),
  reader_pending b c ID -> reader_pending (unregister_scan ids h b r).1.2 c ID.
Proof.
  intros H0. induction ids as [|id ids IH]; intros h b r HK; [exact HK|].
  cbn [unregister_scan]. destruct (private_consumers_done b (Z.of_nat id) =? 1) eqn:Hd;
    [|apply IH; exact HK].
  apply Z.eqb_eq in Hd.
  assert (Hne : Z.of_nat id <> ID).
  { intros E. rewrite E in Hd. exact (reader_pending_not_done b c ID HK Hd). }
  destruct (private_mark_frame_empty_other_slot h b (Z.of_nat id) ID ltac:(lia) H0 Hne)
    as (Hf & Hc & Hr & Hz).
  destruct (private_mark_frame_empty h b (Z.of_nat id)) as [[h1 b1] r1]. cbn [fst snd] in *.
  apply IH. apply (reader_pending_ext b b1); try assumption. rewrite Hc. reflexivity.
Qed.

(** A call other than the consumer's own [mark_frame_empty] on the slot and
    its [unregister_consumer] leaves the slot full and the consumer not done
    with it. *)
Lemma local_effect_reader (c0 : call) (buf : Z) (h : Heap) (b b' : Buffer) (c : nat)
  (ID : Z) :
  wf b -> valid_slot b ID -> local_effect c0 buf h b b' -> reader_pending b c ID ->
  match c0 with
  | MarkFrameEmpty _ nm ID0 => ~ (ID0 = ID /\ Z.to_nat (private_get_consumer_id b nm) = c)
  | UnregisterConsumer _ nm => Z.to_nat (private_get_consumer_id b nm) <> c
  | _ => True
  end ->
  reader_pending b' c ID.
Proof.
  intros Hwf Hv Hl HK Hside.
  assert (H0 : 0 <= ID) by (unfold valid_slot in Hv; lia).
  destruct (wf_sizes b Hwf) as (Hn & Lfull & _ & _ & _ & Lc & _ & Lcd).
  destruct c0; cbn [local_effect] in Hl; try contradiction.
  - destruct Hl as [_ E]. revert E. unfold register_producer. destruct (negb _); [discriminate|].
    destruct (first_free _ _); [|discriminate]. intros E; injection E as <-. exact HK.
  - destruct Hl as [_ E]. destruct (register_consumer_row _ _ _ E) as (_ & i & Hi & ->).
    apply first_free_Some in Hi as (_ & Hfree & _).
    apply (reader_pending_ext b); try reflexivity; [|auto|exact HK].
    fields. destruct HK as (_ & [_ Ku] & _).
    rewrite list_lookup_total_insert_ne by (intros ->; congruence). reflexivity.
  - destruct Hl as [_ (h' & sig & E)]. revert E. unfold unregister_consumer.
    destruct (private_get_consumer_id b nm =? -1) eqn:Eid; [discriminate|].
    apply Z.eqb_neq in Eid.
    set (b1 := set_consumers b _).
    assert (K1 : reader_pending b1 c ID).
    { apply (reader_pending_ext b); try reflexivity; [|auto|exact HK].
      unfold b1. fields. unfold arr_set.
      rewrite list_lookup_total_insert_ne by congruence. reflexivity. }
    pose proof (unregister_scan_reader (seq 0 (Z.to_nat (num_frames b1))) c ID H0 h b1 0 K1)
      as K2.
    destruct (unregister_scan _ h b1 0) as [[h2 b2] r]. cbn [fst snd] in *.
    intros E; injection E as <- <- <-. exact K2.
  - destruct Hl as [_ (q & E)]. revert E. unfold wait_for_empty_frame.
    destruct (0 <=? _); [|discriminate]. destruct (_ <? _); [|discriminate].
    destruct (negb _); [|discriminate]. destruct (_ && _); [discriminate|].
    destruct (_ =? 1); intros E; injection E as <- <-; exact HK.
  - destruct Hl as [_ (q & E)]. revert E. unfold wait_for_full_frame.
    destruct (negb (_ =? -1)); [|discriminate]. destruct (negb _); [discriminate|].
    destruct (_ && _); [discriminate|].
    destruct (_ =? 1); intros E; injection E as <- <-; [exact HK|].
    apply (reader_pending_ext b); try reflexivity; [|auto|exact HK]. fields.
    apply (table_update_keeps (consumers b) _ (fun s => stage_set_acquired s ID0)).
    intros s. auto.
  - destruct Hl as [_ (r & E)].
    destruct (wait_for_full_frame_timeout_alone _ _ _ _ _ _ _ E) as [->| ->]; [exact HK|].
    apply (reader_pending_ext b); try reflexivity; [|auto|exact HK]. fields.
    apply (table_update_keeps (consumers b) _ (fun s => stage_set_acquired s ID0)).
    intros s. auto.
  - (* mark_frame_full: the slot stays or becomes full, and is not dropped *)
    destruct Hl as [_ (h' & sig & E)]. revert E. unfold mark_frame_full.
    destruct (0 <=? ID0) eqn:C1; [|discriminate]. apply Z.leb_le in C1.
    destruct (ID0 <? num_frames b) eqn:C2; [|discriminate]. apply Z.ltb_lt in C2.
    destruct (private_mark_producer_done b nm ID0) as [b1| | |] eqn:E1; try discriminate.
    cbn [mbind result_mbind result_bind].
    destruct (private_mark_producer_done_control _ _ _ _ E1)
      as (Hn1 & Hf1 & Hcd1 & Hc1 & _ & _ & Hzt1 & _).
    assert (K1 : reader_pending b1 c ID).
    { apply (reader_pending_ext b); first [exact HK | unfold full_flag; congruence]. }
    destruct (private_producers_done b1 ID0 =? 1); [|intros E; injection E as <- <- <-; exact K1].
    set (b4 := set_last_arrival_time _ _).
    assert (K4 : reader_pending b4 c ID).
    { destruct K1 as (Kf & Kr & Kb & Kz). split; [|split; [exact Kr|split; [exact Kb|exact Kz]]].
      unfold b4, full_flag. fields. destruct (decide (ID0 = ID)) as [->|Hne].
      - apply arr_get_set_eq. rewrite Hf1. lia.
      - rewrite arr_get_set_ne by lia. exact Kf. }
    destruct (private_consumers_done b4 ID0 =? 1) eqn:Hd;
      [|intros E; injection E as <- <- <-; exact K4].
    apply Z.eqb_eq in Hd.
    assert (Hne : ID0 <> ID).
    { intros E. rewrite E in Hd. exact (reader_pending_not_done b4 c ID K4 Hd). }
    unfold release_metadata. fields.
    destruct (_ =? NULL); intros E; injection E as <- <- <-;
      apply (reader_pending_ext b4); try exact K4; unfold full_flag, b4; fields;
      try reflexivity; try (rewrite !arr_get_set_ne by lia; reflexivity); auto.
  - (* mark_frame_empty by another consumer, or on another slot *)
    destruct Hl as [_ (h' & sig & E)]. revert E. unfold mark_frame_empty.
    destruct (0 <=? ID0) eqn:C1; [|discriminate]. apply Z.leb_le in C1.
    destruct (ID0 <? num_frames b) eqn:C2; [|discriminate]. apply Z.ltb_lt in C2.
    unfold private_mark_consumer_done.
    destruct (negb (private_get_consumer_id b nm =? -1)) eqn:Hq; [|discriminate].
    apply negb_true_iff, Z.eqb_neq in Hq.
    destruct (consumer_bit b ID0 _ =? 0); [|discriminate].
    cbn [mbind result_mbind result_bind].
    set (b1 := set_consumers_done _ _).
    destruct (private_get_consumer_id_found b nm Hq) as (q & Eq & [Hqlt _] & _).
    destruct (wf_consumer_row b ID0 Hwf ltac:(split; lia)) as [Lrow _].
    assert (K1 : reader_pending b1 c ID).
    { destruct HK as (Kf & [Kc Ku] & Kb & Kz). split; [exact Kf|]. split; [|split; [|exact Kz]].
      - split; [exact Kc|]. unfold b1. fields.
        destruct (table_update_keeps (consumers b) (private_get_consumer_id b nm)
                    (fun s => stage_set_released s ID0) c ltac:(intros; split; reflexivity))
          as [Hk _]. rewrite Hk. exact Ku.
      - unfold consumer_bit, b1. fields.
        destruct (decide (ID = ID0)) as [->|Hne].
        + rewrite rows_get_set_same by lia. rewrite row_set_lookup by lia.
          destruct (decide (c = Z.to_nat (private_get_consumer_id b nm))) as [Hcq|_];
            [exfalso; apply Hside; auto|exact Kb].
        + rewrite arr_get_set_ne by lia. exact Kb. }
    destruct (private_consumers_done b1 ID0 =? 1) eqn:Hd;
      [|intros E; injection E as <- <- <-; exact K1].
    apply Z.eqb_eq in Hd.
    assert (Hne : ID0 <> ID).
    { intros E. rewrite E in Hd. exact (reader_pending_not_done b1 c ID K1 Hd). }
    destruct (private_mark_frame_empty_other_slot h b1 ID0 ID C1 H0 Hne) as (Hf & Hc & Hr & Hz).
    destruct (private_mark_frame_empty h b1 ID0) as [[h2 b2] r]. cbn [fst snd] in *.
    intros E; injection E as <- <- <-.
    apply (reader_pending_ext b1); try assumption. rewrite Hc. reflexivity.
  - destruct Hl as [_ ->]. exact HK.
  - destruct Hl as [_ (h' & E)]. revert E. unfold allocate_new_metadata_object.
    destruct (0 <=? _); [|discriminate]. destruct (_ <? _); [|discriminate].
    destruct (_ =? NULL); [discriminate|].
    destruct (_ =? NULL).
    + destruct (request_metadata_object _ _) as [h1 m].
      destruct (_ =? NULL); [discriminate|]. intros E; injection E as <- <-. exact HK.
    + destruct (_ =? NULL); [discriminate|]. intros E; injection E as <- <-. exact HK.
  - destruct Hl as [_ (m & ->)]. exact HK.
  - destruct Hl as [_ (q & E)]. revert E. unfold swap_external_frame.
    destruct (_ =? 1); [|discriminate]. destruct (negb _); [discriminate|].
    intros E; injection E as <- <-. exact HK.
  - destruct Hl as [[_ (q & ->)]|[_ (q & ->)]]; exact HK.
  - destruct Hl as [[_ (q & ->)]|[_ (q & ->)]]; exact HK.
  - destruct Hl as [_ ->]. exact HK.
  - destruct Hl as (_ & Hmem & h' & E).
    destruct (zero_thread_step_control _ _ _ _ _ _ E)
      as [(_ & pool & -> & Hsl & _)|(-> & _ & Hr & _ & ->)].
    + apply (reader_pending_ext b); try exact HK; try reflexivity.
      unfold zero_threads at 1. fields. rewrite Hsl. auto.
    + assert (Hne : ID0 <> ID).
      { intros ->. destruct HK as (_ & _ & _ & Kz). apply Kz.
        apply (thread_at_slot _ _ _ Hmem). }
      apply (reader_pending_ext b); try exact HK; unfold full_flag; fields;
        try reflexivity; try (apply arr_get_set_ne; lia).
      unfold zero_threads. fields. apply In_slots_exit_thread_inv.
Qed.

(** A registered consumer stays in its row as long as it is not
    unregistered. *)
Lemma local_effect_consumer_lookup (c : call) (buf : Z) (h : Heap) (b b' : Buffer)
  (nm : string) :
  wf b -> local_effect c buf h b b' -> private_get_consumer_id b nm <> -1 ->
  match c with
  | UnregisterConsumer _ nm' => same_name nm nm' = false
  | _ => True
  end ->
  private_get_consumer_id b' nm = private_get_consumer_id b nm.
Proof.
  intros Hwf Hl Hreg Hside. destruct (wf_sizes b Hwf) as (_ & _ & _ & _ & _ & Lc & _).
  destruct (local_effect_static _ _ _ _ _ Hl) as (_ & _ & _ & Hc).
  rewrite !private_get_consumer_id_lookup in *.
  destruct Hc as [Hs|[(nm' & E)|(nm' & -> & Hid & E)]].
  - exact (lookup_row_same_stages _ _ _ _ Hs).
  - destruct (register_consumer_row _ _ _ E) as (Hnone & i & Hi & ->).
    apply first_free_Some in Hi as (Hi & Hfree & _). cbn [consumers set_consumers].
    rewrite private_get_consumer_id_lookup in Hnone.
    rewrite (lookup_row_register (consumers b) MAX_CONSUMERS i nm' nm Lc Hi)
      by (try exact Hnone; rewrite Hfree; discriminate).
    destruct (same_name nm' nm) eqn:Es; [|reflexivity].
    rewrite (lookup_row_same_name _ _ _ _ Es) in Hnone. contradiction.
  - rewrite E, !private_get_consumer_id_lookup in *. apply lookup_row_ext. intros i Hi.
    destruct (unregistered_row_lookup (consumers b) (lookup_row (consumers b) MAX_CONSUMERS nm')
                i (lookup_row_nonneg _ _ _ Hid)) as [(Ei & _ & ->)|(_ & ->)]; [|reflexivity].
    rewrite (stage_matches_free (unregistered_row _)) by (cbn; discriminate).
    symmetry. destruct (stage_matches (consumers b !!! i) nm) eqn:Em; [|reflexivity].
    exfalso.
    destruct (lookup_row_range (consumers b) MAX_CONSUMERS nm') as [E0|(k & Ek & Hk)];
      [contradiction|].
    rewrite Ek, Nat2Z.id in Ei. subst k.
    apply lookup_row_some in Ek as (_ & Mk & _).
    unfold stage_matches in Em, Mk.
    apply andb_prop in Em as [_ Na]. apply andb_prop in Mk as [_ Nb].
    fold (same_name (name (consumers b !!! i)) nm) in Na.
    fold (same_name (name (consumers b !!! i)) nm') in Nb.
    rewrite same_name_sym in Na. rewrite (same_name_trans _ _ _ Na Nb) in Hside.
    discriminate.
Qed.

Lemma mark_frame_empty_registered (h h' : Heap) (b b' : Buffer) (nm : string) (ID : Z)
  (sig : list cond) :
  mark_frame_empty h b nm ID = Ret (h', b', sig) -> private_get_consumer_id b nm <> -1.
Proof.
  unfold mark_frame_empty, private_mark_consumer_done.
  destruct (0 <=? ID); [|discriminate]. destruct (ID <? num_frames b); [|discriminate].
  destruct (private_get_consumer_id b nm =? -1) eqn:E; [discriminate|].
  intros _. apply Z.eqb_neq. exact E.
Qed.

Lemma unregister_consumer_registered (h h' : Heap) (b b' : Buffer) (nm : string)
  (sig : list cond) :
  unregister_consumer h b nm = Ret (h', b', sig) -> private_get_consumer_id b nm <> -1.
Proof.
  unfold unregister_consumer.
  destruct (private_get_consumer_id b nm =? -1) eqn:E; [discriminate|].
  intros _. apply Z.eqb_neq. exact E.
Qed.

Lemma keeps_consumer_hold_refl (nm : string) (ID : Z) (x : Buffer) :
  keeps_consumer_hold nm ID x x.
Proof. split; auto. Qed.

Lemma keeps_consumer_hold_trans (nm : string) (ID : Z) (x y z : Buffer) :
  keeps_consumer_hold nm ID x y -> keeps_consumer_hold nm ID y z ->
  keeps_consumer_hold nm ID x z.
Proof.
  intros [N1 H1] [N2 H2]. split; [congruence|]. intros Hx.
  destruct (H1 Hx) as [Hy L1]. destruct (H2 Hy) as [Hz L2]. split; [exact Hz|congruence].
Qed.

Lemma local_effect_keeps_consumer_hold (c : call) (buf : Z) (h : Heap) (x y : Buffer)
  (nm : string) (ID : Z) :
  wf x -> valid_slot x ID -> local_effect c buf h x y ->
  negb (ends_consumer_hold buf nm ID c) = true ->
  keeps_consumer_hold nm ID x y.
Proof.
  intros Hwf Hv Hl Hc. apply negb_true_iff in Hc.
  split; [exact (proj1 (local_effect_control _ _ _ _ _ Hl))|].
  intros (Hreg & Hf & Hbit & Hz).
  destruct (private_get_consumer_id_found x nm Hreg) as (p & Hp & Hregp & _).
  assert (Hpn : Z.to_nat (private_get_consumer_id x nm) = p) by (rewrite Hp; apply Nat2Z.id).
  rewrite Hpn in Hbit.
  assert (Hlk : private_get_consumer_id y nm = private_get_consumer_id x nm).
  { apply (local_effect_consumer_lookup c buf h x y nm Hwf Hl Hreg).
    destruct c; try exact I. cbn [local_effect] in Hl. destruct Hl as [-> _].
    cbn [ends_consumer_hold] in Hc. rewrite Z.eqb_refl in Hc. exact Hc. }
  assert (HK : reader_pending y p ID).
  { apply (local_effect_reader c buf h x y p ID Hwf Hv Hl); [repeat split; try assumption;
                                                              apply Hregp|].
    destruct c; try exact I; cbn [local_effect] in Hl.
    - destruct Hl as [-> (h' & sig & E)]. intros Hsame.
      cbn [ends_consumer_hold] in Hc. rewrite Z.eqb_refl in Hc. cbn [andb] in Hc.
      pose proof (unregister_consumer_registered _ _ _ _ _ _ E) as Hreg'.
      rewrite <- Hpn in Hsame. rewrite !private_get_consumer_id_lookup in *.
      apply lookup_row_to_nat in Hsame; [|exact Hreg'|exact Hreg].
      rewrite (lookup_row_shared _ _ _ _ Hreg (eq_sym Hsame)) in Hc. discriminate.
    - destruct Hl as [-> (h' & sig & E)]. intros [-> Hsame].
      cbn [ends_consumer_hold] in Hc. rewrite !Z.eqb_refl in Hc. cbn [andb] in Hc.
      pose proof (mark_frame_empty_registered _ _ _ _ _ _ _ E) as Hreg'.
      rewrite <- Hpn in Hsame. rewrite !private_get_consumer_id_lookup in *.
      apply lookup_row_to_nat in Hsame; [|exact Hreg'|exact Hreg].
      rewrite (lookup_row_shared _ _ _ _ Hreg (eq_sym Hsame)) in Hc. discriminate. }
  destruct HK as (Kf & _ & Kb & Kz).
  split; [|exact Hlk]. unfold consumer_holds. rewrite Hlk, Hpn. auto.
Qed.

Lemma ends_consumer_hold_delete (buf : Z) (nm : string) (ID : Z) (c : call) :
  negb (ends_consumer_hold buf nm ID c) = true -> is_delete buf c = false.
Proof.
  intros H. apply negb_true_iff in H. destruct c; try reflexivity. exact H.
Qed.

Lemma wait_for_full_frame_hands_over (b b' : Buffer) (nm : string) (ID p : Z) :
  wf b -> shutdown_signal b = 0 -> ~ In ID (zero_threads b) ->
  wait_for_full_frame b nm ID = Ret (b', p) ->
  valid_slot b ID /\ p = arr_get (frames b) ID /\ num_frames b' = num_frames b
  /\ consumer_holds b' nm ID
  /\ private_get_consumer_id b' nm = private_get_consumer_id b nm.
Proof.
  intros Hwf Hs Hz. unfold wait_for_full_frame.
  destruct (private_get_consumer_id b nm =? -1) eqn:Hne; [discriminate|].
  apply Z.eqb_neq in Hne. cbn [negb].
  destruct (in_range (is_full b) ID) eqn:Hr; [|discriminate]. cbn [negb].
  apply in_range_iff in Hr. destruct (wf_sizes b Hwf) as (Hn & Lfull & _).
  assert (Hv : valid_slot b ID) by (unfold valid_slot; lia).
  rewrite Hs. cbn [Z.eqb]. rewrite andb_true_r.
  destruct (wf_full_flag_bit b ID Hwf Hv) as [Hf|Hf]; rewrite Hf; [discriminate|].
  cbn [Z.eqb Pos.eqb orb].
  destruct (private_get_consumer_id_found b nm Hne) as (i & Hi & [Hlt _] & _).
  destruct (wf_consumer_bit b ID i Hwf Hv Hlt) as [Hb|Hb];
    rewrite Hi, Nat2Z.id, Hb; [|discriminate]. cbn [Z.eqb].
  intros E; injection E as <- <-. split; [exact Hv|]. split; [reflexivity|].
  split; [reflexivity|].
  set (b1 := set_consumers b _).
  assert (Hid : private_get_consumer_id b1 nm = private_get_consumer_id b nm).
  { apply private_get_consumer_id_ext. intros j _. unfold b1. fields.
    apply (table_update_keeps (consumers b) _ (fun s => stage_set_acquired s ID)).
    intros s. auto. }
  split; [|rewrite Hid, Hi; reflexivity].
  unfold consumer_holds. rewrite Hid. split; [exact Hne|].
  split; [exact Hf|]. rewrite Hi, Nat2Z.id. split; [exact Hb|exact Hz].
Qed.

(** X17.  A slot stays in the hands of a consumer that acquired it.  From
    the return of [wait_for_full_frame] with the frame of a slot for which
    no zeroing thread is pending, through any sequence of calls that return,
    by any thread, other than the consumer's own [mark_frame_empty] on the
    slot, its [unregister_consumer] and the destruction of the buffer: the
    slot is full and the consumer's done bit is clear; so [is_frame_empty]
    returns 0, no producer gets the frame from [wait_for_empty_frame], the
    consumer gets the same slot again from [wait_for_full_frame] unless the
    buffer is shut down, and its [mark_frame_empty] on the slot returns. *)
Theorem consumer_keeps_its_slot (w w' : World) (cs : list call) (buf : Z) (b : Buffer)
  (nm : string) (ID : Z) :
  wf b -> bufs w !! buf = Some b -> shutdown_signal b = 0 -> ~ In ID (zero_threads b) ->
  run w (WaitForFullFrame buf nm ID :: cs) = Ret w' ->
  forallb (fun c => negb (ends_consumer_hold buf nm ID c)) cs = true ->
  exists b', bufs w' !! buf = Some b' /\ valid_slot b' ID
    /\ private_get_consumer_id b' nm = private_get_consumer_id b nm
    /\ full_flag b' ID = 1
    /\ consumer_bit b' ID (Z.to_nat (private_get_consumer_id b' nm)) = 0
    /\ is_frame_empty b' ID = Ret 0
    /\ (forall pn b'' p, wait_for_empty_frame b' pn ID = Ret (b'', p) ->
          p = NULL /\ b'' = b' /\ shutdown_signal b' = 1)
    /\ (shutdown_signal b' = 0 ->
        exists b'', wait_for_full_frame b' nm ID = Ret (b'', arr_get (frames b') ID))
    /\ (exists h'' b'' sig, mark_frame_empty (heap w') b' nm ID = Ret (h'', b'', sig)).
Proof.
  intros Hwf Hb Hs Hz Hrun Hnd. cbn [run exec] in Hrun. rewrite (deref_Some _ _ _ Hb) in Hrun.
  unfold mbind, result_mbind in Hrun. cbn [result_bind] in Hrun.
  destruct (wait_for_full_frame b nm ID) as [[b1 p]| | |] eqn:E1; try discriminate.
  cbn [result_bind fst] in Hrun. fold (run (store w buf b1) cs) in Hrun.
  destruct (wait_for_full_frame_hands_over _ _ _ _ _ Hwf Hs Hz E1)
    as (Hv & _ & Hn1 & Hh1 & Hid1).
  assert (Hb1 : bufs (store w buf b1) !! buf = Some b1) by (cbn; apply lookup_insert_eq).
  assert (Hstep : forall c h x y,
            negb (ends_consumer_hold buf nm ID c) = true -> wf x ->
            local_effect c buf h x y ->
            num_frames x = num_frames b -> keeps_consumer_hold nm ID x y).
  { intros c h x y Hc Hwx Hl Hnx.
    apply (local_effect_keeps_consumer_hold c buf h x y nm ID Hwx); try assumption.
    unfold valid_slot in *. lia. }
  destruct (run_forward
              (fun x y => num_frames x = num_frames b -> keeps_consumer_hold nm ID x y)
              buf (fun c => negb (ends_consumer_hold buf nm ID c))
              (ends_consumer_hold_delete buf nm ID)
              (fun x _ => keeps_consumer_hold_refl nm ID x)
              (fun x y z Hxy Hyz Hnx =>
                 keeps_consumer_hold_trans nm ID x y z (Hxy Hnx)
                   (Hyz (eq_trans (proj1 (Hxy Hnx)) Hnx)))
              (fun c h x y Hc Hwx Hl Hnx => Hstep c h x y Hc Hwx Hl Hnx)
              cs _ w' b1 (wf_wait_for_full_frame _ _ _ _ _ Hwf E1) Hrun Hb1 Hnd)
    as (b' & Hb' & Hwf' & Hkeep).
  destruct (Hkeep Hn1) as (Hn' & Hkeep').
  destruct (Hkeep' Hh1) as ((Hreg' & Hf' & Hbit' & Hz') & Hlk').
  assert (Hv' : valid_slot b' ID) by (unfold valid_slot in *; lia).
  destruct (valid_slot_checks b' ID Hv') as [C1 C2].
  destruct (wf_sizes b' Hwf') as (_ & Lfull & _).
  assert (Hr : in_range (is_full b') ID = true).
  { apply in_range_iff. unfold valid_slot in Hv'. lia. }
  exists b'. split; [exact Hb'|]. split; [exact Hv'|].
  split; [rewrite Hlk', Hid1; reflexivity|].
  split; [exact Hf'|]. split; [exact Hbit'|]. split; [|split; [|split]].
  - unfold is_frame_empty. rewrite C1, C2, Hf'. reflexivity.
  - intros pn b'' q. unfold wait_for_empty_frame. rewrite C1, C2.
    destruct (negb (private_get_producer_id b' pn =? -1)); [|discriminate].
    rewrite Hf'. cbn [Z.eqb Pos.eqb orb andb].
    destruct (wf_shutdown_bit b' Hwf') as [Hs'|Hs']; rewrite Hs'; cbn [Z.eqb Pos.eqb];
      [discriminate|].
    intros E; injection E as <- <-. auto.
  - intros Hs'. unfold wait_for_full_frame.
    apply Z.eqb_neq in Hreg'. rewrite Hreg', Hr, Hf', Hbit', Hs'. cbn. eexists. reflexivity.
  - unfold mark_frame_empty. rewrite C1, C2.
    rewrite (private_mark_consumer_done_ret b' nm ID Hreg' Hbit').
    cbn [mbind result_mbind result_bind].
    destruct (_ =? 1); [|eexists; eexists; eexists; reflexivity].
    destruct (private_mark_frame_empty _ _ _) as [[h2 b2] r].
    eexists. eexists. eexists. reflexivity.
Qed.

(** ** A full cycle of a slot *)

Lemma arr_set_twice {A : Type} (l : list A) (i : Z) (x y : A) :
  arr_set (arr_set l i x) i y = arr_set l i y.
Proof. unfold arr_set. apply list_insert_insert_eq. Qed.

Ltac setters :=
  unfold private_reset_producers, private_reset_consumers, set_last_arrival_time,
    set_is_full, set_producers_done, set_consumers_done, set_producers, set_consumers,
    set_metadata, set_zero_pool, set_frames;
  cbn [num_frames frame_size aligned_frame_size is_full frames metadata producers
       consumers producers_done consumers_done shutdown_signal zero_frames
       last_arrival_time metadata_pool buffer_name buffer_type zero_pool].

Lemma mark_frame_full_fills (h : Heap) (b : Buffer) (nm : string) (ID now : Z) :
  wf b -> valid_slot b ID -> private_get_producer_id b nm <> -1 ->
  producer_bit b ID (Z.to_nat (private_get_producer_id b nm)) = 0 ->
  (forall i, registered_producer b i -> i <> Z.to_nat (private_get_producer_id b nm) ->
             producer_bit b ID i = 1) ->
  ~ all_consumers_done b ID ->
  mark_frame_full h b nm ID now
  = Ret (h, filled b (private_get_producer_id b nm) ID now, [full_cond]).
Proof.
  intros Hwf Hv Hreg Hbit Hlast Hpend.
  destruct (valid_slot_checks b ID Hv) as [C1 C2].
  destruct (private_mark_producer_done_bits b nm ID Hwf Hv Hreg Hbit)
    as (b1 & E1 & Hwf1 & Hbits & Hregs & _).
  pose proof (private_mark_producer_done_ret b nm ID Hreg Hbit) as E1'.
  rewrite E1 in E1'. injection E1' as Eb1.
  unfold mark_frame_full. rewrite C1, C2, E1. cbn [mbind result_mbind result_bind].
  assert (Hall : private_producers_done b1 ID = 1).
  { apply private_producers_done_1. intros i Hri. rewrite Hbits.
    destruct (decide (i = Z.to_nat (private_get_producer_id b nm))) as [|Hip]; [discriminate|].
    rewrite (Hlast i); [discriminate|apply Hregs; exact Hri|exact Hip]. }
  rewrite Hall. cbn [Z.eqb Pos.eqb].
  set (b4 := set_last_arrival_time _ _).
  assert (Hb4 : b4 = filled b (private_get_producer_id b nm) ID now).
  { unfold b4, filled. rewrite Eb1. setters. rewrite arr_set_twice. reflexivity. }
  assert (Hcons : private_consumers_done b4 ID = private_consumers_done b ID).
  { apply private_consumers_done_ext; rewrite Hb4; reflexivity. }
  assert (Hnot : private_consumers_done b4 ID <> 1).
  { rewrite Hcons. intros Hd. apply Hpend. apply (consumers_done_iff b ID Hwf Hv). exact Hd. }
  rewrite (done_not_one _ (private_consumers_done_bit b4 ID) Hnot). rewrite Hb4. reflexivity.
Qed.

Lemma mark_frame_empty_drains (h : Heap) (b : Buffer) (nm : string) (ID : Z) :
  wf b -> valid_slot b ID -> private_get_consumer_id b nm <> -1 ->
  consumer_bit b ID (Z.to_nat (private_get_consumer_id b nm)) = 0 ->
  remaining_consumers_done b (Z.to_nat (private_get_consumer_id b nm)) ID ->
  zero_frames b = 0 ->
  mark_frame_empty h b nm ID
  = Ret (if arr_get (metadata b) ID =? NULL then h
         else decrement_metadata_ref_count h (arr_get (metadata b) ID),
         drained b (private_get_consumer_id b nm) ID, [empty_cond]).
Proof.
  intros Hwf Hv Hreg Hbit Hlast Hz.
  destruct (valid_slot_checks b ID Hv) as [C1 C2].
  destruct (wf_sizes b Hwf) as (Hn & _ & _ & Lmd & _).
  destruct (private_mark_consumer_done_bits b nm ID Hwf Hv Hreg Hbit)
    as (b1 & E1 & Hwf1 & Hbits & Hregs & _).
  pose proof (private_mark_consumer_done_ret b nm ID Hreg Hbit) as E1'.
  rewrite E1 in E1'. injection E1' as Eb1.
  unfold mark_frame_empty. rewrite C1, C2, E1. cbn [mbind result_mbind result_bind].
  assert (Hall : private_consumers_done b1 ID = 1).
  { apply private_consumers_done_1. intros i Hri. rewrite Hbits.
    destruct (decide (i = Z.to_nat (private_get_consumer_id b nm))) as [|Hic]; [discriminate|].
    rewrite (Hlast i); [discriminate|apply Hregs; exact Hri|exact Hic]. }
  rewrite Hall. cbn [Z.eqb Pos.eqb].
  unfold private_mark_frame_empty, release_metadata. rewrite Eb1. fields. rewrite Hz.
  cbn [Z.eqb]. fields. unfold drained. setters. rewrite arr_set_twice.
  destruct (arr_get (metadata b) ID =? NULL) eqn:Em; cbn [Z.eqb Pos.eqb]; [|reflexivity].
  apply Z.eqb_eq in Em. do 4 f_equal. symmetry. unfold arr_set, arr_get in *.
  apply list_insert_id. rewrite <- Em. apply list_lookup_lookup_total_lt.
  unfold valid_slot in Hv. lia.
Qed.

Lemma same_stages_lookups (b b' : Buffer) :
  same_stages (producers b) (producers b') -> same_stages (consumers b) (consumers b') ->
  (forall nm, private_get_producer_id b' nm = private_get_producer_id b nm)
  /\ (forall nm, private_get_consumer_id b' nm = private_get_consumer_id b nm)
  /\ (forall i, registered_producer b' i <-> registered_producer b i)
  /\ (forall i, registered_consumer b' i <-> registered_consumer b i).
Proof.
  intros Hp Hc. split; [|split; [|split]].
  - intros nm. rewrite !private_get_producer_id_lookup. apply lookup_row_same_stages. exact Hp.
  - intros nm. rewrite !private_get_consumer_id_lookup. apply lookup_row_same_stages. exact Hc.
  - intros i. apply registered_producer_ext. intros j. apply Hp.
  - intros i. apply registered_consumer_ext. intros j. apply Hc.
Qed.

Lemma run_app (cs1 cs2 : list call) :
  forall w, run w (cs1 ++ cs2) = w1 ← run w cs1; run w1 cs2.
Proof.
  induction cs1 as [|c cs1 IH]; intros w; [reflexivity|].
  cbn [app run]. unfold mbind, result_mbind.
  destruct (exec w c) as [w1| | |]; cbn [result_bind]; try reflexivity. apply IH.
Qed.

(** One cycle of a ready slot: the four calls return, and the slot is ready
    again. *)
Lemma slot_cycle_returns (w : World) (buf : Z) (b : Buffer) (pn cn : string) (ID now : Z) :
  bufs w !! buf = Some b -> slot_ready b pn cn ID ->
  exists w' b',
    run w (slot_cycle buf pn cn ID now) = Ret w'
    /\ bufs w' !! buf = Some b' /\ slot_ready b' pn cn ID
    /\ frames b' = frames b /\ num_frames b' = num_frames b
    /\ private_get_producer_id b' pn = private_get_producer_id b pn
    /\ private_get_consumer_id b' cn = private_get_consumer_id b cn
    /\ arr_get (metadata b') ID = NULL /\ get_last_arrival_time b' = now
    /\ last_frame_released
         (producers b' !!! Z.to_nat (private_get_producer_id b pn)) = ID
    /\ last_frame_released
         (consumers b' !!! Z.to_nat (private_get_consumer_id b cn)) = ID
    /\ other_slots_same b b' ID
    /\ (forall x, x <> buf -> bufs w' !! x = bufs w !! x).
Proof.
  intros Hb (Hwf & Hv & Hs & Hz & Hp & Hc & Honlyp & Honlyc & Hf & Hpb & Hcb).
  destruct (valid_slot_checks b ID Hv) as [C1 C2].
  destruct (wf_sizes b Hwf) as (Hn & Lfull & Lfr & Lmd & Lp & Lc & Lpd & Lcd).
  pose proof Hv as Hv0. unfold valid_slot in Hv0.
  destruct (private_get_producer_id_found b pn Hp) as (p & Ep & [Hplt _] & _).
  destruct (private_get_consumer_id_found b cn Hc) as (c & Ec & [Hclt _] & _).
  (* the producer acquires the slot *)
  set (b1 := producer_acquired b (private_get_producer_id b pn) ID).
  assert (E1 : wait_for_empty_frame b pn ID = Ret (b1, arr_get (frames b) ID)).
  { unfold wait_for_empty_frame. rewrite C1, C2.
    apply Z.eqb_neq in Hp. rewrite Hp, Hf, Hpb, Hs. reflexivity. }
  pose proof (wf_wait_for_empty_frame _ _ _ _ _ Hwf E1) as Hwf1.
  destruct (same_stages_lookups b b1 (same_stages_acquired _ _ _) (same_stages_refl _))
    as (Lp1 & Lc1 & Rp1 & Rc1).
  (* it marks the slot full *)
  set (b2 := filled b1 (private_get_producer_id b pn) ID now).
  assert (E2 : forall h, mark_frame_full h b1 pn ID now = Ret (h, b2, [full_cond])).
  { intros h. unfold b2. rewrite <- (Lp1 pn). apply mark_frame_full_fills.
    - exact Hwf1.
    - exact Hv.
    - rewrite Lp1. exact Hp.
    - rewrite Lp1. exact Hpb.
    - intros i Hi Hne. exfalso. apply Hne. rewrite Lp1. apply Honlyp, Rp1, Hi.
    - intros Hall. specialize (Hall (Z.to_nat (private_get_consumer_id b cn))).
      unfold consumer_bit in Hall, Hcb. cbn in Hall. rewrite Hcb in Hall.
      assert (0 = 1); [apply Hall|discriminate].
      apply Rc1. rewrite Ec, Nat2Z.id.
      destruct (private_get_consumer_id_found b cn Hc) as (c' & Ec' & Hr & _).
      assert (c' = c) by lia. subst c'. exact Hr. }
  pose proof (wf_mark_frame_full _ _ _ _ _ _ _ _ Hwf1 (E2 (heap w))) as Hwf2.
  assert (Sp2 : same_stages (producers b) (producers b2)).
  { unfold b2, filled. fields.
    apply (same_stages_trans _ (producers b1)); [apply same_stages_acquired|].
    apply same_stages_released. }
  destruct (same_stages_lookups b b2 Sp2 (same_stages_refl _)) as (Lp2 & Lc2 & Rp2 & Rc2).
  (* the consumer acquires it *)
  set (b3 := consumer_acquired b2 (private_get_consumer_id b cn) ID).
  assert (E3 : wait_for_full_frame b2 cn ID = Ret (b3, arr_get (frames b) ID)).
  { unfold wait_for_full_frame. rewrite Lc2.
    apply Z.eqb_neq in Hc. rewrite Hc. cbn [negb].
    replace (in_range (is_full b2) ID) with true
      by (symmetry; apply in_range_iff; unfold b2, filled, b1, producer_acquired; fields;
          rewrite length_arr_set; lia).
    cbn [negb].
    replace (full_flag b2 ID) with 1
      by (symmetry; unfold full_flag, b2, filled, b1, producer_acquired; fields;
          apply arr_get_set_eq; lia).
    change (consumer_bit b2 ID) with (consumer_bit b ID). rewrite Hcb.
    change (shutdown_signal b2) with (shutdown_signal b). rewrite Hs. reflexivity. }
  pose proof (wf_wait_for_full_frame _ _ _ _ _ Hwf2 E3) as Hwf3.
  assert (Sc3 : same_stages (consumers b) (consumers b3)).
  { unfold b3, consumer_acquired. fields. apply same_stages_acquired. }
  destruct (same_stages_lookups b b3 Sp2 Sc3) as (Lp3 & Lc3 & Rp3 & Rc3).
  (* and marks it empty *)
  set (b4 := drained b3 (private_get_consumer_id b cn) ID).
  set (h4 := if arr_get (metadata b) ID =? NULL then heap w
             else decrement_metadata_ref_count (heap w) (arr_get (metadata b) ID)).
  assert (E4 : mark_frame_empty (heap w) b3 cn ID = Ret (h4, b4, [empty_cond])).
  { unfold b4, h4. rewrite <- (Lc3 cn).
    change (arr_get (metadata b) ID) with (arr_get (metadata b3) ID).
    apply mark_frame_empty_drains.
    - exact Hwf3.
    - exact Hv.
    - rewrite Lc3. exact Hc.
    - rewrite Lc3. exact Hcb.
    - intros i Hi Hne. exfalso. apply Hne. rewrite Lc3. apply Honlyc, Rc3, Hi.
    - exact Hz. }
  pose proof (wf_mark_frame_empty _ _ _ _ _ _ _ Hwf3 E4) as Hwf4.
  assert (Sp4 : same_stages (producers b) (producers b4)) by exact Sp2.
  assert (Sc4 : same_stages (consumers b) (consumers b4)).
  { unfold b4, drained. fields.
    apply (same_stages_trans _ (consumers b3)); [exact Sc3|]. apply same_stages_released. }
  destruct (same_stages_lookups b b4 Sp4 Sc4) as (Lp4 & Lc4 & Rp4 & Rc4).
  (* the four steps *)
  set (w1 := store w buf b1).
  set (w2 := set_heap (store w1 buf b2) (heap w1)).
  set (w3 := store w2 buf b3).
  set (w4 := set_heap (store w3 buf b4) h4).
  assert (Hrun : run w (slot_cycle buf pn cn ID now) = Ret w4).
  { unfold slot_cycle. cbn [run exec]. rewrite (deref_Some _ _ _ Hb).
    unfold mbind, result_mbind. cbn [result_bind]. rewrite E1. cbn [result_bind fst].
    fold w1. rewrite (deref_Some w1 buf b1) by (cbn; apply lookup_insert_eq).
    cbn [result_bind]. rewrite E2. cbn [result_bind fst snd]. fold w2.
    rewrite (deref_Some w2 buf b2) by (cbn; apply lookup_insert_eq).
    cbn [result_bind]. rewrite E3. cbn [result_bind fst snd]. fold w3.
    rewrite (deref_Some w3 buf b3) by (cbn; apply lookup_insert_eq).
    cbn [result_bind].
    change (heap w3) with (heap w). rewrite E4. cbn [result_bind fst snd]. reflexivity. }
  exists w4, b4. split; [exact Hrun|]. split; [cbn; apply lookup_insert_eq|].
  assert (Hf4 : full_flag b4 ID = 0).
  { unfold full_flag, b4, drained, b3, consumer_acquired, b2, filled, b1, producer_acquired.
    fields. apply arr_get_set_eq. rewrite length_arr_set. lia. }
  assert (Hpb4 : forall i, (i < MAX_PRODUCERS)%nat -> producer_bit b4 ID i = 0).
  { intros i Hi.
    unfold producer_bit, b4, drained, b3, consumer_acquired, b2, filled, b1, producer_acquired.
    fields. rewrite rows_get_set_same by lia. apply replicate_lookup_total. exact Hi. }
  assert (Hcb4 : forall i, (i < MAX_CONSUMERS)%nat -> consumer_bit b4 ID i = 0).
  { intros i Hi.
    unfold consumer_bit, b4, drained, b3, consumer_acquired, b2, filled, b1, producer_acquired.
    fields. rewrite rows_get_set_same by lia. apply replicate_lookup_total. exact Hi. }
  split.
  { unfold slot_ready. rewrite Lp4, Lc4. split; [exact Hwf4|]. split; [exact Hv|].
    split; [exact Hs|]. split; [exact Hz|]. split; [exact Hp|]. split; [exact Hc|].
    split; [intros i Hi; apply Honlyp, Rp4, Hi|].
    split; [intros i Hi; apply Honlyc, Rc4, Hi|].
    split; [exact Hf4|]. split; [apply Hpb4; lia|apply Hcb4; lia]. }
  split; [reflexivity|]. split; [reflexivity|]. split; [apply Lp4|]. split; [apply Lc4|].
  split.
  { unfold b4, drained, b3, consumer_acquired, b2, filled, b1, producer_acquired. fields.
    apply arr_get_set_eq. lia. }
  split; [reflexivity|]. split.
  { unfold b4, drained, b3, consumer_acquired, b2, filled, b1, producer_acquired. fields.
    unfold arr_set, arr_get. rewrite list_lookup_total_insert_eq
      by (rewrite length_insert; lia). reflexivity. }
  split.
  { unfold b4, drained, b3, consumer_acquired, b2, filled, b1, producer_acquired. fields.
    unfold arr_set, arr_get. rewrite list_lookup_total_insert_eq
      by (rewrite length_insert; lia). reflexivity. }
  split.
  { intros ID' H0 Hne.
    unfold full_flag, b4, drained, b3, consumer_acquired, b2, filled, b1, producer_acquired.
    fields. rewrite !arr_get_set_ne by lia. auto. }
  intros x Hx. cbn. rewrite !lookup_insert_ne by congruence. reflexivity.
Qed.

Lemma other_slots_same_trans (b1 b2 b3 : Buffer) (ID : Z) :
  other_slots_same b1 b2 ID -> other_slots_same b2 b3 ID -> other_slots_same b1 b3 ID.
Proof.
  intros H1 H2 ID' H0 Hne. destruct (H1 ID' H0 Hne) as (A1 & A2 & A3 & A4).
  destruct (H2 ID' H0 Hne) as (B1 & B2 & B3 & B4). repeat split; congruence.
Qed.

(** X18.  With a single producer and a single consumer, without
    zero-on-release and shutdown, a slot that is empty and unmarked can be
    cycled for ever: for every list of fill times, the calls
    [wait_for_empty_frame], [mark_frame_full], [wait_for_full_frame],
    [mark_frame_empty], repeated once per time, all return (none sleeps,
    none fails an assertion), and they leave the slot empty and unmarked
    again, with the frame pointers, the other slots and the other buffers
    as they were. *)
Theorem single_producer_consumer_cycles (pn cn : string) (buf ID : Z) (ts : list Z) :
  forall (w : World) (b : Buffer),
  bufs w !! buf = Some b -> slot_ready b pn cn ID ->
  exists w' b',
    run w (flat_map (slot_cycle buf pn cn ID) ts) = Ret w'
    /\ bufs w' !! buf = Some b' /\ slot_ready b' pn cn ID
    /\ frames b' = frames b
    /\ get_num_full_frames b' = get_num_full_frames b
    /\ other_slots_same b b' ID
    /\ (forall x, x <> buf -> bufs w' !! x = bufs w !! x)
    /\ (ts <> [] -> get_last_arrival_time b' = List.last ts 0
                    /\ get_metadata_container b' ID = Ret NULL).
Proof.
  induction ts as [|t ts IH]; intros w b Hb Hready.
  - exists w, b. cbn [flat_map run]. split; [reflexivity|]. split; [exact Hb|].
    split; [exact Hready|]. split; [reflexivity|]. split; [reflexivity|].
    split; [intros ID' _ _; auto|]. split; [auto|]. intros H. contradiction.
  - destruct (slot_cycle_returns w buf b pn cn ID t Hb Hready)
      as (w1 & b1 & Hrun1 & Hb1 & Hready1 & Hfr1 & Hn1 & _ & _ & Hm1 & Ht1 & _ & _ & Hoth1 & Hx1).
    destruct (IH w1 b1 Hb1 Hready1) as (w' & b' & Hrun & Hb' & Hready' & Hfr & Hcnt & Hoth & Hx & Hlast).
    exists w', b'. split.
    { cbn [flat_map]. rewrite run_app, Hrun1. exact Hrun. }
    split; [exact Hb'|]. split; [exact Hready'|]. split; [congruence|].
    split.
    { rewrite Hcnt. destruct Hready as (Hwf & Hv & _ & _ & _ & _ & _ & _ & Hf & _).
      destruct Hready1 as (Hwf1 & _ & _ & _ & _ & _ & _ & _ & Hf1 & _).
      rewrite (get_num_full_frames_change b b1 ID Hwf Hwf1 Hv Hn1); [lia|].
      intros ID' H0 Hne. apply Hoth1; assumption. }
    split; [exact (other_slots_same_trans _ _ _ _ Hoth1 Hoth)|].
    split; [intros x Hne; rewrite Hx, Hx1 by exact Hne; reflexivity|].
    intros _. destruct ts as [|t' ts'].
    + cbn [flat_map run] in Hrun. injection Hrun as <-.
      assert (b' = b1) by congruence. subst b'. split; [exact Ht1|].
      destruct Hready1 as (_ & Hv1 & _). destruct (valid_slot_checks b1 ID Hv1) as [C1 C2].
      unfold get_metadata_container. rewrite C1, C2, Hm1. reflexivity.
    + destruct (Hlast ltac:(discriminate)) as [Hl1 Hl2]. split; [|exact Hl2].
      rewrite Hl1. reflexivity.
Qed.

(** ** Unregistering a consumer *)

Lemma lookup_row_unregister (tbl : list StageInfo) (n : nat) (nm nm' : string) :
  length tbl = n -> names_distinct tbl n -> lookup_row tbl n nm <> -1 ->
  lookup_row (arr_set tbl (lookup_row tbl n nm)
                (unregistered_row (arr_get tbl (lookup_row tbl n nm)))) n nm'
  = if same_name nm nm' then -1 else lookup_row tbl n nm'.
Proof.
  intros Hlen Hd Hreg.
  destruct (lookup_row_range tbl n nm) as [E|(k & Ek & Hk)]; [contradiction|].
  pose proof Ek as Ek'. apply lookup_row_some in Ek' as (_ & Mk & _).
  unfold stage_matches in Mk. apply andb_prop in Mk as [Uk Nk]. apply Z.eqb_eq in Uk.
  fold (same_name (name (tbl !!! k)) nm) in Nk.
  assert (Hrow : forall i, (i < n)%nat ->
            (i = k /\ in_use (arr_set tbl (lookup_row tbl n nm)
                                (unregistered_row (arr_get tbl (lookup_row tbl n nm))) !!! i) = 0)
            \/ (i <> k /\ arr_set tbl (lookup_row tbl n nm)
                            (unregistered_row (arr_get tbl (lookup_row tbl n nm))) !!! i
                          = tbl !!! i)).
  { intros i Hi.
    destruct (unregistered_row_lookup tbl (lookup_row tbl n nm) i ltac:(lia))
      as [(Ei & _ & ->)|([Ei|Ei] & ->)].
    - left. split; [rewrite Ei, Ek; apply Nat2Z.id|reflexivity].
    - right. split; [rewrite Ek, Nat2Z.id in Ei; exact Ei|reflexivity].
    - lia. }
  destruct (same_name nm nm') eqn:Es.
  - apply lookup_row_none. intros i Hi. destruct (Hrow i Hi) as [[_ U]|[Hne ->]].
    + apply stage_matches_free. rewrite U. discriminate.
    + unfold stage_matches. destruct (in_use (tbl !!! i) =? 1) eqn:Ui; [|reflexivity].
      apply Z.eqb_eq in Ui. cbn [andb]. fold (same_name (name (tbl !!! i)) nm').
      destruct (same_name (name (tbl !!! i)) nm') eqn:Ni; [|reflexivity]. exfalso. apply Hne.
      apply (names_distinct_unique tbl n k i nm Hd Ek Hi Ui).
      rewrite same_name_sym in Es. exact (same_name_trans _ _ _ Ni Es).
  - apply lookup_row_ext. intros i Hi. destruct (Hrow i Hi) as [[-> U]|[Hne ->]]; [|reflexivity].
    rewrite stage_matches_free by (rewrite U; discriminate). symmetry.
    unfold stage_matches. rewrite Uk, Z.eqb_refl. cbn [andb].
    fold (same_name (name (tbl !!! k)) nm').
    destruct (same_name (name (tbl !!! k)) nm') eqn:Ni; [|reflexivity].
    rewrite same_name_sym in Nk. rewrite (same_name_trans _ _ _ Nk Ni) in Es. discriminate.
Qed.

Lemma count_in_use_unregister (tbl : list StageInfo) (n : nat) (nm : string) :
  length tbl = n -> lookup_row tbl n nm <> -1 ->
  count_in_use (arr_set tbl (lookup_row tbl n nm)
                  (unregistered_row (arr_get tbl (lookup_row tbl n nm)))) n
  = count_in_use tbl n - 1.
Proof.
  intros Hlen Hreg.
  destruct (lookup_row_range tbl n nm) as [E|(k & Ek & Hk)]; [contradiction|].
  pose proof Ek as Ek'. apply lookup_row_some in Ek' as (_ & Mk & _).
  unfold stage_matches in Mk. apply andb_prop in Mk as [Uk _]. apply Z.eqb_eq in Uk.
  unfold count_in_use. rewrite Ek.
  rewrite (filter_seq_lose (fun j => in_use (tbl !!! j) = 1)
             (fun j => in_use (arr_set tbl (Z.of_nat k)
                                 (unregistered_row (arr_get tbl (Z.of_nat k))) !!! j) = 1)
             n k Hk Uk).
  - lia.
  - unfold arr_set. rewrite Nat2Z.id, list_lookup_total_insert_eq by lia. cbn. discriminate.
  - intros j Hj Hne. unfold arr_set. rewrite Nat2Z.id.
    rewrite list_lookup_total_insert_ne by congruence. reflexivity.
Qed.

(** X19.  In a state reached by calls that return from a state without
    buffers, [unregister_consumer] of a registered consumer returns, frees
    its row and leaves the other rows and the producers alone; afterwards
    the name (and every name that agrees with it on its first
    [MAX_STAGE_NAME_LEN] characters) is no longer found, every other name
    is found where it was, and [get_num_consumers] has dropped by one.  For
    the name that is gone, [wait_for_full_frame] and [mark_frame_empty]
    fail their assertion, and a second [unregister_consumer] only logs the
    error and then writes the row at index -1. *)
Theorem unregister_consumer_forgets_name (w0 : World) (cs : list call) (w : World)
  (buf : Z) (b : Buffer) (nm : string) :
  bufs w0 = ∅ -> run w0 cs = Ret w -> bufs w !! buf = Some b ->
  private_get_consumer_id b nm <> -1 ->
  exists h' b' sig,
    unregister_consumer (heap w) b nm = Ret (h', b', sig)
    /\ (forall nm', private_get_consumer_id b' nm'
                    = if same_name nm nm' then -1 else private_get_consumer_id b nm')
    /\ get_num_consumers b' = get_num_consumers b - 1
    /\ in_use (consumers b' !!! Z.to_nat (private_get_consumer_id b nm)) = 0
    /\ (forall i, i <> Z.to_nat (private_get_consumer_id b nm) ->
          consumers b' !!! i = consumers b !!! i)
    /\ producers b' = producers b
    /\ (forall ID, wait_for_full_frame b' nm ID = Abort)
    /\ (forall ID, valid_slot b' ID -> mark_frame_empty h' b' nm ID = Abort)
    /\ unregister_consumer h' b' nm = Undefined.
Proof.
  intros Hstart Hrun Hb Hreg.
  assert (Hok : world_ok w) by exact (run_world_ok cs _ _ (no_buffer_world_ok w0 Hstart) Hrun).
  destruct (Hok buf b Hb) as [Hwf _].
  assert (Hd : stages_distinct b).
  { apply (world_stages_distinct cs w0 w (no_buffer_world_ok w0 Hstart)) with (buf := buf);
      [|exact Hrun|exact Hb].
    intros buf0 b0 Hb0. rewrite Hstart, lookup_empty in Hb0. discriminate. }
  destruct Hd as [_ Dc]. destruct (wf_sizes b Hwf) as (_ & _ & _ & _ & _ & Lc & _).
  destruct (private_get_consumer_id_found b nm Hreg) as (k & Ek & [Hk _] & _).
  assert (Hun : exists h' b' sig, unregister_consumer (heap w) b nm = Ret (h', b', sig)
              /\ consumers b' = arr_set (consumers b) (private_get_consumer_id b nm)
                                  (unregistered_row
                                     (arr_get (consumers b) (private_get_consumer_id b nm)))
              /\ producers b' = producers b).
  { unfold unregister_consumer.
    destruct (private_get_consumer_id b nm =? -1) eqn:E; [apply Z.eqb_eq in E; contradiction|].
    set (b1 := set_consumers b _).
    destruct (unregister_scan_static (seq 0 (Z.to_nat (num_frames b1))) (heap w) b1 0)
      as (_ & _ & S3 & S4 & _).
    destruct (unregister_scan _ (heap w) b1 0) as [[h2 b2] r]. cbn [fst snd] in *.
    eexists. eexists. eexists. split; [reflexivity|]. split; [rewrite S4|rewrite S3]; reflexivity. }
  destruct Hun as (h' & b' & sig & E & Hc' & Hp').
  assert (Hgone : forall nm', private_get_consumer_id b' nm'
                    = if same_name nm nm' then -1 else private_get_consumer_id b nm').
  { intros nm'. rewrite !private_get_consumer_id_lookup, Hc'.
    rewrite private_get_consumer_id_lookup.
    apply lookup_row_unregister; assumption. }
  assert (Hnm : private_get_consumer_id b' nm = -1).
  { rewrite Hgone, same_name_refl. reflexivity. }
  exists h', b', sig. split; [exact E|]. split; [exact Hgone|]. split.
  { rewrite !get_num_consumers_count, Hc', private_get_consumer_id_lookup.
    apply count_in_use_unregister; assumption. }
  split.
  { rewrite Hc'. unfold arr_set. rewrite list_lookup_total_insert_eq by (rewrite Ek; lia).
    reflexivity. }
  split.
  { intros i Hi. rewrite Hc'. unfold arr_set.
    apply list_lookup_total_insert_ne. congruence. }
  split; [exact Hp'|]. split; [|split].
  - intros ID. unfold wait_for_full_frame. rewrite Hnm. reflexivity.
  - intros ID Hv. destruct (valid_slot_checks b' ID Hv) as [C1 C2].
    unfold mark_frame_empty, private_mark_consumer_done. rewrite C1, C2, Hnm. reflexivity.
  - unfold unregister_consumer. rewrite Hnm. reflexivity.
Qed.

(** X20.  A name that is not registered.  For a name that
    [private_get_producer_id] does not find, [wait_for_empty_frame] and
    [mark_frame_full] on a valid slot fail their assertion; for a name that
    [private_get_consumer_id] does not find, [wait_for_full_frame],
    [wait_for_full_frame_timeout] and [mark_frame_empty] fail theirs, while
    [unregister_consumer] has no assertion and goes on to write the row at
    index -1 of the table of consumers. *)
Theorem unregistered_stage_is_rejected (h : Heap) (b : Buffer) (nm : string) (ID now : Z)
  (t0 t1 : timespec) (env : list (Buffer * Z)) :
  valid_slot b ID ->
  (private_get_producer_id b nm = -1 ->
     wait_for_empty_frame b nm ID = Abort /\ mark_frame_full h b nm ID now = Abort)
  /\ (private_get_consumer_id b nm = -1 ->
        wait_for_full_frame b nm ID = Abort
        /\ wait_for_full_frame_timeout b nm ID t0 t1 env = Abort
        /\ mark_frame_empty h b nm ID = Abort
        /\ unregister_consumer h b nm = Undefined).
Proof.
  intros Hv. destruct (valid_slot_checks b ID Hv) as [C1 C2]. split.
  - intros E. unfold wait_for_empty_frame, mark_frame_full, private_mark_producer_done.
    rewrite C1, C2, E. split; reflexivity.
  - intros E. unfold wait_for_full_frame, wait_for_full_frame_timeout, mark_frame_empty,
      private_mark_consumer_done, unregister_consumer.
    rewrite C1, C2, E. repeat split; reflexivity.
Qed.

(** X21.  [unregister_consumer] of a registered consumer, on a
    well-formed buffer without zero-on-release, slot by slot.  Every valid
    slot on which all the remaining registered consumers are done goes
    through the empty transition, whether it is full or not: its flag is 0,
    its metadata reference is null and its consumer-done bits are clear.
    Every other slot keeps its flag, its metadata and its bits.  The frame
    pointers do not change, and [empty_cond] is broadcast exactly when some
    slot went through the transition. *)
Theorem unregister_consumer_slot_by_slot (h : Heap) (b : Buffer) (nm : string) :
  wf b -> zero_frames b = 0 -> private_get_consumer_id b nm <> -1 ->
  exists h' b' sig,
    unregister_consumer h b nm = Ret (h', b', sig)
    /\ frames b' = frames b
    /\ (forall ID, valid_slot b ID ->
          remaining_consumers_done b (Z.to_nat (private_get_consumer_id b nm)) ID ->
          full_flag b' ID = 0 /\ arr_get (metadata b') ID = NULL
          /\ arr_get (consumers_done b') ID = replicate MAX_CONSUMERS 0)
    /\ (forall ID, valid_slot b ID ->
          ~ remaining_consumers_done b (Z.to_nat (private_get_consumer_id b nm)) ID ->
          full_flag b' ID = full_flag b ID
          /\ arr_get (metadata b') ID = arr_get (metadata b) ID
          /\ arr_get (consumers_done b') ID = arr_get (consumers_done b) ID)
    /\ (sig = [empty_cond] <->
        exists ID, valid_slot b ID
          /\ remaining_consumers_done b (Z.to_nat (private_get_consumer_id b nm)) ID).
Proof.
  intros Hwf Hz Hreg.
  destruct (unregister_consumer_effect h b nm Hwf Hz Hreg)
    as (h' & b' & sig & E & _ & _ & Hfr & Hdone & Hkeep & Hsig).
  exists h', b', sig. auto.
Qed.

(** ** The zeroing threads *)

Lemma private_mark_frame_empty_threads (h : Heap) (b : Buffer) (id : Z) :
  num_frames (private_mark_frame_empty h b id).1.2 = num_frames b
  /\ zero_frames (private_mark_frame_empty h b id).1.2 = zero_frames b
  /\ forall ID, In ID (zero_threads (private_mark_frame_empty h b id).1.2) ->
       In ID (zero_threads b) \/ (ID = id /\ zero_frames b = 1).
Proof.
  unfold private_mark_frame_empty, release_metadata, zero_threads.
  destruct (zero_frames b =? 1) eqn:Ez; fields; destruct (_ =? NULL); fields;
    (split; [reflexivity|]); (split; [reflexivity|]); intros ID H; try (left; exact H);
    apply Z.eqb_eq in Ez; rewrite fmap_app in H; apply in_app_or in H as [H|[H|[]]]; auto.
Qed.

Lemma threads_ok_step (b b' : Buffer) :
  num_frames b' = num_frames b -> (zero_frames b = 1 -> zero_frames b' = 1) ->
  (forall ID, In ID (zero_threads b') ->
     In ID (zero_threads b) \/ (valid_slot b ID /\ zero_frames b = 1)) ->
  threads_ok b -> threads_ok b'.
Proof.
  intros Hn Hz Hin Hok ID H. unfold valid_slot. rewrite Hn.
  destruct (Hin ID H) as [H1|[Hv Hz1]]; [destruct (Hok ID H1) as [Hv Hz1]|]; auto.
Qed.

Lemma unregister_scan_threads (ids : list nat) :
  forall (h : Heap) (b : Buffer) (r : Z),
  (forall id, In id ids -> (id < Z.to_nat (num_frames b))%nat) ->
  threads_ok b -> threads_ok (unregister_scan ids h b r).1.2.
Proof.
  induction ids as [|id ids IH]; intros h b r Hids Hok; [exact Hok|].
  cbn [unregister_scan].
  destruct (_ =? 1); [|apply IH; [intros j Hj; apply Hids; right; exact Hj|exact Hok]].
  destruct (private_mark_frame_empty_threads h b (Z.of_nat id)) as (Hn & Hz & Hin).
  destruct (private_mark_frame_empty h b (Z.of_nat id)) as [[h1 b1] r1]. cbn [fst snd] in *.
  apply IH; [intros j Hj; rewrite Hn; apply Hids; right; exact Hj|].
  apply (threads_ok_step b b1 Hn); [congruence| |exact Hok].
  intros ID H. destruct (Hin ID H) as [H1|[-> Hz1]]; [left; exact H1|right].
  split; [|exact Hz1]. specialize (Hids id (or_introl eq_refl)). unfold valid_slot. lia.
Qed.

Lemma local_effect_threads (c : call) (buf : Z) (h : Heap) (b b' : Buffer) :
  local_effect c buf h b b' -> threads_ok b -> threads_ok b'.
Proof.
  intros Hl Hok.
  assert (Hsame : forall b0 : Buffer, num_frames b0 = num_frames b ->
            (zero_frames b = 1 -> zero_frames b0 = 1) ->
            zero_threads b0 = zero_threads b -> threads_ok b0).
  { intros b0 Hn Hz Ht. apply (threads_ok_step b b0 Hn Hz); [|exact Hok].
    intros ID H. left. rewrite <- Ht. exact H. }
  destruct c; cbn [local_effect] in Hl; try contradiction.
  - destruct Hl as [_ E]. revert E. unfold register_producer. destruct (negb _); [discriminate|].
    destruct (first_free _ _); [|discriminate]. intros E; injection E as <-.
    apply Hsame; auto.
  - destruct Hl as [_ E]. revert E. unfold register_consumer. destruct (negb _); [discriminate|].
    destruct (first_free _ _); [|discriminate]. intros E; injection E as <-.
    apply Hsame; auto.
  - destruct Hl as [_ (h' & sig & E)]. revert E. unfold unregister_consumer.
    destruct (_ =? -1); [discriminate|].
    set (b1 := set_consumers b _).
    pose proof (unregister_scan_threads (seq 0 (Z.to_nat (num_frames b1))) h b1 0
                  ltac:(intros id Hid; apply in_seq in Hid; lia)
                  (Hsame b1 eq_refl (fun H => H) eq_refl)) as Hth.
    destruct (unregister_scan _ h b1 0) as [[h2 b2] r]. cbn [fst snd] in *.
    intros E; injection E as <- <- <-. exact Hth.
  - destruct Hl as [_ (q & E)]. revert E. unfold wait_for_empty_frame.
    destruct (0 <=? _); [|discriminate]. destruct (_ <? _); [|discriminate].
    destruct (negb _); [|discriminate]. destruct (_ && _); [discriminate|].
    destruct (_ =? 1); intros E; injection E as <- <-; apply Hsame; auto.
  - destruct Hl as [_ (q & E)]. revert E. unfold wait_for_full_frame.
    destruct (negb (_ =? -1)); [|discriminate]. destruct (negb _); [discriminate|].
    destruct (_ && _); [discriminate|].
    destruct (_ =? 1); intros E; injection E as <- <-; apply Hsame; auto.
  - destruct Hl as [_ (r & E)].
    destruct (wait_for_full_frame_timeout_alone _ _ _ _ _ _ _ E) as [->| ->];
      apply Hsame; auto.
  - destruct Hl as [_ (h' & sig & E)]. revert E. unfold mark_frame_full.
    destruct (0 <=? _); [|discriminate]. destruct (_ <? _); [|discriminate].
    destruct (private_mark_producer_done b nm ID) as [b1| | |] eqn:E1; try discriminate.
    cbn [mbind result_mbind result_bind].
    destruct (private_mark_producer_done_control _ _ _ _ E1)
      as (Hn1 & _ & _ & _ & Hz1 & _ & Ht1 & _).
    destruct (_ =? 1).
    + destruct (_ =? 1).
      * unfold release_metadata. fields.
        destruct (_ =? NULL); intros E; injection E as <- <- <-; apply Hsame;
          unfold zero_threads in *; fields; congruence.
      * intros E; injection E as <- <- <-; apply Hsame; unfold zero_threads in *; fields; congruence.
    + intros E; injection E as <- <- <-; apply Hsame; unfold zero_threads in *; fields; congruence.
  - destruct Hl as [_ (h' & sig & E)]. revert E. unfold mark_frame_empty.
    destruct (0 <=? ID) eqn:C1; [|discriminate]. apply Z.leb_le in C1.
    destruct (ID <? num_frames b) eqn:C2; [|discriminate]. apply Z.ltb_lt in C2.
    destruct (private_mark_consumer_done b nm ID) as [b1| | |] eqn:E1; try discriminate.
    cbn [mbind result_mbind result_bind].
    destruct (private_mark_consumer_done_control _ _ _ _ C1 E1)
      as (Hn1 & _ & Hz1 & _ & Ht1 & _).
    assert (Hok1 : threads_ok b1) by (apply Hsame; congruence).
    destruct (_ =? 1); [|intros E; injection E as <- <- <-; exact Hok1].
    destruct (private_mark_frame_empty_threads h b1 ID) as (Hn2 & Hz2 & Hin).
    destruct (private_mark_frame_empty h b1 ID) as [[h2 b2] r]. cbn [fst snd] in *.
    intros E; injection E as <- <- <-.
    apply (threads_ok_step b1 b2 Hn2); [congruence| |exact Hok1].
    intros ID' H. destruct (Hin ID' H) as [H1|[-> Hz']]; [left; exact H1|right].
    split; [unfold valid_slot; lia|exact Hz'].
  - destruct Hl as [_ ->]. intros ID H. destruct (Hok ID H) as [Hv _].
    split; [exact Hv|reflexivity].
  - destruct Hl as [_ (h' & E)]. revert E. unfold allocate_new_metadata_object.
    destruct (0 <=? _); [|discriminate]. destruct (_ <? _); [|discriminate].
    destruct (_ =? NULL); [discriminate|].
    destruct (_ =? NULL).
    + destruct (request_metadata_object _ _) as [h1 m].
      destruct (_ =? NULL); [discriminate|]. intros E; injection E as <- <-.
      apply Hsame; auto.
    + destruct (_ =? NULL); [discriminate|]. intros E; injection E as <- <-.
      apply Hsame; auto.
  - destruct Hl as [_ (m & ->)]. apply Hsame; auto.
  - destruct Hl as [_ (q & E)]. revert E. unfold swap_external_frame.
    destruct (_ =? 1); [|discriminate]. destruct (negb _); [discriminate|].
    intros E; injection E as <- <-. apply Hsame; auto.
  - destruct Hl as [[_ (q & ->)]|[_ (q & ->)]]; apply Hsame; auto.
  - destruct Hl as [[_ (q & ->)]|[_ (q & ->)]]; apply Hsame; auto.
  - destruct Hl as [_ ->]. apply Hsame; auto.
  - destruct Hl as (_ & _ & h' & E).
    destruct (zero_thread_step_control _ _ _ _ _ _ E)
      as [(_ & pool & -> & Hsl & _)|(_ & _ & _ & _ & ->)].
    + apply Hsame; auto.
    + apply (threads_ok_step b); fields; auto. intros ID' H. left.
      unfold zero_threads in H. fields. apply In_slots_exit_thread_inv in H. exact H.
Qed.

Lemma world_threads_ok (cs : list call) :
  forall (w w' : World),
  (forall buf b, bufs w !! buf = Some b -> threads_ok b) ->
  run w cs = Ret w' ->
  forall buf b, bufs w' !! buf = Some b -> threads_ok b.
Proof.
  induction cs as [|c cs IH]; intros w w' Hd Hrun.
  - cbn in Hrun. injection Hrun as <-. exact Hd.
  - cbn [run] in Hrun. revert Hrun. unfold mbind, result_mbind.
    destruct (exec w c) as [w1| | |] eqn:E1; cbn [result_bind]; try discriminate.
    intros Hrun. apply (IH w1 w'); [|exact Hrun].
    intros buf b' Hb'.
    destruct (exec_local _ _ _ _ _ E1 Hb')
      as [Hs|[(b & Hb & Hl)|(_ & n & len & pool & bn & bt & numa & alloc & h' & _ & Hc)]].
    + exact (Hd buf b' Hs).
    + exact (local_effect_threads _ _ _ _ _ Hl (Hd buf b Hb)).
    + destruct (create_buffer_tables _ _ _ _ _ _ _ _ _ _ _ Hc)
        as (_ & _ & _ & _ & _ & _ & _ & _ & _ & Ht & _).
      intros ID H. rewrite Ht in H. destruct H.
Qed.

(** X22.  The zeroing threads.  The assertions of [private_zero_frames]
    let the slot index [num_frames] through ([ID <= num_frames]), for which
    the frame pointer is read outside [frames]; an index below 0 or above
    [num_frames] fails them.  But in every state reached by calls that
    return from a state without buffers, each pending zeroing thread was
    created for a valid slot of a buffer with zero-on-release on, so that
    the index [num_frames] never reaches the function. *)
Theorem zeroing_threads_have_valid_slots (w0 : World) (cs : list call) (w : World)
  (buf : Z) (b : Buffer) :
  bufs w0 = ∅ -> run w0 cs = Ret w -> bufs w !! buf = Some b ->
  (forall ID, In ID (zero_threads b) -> valid_slot b ID /\ zero_frames b = 1)
  /\ (forall h, private_zero_frames h b (num_frames b) = Undefined)
  /\ (forall h ID, ID < 0 \/ num_frames b < ID -> private_zero_frames h b ID = Abort).
Proof.
  intros Hstart Hrun Hb.
  assert (Hok : world_ok w) by exact (run_world_ok cs _ _ (no_buffer_world_ok w0 Hstart) Hrun).
  destruct (Hok buf b Hb) as [Hwf _]. destruct (wf_sizes b Hwf) as (Hn & _ & Lfr & _).
  split; [|split].
  - apply (world_threads_ok cs w0 w) with (buf := buf); [|exact Hrun|exact Hb].
    intros buf0 b0 Hb0. rewrite Hstart, lookup_empty in Hb0. discriminate.
  - intros h. unfold private_zero_frames, private_zero_frames_nt_memset.
    replace (0 <=? num_frames b) with true by (symmetry; apply Z.leb_le; lia).
    rewrite Z.leb_refl.
    replace (in_range (frames b) (num_frames b)) with false; [reflexivity|].
    symmetry. destruct (in_range (frames b) (num_frames b)) eqn:E; [|reflexivity].
    apply in_range_iff in E. lia.
  - intros h ID [Hlt|Hgt]; unfold private_zero_frames, private_zero_frames_nt_memset.
    + replace (0 <=? ID) with false by (symmetry; apply Z.leb_gt; exact Hlt). reflexivity.
    + replace (ID <=? num_frames b) with false by (symmetry; apply Z.leb_gt; exact Hgt).
      destruct (0 <=? ID); reflexivity.
Qed.
End BufferOps.

(** * The scenarios, with role tables of two rows, names of 16 bytes and
    the build without [WITH_HSA], [WITH_NUMA] and [WITH_NO_MEMLOCK] *)

(** C5, on buffer A after its set-up: P acquires the empty slot 0. *)
Lemma wait_for_empty_frame_outcome_witness :
  exists b',
    wait_for_empty_frame 2 16 (buffer_at (world_after 2 2 16 false false false scn_start
        scn_setup) 1) "P" 0
    = Ret (b', 1000)
    /\ last_frame_acquired (producers b' !!! 0%nat) = 0.
Proof.
  destruct (wait_for_empty_frame_outcome 2 2 16
              (buffer_at (world_after 2 2 16 false false false scn_start scn_setup) 1) "P" 0)
    as (_ & Hok & _).
  - vm_compute. reflexivity.
  - apply valid_slot_intro. vm_compute. reflexivity.
  - vm_compute. discriminate.
  - destruct Hok as (b' & E & Hl & _).
    + vm_compute. reflexivity.
    + split; vm_compute; reflexivity.
    + exists b'. split; [exact E|exact Hl].
Defined.

(** C10, on buffer A after its set-up, with the slot index 5 of a buffer
    of two frames. *)
Lemma wait_for_full_frame_slot_unchecked_witness :
  wait_for_empty_frame 2 16 (buffer_at (world_after 2 2 16 false false false scn_start scn_setup)
      1) "C" 5
  = Abort
  /\ mark_frame_full 2 2 16 (heap scn_start)
       (buffer_at (world_after 2 2 16 false false false scn_start scn_setup) 1) "C" 5 0 = Abort
  /\ mark_frame_empty 2 16 (heap scn_start)
       (buffer_at (world_after 2 2 16 false false false scn_start scn_setup) 1) "C" 5 = Abort
  /\ wait_for_full_frame 2 16 (buffer_at (world_after 2 2 16 false false false scn_start
      scn_setup) 1) "C" 5
     = Undefined.
Proof.
  apply (wait_for_full_frame_slot_unchecked 2 2 16).
  - vm_compute. reflexivity.
  - intros [_ H]. vm_compute in H. discriminate.
  - vm_compute. discriminate.
Defined.




(** C7, on the two buffers: the metadata of slot 0 of A is passed to slot 0
    of B; its reference count goes from 1 to 2, and a second call changes
    nothing. *)
Lemma pass_metadata_shares_container_witness :
  exists w',
    pass_metadata (world_after 2 2 16 false false false scn_start scn_two_buffers) 1 0 2 0 = Ret w'
    /\ arr_get (metadata (buffer_at w' 2)) 0 = 60
    /\ ref_count_of (heap w') 60 = 2
    /\ pass_metadata w' 1 0 2 0 = Ret w'.
Proof.
  destruct (pass_metadata_shares_container
              (world_after 2 2 16 false false false scn_start scn_two_buffers) 1 0 2 0
              (buffer_at (world_after 2 2 16 false false false scn_start scn_two_buffers) 1)
              (buffer_at (world_after 2 2 16 false false false scn_start scn_two_buffers) 2) 60)
    as (Hbind & _ & _).
  - vm_compute. reflexivity.
  - vm_compute. reflexivity.
  - vm_compute. reflexivity.
  - vm_compute. reflexivity.
  - vm_compute. reflexivity.
  - vm_compute. discriminate.
  - destruct Hbind as (E & _ & Hrc & Hidem); [vm_compute; reflexivity|].
    eexists. split; [exact E|]. split; [vm_compute; reflexivity|].
    split; [|exact Hidem].
    apply (Hrc (mkContainer 1 4 [0; 0; 0; 0])). vm_compute. reflexivity.
Defined.

(** C8, on the two buffers: slot 0 of A and slot 0 of B are swapped and
    swapped back. *)
Lemma swap_frames_exchanges_pointers_witness :
  exists w1,
    swap_frames 2 2 (world_after 2 2 16 false false false scn_start scn_two_buffers) 1 0 2 0 =
        Ret w1
    /\ arr_get (frames (buffer_at w1 1)) 0 = 2000
    /\ arr_get (frames (buffer_at w1 2)) 0 = 1000
    /\ swap_frames 2 2 w1 2 0 1 0 = Ret (world_after 2 2 16 false false false scn_start
        scn_two_buffers).
Proof.
  destruct (swap_frames_exchanges_pointers 2 2
              (world_after 2 2 16 false false false scn_start scn_two_buffers) 1 0 2 0
              (buffer_at (world_after 2 2 16 false false false scn_start scn_two_buffers) 1)
              (buffer_at (world_after 2 2 16 false false false scn_start scn_two_buffers) 2))
    as (Hswap & _).
  - vm_compute. reflexivity.
  - vm_compute. reflexivity.
  - discriminate.
  - discriminate.
  - discriminate.
  - vm_compute. reflexivity.
  - vm_compute. reflexivity.
  - apply valid_slot_intro. vm_compute. reflexivity.
  - apply valid_slot_intro. vm_compute. reflexivity.
  - destruct Hswap as (E & _ & _ & Hback); try (vm_compute; reflexivity).
    eexists. split; [exact E|]. split; [vm_compute; reflexivity|].
    split; [vm_compute; reflexivity|].
    apply Hback; vm_compute; reflexivity.
Defined.

(** C9, on buffer A: after the cycles of [scn_cycles] the two slots still
    hold the pointers 1000 and 1001 that [create_buffer] obtained. *)
Lemma acquire_release_keep_frame_pointers_witness :
  exists b',
    bufs (world_after 2 2 16 false false false (world_after 2 2 16 false false false scn_start
        scn_setup) scn_cycles) !! 1
    = Some b'
    /\ frames b' = [1000; 1001].
Proof.
  destruct (acquire_release_keep_frame_pointers 2 2 16 false false false scn_cycles eq_refl
              (world_after 2 2 16 false false false scn_start scn_setup)
              (world_after 2 2 16 false false false (world_after 2 2 16 false false false
                  scn_start scn_setup) scn_cycles)
              1 (buffer_at (world_after 2 2 16 false false false scn_start scn_setup) 1))
    as (b' & Hb' & Hf & _).
  - vm_compute. reflexivity.
  - vm_compute. reflexivity.
  - exists b'. split; [exact Hb'|]. rewrite Hf. vm_compute. reflexivity.
Defined.





(** C2: the code on a slot that is not full.  P has acquired slot 0 of
    buffer A and bound the container 60 to it (reference count 1); the slot
    is not full.  [unregister_consumer] of the only consumer C releases that
    metadata (reference count 0, the slot's reference null) and asks for the
    broadcast of the empty condition, although no slot was full. *)
Theorem unregister_consumer_releases_unfilled_slot :
  run 2 2 16 false false false scn_start scn_acquired = Ret (world_after 2 2 16 false false false
      scn_start scn_acquired)
  /\ full_flag (buffer_at (world_after 2 2 16 false false false scn_start scn_acquired) 1) 0 = 0
  /\ arr_get (metadata (buffer_at (world_after 2 2 16 false false false scn_start scn_acquired)
      1)) 0 = 60
  /\ ref_count_of (heap (world_after 2 2 16 false false false scn_start scn_acquired)) 60 = 1
  /\ exists h' b',
       unregister_consumer 2 16 (heap (world_after 2 2 16 false false false scn_start scn_acquired))
         (buffer_at (world_after 2 2 16 false false false scn_start scn_acquired) 1) "C"
       = Ret (h', b', [empty_cond])
       /\ full_flag b' 0 = 0
       /\ arr_get (metadata b') 0 = NULL
       /\ ref_count_of h' 60 = 0.
Proof.
  split; [vm_compute; reflexivity|]. split; [vm_compute; reflexivity|].
  split; [vm_compute; reflexivity|]. split; [vm_compute; reflexivity|].
  eexists. eexists. split; [vm_compute; reflexivity|].
  split; [vm_compute; reflexivity|]. split; vm_compute; reflexivity.
Qed.

(** * The added properties on the scenarios *)

(** X1, on buffer A without stages: "P" takes row 0. *)
Lemma register_producer_lookup_witness :
  register_producer 2 16 (buffer_at (world_after 2 2 16 false false false scn_start scn_created)
      1) "P"
  = Ret (set_producers (buffer_at (world_after 2 2 16 false false false scn_start scn_created) 1)
           (<[0%nat := mkStageInfo 1 (strncpy "P" 16) (-1) (-1)]>
              (producers (buffer_at (world_after 2 2 16 false false false scn_start scn_created)
                  1))))
  /\ private_get_producer_id 2 16
       (set_producers (buffer_at (world_after 2 2 16 false false false scn_start scn_created) 1)
          (<[0%nat := mkStageInfo 1 (strncpy "P" 16) (-1) (-1)]>
             (producers (buffer_at (world_after 2 2 16 false false false scn_start scn_created)
                 1)))) "P" = 0
  /\ get_num_producers 2
       (set_producers (buffer_at (world_after 2 2 16 false false false scn_start scn_created) 1)
          (<[0%nat := mkStageInfo 1 (strncpy "P" 16) (-1) (-1)]>
             (producers (buffer_at (world_after 2 2 16 false false false scn_start scn_created)
                 1)))) = 1.
Proof.
  destruct (register_producer_lookup 2 2 16
              (buffer_at (world_after 2 2 16 false false false scn_start scn_created) 1) "P")
    as (_ & _ & Hreg).
  - vm_compute. reflexivity.
  - destruct (Hreg ltac:(vm_compute; reflexivity) 0%nat ltac:(lia)
                ltac:(vm_compute; reflexivity) ltac:(intros j Hj; lia))
      as (E & Hl & Hn).
    split; [exact E|]. split.
    + rewrite Hl. vm_compute. reflexivity.
    + rewrite Hn. vm_compute. reflexivity.
Defined.

(** X2, on buffer A with P and C: "D" takes row 1 of the consumers. *)
Lemma register_consumer_lookup_witness :
  register_consumer 2 16 (buffer_at (world_after 2 2 16 false false false scn_start scn_setup) 1)
      "D"
  = Ret (set_consumers (buffer_at (world_after 2 2 16 false false false scn_start scn_setup) 1)
           (<[1%nat := mkStageInfo 1 (strncpy "D" 16) (-1) (-1)]>
              (consumers (buffer_at (world_after 2 2 16 false false false scn_start scn_setup) 1))))
  /\ get_num_consumers 2
       (set_consumers (buffer_at (world_after 2 2 16 false false false scn_start scn_setup) 1)
          (<[1%nat := mkStageInfo 1 (strncpy "D" 16) (-1) (-1)]>
             (consumers (buffer_at (world_after 2 2 16 false false false scn_start scn_setup)
                 1)))) = 2.
Proof.
  destruct (register_consumer_lookup 2 2 16
              (buffer_at (world_after 2 2 16 false false false scn_start scn_setup) 1) "D")
    as (_ & _ & Hreg).
  - vm_compute. reflexivity.
  - destruct (Hreg ltac:(vm_compute; reflexivity) 1%nat ltac:(lia)
                ltac:(vm_compute; reflexivity)
                ltac:(intros j Hj; destruct j; [vm_compute; reflexivity|lia]))
      as (E & _ & Hn & _).
    split; [exact E|]. rewrite Hn. vm_compute. reflexivity.
Defined.

(** X3, on buffer A with P and C: the name held by row 0 of the producers
    is found in row 0. *)
Lemma registered_names_designate_one_row_witness :
  private_get_producer_id 2 16 (buffer_at (world_after 2 2 16 false false false scn_start
      scn_setup) 1)
    (name (producers (buffer_at (world_after 2 2 16 false false false scn_start scn_setup) 1) !!!
        0%nat))
  = 0.
Proof.
  destruct (registered_names_designate_one_row 2 2 16 false false false scn_start scn_setup
              (world_after 2 2 16 false false false scn_start scn_setup) 1
              (buffer_at (world_after 2 2 16 false false false scn_start scn_setup) 1))
    as (Hp & _).
  - reflexivity.
  - vm_compute. reflexivity.
  - vm_compute. reflexivity.
  - apply (Hp 0%nat). split; [lia|vm_compute; reflexivity].
Defined.

(** X4, on buffer A through the cycles of [scn_cycles]. *)
Lemma buffer_settings_are_never_undone_witness :
  exists b',
    bufs (world_after 2 2 16 false false false (world_after 2 2 16 false false false scn_start
        scn_setup) scn_cycles) !! 1
    = Some b'
    /\ num_frames b' = 2 /\ frame_size b' = 8
    /\ private_get_producer_id 2 16 b' "P" <> -1.
Proof.
  destruct (buffer_settings_are_never_undone 2 2 16 false false false
              (world_after 2 2 16 false false false scn_start scn_setup)
              (world_after 2 2 16 false false false (world_after 2 2 16 false false false
                  scn_start scn_setup) scn_cycles)
              scn_cycles 1 (buffer_at (world_after 2 2 16 false false false scn_start scn_setup) 1))
    as (b' & Hb' & Hn & Hs & _ & _ & _ & _ & _ & _ & _ & Hl).
  - vm_compute. reflexivity.
  - vm_compute. reflexivity.
  - vm_compute. reflexivity.
  - vm_compute. reflexivity.
  - exists b'. split; [exact Hb'|]. split; [rewrite Hn; vm_compute; reflexivity|].
    split; [rewrite Hs; vm_compute; reflexivity|].
    apply Hl. vm_compute. discriminate.
Defined.

(** X5, on buffer A: after the shutdown signal, P asks for slot 0 and gets
    [NULL], there and afterwards. *)
Lemma shutdown_is_final_witness :
  exists b',
    bufs (world_after 2 2 16 false false false (world_after 2 2 16 false false false scn_start
        scn_setup)
            [SendShutdownSignal 1; WaitForEmptyFrame 1 "P" 0]) !! 1 = Some b'
    /\ shutdown_signal b' = 1
    /\ wait_for_empty_frame 2 16 b' "P" 0 = Ret (b', NULL).
Proof.
  destruct (shutdown_is_final 2 2 16 false false false
              (world_after 2 2 16 false false false scn_start scn_setup)
              (world_after 2 2 16 false false false (world_after 2 2 16 false false false
                  scn_start scn_setup)
                 [SendShutdownSignal 1; WaitForEmptyFrame 1 "P" 0])
              [WaitForEmptyFrame 1 "P" 0] 1
              (buffer_at (world_after 2 2 16 false false false scn_start scn_setup) 1))
    as (b' & Hb' & Hs & He & _).
  - vm_compute. reflexivity.
  - vm_compute. reflexivity.
  - vm_compute. reflexivity.
  - vm_compute. reflexivity.
  - exists b'. split; [exact Hb'|]. split; [exact Hs|].
    assert (Eb : b' = buffer_at (world_after 2 2 16 false false false (world_after 2 2 16 false
        false false scn_start scn_setup)
                                   [SendShutdownSignal 1; WaitForEmptyFrame 1 "P" 0]) 1).
    { unfold buffer_at. rewrite Hb'. reflexivity. }
    apply He.
    + rewrite Eb. apply valid_slot_intro. vm_compute. reflexivity.
    + rewrite Eb. vm_compute. discriminate.
Defined.

(** X6, on buffer A with slot 0 acquired by P: P, the only producer, marks
    it full at time 7. *)
Lemma mark_frame_full_outcome_witness :
  exists b',
    mark_frame_full 2 2 16 (heap (world_after 2 2 16 false false false scn_start scn_acquired))
      (buffer_at (world_after 2 2 16 false false false scn_start scn_acquired) 1) "P" 0 7
    = Ret (heap (world_after 2 2 16 false false false scn_start scn_acquired), b', [full_cond])
    /\ full_flag b' 0 = 1 /\ get_last_arrival_time b' = 7.
Proof.
  destruct (mark_frame_full_outcome 2 2 16
              (heap (world_after 2 2 16 false false false scn_start scn_acquired))
              (buffer_at (world_after 2 2 16 false false false scn_start scn_acquired) 1) "P" 0 7)
    as (_ & _ & Hlast).
  - vm_compute. reflexivity.
  - apply valid_slot_intro. vm_compute. reflexivity.
  - vm_compute. discriminate.
  - destruct Hlast as (b' & E & Hf & _ & _ & Ht & _).
    + vm_compute. reflexivity.
    + intros i [Hi Hu] Hne. destruct i as [|[|i]].
      * exfalso. apply Hne. vm_compute. reflexivity.
      * vm_compute in Hu. discriminate.
      * lia.
    + intros Hall. specialize (Hall 0%nat). vm_compute in Hall.
      assert (H01 : 0 = 1) by (apply Hall; split; [lia|reflexivity]). discriminate.
    + exists b'. split; [exact E|]. split; [exact Hf|exact Ht].
Defined.

(** X7, on buffer A with slot 0 filled by P and acquired by C: C, the only
    consumer, releases it. *)
Lemma mark_frame_empty_outcome_witness :
  exists h' b',
    mark_frame_empty 2 16 (heap (world_after 2 2 16 false false false scn_start scn_reading))
      (buffer_at (world_after 2 2 16 false false false scn_start scn_reading) 1) "C" 0
    = Ret (h', b', [empty_cond])
    /\ full_flag b' 0 = 0 /\ get_metadata_container b' 0 = Ret NULL.
Proof.
  destruct (mark_frame_empty_outcome 2 2 16
              (heap (world_after 2 2 16 false false false scn_start scn_reading))
              (buffer_at (world_after 2 2 16 false false false scn_start scn_reading) 1) "C" 0)
    as (_ & _ & Hlast).
  - vm_compute. reflexivity.
  - apply valid_slot_intro. vm_compute. reflexivity.
  - vm_compute. discriminate.
  - destruct Hlast as (b' & E & Hf & _ & Hm & _).
    + vm_compute. reflexivity.
    + intros i [Hi Hu] Hne. destruct i as [|[|i]].
      * exfalso. apply Hne. vm_compute. reflexivity.
      * vm_compute in Hu. discriminate.
      * lia.
    + vm_compute. reflexivity.
    + eexists. exists b'. split; [exact E|]. split; [exact Hf|exact Hm].
Defined.

(** X8, on buffer A with slot 0 filled by P: C gets the frame at 1000. *)
Lemma wait_for_full_frame_outcome_witness :
  exists b',
    wait_for_full_frame 2 16 (buffer_at (world_after 2 2 16 false false false scn_start
        scn_filled) 1) "C" 0
    = Ret (b', 1000)
    /\ last_frame_acquired (consumers b' !!! 0%nat) = 0
    /\ wait_for_full_frame_timeout 2 16
         (buffer_at (world_after 2 2 16 false false false scn_start scn_filled) 1) "C" 0
         (mkTimespec 10 0) (mkTimespec 5 0) [] = Ret (b', 0).
Proof.
  destruct (wait_for_full_frame_outcome 2 2 16
              (buffer_at (world_after 2 2 16 false false false scn_start scn_filled) 1) "C" 0)
    as (_ & Hok & _).
  - vm_compute. reflexivity.
  - apply valid_slot_intro. vm_compute. reflexivity.
  - vm_compute. discriminate.
  - destruct Hok as (b' & E & Hl & _ & _ & _ & Ht).
    + vm_compute. reflexivity.
    + split; vm_compute; reflexivity.
    + exists b'. split; [exact E|]. split; [exact Hl|apply Ht].
Defined.

(** X9, on buffer A: P has acquired slot 0 and asks for it again. *)
Lemma acquire_is_repeatable_witness :
  wait_for_empty_frame 2 16
    (buffer_at (world_after 2 2 16 false false false scn_start (scn_setup ++ [WaitForEmptyFrame 1
        "P" 0])) 1)
    "P" 0
  = Ret (buffer_at (world_after 2 2 16 false false false scn_start (scn_setup ++
      [WaitForEmptyFrame 1 "P" 0])) 1,
         1000).
Proof.
  destruct (acquire_is_repeatable 2 2 16
              (buffer_at (world_after 2 2 16 false false false scn_start scn_setup) 1)
              (buffer_at (world_after 2 2 16 false false false scn_start
                            (scn_setup ++ [WaitForEmptyFrame 1 "P" 0])) 1)
              "P" 0 1000)
    as (Hp & _).
  apply Hp. vm_compute. reflexivity.
Defined.

(** X10, on buffer A with P and C: the frame of slot 0 is exchanged for an
    external frame at 5000 and then handed back. *)
Lemma swap_external_frame_round_trip_witness :
  swap_external_frame 2 (buffer_at (world_after 2 2 16 false false false scn_start scn_setup) 1)
      0 5000
  = Ret (set_frames (buffer_at (world_after 2 2 16 false false false scn_start scn_setup) 1)
           (arr_set (frames (buffer_at (world_after 2 2 16 false false false scn_start scn_setup)
               1)) 0 5000),
         1000)
  /\ swap_external_frame 2
       (set_frames (buffer_at (world_after 2 2 16 false false false scn_start scn_setup) 1)
          (arr_set (frames (buffer_at (world_after 2 2 16 false false false scn_start scn_setup)
              1)) 0 5000))
       0 1000
     = Ret (buffer_at (world_after 2 2 16 false false false scn_start scn_setup) 1, 5000).
Proof.
  destruct (swap_external_frame_round_trip 2 2
              (buffer_at (world_after 2 2 16 false false false scn_start scn_setup) 1) 0 5000)
    as (_ & _ & Hswap).
  - vm_compute. reflexivity.
  - destruct Hswap as (E & _ & _ & Hback).
    + vm_compute. reflexivity.
    + apply valid_slot_intro. vm_compute. reflexivity.
    + split; [exact E|exact Hback].
Defined.

(** X11, on the two buffers: S is the only consumer of A, so the frames of
    slot 0 of A and slot 0 of B are exchanged. *)
Lemma safe_swap_frame_outcomes_witness :
  exists w',
    safe_swap_frame 2 2 (world_after 2 2 16 false false false scn_start scn_two_buffers) 1 0 2 0
        = Ret w'
    /\ arr_get (frames (buffer_at w' 1)) 0 = 2000
    /\ arr_get (frames (buffer_at w' 2)) 0 = 1000.
Proof.
  destruct (safe_swap_frame_outcomes 2 2
              (world_after 2 2 16 false false false scn_start scn_two_buffers) 1 0 2 0
              (buffer_at (world_after 2 2 16 false false false scn_start scn_two_buffers) 1)
              (buffer_at (world_after 2 2 16 false false false scn_start scn_two_buffers) 2))
    as (_ & _ & Hswap).
  - vm_compute. reflexivity.
  - vm_compute. reflexivity.
  - discriminate.
  - discriminate.
  - discriminate.
  - vm_compute. reflexivity.
  - vm_compute. reflexivity.
  - apply valid_slot_intro. vm_compute. reflexivity.
  - apply valid_slot_intro. vm_compute. reflexivity.
  - destruct Hswap as (E & _).
    + vm_compute. reflexivity.
    + vm_compute. discriminate.
    + eexists. split; [apply E; vm_compute; reflexivity|].
      split; vm_compute; reflexivity.
Defined.

(** X12, on the two buffers: slot 0 of B has no metadata, so nothing is
    copied into it from slot 0 of A. *)
Lemma copy_metadata_effect_witness :
  copy_metadata (world_after 2 2 16 false false false scn_start scn_two_buffers) 1 0 2 0
  = Ret (world_after 2 2 16 false false false scn_start scn_two_buffers).
Proof.
  destruct (copy_metadata_effect (world_after 2 2 16 false false false scn_start scn_two_buffers)
      1 0 2 0)
    as (_ & _ & Hnull & _).
  apply (Hnull (buffer_at (world_after 2 2 16 false false false scn_start scn_two_buffers) 1)
               (buffer_at (world_after 2 2 16 false false false scn_start scn_two_buffers) 2)).
  - vm_compute. reflexivity.
  - vm_compute. reflexivity.
  - discriminate.
  - vm_compute. reflexivity.
  - vm_compute. reflexivity.
  - right. vm_compute. reflexivity.
Defined.

(** X13, on buffer A with slot 0 acquired by P and bound to the container
    at 60: a second allocation changes nothing. *)
Lemma allocate_new_metadata_object_outcome_witness :
  allocate_new_metadata_object (heap (world_after 2 2 16 false false false scn_start scn_acquired))
    (buffer_at (world_after 2 2 16 false false false scn_start scn_acquired) 1) 0
  = Ret (heap (world_after 2 2 16 false false false scn_start scn_acquired),
         buffer_at (world_after 2 2 16 false false false scn_start scn_acquired) 1).
Proof.
  destruct (allocate_new_metadata_object_outcome 2 2
              (heap (world_after 2 2 16 false false false scn_start scn_acquired))
              (buffer_at (world_after 2 2 16 false false false scn_start scn_acquired) 1) 0)
    as (_ & _ & Hkeep & _).
  - vm_compute. reflexivity.
  - apply valid_slot_intro. vm_compute. reflexivity.
  - apply Hkeep; vm_compute; discriminate.
Defined.

(** X14: two frames of 8 bytes at 1000 and 1001, with the plain build
    (no HSA, no NUMA, pages locked). *)
Lemma create_buffer_outcome_witness :
  exists h' b,
    create_buffer 2 2 false false false (heap scn_start) 1 2 8 50 "A" "standard" 0
      (scn_alloc 1000)
    = Ret (h', Some b)
    /\ wf 2 2 b /\ num_frames b = 2 /\ get_num_full_frames b = 0
    /\ get_num_producers 2 b = 0 /\ get_num_consumers 2 b = 0
    /\ zeroed h' (arr_get (frames b) 1) 8.
Proof.
  destruct (create_buffer_outcome 2 2 16 false false false (heap scn_start) 1 2 8 50
              "A" "standard" 0 (scn_alloc 1000))
    as (_ & _ & _ & _ & _ & Hok).
  destruct Hok as (_ & Hok); [lia|discriminate|vm_compute; discriminate
                             |vm_compute; reflexivity|].
  destruct Hok as (h' & b & E & Hwf & Hn & _ & _ & _ & _ & _ & Hs & Hf & Hp & Hc & _).
  - intros i Hi. destruct i as [|[|i]]; [vm_compute; reflexivity|vm_compute; reflexivity|].
    exfalso. revert Hi. vm_compute. lia.
  - lia.
  - exists h', b. split; [exact E|]. split; [exact Hwf|]. split; [exact Hn|].
    split; [exact Hf|]. split; [exact Hp|]. split; [exact Hc|].
    apply Hs. unfold valid_slot. rewrite Hn. lia.
Defined.

(** X15, on buffer A with slot 0 filled by P. *)
Lemma get_num_full_frames_counts_witness :
  0 <= get_num_full_frames (buffer_at (world_after 2 2 16 false false false scn_start scn_filled) 1)
    <= num_frames (buffer_at (world_after 2 2 16 false false false scn_start scn_filled) 1)
  /\ Z.of_nat (length (filter (fun ch => ch = "X"%char)
                         (print_buffer_status
                            (buffer_at (world_after 2 2 16 false false false scn_start
                                scn_filled) 1))))
     = get_num_full_frames (buffer_at (world_after 2 2 16 false false false scn_start scn_filled)
         1).
Proof.
  destruct (get_num_full_frames_counts 2 2 16
              (buffer_at (world_after 2 2 16 false false false scn_start scn_filled) 1))
    as (Hr & _ & _ & _ & _ & Hx & _).
  - vm_compute. reflexivity.
  - split; [exact Hr|exact Hx].
Defined.

(** X16, on buffer A: P acquires slot 0, binds metadata to it, then fills
    slot 1, which C acquires; slot 0 is still P's. *)
Lemma producer_keeps_its_slot_witness :
  exists b',
    bufs (world_after 2 2 16 false false false (world_after 2 2 16 false false false scn_start
        scn_setup)
            [WaitForEmptyFrame 1 "P" 0; AllocateNewMetadataObject 1 0;
             WaitForEmptyFrame 1 "P" 1; MarkFrameFull 1 "P" 1 7;
             WaitForFullFrame 1 "C" 1]) !! 1 = Some b'
    /\ full_flag b' 0 = 0 /\ is_frame_empty b' 0 = Ret 1.
Proof.
  destruct (producer_keeps_its_slot 2 2 16 false false false
              (world_after 2 2 16 false false false scn_start scn_setup)
              (world_after 2 2 16 false false false (world_after 2 2 16 false false false
                  scn_start scn_setup)
                 [WaitForEmptyFrame 1 "P" 0; AllocateNewMetadataObject 1 0;
                  WaitForEmptyFrame 1 "P" 1; MarkFrameFull 1 "P" 1 7;
                  WaitForFullFrame 1 "C" 1])
              [AllocateNewMetadataObject 1 0;
               WaitForEmptyFrame 1 "P" 1; MarkFrameFull 1 "P" 1 7;
               WaitForFullFrame 1 "C" 1]
              1 (buffer_at (world_after 2 2 16 false false false scn_start scn_setup) 1) "P" 0)
    as (b' & Hb' & _ & _ & Hf & _ & He & _).
  - vm_compute. reflexivity.
  - vm_compute. reflexivity.
  - vm_compute. reflexivity.
  - vm_compute. reflexivity.
  - vm_compute. reflexivity.
  - exists b'. split; [exact Hb'|]. split; [exact Hf|exact He].
Defined.

(** X17, on buffer A with slot 0 filled by P: C acquires slot 0, then P
    fills slot 1; slot 0 is still C's. *)
Lemma consumer_keeps_its_slot_witness :
  exists b',
    bufs (world_after 2 2 16 false false false (world_after 2 2 16 false false false scn_start
        scn_filled)
            [WaitForFullFrame 1 "C" 0; WaitForEmptyFrame 1 "P" 1;
             MarkFrameFull 1 "P" 1 8]) !! 1 = Some b'
    /\ full_flag b' 0 = 1 /\ is_frame_empty b' 0 = Ret 0.
Proof.
  destruct (consumer_keeps_its_slot 2 2 16 false false false
              (world_after 2 2 16 false false false scn_start scn_filled)
              (world_after 2 2 16 false false false (world_after 2 2 16 false false false
                  scn_start scn_filled)
                 [WaitForFullFrame 1 "C" 0; WaitForEmptyFrame 1 "P" 1;
                  MarkFrameFull 1 "P" 1 8])
              [WaitForEmptyFrame 1 "P" 1; MarkFrameFull 1 "P" 1 8]
              1 (buffer_at (world_after 2 2 16 false false false scn_start scn_filled) 1) "C" 0)
    as (b' & Hb' & _ & _ & Hf & _ & He & _).
  - vm_compute. reflexivity.
  - vm_compute. reflexivity.
  - vm_compute. reflexivity.
  - intros H. vm_compute in H. exact H.
  - vm_compute. reflexivity.
  - vm_compute. reflexivity.
  - exists b'. split; [exact Hb'|]. split; [exact Hf|exact He].
Defined.

(** X18, on buffer A with P and C: slot 0 is cycled twice, filled at the
    times 7 and 9. *)
Lemma single_producer_consumer_cycles_witness :
  exists w' b',
    run 2 2 16 false false false (world_after 2 2 16 false false false scn_start scn_setup)
      (flat_map (slot_cycle 1 "P" "C" 0) [7; 9]) = Ret w'
    /\ bufs w' !! 1 = Some b'
    /\ frames b' = frames (buffer_at (world_after 2 2 16 false false false scn_start scn_setup) 1)
    /\ get_last_arrival_time b' = 9.
Proof.
  destruct (single_producer_consumer_cycles 2 2 16 false false false "P" "C" 1 0 [7; 9]
              (world_after 2 2 16 false false false scn_start scn_setup)
              (buffer_at (world_after 2 2 16 false false false scn_start scn_setup) 1))
    as (w' & b' & Hrun & Hb' & _ & Hfr & _ & _ & _ & Hlast).
  - vm_compute. reflexivity.
  - split; [vm_compute; reflexivity|].
    split; [apply valid_slot_intro; vm_compute; reflexivity|].
    split; [vm_compute; reflexivity|]. split; [vm_compute; reflexivity|].
    split; [vm_compute; discriminate|]. split; [vm_compute; discriminate|].
    split; [|split; [|split; [|split]]]; try (vm_compute; reflexivity).
    + intros i [Hi Hu]. destruct i as [|[|i]].
      * vm_compute. reflexivity.
      * vm_compute in Hu. discriminate.
      * lia.
    + intros i [Hi Hu]. destruct i as [|[|i]].
      * vm_compute. reflexivity.
      * vm_compute in Hu. discriminate.
      * lia.
  - exists w', b'. split; [exact Hrun|]. split; [exact Hb'|]. split; [exact Hfr|].
    destruct Hlast as [Hl _]; [discriminate|]. rewrite Hl. reflexivity.
Defined.

(** X19, on buffer A with P and C: C is unregistered and no longer found. *)
Lemma unregister_consumer_forgets_name_witness :
  exists h' b' sig,
    unregister_consumer 2 16 (heap (world_after 2 2 16 false false false scn_start scn_setup))
      (buffer_at (world_after 2 2 16 false false false scn_start scn_setup) 1) "C" = Ret (h', b',
          sig)
    /\ private_get_consumer_id 2 16 b' "C" = -1
    /\ get_num_consumers 2 b' = 0
    /\ wait_for_full_frame 2 16 b' "C" 0 = Abort.
Proof.
  destruct (unregister_consumer_forgets_name 2 2 16 false false false scn_start scn_setup
              (world_after 2 2 16 false false false scn_start scn_setup) 1
              (buffer_at (world_after 2 2 16 false false false scn_start scn_setup) 1) "C")
    as (h' & b' & sig & E & Hl & Hn & _ & _ & _ & Hw & _).
  - reflexivity.
  - vm_compute. reflexivity.
  - vm_compute. reflexivity.
  - vm_compute. discriminate.
  - exists h', b', sig. split; [exact E|]. split; [|split; [|apply Hw]].
    + rewrite Hl. vm_compute. reflexivity.
    + rewrite Hn. vm_compute. reflexivity.
Defined.

(** X20, on buffer A with P and C: the name "Q" is not registered. *)
Lemma unregistered_stage_is_rejected_witness :
  (wait_for_empty_frame 2 16 (buffer_at (world_after 2 2 16 false false false scn_start
      scn_setup) 1) "Q" 0
   = Abort
   /\ mark_frame_full 2 2 16 (heap (world_after 2 2 16 false false false scn_start scn_setup))
        (buffer_at (world_after 2 2 16 false false false scn_start scn_setup) 1) "Q" 0 7 = Abort)
  /\ (wait_for_full_frame 2 16 (buffer_at (world_after 2 2 16 false false false scn_start
      scn_setup) 1) "Q" 0
      = Abort
      /\ unregister_consumer 2 16 (heap (world_after 2 2 16 false false false scn_start scn_setup))
           (buffer_at (world_after 2 2 16 false false false scn_start scn_setup) 1) "Q" =
               Undefined).
Proof.
  destruct (unregistered_stage_is_rejected 2 2 16
              (heap (world_after 2 2 16 false false false scn_start scn_setup))
              (buffer_at (world_after 2 2 16 false false false scn_start scn_setup) 1) "Q" 0 7
              (mkTimespec 10 0) (mkTimespec 5 0) [])
    as (Hp & Hc).
  - apply valid_slot_intro. vm_compute. reflexivity.
  - split.
    + apply Hp. vm_compute. reflexivity.
    + destruct Hc as (Hw & _ & _ & Hu); [vm_compute; reflexivity|].
      split; [exact Hw|exact Hu].
Defined.

(** X21, on buffer A with slot 0 filled by P and acquired by C: C, the
    only consumer, is unregistered; slot 0 is emptied. *)
Lemma unregister_consumer_slot_by_slot_witness :
  exists h' b' sig,
    unregister_consumer 2 16 (heap (world_after 2 2 16 false false false scn_start scn_reading))
      (buffer_at (world_after 2 2 16 false false false scn_start scn_reading) 1) "C" = Ret (h',
          b', sig)
    /\ frames b' = frames (buffer_at (world_after 2 2 16 false false false scn_start scn_reading) 1)
    /\ full_flag b' 0 = 0 /\ arr_get (metadata b') 0 = NULL.
Proof.
  destruct (unregister_consumer_slot_by_slot 2 2 16
              (heap (world_after 2 2 16 false false false scn_start scn_reading))
              (buffer_at (world_after 2 2 16 false false false scn_start scn_reading) 1) "C")
    as (h' & b' & sig & E & Hfr & Hdone & _).
  - vm_compute. reflexivity.
  - vm_compute. reflexivity.
  - vm_compute. discriminate.
  - exists h', b', sig. split; [exact E|]. split; [exact Hfr|].
    destruct (Hdone 0) as (Hf & Hm & _).
    + apply valid_slot_intro. vm_compute. reflexivity.
    + intros i [Hi Hu] Hne. destruct i as [|[|i]].
      * exfalso. apply Hne. vm_compute. reflexivity.
      * vm_compute in Hu. discriminate.
      * lia.
    + split; [exact Hf|exact Hm].
Defined.

(** X22, on buffer A with zero-on-release, after C has released slot 0:
    the zeroing thread that is pending is for slot 0. *)
Lemma zeroing_threads_have_valid_slots_witness :
  valid_slot (buffer_at (world_after 2 2 16 false false false scn_start scn_zero_released) 1) 0
  /\ zero_frames (buffer_at (world_after 2 2 16 false false false scn_start scn_zero_released) 1)
      = 1
  /\ private_zero_frames 2 (heap (world_after 2 2 16 false false false scn_start scn_zero_released))
       (buffer_at (world_after 2 2 16 false false false scn_start scn_zero_released) 1) 2 =
           Undefined.
Proof.
  destruct (zeroing_threads_have_valid_slots 2 2 16 false false false scn_start scn_zero_released
              (world_after 2 2 16 false false false scn_start scn_zero_released) 1
              (buffer_at (world_after 2 2 16 false false false scn_start scn_zero_released) 1))
    as (Hth & Hedge & _).
  - reflexivity.
  - vm_compute. reflexivity.
  - vm_compute. reflexivity.
  - destruct (Hth 0) as [Hv Hz]; [vm_compute; left; reflexivity|].
    split; [exact Hv|]. split; [exact Hz|].
    exact (Hedge (heap (world_after 2 2 16 false false false scn_start scn_zero_released))).
Defined.
